(** * Price collection and quoting backend: a shallow embedding

    The development follows the Python backend (backend/agent.py,
    backend/normalizer.py, backend/scraper.py, backend/main.py,
    backend/utils.py).

    Conventions of the embedding:
    - a Python [str] is the list of its Unicode code points ([str := list N]);
      literals are written [u8 "..."], the UTF-8 decoding of the source text;
    - a Python [float] is an IEEE-754 binary64 value, [spec_float] with
      [prec = 53] and [emax = 1024]; literals are written [flt 27.9];
    - a Python [dict] is an insertion-ordered association list with unique
      keys ([dict_set] overwrites in place or appends);
    - [str.lower], [str.strip] and [unicodedata] are those of CPython 3.11
      on all of Unicode; the character data they read is given as tables;
    - the fetch capability, the HTML parser and the URL helpers are
      parameters of the functions that use them, and so are the clock, the
      files read and the browser; in the search by terms and in the
      headless retrieval, where the code catches them in one function and
      not in the other, the exceptions of the parser and of the extraction
      are a parameter too. *)

From Stdlib Require Import ZArith NArith List Bool Lia String Ascii.
From Stdlib Require Import PrimFloat FloatOps SpecFloat.
From stdpp Require Import base option list gmap.
Import ListNotations.

Set Warnings "-inexact-float".
Local Open Scope N_scope.

(** ** Python strings *)

Definition str := list N.

(** UTF-8 decoding of a source literal: [k] continuation bytes are still
    expected and [acc] holds the bits read so far. *)
Fixpoint utf8_go (bs : list N) (acc : N) (k : nat) : str :=
  match bs with
  | [] => []
  | b :: bs' =>
      match k with
      | S k' =>
          let acc' := acc * 64 + b mod 64 in
          match k' with
          | O => acc' :: utf8_go bs' 0 O
          | S _ => utf8_go bs' acc' k'
          end
      | O =>
          if b <? 128 then b :: utf8_go bs' 0 O
          else if b <? 224 then utf8_go bs' (b mod 32) 1%nat
          else if b <? 240 then utf8_go bs' (b mod 16) 2%nat
          else utf8_go bs' (b mod 8) 3%nat
      end
  end.

Definition u8 (s : string) : str :=
  utf8_go (map N_of_ascii (list_ascii_of_string s)) 0 O.

Definition str_eqb (a b : str) : bool := bool_decide (a = b).

(** [not s] on a string: the empty string is falsy. *)
Definition str_falsy (s : str) : bool :=
  match s with [] => true | _ :: _ => false end.

(** [str.isspace] on one code point, which is also what [\s] matches in a
    [str] pattern: the code points CPython lists as whitespace. *)
Definition is_space (c : N) : bool :=
  ((9 <=? c) && (c <=? 13)) || ((28 <=? c) && (c <=? 32))
  || (c =? 133) || (c =? 160) || (c =? 5760)
  || ((8192 <=? c) && (c <=? 8202))
  || (c =? 8232) || (c =? 8233) || (c =? 8239) || (c =? 8287)
  || (c =? 12288).

(** [s.lstrip(chars)] and [s.rstrip(chars)], the set of characters given
    as a predicate. *)
Fixpoint lstrip_by (p : N -> bool) (s : str) : str :=
  match s with
  | c :: s' => if p c then lstrip_by p s' else s
  | [] => []
  end.

Fixpoint rstrip_by (p : N -> bool) (s : str) : str :=
  match s with
  | [] => []
  | c :: s' =>
      match rstrip_by p s' with
      | [] => if p c then [] else [c]
      | r => c :: r
      end
  end.

(** [s.strip()] *)
Definition strip (s : str) : str := rstrip_by is_space (lstrip_by is_space s).

(** ** Unicode data

    [str.lower] and [unicodedata] read the Unicode Character Database; the
    tables below are those of Unicode 14.0.0, the version of CPython 3.11.
    A range [(lo, hi)] holds the code points from [lo] to [hi]. *)

Definition in_ranges (c : N) (ranges : list (N * N)) : bool :=
  existsb (fun r => (fst r <=? c) && (c <=? snd r)) ranges.

Fixpoint table_get {A} (c : N) (table : list (N * A)) : option A :=
  match table with
  | [] => None
  | (k, v) :: table' => if k =? c then Some v else table_get c table'
  end.

(** The simple lowercase mappings: [(lo, hi, stride, target)] maps the code
    points [lo], [lo + stride], ... up to [hi] to [target],
    [target + stride], ... *)
Definition lower_ranges : list (N * N * N * N) :=
  [
    (65, 90, 1, 97); (192, 214, 1, 224); (216, 222, 1, 248); (256, 302, 2, 257);
    (306, 310, 2, 307); (313, 327, 2, 314); (330, 374, 2, 331); (376, 376, 1, 255);
    (377, 381, 2, 378); (385, 385, 1, 595); (386, 388, 2, 387); (390, 390, 1, 596);
    (391, 391, 1, 392); (393, 394, 1, 598); (395, 395, 1, 396); (398, 398, 1, 477);
    (399, 399, 1, 601); (400, 400, 1, 603); (401, 401, 1, 402); (403, 403, 1, 608);
    (404, 404, 1, 611); (406, 406, 1, 617); (407, 407, 1, 616); (408, 408, 1, 409);
    (412, 412, 1, 623); (413, 413, 1, 626); (415, 415, 1, 629); (416, 420, 2, 417);
    (422, 422, 1, 640); (423, 423, 1, 424); (425, 425, 1, 643); (428, 428, 1, 429);
    (430, 430, 1, 648); (431, 431, 1, 432); (433, 434, 1, 650); (435, 437, 2, 436);
    (439, 439, 1, 658); (440, 440, 1, 441); (444, 444, 1, 445); (452, 452, 1, 454);
    (453, 453, 1, 454); (455, 455, 1, 457); (456, 456, 1, 457); (458, 458, 1, 460);
    (459, 475, 2, 460); (478, 494, 2, 479); (497, 497, 1, 499); (498, 500, 2, 499);
    (502, 502, 1, 405); (503, 503, 1, 447); (504, 542, 2, 505); (544, 544, 1, 414);
    (546, 562, 2, 547); (570, 570, 1, 11365); (571, 571, 1, 572); (573, 573, 1, 410);
    (574, 574, 1, 11366); (577, 577, 1, 578); (579, 579, 1, 384); (580, 580, 1, 649);
    (581, 581, 1, 652); (582, 590, 2, 583); (880, 882, 2, 881); (886, 886, 1, 887);
    (895, 895, 1, 1011); (902, 902, 1, 940); (904, 906, 1, 941); (908, 908, 1, 972);
    (910, 911, 1, 973); (913, 929, 1, 945); (931, 939, 1, 963); (975, 975, 1, 983);
    (984, 1006, 2, 985); (1012, 1012, 1, 952); (1015, 1015, 1, 1016); (1017, 1017, 1, 1010);
    (1018, 1018, 1, 1019); (1021, 1023, 1, 891); (1024, 1039, 1, 1104); (1040, 1071, 1, 1072);
    (1120, 1152, 2, 1121); (1162, 1214, 2, 1163); (1216, 1216, 1, 1231); (1217, 1229, 2, 1218);
    (1232, 1326, 2, 1233); (1329, 1366, 1, 1377); (4256, 4293, 1, 11520);
    (4295, 4295, 1, 11559); (4301, 4301, 1, 11565); (5024, 5103, 1, 43888);
    (5104, 5109, 1, 5112); (7312, 7354, 1, 4304); (7357, 7359, 1, 4349); (7680, 7828, 2, 7681);
    (7838, 7838, 1, 223); (7840, 7934, 2, 7841); (7944, 7951, 1, 7936); (7960, 7965, 1, 7952);
    (7976, 7983, 1, 7968); (7992, 7999, 1, 7984); (8008, 8013, 1, 8000); (8025, 8031, 2, 8017);
    (8040, 8047, 1, 8032); (8072, 8079, 1, 8064); (8088, 8095, 1, 8080); (8104, 8111, 1, 8096);
    (8120, 8121, 1, 8112); (8122, 8123, 1, 8048); (8124, 8124, 1, 8115); (8136, 8139, 1, 8050);
    (8140, 8140, 1, 8131); (8152, 8153, 1, 8144); (8154, 8155, 1, 8054); (8168, 8169, 1, 8160);
    (8170, 8171, 1, 8058); (8172, 8172, 1, 8165); (8184, 8185, 1, 8056); (8186, 8187, 1, 8060);
    (8188, 8188, 1, 8179); (8486, 8486, 1, 969); (8490, 8490, 1, 107); (8491, 8491, 1, 229);
    (8498, 8498, 1, 8526); (8544, 8559, 1, 8560); (8579, 8579, 1, 8580); (9398, 9423, 1, 9424);
    (11264, 11311, 1, 11312); (11360, 11360, 1, 11361); (11362, 11362, 1, 619);
    (11363, 11363, 1, 7549); (11364, 11364, 1, 637); (11367, 11371, 2, 11368);
    (11373, 11373, 1, 593); (11374, 11374, 1, 625); (11375, 11375, 1, 592);
    (11376, 11376, 1, 594); (11378, 11378, 1, 11379); (11381, 11381, 1, 11382);
    (11390, 11391, 1, 575); (11392, 11490, 2, 11393); (11499, 11501, 2, 11500);
    (11506, 11506, 1, 11507); (42560, 42604, 2, 42561); (42624, 42650, 2, 42625);
    (42786, 42798, 2, 42787); (42802, 42862, 2, 42803); (42873, 42875, 2, 42874);
    (42877, 42877, 1, 7545); (42878, 42886, 2, 42879); (42891, 42891, 1, 42892);
    (42893, 42893, 1, 613); (42896, 42898, 2, 42897); (42902, 42920, 2, 42903);
    (42922, 42922, 1, 614); (42923, 42923, 1, 604); (42924, 42924, 1, 609);
    (42925, 42925, 1, 620); (42926, 42926, 1, 618); (42928, 42928, 1, 670);
    (42929, 42929, 1, 647); (42930, 42930, 1, 669); (42931, 42931, 1, 43859);
    (42932, 42946, 2, 42933); (42948, 42948, 1, 42900); (42949, 42949, 1, 642);
    (42950, 42950, 1, 7566); (42951, 42953, 2, 42952); (42960, 42960, 1, 42961);
    (42966, 42968, 2, 42967); (42997, 42997, 1, 42998); (65313, 65338, 1, 65345);
    (66560, 66599, 1, 66600); (66736, 66771, 1, 66776); (66928, 66938, 1, 66967);
    (66940, 66954, 1, 66979); (66956, 66962, 1, 66995); (66964, 66965, 1, 67003);
    (68736, 68786, 1, 68800); (71840, 71871, 1, 71872); (93760, 93791, 1, 93792);
    (125184, 125217, 1, 125218)
  ].

Definition expand_range (r : N * N * N * N) : list (N * list N) :=
  let '(lo, hi, stride, target) := r in
  flat_map (fun k =>
              let d := N.of_nat k in
              if d mod stride =? 0 then [(lo + d, [target + d])] else [])
           (seq 0 (N.to_nat (hi + 1 - lo))).

(** The full lowercase mapping of a code point that has one: the simple
    mappings and the one of SpecialCasing that has no condition,
    U+0130 to U+0069 U+0307. *)
Definition lower_table : list (N * list N) :=
  Eval vm_compute in flat_map expand_range lower_ranges ++ [(304, [105; 775])].

(** The code points with the property Case_Ignorable. *)
Definition case_ignorable_ranges : list (N * N) :=
  [
    (39, 39); (46, 46); (58, 58); (94, 94); (96, 96); (168, 168); (173, 173); (175, 175);
    (180, 180); (183, 184); (688, 879); (884, 885); (890, 890); (900, 901); (903, 903);
    (1155, 1161); (1369, 1369); (1375, 1375); (1425, 1469); (1471, 1471); (1473, 1474);
    (1476, 1477); (1479, 1479); (1524, 1524); (1536, 1541); (1552, 1562); (1564, 1564);
    (1600, 1600); (1611, 1631); (1648, 1648); (1750, 1757); (1759, 1768); (1770, 1773);
    (1807, 1807); (1809, 1809); (1840, 1866); (1958, 1968); (2027, 2037); (2042, 2042);
    (2045, 2045); (2070, 2093); (2137, 2139); (2184, 2184); (2192, 2193); (2200, 2207);
    (2249, 2306); (2362, 2362); (2364, 2364); (2369, 2376); (2381, 2381); (2385, 2391);
    (2402, 2403); (2417, 2417); (2433, 2433); (2492, 2492); (2497, 2500); (2509, 2509);
    (2530, 2531); (2558, 2558); (2561, 2562); (2620, 2620); (2625, 2626); (2631, 2632);
    (2635, 2637); (2641, 2641); (2672, 2673); (2677, 2677); (2689, 2690); (2748, 2748);
    (2753, 2757); (2759, 2760); (2765, 2765); (2786, 2787); (2810, 2815); (2817, 2817);
    (2876, 2876); (2879, 2879); (2881, 2884); (2893, 2893); (2901, 2902); (2914, 2915);
    (2946, 2946); (3008, 3008); (3021, 3021); (3072, 3072); (3076, 3076); (3132, 3132);
    (3134, 3136); (3142, 3144); (3146, 3149); (3157, 3158); (3170, 3171); (3201, 3201);
    (3260, 3260); (3263, 3263); (3270, 3270); (3276, 3277); (3298, 3299); (3328, 3329);
    (3387, 3388); (3393, 3396); (3405, 3405); (3426, 3427); (3457, 3457); (3530, 3530);
    (3538, 3540); (3542, 3542); (3633, 3633); (3636, 3642); (3654, 3662); (3761, 3761);
    (3764, 3772); (3782, 3782); (3784, 3789); (3864, 3865); (3893, 3893); (3895, 3895);
    (3897, 3897); (3953, 3966); (3968, 3972); (3974, 3975); (3981, 3991); (3993, 4028);
    (4038, 4038); (4141, 4144); (4146, 4151); (4153, 4154); (4157, 4158); (4184, 4185);
    (4190, 4192); (4209, 4212); (4226, 4226); (4229, 4230); (4237, 4237); (4253, 4253);
    (4348, 4348); (4957, 4959); (5906, 5908); (5938, 5939); (5970, 5971); (6002, 6003);
    (6068, 6069); (6071, 6077); (6086, 6086); (6089, 6099); (6103, 6103); (6109, 6109);
    (6155, 6159); (6211, 6211); (6277, 6278); (6313, 6313); (6432, 6434); (6439, 6440);
    (6450, 6450); (6457, 6459); (6679, 6680); (6683, 6683); (6742, 6742); (6744, 6750);
    (6752, 6752); (6754, 6754); (6757, 6764); (6771, 6780); (6783, 6783); (6823, 6823);
    (6832, 6862); (6912, 6915); (6964, 6964); (6966, 6970); (6972, 6972); (6978, 6978);
    (7019, 7027); (7040, 7041); (7074, 7077); (7080, 7081); (7083, 7085); (7142, 7142);
    (7144, 7145); (7149, 7149); (7151, 7153); (7212, 7219); (7222, 7223); (7288, 7293);
    (7376, 7378); (7380, 7392); (7394, 7400); (7405, 7405); (7412, 7412); (7416, 7417);
    (7468, 7530); (7544, 7544); (7579, 7679); (8125, 8125); (8127, 8129); (8141, 8143);
    (8157, 8159); (8173, 8175); (8189, 8190); (8203, 8207); (8216, 8217); (8228, 8228);
    (8231, 8231); (8234, 8238); (8288, 8292); (8294, 8303); (8305, 8305); (8319, 8319);
    (8336, 8348); (8400, 8432); (11388, 11389); (11503, 11505); (11631, 11631); (11647, 11647);
    (11744, 11775); (11823, 11823); (12293, 12293); (12330, 12333); (12337, 12341);
    (12347, 12347); (12441, 12446); (12540, 12542); (40981, 40981); (42232, 42237);
    (42508, 42508); (42607, 42610); (42612, 42621); (42623, 42623); (42652, 42655);
    (42736, 42737); (42752, 42785); (42864, 42864); (42888, 42890); (42994, 42996);
    (43000, 43001); (43010, 43010); (43014, 43014); (43019, 43019); (43045, 43046);
    (43052, 43052); (43204, 43205); (43232, 43249); (43263, 43263); (43302, 43309);
    (43335, 43345); (43392, 43394); (43443, 43443); (43446, 43449); (43452, 43453);
    (43471, 43471); (43493, 43494); (43561, 43566); (43569, 43570); (43573, 43574);
    (43587, 43587); (43596, 43596); (43632, 43632); (43644, 43644); (43696, 43696);
    (43698, 43700); (43703, 43704); (43710, 43711); (43713, 43713); (43741, 43741);
    (43756, 43757); (43763, 43764); (43766, 43766); (43867, 43871); (43881, 43883);
    (44005, 44005); (44008, 44008); (44013, 44013); (64286, 64286); (64434, 64450);
    (65024, 65039); (65043, 65043); (65056, 65071); (65106, 65106); (65109, 65109);
    (65279, 65279); (65287, 65287); (65294, 65294); (65306, 65306); (65342, 65342);
    (65344, 65344); (65392, 65392); (65438, 65439); (65507, 65507); (65529, 65531);
    (66045, 66045); (66272, 66272); (66422, 66426); (67456, 67461); (67463, 67504);
    (67506, 67514); (68097, 68099); (68101, 68102); (68108, 68111); (68152, 68154);
    (68159, 68159); (68325, 68326); (68900, 68903); (69291, 69292); (69446, 69456);
    (69506, 69509); (69633, 69633); (69688, 69702); (69744, 69744); (69747, 69748);
    (69759, 69761); (69811, 69814); (69817, 69818); (69821, 69821); (69826, 69826);
    (69837, 69837); (69888, 69890); (69927, 69931); (69933, 69940); (70003, 70003);
    (70016, 70017); (70070, 70078); (70089, 70092); (70095, 70095); (70191, 70193);
    (70196, 70196); (70198, 70199); (70206, 70206); (70367, 70367); (70371, 70378);
    (70400, 70401); (70459, 70460); (70464, 70464); (70502, 70508); (70512, 70516);
    (70712, 70719); (70722, 70724); (70726, 70726); (70750, 70750); (70835, 70840);
    (70842, 70842); (70847, 70848); (70850, 70851); (71090, 71093); (71100, 71101);
    (71103, 71104); (71132, 71133); (71219, 71226); (71229, 71229); (71231, 71232);
    (71339, 71339); (71341, 71341); (71344, 71349); (71351, 71351); (71453, 71455);
    (71458, 71461); (71463, 71467); (71727, 71735); (71737, 71738); (71995, 71996);
    (71998, 71998); (72003, 72003); (72148, 72151); (72154, 72155); (72160, 72160);
    (72193, 72202); (72243, 72248); (72251, 72254); (72263, 72263); (72273, 72278);
    (72281, 72283); (72330, 72342); (72344, 72345); (72752, 72758); (72760, 72765);
    (72767, 72767); (72850, 72871); (72874, 72880); (72882, 72883); (72885, 72886);
    (73009, 73014); (73018, 73018); (73020, 73021); (73023, 73029); (73031, 73031);
    (73104, 73105); (73109, 73109); (73111, 73111); (73459, 73460); (78896, 78904);
    (92912, 92916); (92976, 92982); (92992, 92995); (94031, 94031); (94095, 94111);
    (94176, 94177); (94179, 94180); (110576, 110579); (110581, 110587); (110589, 110590);
    (113821, 113822); (113824, 113827); (118528, 118573); (118576, 118598); (119143, 119145);
    (119155, 119170); (119173, 119179); (119210, 119213); (119362, 119364); (121344, 121398);
    (121403, 121452); (121461, 121461); (121476, 121476); (121499, 121503); (121505, 121519);
    (122880, 122886); (122888, 122904); (122907, 122913); (122915, 122916); (122918, 122922);
    (123184, 123197); (123566, 123566); (123628, 123631); (125136, 125142); (125252, 125259);
    (127995, 127999); (917505, 917505); (917536, 917631); (917760, 917999)
  ].

(** The code points with the property Cased that are not Case_Ignorable. *)
Definition cased_ranges : list (N * N) :=
  [
    (65, 90); (97, 122); (170, 170); (181, 181); (186, 186); (192, 214); (216, 246);
    (248, 442); (444, 447); (452, 659); (661, 687); (880, 883); (886, 887); (891, 893);
    (895, 895); (902, 902); (904, 906); (908, 908); (910, 929); (931, 1013); (1015, 1153);
    (1162, 1327); (1329, 1366); (1376, 1416); (4256, 4293); (4295, 4295); (4301, 4301);
    (4304, 4346); (4349, 4351); (5024, 5109); (5112, 5117); (7296, 7304); (7312, 7354);
    (7357, 7359); (7424, 7467); (7531, 7543); (7545, 7578); (7680, 7957); (7960, 7965);
    (7968, 8005); (8008, 8013); (8016, 8023); (8025, 8025); (8027, 8027); (8029, 8029);
    (8031, 8061); (8064, 8116); (8118, 8124); (8126, 8126); (8130, 8132); (8134, 8140);
    (8144, 8147); (8150, 8155); (8160, 8172); (8178, 8180); (8182, 8188); (8450, 8450);
    (8455, 8455); (8458, 8467); (8469, 8469); (8473, 8477); (8484, 8484); (8486, 8486);
    (8488, 8488); (8490, 8493); (8495, 8500); (8505, 8505); (8508, 8511); (8517, 8521);
    (8526, 8526); (8544, 8575); (8579, 8580); (9398, 9449); (11264, 11387); (11390, 11492);
    (11499, 11502); (11506, 11507); (11520, 11557); (11559, 11559); (11565, 11565);
    (42560, 42605); (42624, 42651); (42786, 42863); (42865, 42887); (42891, 42894);
    (42896, 42954); (42960, 42961); (42963, 42963); (42965, 42969); (42997, 42998);
    (43002, 43002); (43824, 43866); (43872, 43880); (43888, 43967); (64256, 64262);
    (64275, 64279); (65313, 65338); (65345, 65370); (66560, 66639); (66736, 66771);
    (66776, 66811); (66928, 66938); (66940, 66954); (66956, 66962); (66964, 66965);
    (66967, 66977); (66979, 66993); (66995, 67001); (67003, 67004); (68736, 68786);
    (68800, 68850); (71840, 71903); (93760, 93823); (119808, 119892); (119894, 119964);
    (119966, 119967); (119970, 119970); (119973, 119974); (119977, 119980); (119982, 119993);
    (119995, 119995); (119997, 120003); (120005, 120069); (120071, 120074); (120077, 120084);
    (120086, 120092); (120094, 120121); (120123, 120126); (120128, 120132); (120134, 120134);
    (120138, 120144); (120146, 120485); (120488, 120512); (120514, 120538); (120540, 120570);
    (120572, 120596); (120598, 120628); (120630, 120654); (120656, 120686); (120688, 120712);
    (120714, 120744); (120746, 120770); (120772, 120779); (122624, 122633); (122635, 122654);
    (125184, 125251); (127280, 127305); (127312, 127337); (127344, 127369)
  ].

(** The full canonical decomposition of the code points that have one,
    the Hangul syllables apart. *)
Definition decomposition_table : list (N * list N) :=
  [
    (192, [65; 768]); (193, [65; 769]); (194, [65; 770]); (195, [65; 771]); (196, [65; 776]);
    (197, [65; 778]); (199, [67; 807]); (200, [69; 768]); (201, [69; 769]); (202, [69; 770]);
    (203, [69; 776]); (204, [73; 768]); (205, [73; 769]); (206, [73; 770]); (207, [73; 776]);
    (209, [78; 771]); (210, [79; 768]); (211, [79; 769]); (212, [79; 770]); (213, [79; 771]);
    (214, [79; 776]); (217, [85; 768]); (218, [85; 769]); (219, [85; 770]); (220, [85; 776]);
    (221, [89; 769]); (224, [97; 768]); (225, [97; 769]); (226, [97; 770]); (227, [97; 771]);
    (228, [97; 776]); (229, [97; 778]); (231, [99; 807]); (232, [101; 768]); (233, [101; 769]);
    (234, [101; 770]); (235, [101; 776]); (236, [105; 768]); (237, [105; 769]);
    (238, [105; 770]); (239, [105; 776]); (241, [110; 771]); (242, [111; 768]);
    (243, [111; 769]); (244, [111; 770]); (245, [111; 771]); (246, [111; 776]);
    (249, [117; 768]); (250, [117; 769]); (251, [117; 770]); (252, [117; 776]);
    (253, [121; 769]); (255, [121; 776]); (256, [65; 772]); (257, [97; 772]); (258, [65; 774]);
    (259, [97; 774]); (260, [65; 808]); (261, [97; 808]); (262, [67; 769]); (263, [99; 769]);
    (264, [67; 770]); (265, [99; 770]); (266, [67; 775]); (267, [99; 775]); (268, [67; 780]);
    (269, [99; 780]); (270, [68; 780]); (271, [100; 780]); (274, [69; 772]); (275, [101; 772]);
    (276, [69; 774]); (277, [101; 774]); (278, [69; 775]); (279, [101; 775]); (280, [69; 808]);
    (281, [101; 808]); (282, [69; 780]); (283, [101; 780]); (284, [71; 770]);
    (285, [103; 770]); (286, [71; 774]); (287, [103; 774]); (288, [71; 775]);
    (289, [103; 775]); (290, [71; 807]); (291, [103; 807]); (292, [72; 770]);
    (293, [104; 770]); (296, [73; 771]); (297, [105; 771]); (298, [73; 772]);
    (299, [105; 772]); (300, [73; 774]); (301, [105; 774]); (302, [73; 808]);
    (303, [105; 808]); (304, [73; 775]); (308, [74; 770]); (309, [106; 770]); (310, [75; 807]);
    (311, [107; 807]); (313, [76; 769]); (314, [108; 769]); (315, [76; 807]);
    (316, [108; 807]); (317, [76; 780]); (318, [108; 780]); (323, [78; 769]);
    (324, [110; 769]); (325, [78; 807]); (326, [110; 807]); (327, [78; 780]);
    (328, [110; 780]); (332, [79; 772]); (333, [111; 772]); (334, [79; 774]);
    (335, [111; 774]); (336, [79; 779]); (337, [111; 779]); (340, [82; 769]);
    (341, [114; 769]); (342, [82; 807]); (343, [114; 807]); (344, [82; 780]);
    (345, [114; 780]); (346, [83; 769]); (347, [115; 769]); (348, [83; 770]);
    (349, [115; 770]); (350, [83; 807]); (351, [115; 807]); (352, [83; 780]);
    (353, [115; 780]); (354, [84; 807]); (355, [116; 807]); (356, [84; 780]);
    (357, [116; 780]); (360, [85; 771]); (361, [117; 771]); (362, [85; 772]);
    (363, [117; 772]); (364, [85; 774]); (365, [117; 774]); (366, [85; 778]);
    (367, [117; 778]); (368, [85; 779]); (369, [117; 779]); (370, [85; 808]);
    (371, [117; 808]); (372, [87; 770]); (373, [119; 770]); (374, [89; 770]);
    (375, [121; 770]); (376, [89; 776]); (377, [90; 769]); (378, [122; 769]); (379, [90; 775]);
    (380, [122; 775]); (381, [90; 780]); (382, [122; 780]); (416, [79; 795]);
    (417, [111; 795]); (431, [85; 795]); (432, [117; 795]); (461, [65; 780]); (462, [97; 780]);
    (463, [73; 780]); (464, [105; 780]); (465, [79; 780]); (466, [111; 780]); (467, [85; 780]);
    (468, [117; 780]); (469, [85; 776; 772]); (470, [117; 776; 772]); (471, [85; 776; 769]);
    (472, [117; 776; 769]); (473, [85; 776; 780]); (474, [117; 776; 780]);
    (475, [85; 776; 768]); (476, [117; 776; 768]); (478, [65; 776; 772]);
    (479, [97; 776; 772]); (480, [65; 775; 772]); (481, [97; 775; 772]); (482, [198; 772]);
    (483, [230; 772]); (486, [71; 780]); (487, [103; 780]); (488, [75; 780]);
    (489, [107; 780]); (490, [79; 808]); (491, [111; 808]); (492, [79; 808; 772]);
    (493, [111; 808; 772]); (494, [439; 780]); (495, [658; 780]); (496, [106; 780]);
    (500, [71; 769]); (501, [103; 769]); (504, [78; 768]); (505, [110; 768]);
    (506, [65; 778; 769]); (507, [97; 778; 769]); (508, [198; 769]); (509, [230; 769]);
    (510, [216; 769]); (511, [248; 769]); (512, [65; 783]); (513, [97; 783]); (514, [65; 785]);
    (515, [97; 785]); (516, [69; 783]); (517, [101; 783]); (518, [69; 785]); (519, [101; 785]);
    (520, [73; 783]); (521, [105; 783]); (522, [73; 785]); (523, [105; 785]); (524, [79; 783]);
    (525, [111; 783]); (526, [79; 785]); (527, [111; 785]); (528, [82; 783]);
    (529, [114; 783]); (530, [82; 785]); (531, [114; 785]); (532, [85; 783]);
    (533, [117; 783]); (534, [85; 785]); (535, [117; 785]); (536, [83; 806]);
    (537, [115; 806]); (538, [84; 806]); (539, [116; 806]); (542, [72; 780]);
    (543, [104; 780]); (550, [65; 775]); (551, [97; 775]); (552, [69; 807]); (553, [101; 807]);
    (554, [79; 776; 772]); (555, [111; 776; 772]); (556, [79; 771; 772]);
    (557, [111; 771; 772]); (558, [79; 775]); (559, [111; 775]); (560, [79; 775; 772]);
    (561, [111; 775; 772]); (562, [89; 772]); (563, [121; 772]); (832, [768]); (833, [769]);
    (835, [787]); (836, [776; 769]); (884, [697]); (894, [59]); (901, [168; 769]);
    (902, [913; 769]); (903, [183]); (904, [917; 769]); (905, [919; 769]); (906, [921; 769]);
    (908, [927; 769]); (910, [933; 769]); (911, [937; 769]); (912, [953; 776; 769]);
    (938, [921; 776]); (939, [933; 776]); (940, [945; 769]); (941, [949; 769]);
    (942, [951; 769]); (943, [953; 769]); (944, [965; 776; 769]); (970, [953; 776]);
    (971, [965; 776]); (972, [959; 769]); (973, [965; 769]); (974, [969; 769]);
    (979, [978; 769]); (980, [978; 776]); (1024, [1045; 768]); (1025, [1045; 776]);
    (1027, [1043; 769]); (1031, [1030; 776]); (1036, [1050; 769]); (1037, [1048; 768]);
    (1038, [1059; 774]); (1049, [1048; 774]); (1081, [1080; 774]); (1104, [1077; 768]);
    (1105, [1077; 776]); (1107, [1075; 769]); (1111, [1110; 776]); (1116, [1082; 769]);
    (1117, [1080; 768]); (1118, [1091; 774]); (1142, [1140; 783]); (1143, [1141; 783]);
    (1217, [1046; 774]); (1218, [1078; 774]); (1232, [1040; 774]); (1233, [1072; 774]);
    (1234, [1040; 776]); (1235, [1072; 776]); (1238, [1045; 774]); (1239, [1077; 774]);
    (1242, [1240; 776]); (1243, [1241; 776]); (1244, [1046; 776]); (1245, [1078; 776]);
    (1246, [1047; 776]); (1247, [1079; 776]); (1250, [1048; 772]); (1251, [1080; 772]);
    (1252, [1048; 776]); (1253, [1080; 776]); (1254, [1054; 776]); (1255, [1086; 776]);
    (1258, [1256; 776]); (1259, [1257; 776]); (1260, [1069; 776]); (1261, [1101; 776]);
    (1262, [1059; 772]); (1263, [1091; 772]); (1264, [1059; 776]); (1265, [1091; 776]);
    (1266, [1059; 779]); (1267, [1091; 779]); (1268, [1063; 776]); (1269, [1095; 776]);
    (1272, [1067; 776]); (1273, [1099; 776]); (1570, [1575; 1619]); (1571, [1575; 1620]);
    (1572, [1608; 1620]); (1573, [1575; 1621]); (1574, [1610; 1620]); (1728, [1749; 1620]);
    (1730, [1729; 1620]); (1747, [1746; 1620]); (2345, [2344; 2364]); (2353, [2352; 2364]);
    (2356, [2355; 2364]); (2392, [2325; 2364]); (2393, [2326; 2364]); (2394, [2327; 2364]);
    (2395, [2332; 2364]); (2396, [2337; 2364]); (2397, [2338; 2364]); (2398, [2347; 2364]);
    (2399, [2351; 2364]); (2507, [2503; 2494]); (2508, [2503; 2519]); (2524, [2465; 2492]);
    (2525, [2466; 2492]); (2527, [2479; 2492]); (2611, [2610; 2620]); (2614, [2616; 2620]);
    (2649, [2582; 2620]); (2650, [2583; 2620]); (2651, [2588; 2620]); (2654, [2603; 2620]);
    (2888, [2887; 2902]); (2891, [2887; 2878]); (2892, [2887; 2903]); (2908, [2849; 2876]);
    (2909, [2850; 2876]); (2964, [2962; 3031]); (3018, [3014; 3006]); (3019, [3015; 3006]);
    (3020, [3014; 3031]); (3144, [3142; 3158]); (3264, [3263; 3285]); (3271, [3270; 3285]);
    (3272, [3270; 3286]); (3274, [3270; 3266]); (3275, [3270; 3266; 3285]);
    (3402, [3398; 3390]); (3403, [3399; 3390]); (3404, [3398; 3415]); (3546, [3545; 3530]);
    (3548, [3545; 3535]); (3549, [3545; 3535; 3530]); (3550, [3545; 3551]);
    (3907, [3906; 4023]); (3917, [3916; 4023]); (3922, [3921; 4023]); (3927, [3926; 4023]);
    (3932, [3931; 4023]); (3945, [3904; 4021]); (3955, [3953; 3954]); (3957, [3953; 3956]);
    (3958, [4018; 3968]); (3960, [4019; 3968]); (3969, [3953; 3968]); (3987, [3986; 4023]);
    (3997, [3996; 4023]); (4002, [4001; 4023]); (4007, [4006; 4023]); (4012, [4011; 4023]);
    (4025, [3984; 4021]); (4134, [4133; 4142]); (6918, [6917; 6965]); (6920, [6919; 6965]);
    (6922, [6921; 6965]); (6924, [6923; 6965]); (6926, [6925; 6965]); (6930, [6929; 6965]);
    (6971, [6970; 6965]); (6973, [6972; 6965]); (6976, [6974; 6965]); (6977, [6975; 6965]);
    (6979, [6978; 6965]); (7680, [65; 805]); (7681, [97; 805]); (7682, [66; 775]);
    (7683, [98; 775]); (7684, [66; 803]); (7685, [98; 803]); (7686, [66; 817]);
    (7687, [98; 817]); (7688, [67; 807; 769]); (7689, [99; 807; 769]); (7690, [68; 775]);
    (7691, [100; 775]); (7692, [68; 803]); (7693, [100; 803]); (7694, [68; 817]);
    (7695, [100; 817]); (7696, [68; 807]); (7697, [100; 807]); (7698, [68; 813]);
    (7699, [100; 813]); (7700, [69; 772; 768]); (7701, [101; 772; 768]);
    (7702, [69; 772; 769]); (7703, [101; 772; 769]); (7704, [69; 813]); (7705, [101; 813]);
    (7706, [69; 816]); (7707, [101; 816]); (7708, [69; 807; 774]); (7709, [101; 807; 774]);
    (7710, [70; 775]); (7711, [102; 775]); (7712, [71; 772]); (7713, [103; 772]);
    (7714, [72; 775]); (7715, [104; 775]); (7716, [72; 803]); (7717, [104; 803]);
    (7718, [72; 776]); (7719, [104; 776]); (7720, [72; 807]); (7721, [104; 807]);
    (7722, [72; 814]); (7723, [104; 814]); (7724, [73; 816]); (7725, [105; 816]);
    (7726, [73; 776; 769]); (7727, [105; 776; 769]); (7728, [75; 769]); (7729, [107; 769]);
    (7730, [75; 803]); (7731, [107; 803]); (7732, [75; 817]); (7733, [107; 817]);
    (7734, [76; 803]); (7735, [108; 803]); (7736, [76; 803; 772]); (7737, [108; 803; 772]);
    (7738, [76; 817]); (7739, [108; 817]); (7740, [76; 813]); (7741, [108; 813]);
    (7742, [77; 769]); (7743, [109; 769]); (7744, [77; 775]); (7745, [109; 775]);
    (7746, [77; 803]); (7747, [109; 803]); (7748, [78; 775]); (7749, [110; 775]);
    (7750, [78; 803]); (7751, [110; 803]); (7752, [78; 817]); (7753, [110; 817]);
    (7754, [78; 813]); (7755, [110; 813]); (7756, [79; 771; 769]); (7757, [111; 771; 769]);
    (7758, [79; 771; 776]); (7759, [111; 771; 776]); (7760, [79; 772; 768]);
    (7761, [111; 772; 768]); (7762, [79; 772; 769]); (7763, [111; 772; 769]);
    (7764, [80; 769]); (7765, [112; 769]); (7766, [80; 775]); (7767, [112; 775]);
    (7768, [82; 775]); (7769, [114; 775]); (7770, [82; 803]); (7771, [114; 803]);
    (7772, [82; 803; 772]); (7773, [114; 803; 772]); (7774, [82; 817]); (7775, [114; 817]);
    (7776, [83; 775]); (7777, [115; 775]); (7778, [83; 803]); (7779, [115; 803]);
    (7780, [83; 769; 775]); (7781, [115; 769; 775]); (7782, [83; 780; 775]);
    (7783, [115; 780; 775]); (7784, [83; 803; 775]); (7785, [115; 803; 775]);
    (7786, [84; 775]); (7787, [116; 775]); (7788, [84; 803]); (7789, [116; 803]);
    (7790, [84; 817]); (7791, [116; 817]); (7792, [84; 813]); (7793, [116; 813]);
    (7794, [85; 804]); (7795, [117; 804]); (7796, [85; 816]); (7797, [117; 816]);
    (7798, [85; 813]); (7799, [117; 813]); (7800, [85; 771; 769]); (7801, [117; 771; 769]);
    (7802, [85; 772; 776]); (7803, [117; 772; 776]); (7804, [86; 771]); (7805, [118; 771]);
    (7806, [86; 803]); (7807, [118; 803]); (7808, [87; 768]); (7809, [119; 768]);
    (7810, [87; 769]); (7811, [119; 769]); (7812, [87; 776]); (7813, [119; 776]);
    (7814, [87; 775]); (7815, [119; 775]); (7816, [87; 803]); (7817, [119; 803]);
    (7818, [88; 775]); (7819, [120; 775]); (7820, [88; 776]); (7821, [120; 776]);
    (7822, [89; 775]); (7823, [121; 775]); (7824, [90; 770]); (7825, [122; 770]);
    (7826, [90; 803]); (7827, [122; 803]); (7828, [90; 817]); (7829, [122; 817]);
    (7830, [104; 817]); (7831, [116; 776]); (7832, [119; 778]); (7833, [121; 778]);
    (7835, [383; 775]); (7840, [65; 803]); (7841, [97; 803]); (7842, [65; 777]);
    (7843, [97; 777]); (7844, [65; 770; 769]); (7845, [97; 770; 769]); (7846, [65; 770; 768]);
    (7847, [97; 770; 768]); (7848, [65; 770; 777]); (7849, [97; 770; 777]);
    (7850, [65; 770; 771]); (7851, [97; 770; 771]); (7852, [65; 803; 770]);
    (7853, [97; 803; 770]); (7854, [65; 774; 769]); (7855, [97; 774; 769]);
    (7856, [65; 774; 768]); (7857, [97; 774; 768]); (7858, [65; 774; 777]);
    (7859, [97; 774; 777]); (7860, [65; 774; 771]); (7861, [97; 774; 771]);
    (7862, [65; 803; 774]); (7863, [97; 803; 774]); (7864, [69; 803]); (7865, [101; 803]);
    (7866, [69; 777]); (7867, [101; 777]); (7868, [69; 771]); (7869, [101; 771]);
    (7870, [69; 770; 769]); (7871, [101; 770; 769]); (7872, [69; 770; 768]);
    (7873, [101; 770; 768]); (7874, [69; 770; 777]); (7875, [101; 770; 777]);
    (7876, [69; 770; 771]); (7877, [101; 770; 771]); (7878, [69; 803; 770]);
    (7879, [101; 803; 770]); (7880, [73; 777]); (7881, [105; 777]); (7882, [73; 803]);
    (7883, [105; 803]); (7884, [79; 803]); (7885, [111; 803]); (7886, [79; 777]);
    (7887, [111; 777]); (7888, [79; 770; 769]); (7889, [111; 770; 769]);
    (7890, [79; 770; 768]); (7891, [111; 770; 768]); (7892, [79; 770; 777]);
    (7893, [111; 770; 777]); (7894, [79; 770; 771]); (7895, [111; 770; 771]);
    (7896, [79; 803; 770]); (7897, [111; 803; 770]); (7898, [79; 795; 769]);
    (7899, [111; 795; 769]); (7900, [79; 795; 768]); (7901, [111; 795; 768]);
    (7902, [79; 795; 777]); (7903, [111; 795; 777]); (7904, [79; 795; 771]);
    (7905, [111; 795; 771]); (7906, [79; 795; 803]); (7907, [111; 795; 803]);
    (7908, [85; 803]); (7909, [117; 803]); (7910, [85; 777]); (7911, [117; 777]);
    (7912, [85; 795; 769]); (7913, [117; 795; 769]); (7914, [85; 795; 768]);
    (7915, [117; 795; 768]); (7916, [85; 795; 777]); (7917, [117; 795; 777]);
    (7918, [85; 795; 771]); (7919, [117; 795; 771]); (7920, [85; 795; 803]);
    (7921, [117; 795; 803]); (7922, [89; 768]); (7923, [121; 768]); (7924, [89; 803]);
    (7925, [121; 803]); (7926, [89; 777]); (7927, [121; 777]); (7928, [89; 771]);
    (7929, [121; 771]); (7936, [945; 787]); (7937, [945; 788]); (7938, [945; 787; 768]);
    (7939, [945; 788; 768]); (7940, [945; 787; 769]); (7941, [945; 788; 769]);
    (7942, [945; 787; 834]); (7943, [945; 788; 834]); (7944, [913; 787]); (7945, [913; 788]);
    (7946, [913; 787; 768]); (7947, [913; 788; 768]); (7948, [913; 787; 769]);
    (7949, [913; 788; 769]); (7950, [913; 787; 834]); (7951, [913; 788; 834]);
    (7952, [949; 787]); (7953, [949; 788]); (7954, [949; 787; 768]); (7955, [949; 788; 768]);
    (7956, [949; 787; 769]); (7957, [949; 788; 769]); (7960, [917; 787]); (7961, [917; 788]);
    (7962, [917; 787; 768]); (7963, [917; 788; 768]); (7964, [917; 787; 769]);
    (7965, [917; 788; 769]); (7968, [951; 787]); (7969, [951; 788]); (7970, [951; 787; 768]);
    (7971, [951; 788; 768]); (7972, [951; 787; 769]); (7973, [951; 788; 769]);
    (7974, [951; 787; 834]); (7975, [951; 788; 834]); (7976, [919; 787]); (7977, [919; 788]);
    (7978, [919; 787; 768]); (7979, [919; 788; 768]); (7980, [919; 787; 769]);
    (7981, [919; 788; 769]); (7982, [919; 787; 834]); (7983, [919; 788; 834]);
    (7984, [953; 787]); (7985, [953; 788]); (7986, [953; 787; 768]); (7987, [953; 788; 768]);
    (7988, [953; 787; 769]); (7989, [953; 788; 769]); (7990, [953; 787; 834]);
    (7991, [953; 788; 834]); (7992, [921; 787]); (7993, [921; 788]); (7994, [921; 787; 768]);
    (7995, [921; 788; 768]); (7996, [921; 787; 769]); (7997, [921; 788; 769]);
    (7998, [921; 787; 834]); (7999, [921; 788; 834]); (8000, [959; 787]); (8001, [959; 788]);
    (8002, [959; 787; 768]); (8003, [959; 788; 768]); (8004, [959; 787; 769]);
    (8005, [959; 788; 769]); (8008, [927; 787]); (8009, [927; 788]); (8010, [927; 787; 768]);
    (8011, [927; 788; 768]); (8012, [927; 787; 769]); (8013, [927; 788; 769]);
    (8016, [965; 787]); (8017, [965; 788]); (8018, [965; 787; 768]); (8019, [965; 788; 768]);
    (8020, [965; 787; 769]); (8021, [965; 788; 769]); (8022, [965; 787; 834]);
    (8023, [965; 788; 834]); (8025, [933; 788]); (8027, [933; 788; 768]);
    (8029, [933; 788; 769]); (8031, [933; 788; 834]); (8032, [969; 787]); (8033, [969; 788]);
    (8034, [969; 787; 768]); (8035, [969; 788; 768]); (8036, [969; 787; 769]);
    (8037, [969; 788; 769]); (8038, [969; 787; 834]); (8039, [969; 788; 834]);
    (8040, [937; 787]); (8041, [937; 788]); (8042, [937; 787; 768]); (8043, [937; 788; 768]);
    (8044, [937; 787; 769]); (8045, [937; 788; 769]); (8046, [937; 787; 834]);
    (8047, [937; 788; 834]); (8048, [945; 768]); (8049, [945; 769]); (8050, [949; 768]);
    (8051, [949; 769]); (8052, [951; 768]); (8053, [951; 769]); (8054, [953; 768]);
    (8055, [953; 769]); (8056, [959; 768]); (8057, [959; 769]); (8058, [965; 768]);
    (8059, [965; 769]); (8060, [969; 768]); (8061, [969; 769]); (8064, [945; 787; 837]);
    (8065, [945; 788; 837]); (8066, [945; 787; 768; 837]); (8067, [945; 788; 768; 837]);
    (8068, [945; 787; 769; 837]); (8069, [945; 788; 769; 837]); (8070, [945; 787; 834; 837]);
    (8071, [945; 788; 834; 837]); (8072, [913; 787; 837]); (8073, [913; 788; 837]);
    (8074, [913; 787; 768; 837]); (8075, [913; 788; 768; 837]); (8076, [913; 787; 769; 837]);
    (8077, [913; 788; 769; 837]); (8078, [913; 787; 834; 837]); (8079, [913; 788; 834; 837]);
    (8080, [951; 787; 837]); (8081, [951; 788; 837]); (8082, [951; 787; 768; 837]);
    (8083, [951; 788; 768; 837]); (8084, [951; 787; 769; 837]); (8085, [951; 788; 769; 837]);
    (8086, [951; 787; 834; 837]); (8087, [951; 788; 834; 837]); (8088, [919; 787; 837]);
    (8089, [919; 788; 837]); (8090, [919; 787; 768; 837]); (8091, [919; 788; 768; 837]);
    (8092, [919; 787; 769; 837]); (8093, [919; 788; 769; 837]); (8094, [919; 787; 834; 837]);
    (8095, [919; 788; 834; 837]); (8096, [969; 787; 837]); (8097, [969; 788; 837]);
    (8098, [969; 787; 768; 837]); (8099, [969; 788; 768; 837]); (8100, [969; 787; 769; 837]);
    (8101, [969; 788; 769; 837]); (8102, [969; 787; 834; 837]); (8103, [969; 788; 834; 837]);
    (8104, [937; 787; 837]); (8105, [937; 788; 837]); (8106, [937; 787; 768; 837]);
    (8107, [937; 788; 768; 837]); (8108, [937; 787; 769; 837]); (8109, [937; 788; 769; 837]);
    (8110, [937; 787; 834; 837]); (8111, [937; 788; 834; 837]); (8112, [945; 774]);
    (8113, [945; 772]); (8114, [945; 768; 837]); (8115, [945; 837]); (8116, [945; 769; 837]);
    (8118, [945; 834]); (8119, [945; 834; 837]); (8120, [913; 774]); (8121, [913; 772]);
    (8122, [913; 768]); (8123, [913; 769]); (8124, [913; 837]); (8126, [953]);
    (8129, [168; 834]); (8130, [951; 768; 837]); (8131, [951; 837]); (8132, [951; 769; 837]);
    (8134, [951; 834]); (8135, [951; 834; 837]); (8136, [917; 768]); (8137, [917; 769]);
    (8138, [919; 768]); (8139, [919; 769]); (8140, [919; 837]); (8141, [8127; 768]);
    (8142, [8127; 769]); (8143, [8127; 834]); (8144, [953; 774]); (8145, [953; 772]);
    (8146, [953; 776; 768]); (8147, [953; 776; 769]); (8150, [953; 834]);
    (8151, [953; 776; 834]); (8152, [921; 774]); (8153, [921; 772]); (8154, [921; 768]);
    (8155, [921; 769]); (8157, [8190; 768]); (8158, [8190; 769]); (8159, [8190; 834]);
    (8160, [965; 774]); (8161, [965; 772]); (8162, [965; 776; 768]); (8163, [965; 776; 769]);
    (8164, [961; 787]); (8165, [961; 788]); (8166, [965; 834]); (8167, [965; 776; 834]);
    (8168, [933; 774]); (8169, [933; 772]); (8170, [933; 768]); (8171, [933; 769]);
    (8172, [929; 788]); (8173, [168; 768]); (8174, [168; 769]); (8175, [96]);
    (8178, [969; 768; 837]); (8179, [969; 837]); (8180, [969; 769; 837]); (8182, [969; 834]);
    (8183, [969; 834; 837]); (8184, [927; 768]); (8185, [927; 769]); (8186, [937; 768]);
    (8187, [937; 769]); (8188, [937; 837]); (8189, [180]); (8192, [8194]); (8193, [8195]);
    (8486, [937]); (8490, [75]); (8491, [65; 778]); (8602, [8592; 824]); (8603, [8594; 824]);
    (8622, [8596; 824]); (8653, [8656; 824]); (8654, [8660; 824]); (8655, [8658; 824]);
    (8708, [8707; 824]); (8713, [8712; 824]); (8716, [8715; 824]); (8740, [8739; 824]);
    (8742, [8741; 824]); (8769, [8764; 824]); (8772, [8771; 824]); (8775, [8773; 824]);
    (8777, [8776; 824]); (8800, [61; 824]); (8802, [8801; 824]); (8813, [8781; 824]);
    (8814, [60; 824]); (8815, [62; 824]); (8816, [8804; 824]); (8817, [8805; 824]);
    (8820, [8818; 824]); (8821, [8819; 824]); (8824, [8822; 824]); (8825, [8823; 824]);
    (8832, [8826; 824]); (8833, [8827; 824]); (8836, [8834; 824]); (8837, [8835; 824]);
    (8840, [8838; 824]); (8841, [8839; 824]); (8876, [8866; 824]); (8877, [8872; 824]);
    (8878, [8873; 824]); (8879, [8875; 824]); (8928, [8828; 824]); (8929, [8829; 824]);
    (8930, [8849; 824]); (8931, [8850; 824]); (8938, [8882; 824]); (8939, [8883; 824]);
    (8940, [8884; 824]); (8941, [8885; 824]); (9001, [12296]); (9002, [12297]);
    (10972, [10973; 824]); (12364, [12363; 12441]); (12366, [12365; 12441]);
    (12368, [12367; 12441]); (12370, [12369; 12441]); (12372, [12371; 12441]);
    (12374, [12373; 12441]); (12376, [12375; 12441]); (12378, [12377; 12441]);
    (12380, [12379; 12441]); (12382, [12381; 12441]); (12384, [12383; 12441]);
    (12386, [12385; 12441]); (12389, [12388; 12441]); (12391, [12390; 12441]);
    (12393, [12392; 12441]); (12400, [12399; 12441]); (12401, [12399; 12442]);
    (12403, [12402; 12441]); (12404, [12402; 12442]); (12406, [12405; 12441]);
    (12407, [12405; 12442]); (12409, [12408; 12441]); (12410, [12408; 12442]);
    (12412, [12411; 12441]); (12413, [12411; 12442]); (12436, [12358; 12441]);
    (12446, [12445; 12441]); (12460, [12459; 12441]); (12462, [12461; 12441]);
    (12464, [12463; 12441]); (12466, [12465; 12441]); (12468, [12467; 12441]);
    (12470, [12469; 12441]); (12472, [12471; 12441]); (12474, [12473; 12441]);
    (12476, [12475; 12441]); (12478, [12477; 12441]); (12480, [12479; 12441]);
    (12482, [12481; 12441]); (12485, [12484; 12441]); (12487, [12486; 12441]);
    (12489, [12488; 12441]); (12496, [12495; 12441]); (12497, [12495; 12442]);
    (12499, [12498; 12441]); (12500, [12498; 12442]); (12502, [12501; 12441]);
    (12503, [12501; 12442]); (12505, [12504; 12441]); (12506, [12504; 12442]);
    (12508, [12507; 12441]); (12509, [12507; 12442]); (12532, [12454; 12441]);
    (12535, [12527; 12441]); (12536, [12528; 12441]); (12537, [12529; 12441]);
    (12538, [12530; 12441]); (12542, [12541; 12441]); (63744, [35912]); (63745, [26356]);
    (63746, [36554]); (63747, [36040]); (63748, [28369]); (63749, [20018]); (63750, [21477]);
    (63751, [40860]); (63752, [40860]); (63753, [22865]); (63754, [37329]); (63755, [21895]);
    (63756, [22856]); (63757, [25078]); (63758, [30313]); (63759, [32645]); (63760, [34367]);
    (63761, [34746]); (63762, [35064]); (63763, [37007]); (63764, [27138]); (63765, [27931]);
    (63766, [28889]); (63767, [29662]); (63768, [33853]); (63769, [37226]); (63770, [39409]);
    (63771, [20098]); (63772, [21365]); (63773, [27396]); (63774, [29211]); (63775, [34349]);
    (63776, [40478]); (63777, [23888]); (63778, [28651]); (63779, [34253]); (63780, [35172]);
    (63781, [25289]); (63782, [33240]); (63783, [34847]); (63784, [24266]); (63785, [26391]);
    (63786, [28010]); (63787, [29436]); (63788, [37070]); (63789, [20358]); (63790, [20919]);
    (63791, [21214]); (63792, [25796]); (63793, [27347]); (63794, [29200]); (63795, [30439]);
    (63796, [32769]); (63797, [34310]); (63798, [34396]); (63799, [36335]); (63800, [38706]);
    (63801, [39791]); (63802, [40442]); (63803, [30860]); (63804, [31103]); (63805, [32160]);
    (63806, [33737]); (63807, [37636]); (63808, [40575]); (63809, [35542]); (63810, [22751]);
    (63811, [24324]); (63812, [31840]); (63813, [32894]); (63814, [29282]); (63815, [30922]);
    (63816, [36034]); (63817, [38647]); (63818, [22744]); (63819, [23650]); (63820, [27155]);
    (63821, [28122]); (63822, [28431]); (63823, [32047]); (63824, [32311]); (63825, [38475]);
    (63826, [21202]); (63827, [32907]); (63828, [20956]); (63829, [20940]); (63830, [31260]);
    (63831, [32190]); (63832, [33777]); (63833, [38517]); (63834, [35712]); (63835, [25295]);
    (63836, [27138]); (63837, [35582]); (63838, [20025]); (63839, [23527]); (63840, [24594]);
    (63841, [29575]); (63842, [30064]); (63843, [21271]); (63844, [30971]); (63845, [20415]);
    (63846, [24489]); (63847, [19981]); (63848, [27852]); (63849, [25976]); (63850, [32034]);
    (63851, [21443]); (63852, [22622]); (63853, [30465]); (63854, [33865]); (63855, [35498]);
    (63856, [27578]); (63857, [36784]); (63858, [27784]); (63859, [25342]); (63860, [33509]);
    (63861, [25504]); (63862, [30053]); (63863, [20142]); (63864, [20841]); (63865, [20937]);
    (63866, [26753]); (63867, [31975]); (63868, [33391]); (63869, [35538]); (63870, [37327]);
    (63871, [21237]); (63872, [21570]); (63873, [22899]); (63874, [24300]); (63875, [26053]);
    (63876, [28670]); (63877, [31018]); (63878, [38317]); (63879, [39530]); (63880, [40599]);
    (63881, [40654]); (63882, [21147]); (63883, [26310]); (63884, [27511]); (63885, [36706]);
    (63886, [24180]); (63887, [24976]); (63888, [25088]); (63889, [25754]); (63890, [28451]);
    (63891, [29001]); (63892, [29833]); (63893, [31178]); (63894, [32244]); (63895, [32879]);
    (63896, [36646]); (63897, [34030]); (63898, [36899]); (63899, [37706]); (63900, [21015]);
    (63901, [21155]); (63902, [21693]); (63903, [28872]); (63904, [35010]); (63905, [35498]);
    (63906, [24265]); (63907, [24565]); (63908, [25467]); (63909, [27566]); (63910, [31806]);
    (63911, [29557]); (63912, [20196]); (63913, [22265]); (63914, [23527]); (63915, [23994]);
    (63916, [24604]); (63917, [29618]); (63918, [29801]); (63919, [32666]); (63920, [32838]);
    (63921, [37428]); (63922, [38646]); (63923, [38728]); (63924, [38936]); (63925, [20363]);
    (63926, [31150]); (63927, [37300]); (63928, [38584]); (63929, [24801]); (63930, [20102]);
    (63931, [20698]); (63932, [23534]); (63933, [23615]); (63934, [26009]); (63935, [27138]);
    (63936, [29134]); (63937, [30274]); (63938, [34044]); (63939, [36988]); (63940, [40845]);
    (63941, [26248]); (63942, [38446]); (63943, [21129]); (63944, [26491]); (63945, [26611]);
    (63946, [27969]); (63947, [28316]); (63948, [29705]); (63949, [30041]); (63950, [30827]);
    (63951, [32016]); (63952, [39006]); (63953, [20845]); (63954, [25134]); (63955, [38520]);
    (63956, [20523]); (63957, [23833]); (63958, [28138]); (63959, [36650]); (63960, [24459]);
    (63961, [24900]); (63962, [26647]); (63963, [29575]); (63964, [38534]); (63965, [21033]);
    (63966, [21519]); (63967, [23653]); (63968, [26131]); (63969, [26446]); (63970, [26792]);
    (63971, [27877]); (63972, [29702]); (63973, [30178]); (63974, [32633]); (63975, [35023]);
    (63976, [35041]); (63977, [37324]); (63978, [38626]); (63979, [21311]); (63980, [28346]);
    (63981, [21533]); (63982, [29136]); (63983, [29848]); (63984, [34298]); (63985, [38563]);
    (63986, [40023]); (63987, [40607]); (63988, [26519]); (63989, [28107]); (63990, [33256]);
    (63991, [31435]); (63992, [31520]); (63993, [31890]); (63994, [29376]); (63995, [28825]);
    (63996, [35672]); (63997, [20160]); (63998, [33590]); (63999, [21050]); (64000, [20999]);
    (64001, [24230]); (64002, [25299]); (64003, [31958]); (64004, [23429]); (64005, [27934]);
    (64006, [26292]); (64007, [36667]); (64008, [34892]); (64009, [38477]); (64010, [35211]);
    (64011, [24275]); (64012, [20800]); (64013, [21952]); (64016, [22618]); (64018, [26228]);
    (64021, [20958]); (64022, [29482]); (64023, [30410]); (64024, [31036]); (64025, [31070]);
    (64026, [31077]); (64027, [31119]); (64028, [38742]); (64029, [31934]); (64030, [32701]);
    (64032, [34322]); (64034, [35576]); (64037, [36920]); (64038, [37117]); (64042, [39151]);
    (64043, [39164]); (64044, [39208]); (64045, [40372]); (64046, [37086]); (64047, [38583]);
    (64048, [20398]); (64049, [20711]); (64050, [20813]); (64051, [21193]); (64052, [21220]);
    (64053, [21329]); (64054, [21917]); (64055, [22022]); (64056, [22120]); (64057, [22592]);
    (64058, [22696]); (64059, [23652]); (64060, [23662]); (64061, [24724]); (64062, [24936]);
    (64063, [24974]); (64064, [25074]); (64065, [25935]); (64066, [26082]); (64067, [26257]);
    (64068, [26757]); (64069, [28023]); (64070, [28186]); (64071, [28450]); (64072, [29038]);
    (64073, [29227]); (64074, [29730]); (64075, [30865]); (64076, [31038]); (64077, [31049]);
    (64078, [31048]); (64079, [31056]); (64080, [31062]); (64081, [31069]); (64082, [31117]);
    (64083, [31118]); (64084, [31296]); (64085, [31361]); (64086, [31680]); (64087, [32244]);
    (64088, [32265]); (64089, [32321]); (64090, [32626]); (64091, [32773]); (64092, [33261]);
    (64093, [33401]); (64094, [33401]); (64095, [33879]); (64096, [35088]); (64097, [35222]);
    (64098, [35585]); (64099, [35641]); (64100, [36051]); (64101, [36104]); (64102, [36790]);
    (64103, [36920]); (64104, [38627]); (64105, [38911]); (64106, [38971]); (64107, [24693]);
    (64108, [148206]); (64109, [33304]); (64112, [20006]); (64113, [20917]); (64114, [20840]);
    (64115, [20352]); (64116, [20805]); (64117, [20864]); (64118, [21191]); (64119, [21242]);
    (64120, [21917]); (64121, [21845]); (64122, [21913]); (64123, [21986]); (64124, [22618]);
    (64125, [22707]); (64126, [22852]); (64127, [22868]); (64128, [23138]); (64129, [23336]);
    (64130, [24274]); (64131, [24281]); (64132, [24425]); (64133, [24493]); (64134, [24792]);
    (64135, [24910]); (64136, [24840]); (64137, [24974]); (64138, [24928]); (64139, [25074]);
    (64140, [25140]); (64141, [25540]); (64142, [25628]); (64143, [25682]); (64144, [25942]);
    (64145, [26228]); (64146, [26391]); (64147, [26395]); (64148, [26454]); (64149, [27513]);
    (64150, [27578]); (64151, [27969]); (64152, [28379]); (64153, [28363]); (64154, [28450]);
    (64155, [28702]); (64156, [29038]); (64157, [30631]); (64158, [29237]); (64159, [29359]);
    (64160, [29482]); (64161, [29809]); (64162, [29958]); (64163, [30011]); (64164, [30237]);
    (64165, [30239]); (64166, [30410]); (64167, [30427]); (64168, [30452]); (64169, [30538]);
    (64170, [30528]); (64171, [30924]); (64172, [31409]); (64173, [31680]); (64174, [31867]);
    (64175, [32091]); (64176, [32244]); (64177, [32574]); (64178, [32773]); (64179, [33618]);
    (64180, [33775]); (64181, [34681]); (64182, [35137]); (64183, [35206]); (64184, [35222]);
    (64185, [35519]); (64186, [35576]); (64187, [35531]); (64188, [35585]); (64189, [35582]);
    (64190, [35565]); (64191, [35641]); (64192, [35722]); (64193, [36104]); (64194, [36664]);
    (64195, [36978]); (64196, [37273]); (64197, [37494]); (64198, [38524]); (64199, [38627]);
    (64200, [38742]); (64201, [38875]); (64202, [38911]); (64203, [38923]); (64204, [38971]);
    (64205, [39698]); (64206, [40860]); (64207, [141386]); (64208, [141380]);
    (64209, [144341]); (64210, [15261]); (64211, [16408]); (64212, [16441]); (64213, [152137]);
    (64214, [154832]); (64215, [163539]); (64216, [40771]); (64217, [40846]);
    (64285, [1497; 1460]); (64287, [1522; 1463]); (64298, [1513; 1473]); (64299, [1513; 1474]);
    (64300, [1513; 1468; 1473]); (64301, [1513; 1468; 1474]); (64302, [1488; 1463]);
    (64303, [1488; 1464]); (64304, [1488; 1468]); (64305, [1489; 1468]); (64306, [1490; 1468]);
    (64307, [1491; 1468]); (64308, [1492; 1468]); (64309, [1493; 1468]); (64310, [1494; 1468]);
    (64312, [1496; 1468]); (64313, [1497; 1468]); (64314, [1498; 1468]); (64315, [1499; 1468]);
    (64316, [1500; 1468]); (64318, [1502; 1468]); (64320, [1504; 1468]); (64321, [1505; 1468]);
    (64323, [1507; 1468]); (64324, [1508; 1468]); (64326, [1510; 1468]); (64327, [1511; 1468]);
    (64328, [1512; 1468]); (64329, [1513; 1468]); (64330, [1514; 1468]); (64331, [1493; 1465]);
    (64332, [1489; 1471]); (64333, [1499; 1471]); (64334, [1508; 1471]);
    (69786, [69785; 69818]); (69788, [69787; 69818]); (69803, [69797; 69818]);
    (69934, [69937; 69927]); (69935, [69938; 69927]); (70475, [70471; 70462]);
    (70476, [70471; 70487]); (70843, [70841; 70842]); (70844, [70841; 70832]);
    (70846, [70841; 70845]); (71098, [71096; 71087]); (71099, [71097; 71087]);
    (71992, [71989; 71984]); (119134, [119127; 119141]); (119135, [119128; 119141]);
    (119136, [119128; 119141; 119150]); (119137, [119128; 119141; 119151]);
    (119138, [119128; 119141; 119152]); (119139, [119128; 119141; 119153]);
    (119140, [119128; 119141; 119154]); (119227, [119225; 119141]); (119228, [119226; 119141]);
    (119229, [119225; 119141; 119150]); (119230, [119226; 119141; 119150]);
    (119231, [119225; 119141; 119151]); (119232, [119226; 119141; 119151]); (194560, [20029]);
    (194561, [20024]); (194562, [20033]); (194563, [131362]); (194564, [20320]);
    (194565, [20398]); (194566, [20411]); (194567, [20482]); (194568, [20602]);
    (194569, [20633]); (194570, [20711]); (194571, [20687]); (194572, [13470]);
    (194573, [132666]); (194574, [20813]); (194575, [20820]); (194576, [20836]);
    (194577, [20855]); (194578, [132380]); (194579, [13497]); (194580, [20839]);
    (194581, [20877]); (194582, [132427]); (194583, [20887]); (194584, [20900]);
    (194585, [20172]); (194586, [20908]); (194587, [20917]); (194588, [168415]);
    (194589, [20981]); (194590, [20995]); (194591, [13535]); (194592, [21051]);
    (194593, [21062]); (194594, [21106]); (194595, [21111]); (194596, [13589]);
    (194597, [21191]); (194598, [21193]); (194599, [21220]); (194600, [21242]);
    (194601, [21253]); (194602, [21254]); (194603, [21271]); (194604, [21321]);
    (194605, [21329]); (194606, [21338]); (194607, [21363]); (194608, [21373]);
    (194609, [21375]); (194610, [21375]); (194611, [21375]); (194612, [133676]);
    (194613, [28784]); (194614, [21450]); (194615, [21471]); (194616, [133987]);
    (194617, [21483]); (194618, [21489]); (194619, [21510]); (194620, [21662]);
    (194621, [21560]); (194622, [21576]); (194623, [21608]); (194624, [21666]);
    (194625, [21750]); (194626, [21776]); (194627, [21843]); (194628, [21859]);
    (194629, [21892]); (194630, [21892]); (194631, [21913]); (194632, [21931]);
    (194633, [21939]); (194634, [21954]); (194635, [22294]); (194636, [22022]);
    (194637, [22295]); (194638, [22097]); (194639, [22132]); (194640, [20999]);
    (194641, [22766]); (194642, [22478]); (194643, [22516]); (194644, [22541]);
    (194645, [22411]); (194646, [22578]); (194647, [22577]); (194648, [22700]);
    (194649, [136420]); (194650, [22770]); (194651, [22775]); (194652, [22790]);
    (194653, [22810]); (194654, [22818]); (194655, [22882]); (194656, [136872]);
    (194657, [136938]); (194658, [23020]); (194659, [23067]); (194660, [23079]);
    (194661, [23000]); (194662, [23142]); (194663, [14062]); (194664, [14076]);
    (194665, [23304]); (194666, [23358]); (194667, [23358]); (194668, [137672]);
    (194669, [23491]); (194670, [23512]); (194671, [23527]); (194672, [23539]);
    (194673, [138008]); (194674, [23551]); (194675, [23558]); (194676, [24403]);
    (194677, [23586]); (194678, [14209]); (194679, [23648]); (194680, [23662]);
    (194681, [23744]); (194682, [23693]); (194683, [138724]); (194684, [23875]);
    (194685, [138726]); (194686, [23918]); (194687, [23915]); (194688, [23932]);
    (194689, [24033]); (194690, [24034]); (194691, [14383]); (194692, [24061]);
    (194693, [24104]); (194694, [24125]); (194695, [24169]); (194696, [14434]);
    (194697, [139651]); (194698, [14460]); (194699, [24240]); (194700, [24243]);
    (194701, [24246]); (194702, [24266]); (194703, [172946]); (194704, [24318]);
    (194705, [140081]); (194706, [140081]); (194707, [33281]); (194708, [24354]);
    (194709, [24354]); (194710, [14535]); (194711, [144056]); (194712, [156122]);
    (194713, [24418]); (194714, [24427]); (194715, [14563]); (194716, [24474]);
    (194717, [24525]); (194718, [24535]); (194719, [24569]); (194720, [24705]);
    (194721, [14650]); (194722, [14620]); (194723, [24724]); (194724, [141012]);
    (194725, [24775]); (194726, [24904]); (194727, [24908]); (194728, [24910]);
    (194729, [24908]); (194730, [24954]); (194731, [24974]); (194732, [25010]);
    (194733, [24996]); (194734, [25007]); (194735, [25054]); (194736, [25074]);
    (194737, [25078]); (194738, [25104]); (194739, [25115]); (194740, [25181]);
    (194741, [25265]); (194742, [25300]); (194743, [25424]); (194744, [142092]);
    (194745, [25405]); (194746, [25340]); (194747, [25448]); (194748, [25475]);
    (194749, [25572]); (194750, [142321]); (194751, [25634]); (194752, [25541]);
    (194753, [25513]); (194754, [14894]); (194755, [25705]); (194756, [25726]);
    (194757, [25757]); (194758, [25719]); (194759, [14956]); (194760, [25935]);
    (194761, [25964]); (194762, [143370]); (194763, [26083]); (194764, [26360]);
    (194765, [26185]); (194766, [15129]); (194767, [26257]); (194768, [15112]);
    (194769, [15076]); (194770, [20882]); (194771, [20885]); (194772, [26368]);
    (194773, [26268]); (194774, [32941]); (194775, [17369]); (194776, [26391]);
    (194777, [26395]); (194778, [26401]); (194779, [26462]); (194780, [26451]);
    (194781, [144323]); (194782, [15177]); (194783, [26618]); (194784, [26501]);
    (194785, [26706]); (194786, [26757]); (194787, [144493]); (194788, [26766]);
    (194789, [26655]); (194790, [26900]); (194791, [15261]); (194792, [26946]);
    (194793, [27043]); (194794, [27114]); (194795, [27304]); (194796, [145059]);
    (194797, [27355]); (194798, [15384]); (194799, [27425]); (194800, [145575]);
    (194801, [27476]); (194802, [15438]); (194803, [27506]); (194804, [27551]);
    (194805, [27578]); (194806, [27579]); (194807, [146061]); (194808, [138507]);
    (194809, [146170]); (194810, [27726]); (194811, [146620]); (194812, [27839]);
    (194813, [27853]); (194814, [27751]); (194815, [27926]); (194816, [27966]);
    (194817, [28023]); (194818, [27969]); (194819, [28009]); (194820, [28024]);
    (194821, [28037]); (194822, [146718]); (194823, [27956]); (194824, [28207]);
    (194825, [28270]); (194826, [15667]); (194827, [28363]); (194828, [28359]);
    (194829, [147153]); (194830, [28153]); (194831, [28526]); (194832, [147294]);
    (194833, [147342]); (194834, [28614]); (194835, [28729]); (194836, [28702]);
    (194837, [28699]); (194838, [15766]); (194839, [28746]); (194840, [28797]);
    (194841, [28791]); (194842, [28845]); (194843, [132389]); (194844, [28997]);
    (194845, [148067]); (194846, [29084]); (194847, [148395]); (194848, [29224]);
    (194849, [29237]); (194850, [29264]); (194851, [149000]); (194852, [29312]);
    (194853, [29333]); (194854, [149301]); (194855, [149524]); (194856, [29562]);
    (194857, [29579]); (194858, [16044]); (194859, [29605]); (194860, [16056]);
    (194861, [16056]); (194862, [29767]); (194863, [29788]); (194864, [29809]);
    (194865, [29829]); (194866, [29898]); (194867, [16155]); (194868, [29988]);
    (194869, [150582]); (194870, [30014]); (194871, [150674]); (194872, [30064]);
    (194873, [139679]); (194874, [30224]); (194875, [151457]); (194876, [151480]);
    (194877, [151620]); (194878, [16380]); (194879, [16392]); (194880, [30452]);
    (194881, [151795]); (194882, [151794]); (194883, [151833]); (194884, [151859]);
    (194885, [30494]); (194886, [30495]); (194887, [30495]); (194888, [30538]);
    (194889, [16441]); (194890, [30603]); (194891, [16454]); (194892, [16534]);
    (194893, [152605]); (194894, [30798]); (194895, [30860]); (194896, [30924]);
    (194897, [16611]); (194898, [153126]); (194899, [31062]); (194900, [153242]);
    (194901, [153285]); (194902, [31119]); (194903, [31211]); (194904, [16687]);
    (194905, [31296]); (194906, [31306]); (194907, [31311]); (194908, [153980]);
    (194909, [154279]); (194910, [154279]); (194911, [31470]); (194912, [16898]);
    (194913, [154539]); (194914, [31686]); (194915, [31689]); (194916, [16935]);
    (194917, [154752]); (194918, [31954]); (194919, [17056]); (194920, [31976]);
    (194921, [31971]); (194922, [32000]); (194923, [155526]); (194924, [32099]);
    (194925, [17153]); (194926, [32199]); (194927, [32258]); (194928, [32325]);
    (194929, [17204]); (194930, [156200]); (194931, [156231]); (194932, [17241]);
    (194933, [156377]); (194934, [32634]); (194935, [156478]); (194936, [32661]);
    (194937, [32762]); (194938, [32773]); (194939, [156890]); (194940, [156963]);
    (194941, [32864]); (194942, [157096]); (194943, [32880]); (194944, [144223]);
    (194945, [17365]); (194946, [32946]); (194947, [33027]); (194948, [17419]);
    (194949, [33086]); (194950, [23221]); (194951, [157607]); (194952, [157621]);
    (194953, [144275]); (194954, [144284]); (194955, [33281]); (194956, [33284]);
    (194957, [36766]); (194958, [17515]); (194959, [33425]); (194960, [33419]);
    (194961, [33437]); (194962, [21171]); (194963, [33457]); (194964, [33459]);
    (194965, [33469]); (194966, [33510]); (194967, [158524]); (194968, [33509]);
    (194969, [33565]); (194970, [33635]); (194971, [33709]); (194972, [33571]);
    (194973, [33725]); (194974, [33767]); (194975, [33879]); (194976, [33619]);
    (194977, [33738]); (194978, [33740]); (194979, [33756]); (194980, [158774]);
    (194981, [159083]); (194982, [158933]); (194983, [17707]); (194984, [34033]);
    (194985, [34035]); (194986, [34070]); (194987, [160714]); (194988, [34148]);
    (194989, [159532]); (194990, [17757]); (194991, [17761]); (194992, [159665]);
    (194993, [159954]); (194994, [17771]); (194995, [34384]); (194996, [34396]);
    (194997, [34407]); (194998, [34409]); (194999, [34473]); (195000, [34440]);
    (195001, [34574]); (195002, [34530]); (195003, [34681]); (195004, [34600]);
    (195005, [34667]); (195006, [34694]); (195007, [17879]); (195008, [34785]);
    (195009, [34817]); (195010, [17913]); (195011, [34912]); (195012, [34915]);
    (195013, [161383]); (195014, [35031]); (195015, [35038]); (195016, [17973]);
    (195017, [35066]); (195018, [13499]); (195019, [161966]); (195020, [162150]);
    (195021, [18110]); (195022, [18119]); (195023, [35488]); (195024, [35565]);
    (195025, [35722]); (195026, [35925]); (195027, [162984]); (195028, [36011]);
    (195029, [36033]); (195030, [36123]); (195031, [36215]); (195032, [163631]);
    (195033, [133124]); (195034, [36299]); (195035, [36284]); (195036, [36336]);
    (195037, [133342]); (195038, [36564]); (195039, [36664]); (195040, [165330]);
    (195041, [165357]); (195042, [37012]); (195043, [37105]); (195044, [37137]);
    (195045, [165678]); (195046, [37147]); (195047, [37432]); (195048, [37591]);
    (195049, [37592]); (195050, [37500]); (195051, [37881]); (195052, [37909]);
    (195053, [166906]); (195054, [38283]); (195055, [18837]); (195056, [38327]);
    (195057, [167287]); (195058, [18918]); (195059, [38595]); (195060, [23986]);
    (195061, [38691]); (195062, [168261]); (195063, [168474]); (195064, [19054]);
    (195065, [19062]); (195066, [38880]); (195067, [168970]); (195068, [19122]);
    (195069, [169110]); (195070, [38923]); (195071, [38923]); (195072, [38953]);
    (195073, [169398]); (195074, [39138]); (195075, [19251]); (195076, [39209]);
    (195077, [39335]); (195078, [39362]); (195079, [39422]); (195080, [19406]);
    (195081, [170800]); (195082, [39698]); (195083, [40000]); (195084, [40189]);
    (195085, [19662]); (195086, [19693]); (195087, [40295]); (195088, [172238]);
    (195089, [19704]); (195090, [172293]); (195091, [172558]); (195092, [172689]);
    (195093, [40635]); (195094, [19798]); (195095, [40697]); (195096, [40702]);
    (195097, [40709]); (195098, [40719]); (195099, [40726]); (195100, [40763]);
    (195101, [173568])
  ].

(** The canonical combining classes that are not zero:
    [(lo, hi, class)]. *)
Definition combining_ranges : list (N * N * N) :=
  [
    (768, 788, 230); (789, 789, 232); (790, 793, 220); (794, 794, 232); (795, 795, 216);
    (796, 800, 220); (801, 802, 202); (803, 806, 220); (807, 808, 202); (809, 819, 220);
    (820, 824, 1); (825, 828, 220); (829, 836, 230); (837, 837, 240); (838, 838, 230);
    (839, 841, 220); (842, 844, 230); (845, 846, 220); (848, 850, 230); (851, 854, 220);
    (855, 855, 230); (856, 856, 232); (857, 858, 220); (859, 859, 230); (860, 860, 233);
    (861, 862, 234); (863, 863, 233); (864, 865, 234); (866, 866, 233); (867, 879, 230);
    (1155, 1159, 230); (1425, 1425, 220); (1426, 1429, 230); (1430, 1430, 220);
    (1431, 1433, 230); (1434, 1434, 222); (1435, 1435, 220); (1436, 1441, 230);
    (1442, 1447, 220); (1448, 1449, 230); (1450, 1450, 220); (1451, 1452, 230);
    (1453, 1453, 222); (1454, 1454, 228); (1455, 1455, 230); (1456, 1456, 10);
    (1457, 1457, 11); (1458, 1458, 12); (1459, 1459, 13); (1460, 1460, 14); (1461, 1461, 15);
    (1462, 1462, 16); (1463, 1463, 17); (1464, 1464, 18); (1465, 1466, 19); (1467, 1467, 20);
    (1468, 1468, 21); (1469, 1469, 22); (1471, 1471, 23); (1473, 1473, 24); (1474, 1474, 25);
    (1476, 1476, 230); (1477, 1477, 220); (1479, 1479, 18); (1552, 1559, 230);
    (1560, 1560, 30); (1561, 1561, 31); (1562, 1562, 32); (1611, 1611, 27); (1612, 1612, 28);
    (1613, 1613, 29); (1614, 1614, 30); (1615, 1615, 31); (1616, 1616, 32); (1617, 1617, 33);
    (1618, 1618, 34); (1619, 1620, 230); (1621, 1622, 220); (1623, 1627, 230);
    (1628, 1628, 220); (1629, 1630, 230); (1631, 1631, 220); (1648, 1648, 35);
    (1750, 1756, 230); (1759, 1762, 230); (1763, 1763, 220); (1764, 1764, 230);
    (1767, 1768, 230); (1770, 1770, 220); (1771, 1772, 230); (1773, 1773, 220);
    (1809, 1809, 36); (1840, 1840, 230); (1841, 1841, 220); (1842, 1843, 230);
    (1844, 1844, 220); (1845, 1846, 230); (1847, 1849, 220); (1850, 1850, 230);
    (1851, 1852, 220); (1853, 1853, 230); (1854, 1854, 220); (1855, 1857, 230);
    (1858, 1858, 220); (1859, 1859, 230); (1860, 1860, 220); (1861, 1861, 230);
    (1862, 1862, 220); (1863, 1863, 230); (1864, 1864, 220); (1865, 1866, 230);
    (2027, 2033, 230); (2034, 2034, 220); (2035, 2035, 230); (2045, 2045, 220);
    (2070, 2073, 230); (2075, 2083, 230); (2085, 2087, 230); (2089, 2093, 230);
    (2137, 2139, 220); (2200, 2200, 230); (2201, 2203, 220); (2204, 2207, 230);
    (2250, 2254, 230); (2255, 2259, 220); (2260, 2273, 230); (2275, 2275, 220);
    (2276, 2277, 230); (2278, 2278, 220); (2279, 2280, 230); (2281, 2281, 220);
    (2282, 2284, 230); (2285, 2287, 220); (2288, 2288, 27); (2289, 2289, 28); (2290, 2290, 29);
    (2291, 2293, 230); (2294, 2294, 220); (2295, 2296, 230); (2297, 2298, 220);
    (2299, 2303, 230); (2364, 2364, 7); (2381, 2381, 9); (2385, 2385, 230); (2386, 2386, 220);
    (2387, 2388, 230); (2492, 2492, 7); (2509, 2509, 9); (2558, 2558, 230); (2620, 2620, 7);
    (2637, 2637, 9); (2748, 2748, 7); (2765, 2765, 9); (2876, 2876, 7); (2893, 2893, 9);
    (3021, 3021, 9); (3132, 3132, 7); (3149, 3149, 9); (3157, 3157, 84); (3158, 3158, 91);
    (3260, 3260, 7); (3277, 3277, 9); (3387, 3388, 9); (3405, 3405, 9); (3530, 3530, 9);
    (3640, 3641, 103); (3642, 3642, 9); (3656, 3659, 107); (3768, 3769, 118); (3770, 3770, 9);
    (3784, 3787, 122); (3864, 3865, 220); (3893, 3893, 220); (3895, 3895, 220);
    (3897, 3897, 216); (3953, 3953, 129); (3954, 3954, 130); (3956, 3956, 132);
    (3962, 3965, 130); (3968, 3968, 130); (3970, 3971, 230); (3972, 3972, 9);
    (3974, 3975, 230); (4038, 4038, 220); (4151, 4151, 7); (4153, 4154, 9); (4237, 4237, 220);
    (4957, 4959, 230); (5908, 5909, 9); (5940, 5940, 9); (6098, 6098, 9); (6109, 6109, 230);
    (6313, 6313, 228); (6457, 6457, 222); (6458, 6458, 230); (6459, 6459, 220);
    (6679, 6679, 230); (6680, 6680, 220); (6752, 6752, 9); (6773, 6780, 230);
    (6783, 6783, 220); (6832, 6836, 230); (6837, 6842, 220); (6843, 6844, 230);
    (6845, 6845, 220); (6847, 6848, 220); (6849, 6850, 230); (6851, 6852, 220);
    (6853, 6857, 230); (6858, 6858, 220); (6859, 6862, 230); (6964, 6964, 7); (6980, 6980, 9);
    (7019, 7019, 230); (7020, 7020, 220); (7021, 7027, 230); (7082, 7083, 9); (7142, 7142, 7);
    (7154, 7155, 9); (7223, 7223, 7); (7376, 7378, 230); (7380, 7380, 1); (7381, 7385, 220);
    (7386, 7387, 230); (7388, 7391, 220); (7392, 7392, 230); (7394, 7400, 1);
    (7405, 7405, 220); (7412, 7412, 230); (7416, 7417, 230); (7616, 7617, 230);
    (7618, 7618, 220); (7619, 7625, 230); (7626, 7626, 220); (7627, 7628, 230);
    (7629, 7629, 234); (7630, 7630, 214); (7631, 7631, 220); (7632, 7632, 202);
    (7633, 7669, 230); (7670, 7670, 232); (7671, 7672, 228); (7673, 7673, 220);
    (7674, 7674, 218); (7675, 7675, 230); (7676, 7676, 233); (7677, 7677, 220);
    (7678, 7678, 230); (7679, 7679, 220); (8400, 8401, 230); (8402, 8403, 1);
    (8404, 8407, 230); (8408, 8410, 1); (8411, 8412, 230); (8417, 8417, 230); (8421, 8422, 1);
    (8423, 8423, 230); (8424, 8424, 220); (8425, 8425, 230); (8426, 8427, 1);
    (8428, 8431, 220); (8432, 8432, 230); (11503, 11505, 230); (11647, 11647, 9);
    (11744, 11775, 230); (12330, 12330, 218); (12331, 12331, 228); (12332, 12332, 232);
    (12333, 12333, 222); (12334, 12335, 224); (12441, 12442, 8); (42607, 42607, 230);
    (42612, 42621, 230); (42654, 42655, 230); (42736, 42737, 230); (43014, 43014, 9);
    (43052, 43052, 9); (43204, 43204, 9); (43232, 43249, 230); (43307, 43309, 220);
    (43347, 43347, 9); (43443, 43443, 7); (43456, 43456, 9); (43696, 43696, 230);
    (43698, 43699, 230); (43700, 43700, 220); (43703, 43704, 230); (43710, 43711, 230);
    (43713, 43713, 230); (43766, 43766, 9); (44013, 44013, 9); (64286, 64286, 26);
    (65056, 65062, 230); (65063, 65069, 220); (65070, 65071, 230); (66045, 66045, 220);
    (66272, 66272, 220); (66422, 66426, 230); (68109, 68109, 220); (68111, 68111, 230);
    (68152, 68152, 230); (68153, 68153, 1); (68154, 68154, 220); (68159, 68159, 9);
    (68325, 68325, 230); (68326, 68326, 220); (68900, 68903, 230); (69291, 69292, 230);
    (69446, 69447, 220); (69448, 69450, 230); (69451, 69451, 220); (69452, 69452, 230);
    (69453, 69456, 220); (69506, 69506, 230); (69507, 69507, 220); (69508, 69508, 230);
    (69509, 69509, 220); (69702, 69702, 9); (69744, 69744, 9); (69759, 69759, 9);
    (69817, 69817, 9); (69818, 69818, 7); (69888, 69890, 230); (69939, 69940, 9);
    (70003, 70003, 7); (70080, 70080, 9); (70090, 70090, 7); (70197, 70197, 9);
    (70198, 70198, 7); (70377, 70377, 7); (70378, 70378, 9); (70459, 70460, 7);
    (70477, 70477, 9); (70502, 70508, 230); (70512, 70516, 230); (70722, 70722, 9);
    (70726, 70726, 7); (70750, 70750, 230); (70850, 70850, 9); (70851, 70851, 7);
    (71103, 71103, 9); (71104, 71104, 7); (71231, 71231, 9); (71350, 71350, 9);
    (71351, 71351, 7); (71467, 71467, 9); (71737, 71737, 9); (71738, 71738, 7);
    (71997, 71998, 9); (72003, 72003, 7); (72160, 72160, 9); (72244, 72244, 9);
    (72263, 72263, 9); (72345, 72345, 9); (72767, 72767, 9); (73026, 73026, 7);
    (73028, 73029, 9); (73111, 73111, 9); (92912, 92916, 1); (92976, 92982, 230);
    (94192, 94193, 6); (113822, 113822, 1); (119141, 119142, 216); (119143, 119145, 1);
    (119149, 119149, 226); (119150, 119154, 216); (119163, 119170, 220); (119173, 119177, 230);
    (119178, 119179, 220); (119210, 119213, 230); (119362, 119364, 230); (122880, 122886, 230);
    (122888, 122904, 230); (122907, 122913, 230); (122915, 122916, 230); (122918, 122922, 230);
    (123184, 123190, 230); (123566, 123566, 230); (123628, 123631, 230); (125136, 125142, 220);
    (125252, 125257, 230); (125258, 125258, 7)
  ].

(** The code points of general category Mn (nonspacing marks). *)
Definition Mn_ranges : list (N * N) :=
  [
    (768, 879); (1155, 1159); (1425, 1469); (1471, 1471); (1473, 1474); (1476, 1477);
    (1479, 1479); (1552, 1562); (1611, 1631); (1648, 1648); (1750, 1756); (1759, 1764);
    (1767, 1768); (1770, 1773); (1809, 1809); (1840, 1866); (1958, 1968); (2027, 2035);
    (2045, 2045); (2070, 2073); (2075, 2083); (2085, 2087); (2089, 2093); (2137, 2139);
    (2200, 2207); (2250, 2273); (2275, 2306); (2362, 2362); (2364, 2364); (2369, 2376);
    (2381, 2381); (2385, 2391); (2402, 2403); (2433, 2433); (2492, 2492); (2497, 2500);
    (2509, 2509); (2530, 2531); (2558, 2558); (2561, 2562); (2620, 2620); (2625, 2626);
    (2631, 2632); (2635, 2637); (2641, 2641); (2672, 2673); (2677, 2677); (2689, 2690);
    (2748, 2748); (2753, 2757); (2759, 2760); (2765, 2765); (2786, 2787); (2810, 2815);
    (2817, 2817); (2876, 2876); (2879, 2879); (2881, 2884); (2893, 2893); (2901, 2902);
    (2914, 2915); (2946, 2946); (3008, 3008); (3021, 3021); (3072, 3072); (3076, 3076);
    (3132, 3132); (3134, 3136); (3142, 3144); (3146, 3149); (3157, 3158); (3170, 3171);
    (3201, 3201); (3260, 3260); (3263, 3263); (3270, 3270); (3276, 3277); (3298, 3299);
    (3328, 3329); (3387, 3388); (3393, 3396); (3405, 3405); (3426, 3427); (3457, 3457);
    (3530, 3530); (3538, 3540); (3542, 3542); (3633, 3633); (3636, 3642); (3655, 3662);
    (3761, 3761); (3764, 3772); (3784, 3789); (3864, 3865); (3893, 3893); (3895, 3895);
    (3897, 3897); (3953, 3966); (3968, 3972); (3974, 3975); (3981, 3991); (3993, 4028);
    (4038, 4038); (4141, 4144); (4146, 4151); (4153, 4154); (4157, 4158); (4184, 4185);
    (4190, 4192); (4209, 4212); (4226, 4226); (4229, 4230); (4237, 4237); (4253, 4253);
    (4957, 4959); (5906, 5908); (5938, 5939); (5970, 5971); (6002, 6003); (6068, 6069);
    (6071, 6077); (6086, 6086); (6089, 6099); (6109, 6109); (6155, 6157); (6159, 6159);
    (6277, 6278); (6313, 6313); (6432, 6434); (6439, 6440); (6450, 6450); (6457, 6459);
    (6679, 6680); (6683, 6683); (6742, 6742); (6744, 6750); (6752, 6752); (6754, 6754);
    (6757, 6764); (6771, 6780); (6783, 6783); (6832, 6845); (6847, 6862); (6912, 6915);
    (6964, 6964); (6966, 6970); (6972, 6972); (6978, 6978); (7019, 7027); (7040, 7041);
    (7074, 7077); (7080, 7081); (7083, 7085); (7142, 7142); (7144, 7145); (7149, 7149);
    (7151, 7153); (7212, 7219); (7222, 7223); (7376, 7378); (7380, 7392); (7394, 7400);
    (7405, 7405); (7412, 7412); (7416, 7417); (7616, 7679); (8400, 8412); (8417, 8417);
    (8421, 8432); (11503, 11505); (11647, 11647); (11744, 11775); (12330, 12333);
    (12441, 12442); (42607, 42607); (42612, 42621); (42654, 42655); (42736, 42737);
    (43010, 43010); (43014, 43014); (43019, 43019); (43045, 43046); (43052, 43052);
    (43204, 43205); (43232, 43249); (43263, 43263); (43302, 43309); (43335, 43345);
    (43392, 43394); (43443, 43443); (43446, 43449); (43452, 43453); (43493, 43493);
    (43561, 43566); (43569, 43570); (43573, 43574); (43587, 43587); (43596, 43596);
    (43644, 43644); (43696, 43696); (43698, 43700); (43703, 43704); (43710, 43711);
    (43713, 43713); (43756, 43757); (43766, 43766); (44005, 44005); (44008, 44008);
    (44013, 44013); (64286, 64286); (65024, 65039); (65056, 65071); (66045, 66045);
    (66272, 66272); (66422, 66426); (68097, 68099); (68101, 68102); (68108, 68111);
    (68152, 68154); (68159, 68159); (68325, 68326); (68900, 68903); (69291, 69292);
    (69446, 69456); (69506, 69509); (69633, 69633); (69688, 69702); (69744, 69744);
    (69747, 69748); (69759, 69761); (69811, 69814); (69817, 69818); (69826, 69826);
    (69888, 69890); (69927, 69931); (69933, 69940); (70003, 70003); (70016, 70017);
    (70070, 70078); (70089, 70092); (70095, 70095); (70191, 70193); (70196, 70196);
    (70198, 70199); (70206, 70206); (70367, 70367); (70371, 70378); (70400, 70401);
    (70459, 70460); (70464, 70464); (70502, 70508); (70512, 70516); (70712, 70719);
    (70722, 70724); (70726, 70726); (70750, 70750); (70835, 70840); (70842, 70842);
    (70847, 70848); (70850, 70851); (71090, 71093); (71100, 71101); (71103, 71104);
    (71132, 71133); (71219, 71226); (71229, 71229); (71231, 71232); (71339, 71339);
    (71341, 71341); (71344, 71349); (71351, 71351); (71453, 71455); (71458, 71461);
    (71463, 71467); (71727, 71735); (71737, 71738); (71995, 71996); (71998, 71998);
    (72003, 72003); (72148, 72151); (72154, 72155); (72160, 72160); (72193, 72202);
    (72243, 72248); (72251, 72254); (72263, 72263); (72273, 72278); (72281, 72283);
    (72330, 72342); (72344, 72345); (72752, 72758); (72760, 72765); (72767, 72767);
    (72850, 72871); (72874, 72880); (72882, 72883); (72885, 72886); (73009, 73014);
    (73018, 73018); (73020, 73021); (73023, 73029); (73031, 73031); (73104, 73105);
    (73109, 73109); (73111, 73111); (73459, 73460); (92912, 92916); (92976, 92982);
    (94031, 94031); (94095, 94098); (94180, 94180); (113821, 113822); (118528, 118573);
    (118576, 118598); (119143, 119145); (119163, 119170); (119173, 119179); (119210, 119213);
    (119362, 119364); (121344, 121398); (121403, 121452); (121461, 121461); (121476, 121476);
    (121499, 121503); (121505, 121519); (122880, 122886); (122888, 122904); (122907, 122913);
    (122915, 122916); (122918, 122922); (123184, 123190); (123566, 123566); (123628, 123631);
    (125136, 125142); (125252, 125258); (917760, 917999)
  ].

(** ** [str.lower]

    Every character is replaced by its full lowercase mapping, but the
    capital sigma U+03A3, which gives the final sigma U+03C2 when it ends a
    word and U+03C3 otherwise; whether it ends a word is read in the string
    as it was given, not in its lowercase form. *)

Definition lower_full (c : N) : list N :=
  match table_get c lower_table with
  | Some mapped => mapped
  | None => [c]
  end.

Definition is_case_ignorable (c : N) : bool := in_ranges c case_ignorable_ranges.

(** Whether a character that is not case-ignorable is cased. *)
Definition is_cased (c : N) : bool := in_ranges c cased_ranges.

(** The first character of [s] that is not case-ignorable. *)
Fixpoint first_significant (s : str) : option N :=
  match s with
  | [] => None
  | c :: s' => if is_case_ignorable c then first_significant s' else Some c
  end.

(** The sigma ends a word: case-ignorable characters apart, a cased
    character comes before it and none comes after it.  [before] is the
    text before the sigma, the nearest character first. *)
Definition final_sigma (before after : str) : bool :=
  match first_significant before with
  | Some c =>
      is_cased c
      && match first_significant after with
         | Some d => negb (is_cased d)
         | None => true
         end
  | None => false
  end.

(** The lowercase form of the character [c] between [before] (the nearest
    character first) and [after]. *)
Definition lower_at (before : str) (c : N) (after : str) : str :=
  if c =? 931 then [if final_sigma before after then 962 else 963]
  else lower_full c.

Fixpoint lower_from (before s : str) : str :=
  match s with
  | [] => []
  | c :: rest => lower_at before c rest ++ lower_from (c :: before) rest
  end.

(** [s.lower()] *)
Definition lower (s : str) : str := lower_from [] s.

(** The code points [str.isspace] accepts, listed. *)
Definition spaces : list N :=
  [9; 10; 11; 12; 13; 28; 29; 30; 31; 32; 133; 160; 5760;
   8192; 8193; 8194; 8195; 8196; 8197; 8198; 8199; 8200; 8201; 8202;
   8232; 8233; 8239; 8287; 12288].

(** A code point without an entry in the lowercase table. *)
Definition unmapped (c : N) : bool :=
  match table_get c lower_table with
  | None => true
  | Some _ => false
  end.

(** [prefix p s]: [s.startswith(p)] *)
Fixpoint starts_with (p s : str) : bool :=
  match p, s with
  | [], _ => true
  | _ :: _, [] => false
  | a :: p', b :: s' => (a =? b) && starts_with p' s'
  end.

(** [needle in hay] on strings: substring test. *)
Fixpoint contains (needle hay : str) : bool :=
  starts_with needle hay
  || match hay with
     | [] => false
     | _ :: hay' => contains needle hay'
     end.

(** [s.endswith(p)] *)
Definition ends_with (p s : str) : bool := starts_with (rev p) (rev s).

(** [s.rstrip("/")] *)
Definition rstrip_slash (s : str) : str := rstrip_by (N.eqb 47) s.

(** [unicodedata.normalize('NFD', s)]: every character is replaced by
    its full canonical decomposition (a Hangul syllable by its jamos), and
    the combining marks are then put in canonical order. *)
Definition decompose (c : N) : list N :=
  if (44032 <=? c) && (c <=? 55203) then
    let s := c - 44032 in
    let l := 4352 + s / 588 in
    let v := 4449 + (s mod 588) / 28 in
    let t := 4519 + s mod 28 in
    if t =? 4519 then [l; v] else [l; v; t]
  else
    match table_get c decomposition_table with
    | Some d => d
    | None => [c]
    end.

(** [unicodedata.combining(c)] *)
Definition combining (c : N) : N :=
  match List.find (fun r => (fst (fst r) <=? c) && (c <=? snd (fst r))) combining_ranges with
  | Some r => snd r
  | None => 0
  end.

(** One step of the canonical ordering: [c] goes before the marks of higher
    class that end the text placed so far ([placed], the last character
    first). *)
Fixpoint insert_mark (c : N) (placed : str) : str :=
  match placed with
  | [] => [c]
  | h :: placed' =>
      if negb (combining c =? 0) && negb (combining h =? 0) && (combining c <? combining h)
      then h :: insert_mark c placed'
      else c :: placed
  end.

Definition canonical_order (s : str) : str :=
  rev (fold_left (fun placed c => insert_mark c placed) s []).

Definition NFD (s : str) : str := canonical_order (flat_map decompose s).

(** [unicodedata.category(c) == 'Mn'] *)
Definition is_Mn (c : N) : bool := in_ranges c Mn_ranges.

(** The inner function [deaccent] of [_expand_queries]. *)
Definition deaccent (s : str) : str :=
  List.filter (fun c => negb (is_Mn c)) (NFD s).

(** ** Python floats *)

Definition pyfloat := spec_float.

Definition flt (f : float) : pyfloat := Prim2SF f.

Definition fadd : pyfloat -> pyfloat -> pyfloat := SFadd 53 1024.

(** The binary64 value nearest to the ratio [n / d] of two naturals
    ([d] positive), ties to even. *)
Definition float_of_ratio (n d : N) : pyfloat :=
  match n, d with
  | N0, _ => S754_zero false
  | Npos p, Npos q => SFdiv 53 1024 (S754_finite false p 0) (S754_finite false q 0)
  | Npos p, N0 => S754_infinity false
  end.

(** [0.0 <= x] as Python evaluates it. *)
Definition nonneg (x : pyfloat) : bool := SFleb (S754_zero false) x.

(** Value of a run of ASCII digits, most significant first; [None] when a
    character is not a digit. *)
Definition is_digit (c : N) : bool := (48 <=? c) && (c <=? 57).

Fixpoint digits_value (acc : N) (s : str) : option N :=
  match s with
  | [] => Some acc
  | c :: s' => if is_digit c then digits_value (acc * 10 + (c - 48)) s' else None
  end.

(** [s.partition(c)] when [c] occurs: the text before and after its first
    occurrence. *)
Fixpoint split_on (c : N) (s : str) : option (str * str) :=
  match s with
  | [] => None
  | x :: s' =>
      if x =? c then Some ([], s')
      else match split_on c s' with
           | Some (a, b) => Some (x :: a, b)
           | None => None
           end
  end.

(** Outcome of a Python call: a value or a raised exception. *)
Inductive exn := ValueError | AttributeError.

Inductive outcome (A : Type) :=
| Ret (a : A)
| Raise (e : exn).
Arguments Ret {A} a.
Arguments Raise {A} e.

(** [float(s)] on a decimal point literal [D+ "." D+] (the only shape
    [parse_brl] builds): the nearest binary64 value, infinity when it is out
    of range.  Any other string is reported as [ValueError]; signs,
    exponents, [inf]/[nan] and padding, which [float] also accepts, are not
    modelled. *)
Definition py_float (s : str) : outcome pyfloat :=
  match split_on 46 s with
  | Some (ip, fp) =>
      match ip, fp, digits_value 0 (ip ++ fp) with
      | _ :: _, _ :: _, Some n => Ret (float_of_ratio n (10 ^ N.of_nat (length fp)))
      | _, _, _ => Raise ValueError
      end
  | None => Raise ValueError
  end.

(** ** Regular expressions: a backtracking matcher

    [run r s g] lists, in the order a backtracking engine tries them, the
    ways [r] matches a prefix of [s]: the rest of the input and the groups
    captured.  The head of the list is the match Python's [re] reports. *)

Definition groups := list (nat * str).

Fixpoint group (i : nat) (g : groups) : option str :=
  match g with
  | [] => None
  | (j, w) :: g' => if Nat.eqb i j then Some w else group i g'
  end.

Inductive regex :=
| Eps
| Cls (p : N -> bool)                          (* a literal, a class, an escape *)
| Cat (r1 r2 : regex)
| Alt (r1 r2 : regex)                          (* r1|r2, r1 tried first *)
| Rep (lo : nat) (hi : option nat) (r : regex) (* greedy r{lo,hi} *)
| Grp (i : nat) (r : regex).                   (* capturing group number i *)

Definition Chr (c : N) : regex := Cls (N.eqb c).

(** What was consumed between the input [s] and the rest [s']. *)
Definition consumed (s s' : str) : str := take (length s - length s') s.

(** Greedy repetition: one more iteration of [step] first, fewer iterations
    on backtracking.  An iteration that consumes nothing is not repeated. *)
Fixpoint rep_loop (step : str -> groups -> list (str * groups))
    (fuel lo : nat) (hi : option nat) (s : str) (g : groups) : list (str * groups) :=
  let stop := match lo with O => [(s, g)] | S _ => [] end in
  match fuel, hi with
  | O, _ | _, Some O => stop
  | S fuel', _ =>
      flat_map (fun '(s1, g1) =>
                  if (length s1 <? length s)%nat
                  then rep_loop step fuel' (pred lo) (pred <$> hi) s1 g1
                  else [])
               (step s g) ++ stop
  end.

Fixpoint run (r : regex) (s : str) (g : groups) : list (str * groups) :=
  match r with
  | Eps => [(s, g)]
  | Cls p =>
      match s with
      | c :: s' => if p c then [(s', g)] else []
      | [] => []
      end
  | Cat r1 r2 => flat_map (fun '(s1, g1) => run r2 s1 g1) (run r1 s g)
  | Alt r1 r2 => run r1 s g ++ run r2 s g
  | Rep lo hi r1 => rep_loop (run r1) (length s) lo hi s g
  | Grp i r1 => map (fun '(s1, g1) => (s1, (i, consumed s s1) :: g1)) (run r1 s g)
  end.

(** A match object: what precedes the match, the match, what follows, and
    the groups. *)
Record re_match := { m_pre : str; m_text : str; m_post : str; m_groups : groups }.

(** [pattern.search(s)]: the first match at the leftmost position that has
    one; [pre] is the reversed text already skipped. *)
Fixpoint search_from (r : regex) (pre : str) (s : str) : option re_match :=
  match run r s [] with
  | (s', g) :: _ =>
      Some {| m_pre := rev pre; m_text := consumed s s'; m_post := s'; m_groups := g |}
  | [] =>
      match s with
      | [] => None
      | c :: s' => search_from r (c :: pre) s'
      end
  end.

Definition re_search (r : regex) (s : str) : option re_match := search_from r [] s.

(** The pattern
    [R\$\s*([0-9]{1,3}(?:\.[0-9]{3})*|[0-9]+),([0-9]{2})] of CURRENCY_RE. *)
Definition re_digit : regex := Cls is_digit.

Definition re_grouped : regex :=
  Cat (Rep 1 (Some 3%nat) re_digit) (Rep 0 None (Cat (Chr 46) (Rep 3 (Some 3%nat) re_digit))).

Definition re_plain : regex := Rep 1 None re_digit.

Definition currency_with (int_part : regex) : regex :=
  Cat (Chr 82) (Cat (Chr 36) (Cat (Rep 0 None (Cls is_space))
    (Cat (Grp 1 int_part) (Cat (Chr 44) (Grp 2 (Rep 2 (Some 2%nat) re_digit)))))).

Definition CURRENCY_RE : regex := currency_with (Alt re_grouped re_plain).

(** [s.replace(".", "")] *)
Definition remove_dots (s : str) : str := List.filter (fun c => negb (c =? 46)) s.

(** [parse_brl(value)] of backend/agent.py.  [m.groups()] yields [None] for a
    group that took no part in the match, on which [.replace] raises
    outside the [try]. *)
Definition parse_brl (value : str) : outcome (option pyfloat) :=
  match re_search CURRENCY_RE value with
  | None => Ret None
  | Some m =>
      match group 1 (m_groups m), group 2 (m_groups m) with
      | Some inteiro, Some centavos =>
          let inteiro := remove_dots inteiro in
          match py_float (inteiro ++ [46] ++ centavos) with
          | Ret v => Ret (Some v)
          | Raise _ => Ret None
          end
      | _, _ => Raise AttributeError
      end
  end.

(** ** The price format in words

    What the specification calls the Brazilian format: the marker [R$],
    optional whitespace, an integer part, a comma and two fraction
    digits. *)

Definition all_digits (s : str) : Prop := Forall (fun c => is_digit c = true) s.

(** One to three digits followed by groups of a dot and three digits. *)
Definition thousands_grouped (s : str) : Prop :=
  exists h gs,
    s = h ++ concat (map (cons 46) gs)
    /\ all_digits h /\ (1 <= length h <= 3)%nat
    /\ Forall (fun g3 => all_digits g3 /\ length g3 = 3%nat) gs.

(** A run of one or more digits with no separator. *)
Definition digit_run (s : str) : Prop := all_digits s /\ s <> [].

(** The integer part that CURRENCY_RE accepts: either alternative. *)
Definition brl_int (s : str) : Prop := thousands_grouped s \/ digit_run s.

Definition brl_text (int_ok : str -> Prop) (w int frac : str) : Prop :=
  exists ws,
    w = [82; 36] ++ ws ++ int ++ [44] ++ frac
    /\ Forall (fun c => is_space c = true) ws
    /\ int_ok int /\ all_digits frac /\ length frac = 2%nat.

(** A price text starts at offset [n] of [s]. *)
Definition occurs_at (int_ok : str -> Prop) (s : str) (n : nat) (int frac : str) : Prop :=
  (n <= length s)%nat /\ exists w post, drop n s = w ++ post /\ brl_text int_ok w int frac.

(** The number that the digits of [s] spell, separators skipped. *)
Definition digits_number (s : str) : N :=
  fold_left (fun acc c => if is_digit c then acc * 10 + (c - 48) else acc) s 0.

(** The binary64 value of the decimal number [int,frac] (two fraction
    digits). *)
Definition decimal_value (int frac : str) : pyfloat :=
  float_of_ratio (digits_number (int ++ frac)) 100.

(** [round(x, 2)]: the exact value of [x] is rounded to the nearest
    multiple of 1/100, ties to the even one (the correctly rounded two-digit
    decimal string), which is then read back as a binary64 value.  NaN, the
    infinities and the zeros round to themselves. *)
Definition round_half_even_div (a d : Z) : Z :=
  let q := (a / d)%Z in
  let r := (a mod d)%Z in
  match (2 * r ?= d)%Z with
  | Lt => q
  | Gt => (q + 1)%Z
  | Eq => if Z.even q then q else (q + 1)%Z
  end.

Definition py_round2 (x : pyfloat) : pyfloat :=
  match x with
  | S754_finite s m e =>
      let hundredths :=
        match e with
        | Zneg k => round_half_even_div (Zpos m * 100) (2 ^ Zpos k)
        | _ => (Zpos m * 100 * 2 ^ e)%Z
        end in
      match hundredths with
      | Zpos p => SFdiv 53 1024 (S754_finite s p 0) (S754_finite false 100 0)
      | _ => S754_zero s
      end
  | _ => x
  end.

(** ** Python dictionaries

    Insertion-ordered: a write to a key that is present keeps its place,
    a write to a new key goes last. *)

Definition dict (V : Type) := list (str * V).

Fixpoint dict_get {V} (k : str) (d : dict V) : option V :=
  match d with
  | [] => None
  | (k', v) :: d' => if str_eqb k k' then Some v else dict_get k d'
  end.

(** [d[k] = v] *)
Fixpoint dict_set {V} (k : str) (v : V) (d : dict V) : dict V :=
  match d with
  | [] => [(k, v)]
  | (k', v') :: d' =>
      if str_eqb k k' then (k', v) :: d' else (k', v') :: dict_set k v d'
  end.

Definition dict_keys {V} (d : dict V) : list str := map fst d.

Definition dict_values {V} (d : dict V) : list V := map snd d.

(** The class invariant of a Python dictionary: keys are unique. *)
Definition dict_ok {V} (d : dict V) : Prop := NoDup (dict_keys d).

(** ** backend/normalizer.py *)

Record Normalizer := { mapping : dict str }.

(** [Normalizer(mapping)]:
    [self.mapping = {k.lower(): v.lower() for k, v in mapping.items()}] *)
Definition Normalizer_init (m : dict str) : Normalizer :=
  {| mapping := fold_left (fun acc '(k, v) => dict_set (lower k) (lower v) acc) m [] |}.

(** [Normalizer.normalize] *)
Definition normalize (self : Normalizer) (term : str) : str :=
  let t := lower (strip term) in
  if str_falsy t then t
  else match dict_get t (mapping self) with
       | Some canonical => canonical
       | None => t
       end.

(** [Normalizer.add] *)
Definition Normalizer_add (self : Normalizer) (variant canonical : str) : Normalizer :=
  {| mapping := dict_set (lower (strip variant)) (lower (strip canonical)) (mapping self) |}.

Definition load_default_mapping : dict str :=
  [ (u8 "arroz", u8 "arroz 5kg tipo 1");
    (u8 "feijao", u8 "feijão carioca 1kg");
    (u8 "feijão", u8 "feijão carioca 1kg");
    (u8 "oleo", u8 "óleo de soja 900ml");
    (u8 "óleo", u8 "óleo de soja 900ml");
    (u8 "cafe", u8 "café 500g");
    (u8 "café", u8 "café 500g");
    (u8 "acucar", u8 "açúcar 1kg");
    (u8 "açucar", u8 "açúcar 1kg");
    (u8 "açúcar", u8 "açúcar 1kg");
    (u8 "trigo", u8 "farinha de trigo 1kg");
    (u8 "leite", u8 "leite longa vida 1l") ].

(** ** backend/main.py: [run_quote] *)

Definition PriceDB := dict (dict pyfloat).

Record quote_line := {
  item_buscado : str;
  item_encontrado : str;
  preco : pyfloat
}.

Record QuoteResult := {
  requested_at : str;
  source : str;
  currency : str;
  cotacoes_detalhadas : dict (list quote_line);
  totais_por_mercado : dict pyfloat
}.

Definition float_zero : pyfloat := S754_zero false.

Definition NOT_FOUND : str := u8 "Item não encontrado neste mercado".

(** The innermost loop: the scan of one market's items, left at the first
    item whose name contains the term.  The state is
    [(encontrado, preco, total_mercado)]. *)
Fixpoint scan_items (termo : str) (precos_do_mercado : dict pyfloat)
    (total_mercado : pyfloat) : option str * pyfloat * pyfloat :=
  match precos_do_mercado with
  | [] => (None, float_zero, total_mercado)
  | (item_db, preco_db) :: rest =>
      if contains termo item_db
      then (Some item_db, preco_db, fadd total_mercado preco_db)
      else scan_items termo rest total_mercado
  end.

(** One turn of the loop over the requested items; the state is
    [(lista_de_itens_mercado, total_mercado)]. *)
Definition quote_item (normalizer : option Normalizer) (precos_do_mercado : dict pyfloat)
    (st : list quote_line * pyfloat) (buscado : str) : list quote_line * pyfloat :=
  let '(lista, total_mercado) := st in
  let termo := lower (strip buscado) in
  let termo := match normalizer with
               | Some n => normalize n termo
               | None => termo
               end in
  if str_falsy termo then st
  else
    let '(encontrado, preco, total_mercado) := scan_items termo precos_do_mercado total_mercado in
    let truthy := match encontrado with
                  | Some e => negb (str_falsy e)
                  | None => false
                  end in
    match encontrado, truthy with
    | Some e, true =>
        (lista ++ [{| item_buscado := buscado; item_encontrado := e; preco := preco |}],
         total_mercado)
    | _, _ =>
        (lista ++ [{| item_buscado := buscado; item_encontrado := NOT_FOUND;
                      preco := float_zero |}],
         total_mercado)
    end.

(** [run_quote(itens, price_db, normalizer)]; [now] is what [now_iso()]
    returns. *)
Definition run_quote (now : str) (itens : list str) (price_db : PriceDB)
    (normalizer : option Normalizer) : QuoteResult :=
  let '(cotacoes_finais, totais) :=
    fold_left
      (fun '(cotacoes_finais, totais) '(nome_mercado, precos_do_mercado) =>
         let '(lista, total_mercado) :=
           fold_left (quote_item normalizer precos_do_mercado) itens ([], float_zero) in
         (dict_set nome_mercado lista cotacoes_finais,
          dict_set nome_mercado (py_round2 total_mercado) totais))
      price_db ([], []) in
  {| requested_at := now;
     source := u8 "real";
     currency := u8 "BRL";
     cotacoes_detalhadas := cotacoes_finais;
     totais_por_mercado := totais |}.

(** ** backend/scraper.py: [merge_price_db] on values *)

(** The inner loop: [target[canon] = float(price)] for every item. *)
Definition write_items (normalizer : Normalizer) (items : dict pyfloat)
    (target : dict pyfloat) : dict pyfloat :=
  fold_left (fun target '(item, price) => dict_set (normalize normalizer item) price target)
            items target.

(** [target = db.setdefault(market, {})] followed by the inner loop; the
    target is the dictionary stored in [db]. *)
Definition merge_market (normalizer : Normalizer) (db : PriceDB)
    (entry : str * dict pyfloat) : PriceDB :=
  let '(market, items) := entry in
  let target := match dict_get market db with
                | Some t => t
                | None => []
                end in
  dict_set market (write_items normalizer items target) db.

Definition merge_price_db (current updates : PriceDB) (normalizer : Normalizer) : PriceDB :=
  fold_left (merge_market normalizer) updates current.

(** ** The quote in words

    What the specification says of [run_quote], written with [find],
    [filter] and [map] instead of loops. *)

(** [dict(pairs)] *)
Definition dict_of {V} (pairs : list (str * V)) : dict V :=
  fold_left (fun d kv => dict_set (fst kv) (snd kv) d) pairs [].

(** Trim, lowercase, then replace by the canonical synonym when the
    normalizer has one (the empty term has none). *)
Definition canonical_term (normalizer : option Normalizer) (buscado : str) : str :=
  let t := lower (strip buscado) in
  match normalizer with
  | Some n =>
      if str_falsy t then t
      else match dict_get t (mapping n) with
           | Some c => c
           | None => t
           end
  | None => t
  end.

(** The first stored item whose name contains the term. *)
Definition first_containing (termo : str) (precos : dict pyfloat) : option (str * pyfloat) :=
  List.find (fun kv => contains termo (fst kv)) precos.

(** The line recorded for a requested item, and the prices it adds to the
    total. *)
Definition line_for (normalizer : option Normalizer) (precos : dict pyfloat)
    (buscado : str) : quote_line :=
  match first_containing (canonical_term normalizer buscado) precos with
  | Some (k, p) => {| item_buscado := buscado; item_encontrado := k; preco := p |}
  | None => {| item_buscado := buscado; item_encontrado := NOT_FOUND; preco := float_zero |}
  end.

Definition added_for (normalizer : option Normalizer) (precos : dict pyfloat)
    (buscado : str) : list pyfloat :=
  match first_containing (canonical_term normalizer buscado) precos with
  | Some (_, p) => [p]
  | None => []
  end.

(** The requested items whose normalized term is not empty. *)
Definition quoted (normalizer : option Normalizer) (itens : list str) : list str :=
  List.filter (fun b => negb (str_falsy (canonical_term normalizer b))) itens.

Definition market_lines (normalizer : option Normalizer) (itens : list str)
    (precos : dict pyfloat) : list quote_line :=
  map (line_for normalizer precos) (quoted normalizer itens).

Definition market_total (normalizer : option Normalizer) (itens : list str)
    (precos : dict pyfloat) : pyfloat :=
  py_round2 (fold_left fadd (flat_map (added_for normalizer precos) (quoted normalizer itens))
                       float_zero).

(** The same with a line for every requested item, as the specification
    words it. *)
Definition market_lines_all (normalizer : option Normalizer) (itens : list str)
    (precos : dict pyfloat) : list quote_line :=
  map (line_for normalizer precos) itens.

Definition market_total_all (normalizer : option Normalizer) (itens : list str)
    (precos : dict pyfloat) : pyfloat :=
  py_round2 (fold_left fadd (flat_map (added_for normalizer precos) itens) float_zero).

(** Apply [f] to every value of a dictionary. *)
Definition dict_map {V W} (f : V -> W) (d : dict V) : list (str * W) :=
  map (fun kv => (fst kv, f (snd kv))) d.

(** [merged[name.lower()] = prices] over the gathered results of
    [collect_from_sources]; a task that raised is skipped.  The prices of a
    task are [{k.lower(): float(v) for k, v in prices.items()}] of what its
    scraper returned. *)
Inductive task_result :=
| TaskOk (name : str) (prices : dict pyfloat)
| TaskError.

Definition lower_keys (prices : dict pyfloat) : dict pyfloat :=
  fold_left (fun d kv => dict_set (lower (fst kv)) (snd kv) d) prices [].

Definition run_one (name : str) (fetched : outcome (dict pyfloat)) : task_result :=
  match fetched with
  | Ret prices => TaskOk name (lower_keys prices)
  | Raise _ => TaskError
  end.

Definition gather_results (results : list task_result) : PriceDB :=
  fold_left (fun merged res =>
               match res with
               | TaskError => merged
               | TaskOk name prices => dict_set (lower name) prices merged
               end)
            results [].

(** [collect_from_sources(sources)]: a source is its name and what its
    scraper's [fetch_prices] gave. *)
Definition collect_from_sources (sources : list (str * outcome (dict pyfloat))) : PriceDB :=
  gather_results (map (fun s => run_one (fst s) (snd s)) sources).

(** ** The merge in words *)

(** [db[market][item]] *)
Definition lookup2 (market item : str) (db : PriceDB) : option pyfloat :=
  match dict_get market db with
  | Some items => dict_get item items
  | None => None
  end.

(** The items that [updates] holds for a market. *)
Definition updates_for (market : str) (updates : PriceDB) : dict pyfloat :=
  flat_map (fun e => if str_eqb market (fst e) then snd e else []) updates.

(** The price of the last item whose canonical name is [canon]. *)
Fixpoint last_price (normalizer : Normalizer) (canon : str) (items : dict pyfloat)
    : option pyfloat :=
  match items with
  | [] => None
  | (item, price) :: rest =>
      match last_price normalizer canon rest with
      | Some p => Some p
      | None => if str_eqb canon (normalize normalizer item) then Some price else None
      end
  end.

(** A key written in lowercase. *)
Definition is_lower (s : str) : Prop := lower s = s.

(** The invariant of the price database: market and item keys are
    lowercase. *)
Definition lower_db (db : PriceDB) : Prop :=
  Forall (fun e => is_lower (fst e) /\ Forall (fun kv => is_lower (fst kv)) (snd e)) db.

(** What [Normalizer.__init__] and [Normalizer.add] maintain: canonical
    names are lowercase. *)
Definition lower_values (n : Normalizer) : Prop :=
  Forall (fun kv => is_lower (snd kv)) (mapping n).

(** ** Sequences of writes into a dictionary

    [dict_alter e g k d] replaces the value [v] stored at [k] by [g v], or
    stores [g e] at the new key [k]. *)
Definition dict_alter {V} (e : V) (g : V -> V) (k : str) (d : dict V) : dict V :=
  dict_set k (g (match dict_get k d with Some v => v | None => e end)) d.

Definition alter_all {V} (e : V) (ops : list (str * (V -> V))) (d : dict V) : dict V :=
  fold_left (fun d op => dict_alter e (snd op) (fst op) d) ops d.

(** What the writes of [ops] to the key [k] do, together, to its value. *)
Fixpoint comp_at {V} (k : str) (ops : list (str * (V -> V))) (v : V) : V :=
  match ops with
  | [] => v
  | (k', g) :: ops' => comp_at k ops' (if str_eqb k' k then g v else v)
  end.

Definition other_keys {V} (k : str) (ops : list (str * (V -> V))) : list (str * (V -> V)) :=
  List.filter (fun op => negb (str_eqb (fst op) k)) ops.

(** ** [merge_price_db] on the store

    Dictionaries are objects of a store, held by reference: a database is a
    dictionary of references to item dictionaries.  This is the level at
    which "the input is not mutated" is a statement: the function writes
    into [target], which is the object stored in [db]. *)

Abbreviation loc := nat.

Inductive obj :=
| OItems (d : dict pyfloat)
| ODb (d : dict loc).

Abbreviation heap := (list obj).

Definition read_items (h : heap) (l : loc) : option (dict pyfloat) :=
  match h !! l with
  | Some (OItems d) => Some d
  | _ => None
  end.

Definition read_db (h : heap) (l : loc) : option (dict loc) :=
  match h !! l with
  | Some (ODb d) => Some d
  | _ => None
  end.

(** A new object; its reference is the next free one. *)
Definition alloc (h : heap) (o : obj) : heap * loc := (h ++ [o], length h).

(** The database that a dictionary of references denotes in a store. *)
Fixpoint deref_all (h : heap) (d : dict loc) : option PriceDB :=
  match d with
  | [] => Some []
  | (k, l) :: d' =>
      match read_items h l, deref_all h d' with
      | Some items, Some r => Some ((k, items) :: r)
      | _, _ => None
      end
  end.

Definition db_at (h : heap) (l : loc) : option PriceDB :=
  match read_db h l with
  | Some d => deref_all h d
  | None => None
  end.

(** [{mk: items.copy() for mk, items in current.items()}] *)
Fixpoint copy_markets (h : heap) (cur : dict loc) (acc : dict loc) : option (heap * dict loc) :=
  match cur with
  | [] => Some (h, acc)
  | (mk, l) :: rest =>
      match read_items h l with
      | Some items =>
          let '(h1, l1) := alloc h (OItems items) in
          copy_markets h1 rest (dict_set mk l1 acc)
      | None => None
      end
  end.

(** [for item, price in items.items(): target[canon] = float(price)] *)
Fixpoint write_items_heap (normalizer : Normalizer) (h : heap) (target : loc)
    (items : dict pyfloat) : option heap :=
  match items with
  | [] => Some h
  | (item, price) :: rest =>
      match read_items h target with
      | Some t =>
          write_items_heap normalizer
            (<[target := OItems (dict_set (normalize normalizer item) price t)]> h)
            target rest
      | None => None
      end
  end.

(** [target = db.setdefault(market, {})]: the dictionary stored at the
    market, a new empty one being stored first when there is none. *)
Definition setdefault_market (h : heap) (db : loc) (d : dict loc) (market : str)
    : heap * loc :=
  match dict_get market d with
  | Some t => (h, t)
  | None =>
      let '(h', t) := alloc h (OItems []) in
      (<[db := ODb (dict_set market t d)]> h', t)
  end.

(** [for market, items in updates.items()] *)
Fixpoint merge_markets_heap (normalizer : Normalizer) (h : heap) (db : loc)
    (upd : dict loc) : option heap :=
  match upd with
  | [] => Some h
  | (market, il) :: rest =>
      match read_db h db with
      | None => None
      | Some d =>
          let '(h1, target) := setdefault_market h db d market in
          match read_items h1 il with
          | None => None
          | Some items =>
              match write_items_heap normalizer h1 target items with
              | Some h2 => merge_markets_heap normalizer h2 db rest
              | None => None
              end
          end
      end
  end.

(** [merge_price_db(current, updates, normalizer)] on references: the new
    store and the reference returned; [None] when a reference does not hold
    a dictionary of the expected kind. *)
Definition merge_price_db_heap (h : heap) (current updates : loc) (normalizer : Normalizer)
    : option (heap * loc) :=
  match read_db h current with
  | None => None
  | Some cur =>
      match copy_markets h cur [] with
      | None => None
      | Some (h1, d) =>
          let '(h2, db) := alloc h1 (ODb d) in
          match read_db h2 updates with
          | None => None
          | Some upd =>
              match merge_markets_heap normalizer h2 db upd with
              | Some h3 => Some (h3, db)
              | None => None
              end
          end
      end
  end.

(** Every object of [h] below [base] is in [h'], unchanged. *)
Definition frame (base : nat) (h h' : heap) : Prop :=
  (length h <= length h')%nat /\ forall l, (l < base)%nat -> h' !! l = h !! l.

(** The new database of a running merge: its item dictionaries are
    objects of their own, allocated at or after [base]. *)
Definition db_inv (base : nat) (h : heap) (db : loc) (D : PriceDB) : Prop :=
  exists dl,
    read_db h db = Some dl
    /\ deref_all h dl = Some D
    /\ NoDup (map snd dl)
    /\ Forall (fun kl => (base <= snd kl)%nat) dl
    /\ (base <= db)%nat.

(** ** backend/agent.py: site rules *)

Record SiteRule := {
  domain : str;
  paths : list str;
  search_templates : list str;
  card_selectors : list str;
  name_selectors : list str;
  price_selectors : list str
}.

Definition default_card_selectors : list str :=
  [u8 ".product"; u8 ".product-card"; u8 ".produto"; u8 ".item"; u8 ".offer";
   u8 ".oferta"; u8 ".card"; u8 ".promo"].

Definition default_name_selectors : list str :=
  [u8 ".name"; u8 ".title"; u8 ".product-name"; u8 ".descricao"; u8 ".desc";
   u8 "h3"; u8 "h2"; u8 ".titulo"].

Definition default_price_selectors : list str :=
  [u8 ".price"; u8 ".preco"; u8 ".valor"; u8 ".price-current"; u8 ".value";
   u8 ".preco-atual"].

(** [SiteRule(domain=..., paths=...)] with the other fields at their
    defaults. *)
Definition site_rule (d : str) (ps : list str) : SiteRule :=
  {| domain := d; paths := ps; search_templates := [];
     card_selectors := default_card_selectors;
     name_selectors := default_name_selectors;
     price_selectors := default_price_selectors |}.

Definition DEFAULT_RULES : list SiteRule :=
  [ site_rule (u8 "kawakami.com.br") [u8 "/"; u8 "/ofertas"; u8 "/promocoes"; u8 "/promocao"];
    site_rule (u8 "tauste.com.br") [u8 "/marilia/"; u8 "/ofertas"; u8 "/promocoes"];
    site_rule (u8 "amigao.com") [u8 "/"; u8 "/ofertas"; u8 "/promocoes"];
    site_rule (u8 "confianca.com.br") [u8 "/marilia"; u8 "/ofertas"; u8 "/promocoes"] ].

(** [choose_rule(url, rules)] *)
Fixpoint choose_rule (url : str) (rules : list SiteRule) : option SiteRule :=
  match rules with
  | [] => None
  | r :: rest => if contains (domain r) url then Some r else choose_rule url rest
  end.

(** ** The parsed page

    What the extraction uses of BeautifulSoup, as an interface:
    [bs_parse html] is [BeautifulSoup(html, "html.parser")],
    [select] and [select_one] are the CSS queries of a tag,
    [get_text tag sep] is [tag.get_text(sep, strip=True)], and
    [currency_strings soup] lists the strings that
    [soup.find_all(string=re.compile(r"R\$"))] finds, each with its
    [.parent]. *)
Class Soup (node : Type) := {
  bs_parse : str -> node;
  select : node -> str -> list node;
  select_one : node -> str -> option node;
  get_text : node -> str -> str;
  currency_strings : node -> list (str * option node)
}.

(** [parse_brl] as its callers see it; it does not raise
    ([parse_brl_cases]). *)
Definition price_of_text (text : str) : option pyfloat :=
  match parse_brl text with
  | Ret r => r
  | Raise _ => None
  end.

(** [pattern.sub("", s)]: every match, left to right, removed.  [fuel]
    bounds the number of matches; a match of CURRENCY_RE is not empty. *)
Fixpoint remove_matches (fuel : nat) (r : regex) (s : str) : str :=
  match fuel with
  | O => s
  | S fuel' =>
      match re_search r s with
      | None => s
      | Some m => m_pre m ++ remove_matches fuel' r (m_post m)
      end
  end.

Definition re_sub_empty (r : regex) (s : str) : str := remove_matches (length s) r s.

Definition dict_empty {V} (d : dict V) : bool :=
  match d with [] => true | _ :: _ => false end.

Section Extraction.
Context {node : Type} `{Soup node}.

(** The loop over the name selectors, left at the first element whose
    text is not empty. *)
Fixpoint first_name (card : node) (selectors : list str) : option str :=
  match selectors with
  | [] => None
  | ns :: rest =>
      match select_one card ns with
      | Some el =>
          if negb (str_falsy (get_text el []))
          then Some (get_text el (u8 " "))
          else first_name card rest
      | None => first_name card rest
      end
  end.

(** The name of a card: the first name found, else the card's own text
    cut at 120 characters. *)
Definition card_name (rule : SiteRule) (card : node) : str :=
  match first_name card (name_selectors rule) with
  | Some ((_ :: _) as name_text) => name_text
  | _ => take 120 (get_text card (u8 " "))
  end.

(** The loop over the price selectors, left at the first element whose
    text holds a price. *)
Fixpoint first_price (card : node) (selectors : list str) : option pyfloat :=
  match selectors with
  | [] => None
  | ps :: rest =>
      match select_one card ps with
      | None => first_price card rest
      | Some elp =>
          match price_of_text (get_text elp (u8 " ")) with
          | Some price => Some price
          | None => first_price card rest
          end
      end
  end.

(** The price of a card: the first price found, else a price in the
    card's own text. *)
Definition card_price (rule : SiteRule) (card : node) : option pyfloat :=
  match first_price card (price_selectors rule) with
  | Some price => Some price
  | None => price_of_text (get_text card (u8 " "))
  end.

(** The body of the loop over the cards of one selector. *)
Definition scan_card (rule : SiteRule) (items : dict pyfloat) (card : node) : dict pyfloat :=
  let name_text := card_name rule card in
  let price_val := card_price rule card in
  match str_falsy name_text, price_val with
  | false, Some price => dict_set (lower name_text) price items
  | _, _ => items
  end.

(** The loop over the card selectors; the second component records the
    selectors handed to [soup.select]. *)
Fixpoint scan_selectors (soup : node) (rule : SiteRule) (selectors : list str)
    (items : dict pyfloat) (scanned : list str) : dict pyfloat * list str :=
  match selectors with
  | [] => (items, scanned)
  | card_sel :: rest =>
      let items := fold_left (scan_card rule) (select soup card_sel) items in
      let scanned := scanned ++ [card_sel] in
      if dict_empty items then scan_selectors soup rule rest items scanned
      else (items, scanned)
  end.

Definition extract_from_cards_log (soup : node) (rule : SiteRule)
    : dict pyfloat * list str :=
  scan_selectors soup rule (card_selectors rule) [] [].

(** [extract_from_cards(soup, rule)] *)
Definition extract_from_cards (soup : node) (rule : SiteRule) : dict pyfloat :=
  fst (extract_from_cards_log soup rule).

(** The loop of [extract_fallback] over the strings that hold [R$]. *)
Fixpoint fallback_loop (limit : nat) (strings : list (str * option node))
    (items : dict pyfloat) : dict pyfloat :=
  match strings with
  | [] => items
  | (el, parent) :: rest =>
      match price_of_text (strip el), parent with
      | Some price, Some parent =>
          let ptxt := get_text parent (u8 " ") in
          let name := strip (re_sub_empty CURRENCY_RE ptxt) in
          if str_falsy ptxt || (length name <? 3)%nat
          then fallback_loop limit rest items
          else
            let items := dict_set (lower name) price items in
            if (limit <=? length items)%nat then items
            else fallback_loop limit rest items
      | _, _ => fallback_loop limit rest items
      end
  end.

(** [extract_fallback(soup, limit=100)] *)
Definition extract_fallback (soup : node) (limit : nat) : dict pyfloat :=
  fallback_loop limit (currency_strings soup) [].

(** The two-tier extraction of [fetch_prices_for_url]:
    [if rule: items = extract_from_cards(soup, rule)] and then
    [if not items: items = extract_fallback(soup)]. *)
Definition extract_items (soup : node) (rule : option SiteRule)
    (items : dict pyfloat) : dict pyfloat :=
  let items := match rule with
               | Some r => extract_from_cards soup r
               | None => items
               end in
  if dict_empty items then extract_fallback soup 100 else items.

(** ** Retrieval

    [fetch_html url w] is [await fetch_html(client, url)] in the state
    [w] of the network: the page text, or [None] when the request failed
    (the failure is logged and swallowed).  The functions return, with
    their result, the new state and the URLs fetched, in order. *)
Context {world : Type} (fetch_html : str -> world -> option str * world).

(** A page text that is [None] or empty is falsy. *)
Definition page_of (html : option str) : option str :=
  match html with
  | Some ((_ :: _) as text) => Some text
  | _ => None
  end.

(** [base + p if not base.endswith(p) else base] *)
Definition path_target (base p : str) : str :=
  if negb (ends_with p base) then base ++ p else base.

(** The loop of [fetch_prices_for_url] over the known paths. *)
Fixpoint probe_paths (rule : option SiteRule) (base : str) (ps : list str)
    (items : dict pyfloat) (w : world) (log : list str)
    : dict pyfloat * world * list str :=
  match ps with
  | [] => (items, w, log)
  | p :: rest =>
      let target := path_target base p in
      let '(html2, w) := fetch_html target w in
      let log := log ++ [target] in
      match page_of html2 with
      | None => probe_paths rule base rest items w log
      | Some text =>
          let items := extract_items (bs_parse text) rule items in
          if dict_empty items then probe_paths rule base rest items w log
          else (items, w, log)
      end
  end.

(** [fetch_prices_for_url(url)]; [rules] is what [load_site_rules()]
    returns. *)
Definition fetch_prices_for_url (rules : list SiteRule) (url : str) (w : world)
    : dict pyfloat * world * list str :=
  let rule := choose_rule url rules in
  let ps := match rule with
            | Some r => paths r
            | None => [u8 "/"]
            end in
  let base := rstrip_slash url in
  let '(html, w) := fetch_html base w in
  let log := [base] in
  let items := match page_of html with
               | Some text => extract_items (bs_parse text) rule []
               | None => []
               end in
  if dict_empty items then probe_paths rule base ps items w log
  else (items, w, log).
End Extraction.

(** The items that the cards matching one selector give. *)
Definition selector_items {node} `{Soup node} (soup : node) (rule : SiteRule) (sel : str)
    : dict pyfloat :=
  fold_left (scan_card rule) (select soup sel) [].

(** ** Retrieval in words *)

Section RetrievalSpec.
Context {node : Type} `{Soup node}.
Context {world : Type} (fetch_html : str -> world -> option str * world).

(** One attempt: a URL is fetched and its page, if any, goes through the
    two-tier extraction. *)
Definition attempt (rule : option SiteRule) (url : str) (w : world)
    : dict pyfloat * world :=
  let '(html, w') := fetch_html url w in
  (match page_of html with
   | Some text => extract_items (bs_parse text) rule []
   | None => []
   end, w').

(** The URLs of the list are fetched in turn and none gives an item. *)
Inductive all_fail (rule : option SiteRule) : list str -> world -> world -> Prop :=
| all_fail_nil w : all_fail rule [] w w
| all_fail_cons url urls w w1 w2 :
    attempt rule url w = ([], w1) ->
    all_fail rule urls w1 w2 ->
    all_fail rule (url :: urls) w w2.

(** The URLs [log] were fetched in turn from the state [w], each attempt
    but the last giving nothing: either none gave anything, or the last one
    gave [items]. *)
Definition tried_until_success (rule : option SiteRule) (log : list str)
    (w w' : world) (items : dict pyfloat) (exhausted : Prop) : Prop :=
  (items = [] /\ exhausted /\ all_fail rule log w w')
  \/ (exists before url w1,
        log = before ++ [url]
        /\ all_fail rule before w w1
        /\ attempt rule url w1 = (items, w')
        /\ items <> []).
End RetrievalSpec.

(** The paths of the rule chosen for a URL. *)
Definition paths_for (rules : list SiteRule) (url : str) : list str :=
  match choose_rule url rules with
  | Some r => paths r
  | None => [u8 "/"]
  end.

(** The URLs of direct mode in the order of their attempts, as the code has
    them: the base URL, then a target per path. *)
Definition direct_urls (rules : list SiteRule) (url : str) : list str :=
  let base := rstrip_slash url in
  base :: map (path_target base) (paths_for rules url).


(** ** A small page model, for worked examples

    A page is a list of cards, each under a card selector and holding
    fields under name or price selectors, and a list of loose strings with
    the text of their parent. *)
Inductive toy_node :=
| TPage (cards : list (str * list (str * str))) (loose : list (str * str))
| TCard (fields : list (str * str))
| TField (text : str).

Fixpoint join_text (sep : str) (parts : list str) : str :=
  match parts with
  | [] => []
  | [p] => p
  | p :: rest => p ++ sep ++ join_text sep rest
  end.

Definition toy_text (n : toy_node) (sep : str) : str :=
  match n with
  | TField text => strip text
  | TCard fields =>
      join_text sep (List.filter (fun t => negb (str_falsy t)) (map (fun f => strip (snd f)) fields))
  | TPage _ _ => []
  end.

#[export] Instance toy_soup (site : list (str * toy_node)) : Soup toy_node := {
  bs_parse html := match dict_get html site with
                   | Some page => page
                   | None => TPage [] []
                   end;
  select n sel := match n with
                  | TPage cards _ =>
                      map (fun c => TCard (snd c))
                          (List.filter (fun c => str_eqb (fst c) sel) cards)
                  | _ => []
                  end;
  select_one n sel := match n with
                      | TCard fields => option_map TField (dict_get sel fields)
                      | _ => None
                      end;
  get_text := toy_text;
  currency_strings n := match n with
                        | TPage _ loose =>
                            map (fun s => (fst s, Some (TField (snd s)))) loose
                        | _ => []
                        end
}.

(** A network that serves a fixed table of pages; its state is the number
    of requests made. *)
Definition toy_fetch (web : list (str * str)) (url : str) (w : nat) : option str * nat :=
  (dict_get url web, S w).

(** An extraction that raises on the page texts of a list, for worked
    examples. *)
Definition toy_error (broken : list str) (html : str) (rule : option SiteRule)
    : option exn :=
  if existsb (str_eqb html) broken then Some ValueError else None.

(** ** backend/agent.py: the search by terms *)

(** What the search uses of [urllib.parse] and of [str.format]:
    [quote_plus term], [tpl.format(q=q)] (the template holds the
    replacement field [{q}] only) and [urljoin(base, candidate)]. *)
Class UrlLib := {
  quote_plus : str -> str;
  format_q : str -> str -> str;
  urljoin : str -> str -> str
}.

(** [_build_search_urls(base_url, rule, term)] *)
Definition _build_search_urls `{UrlLib} (base_url : str) (rule : SiteRule) (term : str)
    : list str :=
  map (fun tpl =>
         let q := quote_plus term in
         let candidate := format_q tpl q in
         if starts_with (u8 "http") candidate then candidate
         else urljoin base_url candidate)
      (search_templates rule).

(** The loop "unique preserve order" of [_expand_queries]; the state is
    [(seen, uniq)]. *)
Definition unique_ci (base : list str) : list str :=
  snd (fold_left
         (fun '(seen, uniq) x =>
            let xl := lower x in
            if existsb (str_eqb xl) seen then (seen, uniq)
            else (xl :: seen, uniq ++ [x]))
         base ([], [])).

(** The variants of one term [t0], already stripped.  [set_iter l] is the
    order in which Python iterates over the set built from [l]. *)
Definition expand_term (mapping : dict str) (set_iter : list str -> list str) (t0 : str)
    : list str :=
  let base := [t0] in
  let base :=
    match dict_get (lower t0) mapping with
    | Some canon =>
        if negb (str_falsy canon) && negb (existsb (str_eqb canon) base)
        then base ++ [canon] else base
    | None => base
    end in
  let base := base ++ set_iter (map deaccent base) in
  unique_ci base.

Definition expand_queries_with (mapping : dict str) (set_iter : list str -> list str)
    (terms : list str) : dict (list str) :=
  fold_left (fun expanded t =>
               let t0 := strip t in
               if str_falsy t0 then expanded
               else dict_set t0 (expand_term mapping set_iter t0) expanded)
            terms [].

(** [_expand_queries(terms)] *)
Definition _expand_queries (set_iter : list str -> list str) (terms : list str)
    : dict (list str) :=
  expand_queries_with load_default_mapping set_iter terms.

(** A set holds each of its elements once, in some order. *)
Definition set_order (set_iter : list str -> list str) : Prop :=
  forall l, NoDup (set_iter l) /\ forall x, In x (set_iter l) <-> In x l.

(** Iteration in the order of first insertion: one possible order. *)
Fixpoint first_seen (l : list str) : list str :=
  match l with
  | [] => []
  | x :: l' => x :: List.filter (fun y => negb (str_eqb x y)) (first_seen l')
  end.

(** The canonical synonym of a term, when there is one that differs from
    it, case apart. *)
Definition synonym_of (mapping : dict str) (k : str) : list str :=
  match dict_get (lower k) mapping with
  | Some c => if str_falsy c || str_eqb (lower c) (lower k) then [] else [c]
  | None => []
  end.

(** Case-insensitive deduplication, first occurrences kept. *)
Fixpoint dedup_from (seen : list str) (l : list str) : list str :=
  match l with
  | [] => []
  | x :: l' =>
      if existsb (str_eqb (lower x)) seen then dedup_from seen l'
      else x :: dedup_from (lower x :: seen) l'
  end.

(** What a part of the search gives: a value, or the exception that left
    it. *)
Inductive may_raise (E A : Type) :=
| Completed (a : A)
| Aborted (e : E).
Arguments Completed {E A} a.
Arguments Aborted {E A} e.

Section Search.
Context {node : Type} `{Soup node} `{UrlLib}.
Context {world : Type} (fetch_html : str -> world -> option str * world).

(** [extract_error html rule] is the exception, when there is one, that
    parsing and extracting raise on the page text [html]: the three calls
    [BeautifulSoup(html, "html.parser")], [extract_from_cards(soup, rule)]
    and [extract_fallback(soup)] taken together (markup that the parser
    rejects, a selector of the rule that is not a CSS selector).  It is
    [None] when they return; what they return is then given by
    [extract_from_cards] and [extract_fallback]. *)
Context {exc : Type} (extract_error : str -> option SiteRule -> option exc).

(** The loop over the URLs of one variant.  [Completed (Some price)] when
    it was left by [break], [Completed None] when it ran to its end and
    [Aborted e] when the extraction of a page raised [e]: nothing catches
    it in [search_prices_for_terms_http]. *)
Fixpoint try_urls (rule : SiteRule) (urls : list str) (w : world) (log : list str)
    : may_raise exc (option pyfloat) * world * list str :=
  match urls with
  | [] => (Completed None, w, log)
  | url :: rest =>
      let '(html, w) := fetch_html url w in
      let log := log ++ [url] in
      match page_of html with
      | None => try_urls rule rest w log
      | Some text =>
          match extract_error text (Some rule) with
          | Some e => (Aborted e, w, log)
          | None =>
              let soup := bs_parse text in
              let items := extract_from_cards soup rule in
              let items := if dict_empty items then extract_fallback soup 100 else items in
              match items with
              | (_, price) :: _ => (Completed (Some price), w, log)
              | [] => try_urls rule rest w log
              end
          end
      end
  end.

(** The loop over the variants of one term. *)
Fixpoint try_variants (base_url : str) (rule : SiteRule) (variants : list str)
    (w : world) (log : list str) : may_raise exc (option pyfloat) * world * list str :=
  match variants with
  | [] => (Completed None, w, log)
  | q :: rest =>
      let '(found_price, w, log) :=
        try_urls rule (_build_search_urls base_url rule q) w log in
      match found_price with
      | Aborted e => (Aborted e, w, log)
      | Completed (Some price) => (Completed (Some price), w, log)
      | Completed None => try_variants base_url rule rest w log
      end
  end.

(** [term_queries.get(term, [term])] *)
Definition variants_of (term_queries : dict (list str)) (term : str) : list str :=
  match dict_get term term_queries with
  | Some qs => qs
  | None => [term]
  end.

(** The loop over the terms; the state is [(out, w, log)], where [out] is
    the exception once one was raised: the terms that follow are not
    searched. *)
Definition search_term (base_url : str) (rule : SiteRule) (term_queries : dict (list str))
    (st : may_raise exc (dict pyfloat) * world * list str) (term : str)
    : may_raise exc (dict pyfloat) * world * list str :=
  let '(res, w, log) := st in
  match res with
  | Aborted e => (Aborted e, w, log)
  | Completed out =>
      let '(found_price, w, log) :=
        try_variants base_url rule (variants_of term_queries term) w log in
      match found_price with
      | Aborted e => (Aborted e, w, log)
      | Completed (Some price) => (Completed (dict_set (lower term) price out), w, log)
      | Completed None => (Completed out, w, log)
      end
  end.

(** [search_prices_for_terms_http(base_url, terms)]: the dict returned or
    the exception raised, the state of the network and the URLs fetched. *)
Definition search_prices_for_terms_http (rules : list SiteRule)
    (set_iter : list str -> list str) (base_url : str) (terms : list str) (w : world)
    : may_raise exc (dict pyfloat) * world * list str :=
  match choose_rule base_url rules with
  | None => (Completed [], w, [])
  | Some rule =>
      match search_templates rule with
      | [] => (Completed [], w, [])
      | _ :: _ =>
          let term_queries := _expand_queries set_iter terms in
          fold_left (search_term base_url rule term_queries) terms (Completed [], w, [])
      end
  end.

(** What one candidate URL gives in the state [w]: no item when the page
    is not served or has no text, else the exception of the extraction or
    the items it finds. *)
Definition visit (rule : SiteRule) (url : str) (w : world)
    : may_raise exc (dict pyfloat) * world :=
  let '(html, w') := fetch_html url w in
  (match page_of html with
   | None => Completed []
   | Some text =>
       match extract_error text (Some rule) with
       | Some e => Aborted e
       | None => Completed (extract_items (bs_parse text) (Some rule) [])
       end
   end, w').

(** The URLs of the list are fetched in turn and none gives an item. *)
Inductive all_miss (rule : SiteRule) : list str -> world -> world -> Prop :=
| all_miss_nil w : all_miss rule [] w w
| all_miss_cons url urls w w1 w2 :
    visit rule url w = (Completed [], w1) ->
    all_miss rule urls w1 w2 ->
    all_miss rule (url :: urls) w w2.

(** The candidate URLs [urls] of a term are fetched in order from the
    state [w], up to the first one whose page gives an item, whose price is
    then the term's, or whose extraction raises; the last argument is the
    list of the URLs fetched. *)
Inductive term_searched (rule : SiteRule) (urls : list str) (w : world)
    : may_raise exc (option pyfloat) -> world -> list str -> Prop :=
| term_missed w' :
    all_miss rule urls w w' ->
    term_searched rule urls w (Completed None) w' urls
| term_found before url rest w1 name price items w' :
    urls = before ++ url :: rest ->
    all_miss rule before w w1 ->
    visit rule url w1 = (Completed ((name, price) :: items), w') ->
    term_searched rule urls w (Completed (Some price)) w' (before ++ [url])
| term_aborted before url rest w1 e w' :
    urls = before ++ url :: rest ->
    all_miss rule before w w1 ->
    visit rule url w1 = (Aborted e, w') ->
    term_searched rule urls w (Aborted e) w' (before ++ [url]).

(** The terms are searched in turn, [urls_of term] being the candidates of
    a term: a term with a price is written under its lowercase form, a
    term without one writes nothing, and an exception ends the search: the
    terms that follow are not searched and no dict is returned. *)
Inductive searched (rule : SiteRule) (urls_of : str -> list str)
    : list str -> dict pyfloat -> world
      -> may_raise exc (dict pyfloat) -> world -> list str -> Prop :=
| searched_nil out w : searched rule urls_of [] out w (Completed out) w []
| searched_miss term terms out w w1 log1 res w2 log2 :
    term_searched rule (urls_of term) w (Completed None) w1 log1 ->
    searched rule urls_of terms out w1 res w2 log2 ->
    searched rule urls_of (term :: terms) out w res w2 (log1 ++ log2)
| searched_found term terms out w price w1 log1 res w2 log2 :
    term_searched rule (urls_of term) w (Completed (Some price)) w1 log1 ->
    searched rule urls_of terms (dict_set (lower term) price out) w1 res w2 log2 ->
    searched rule urls_of (term :: terms) out w res w2 (log1 ++ log2)
| searched_aborted term terms out w e w1 log1 :
    term_searched rule (urls_of term) w (Aborted e) w1 log1 ->
    searched rule urls_of (term :: terms) out w (Aborted e) w1 log1.

(** The candidate URLs of a term with the variants [variants], variant by
    variant and, for each, template by template: the template filled with
    the quoted variant, joined to the base URL unless it starts with
    "http". *)
Definition candidates (base_url : str) (rule : SiteRule) (variants : list str) : list str :=
  flat_map (fun q =>
              map (fun tpl =>
                     if starts_with (u8 "http") (format_q tpl (quote_plus q))
                     then format_q tpl (quote_plus q)
                     else urljoin base_url (format_q tpl (quote_plus q)))
                  (search_templates rule))
           variants.
End Search.

(** The first item's price: [next(iter(items.values()))]. *)
Definition first_price_of (items : dict pyfloat) : option pyfloat :=
  match items with
  | (_, price) :: _ => Some price
  | [] => None
  end.

(** ** URL helpers, for worked examples *)

(** The UTF-8 bytes of a code point. *)
Definition utf8_bytes (c : N) : list N :=
  if c <? 128 then [c]
  else if c <? 2048 then [192 + c / 64; 128 + c mod 64]
  else if c <? 65536 then [224 + c / 4096; 128 + (c / 64) mod 64; 128 + c mod 64]
  else [240 + c / 262144; 128 + (c / 4096) mod 64; 128 + (c / 64) mod 64; 128 + c mod 64].

Definition hex_digit (d : N) : N := if d <? 10 then 48 + d else 55 + d.

Definition percent_byte (b : N) : str := [37; hex_digit (b / 16); hex_digit (b mod 16)].

Definition url_safe (c : N) : bool :=
  is_digit c || ((65 <=? c) && (c <=? 90)) || ((97 <=? c) && (c <=? 122))
  || (c =? 95) || (c =? 46) || (c =? 45) || (c =? 126).

(** [urllib.parse.quote_plus] *)
Definition quote_plus_impl (s : str) : str :=
  flat_map (fun c => if url_safe c then [c]
                     else if c =? 32 then [43]
                     else flat_map percent_byte (utf8_bytes c)) s.

(** [tpl.format(q=q)] on a template whose only braces are those of the
    field [{q}]. *)
Fixpoint subst_q (tpl q : str) : str :=
  match tpl with
  | 123 :: 113 :: 125 :: rest => q ++ subst_q rest q
  | c :: rest => c :: subst_q rest q
  | [] => []
  end.

(** [urljoin(base, candidate)] for a candidate that is an absolute path: the
    scheme and host of [base], then the candidate.  [slashes] counts the
    slashes still to pass before the path of [base] starts. *)
Fixpoint url_origin (slashes : nat) (base : str) : str :=
  match base with
  | [] => []
  | c :: rest =>
      if c =? 47 then
        match slashes with
        | O => []
        | S n => c :: url_origin n rest
        end
      else c :: url_origin slashes rest
  end.

#[export] Instance toy_urls : UrlLib := {
  quote_plus := quote_plus_impl;
  format_q := subst_q;
  urljoin base candidate := url_origin 2 base ++ candidate
}.

(** ** Notions used by the properties *)

(** [matches r w g g']: [r] matches exactly the text [w], turning the
    captured groups [g] into [g'].  Iterations of a repetition are not
    empty. *)
Inductive matches : regex -> str -> groups -> groups -> Prop :=
| M_eps g : matches Eps [] g g
| M_cls p c g : p c = true -> matches (Cls p) [c] g g
| M_cat r1 r2 w1 w2 g g1 g2 :
    matches r1 w1 g g1 -> matches r2 w2 g1 g2 -> matches (Cat r1 r2) (w1 ++ w2) g g2
| M_alt_l r1 r2 w g g1 : matches r1 w g g1 -> matches (Alt r1 r2) w g g1
| M_alt_r r1 r2 w g g1 : matches r2 w g g1 -> matches (Alt r1 r2) w g g1
| M_rep_stop hi r g : matches (Rep 0 hi r) [] g g
| M_rep_more lo hi r w1 w2 g g1 g2 :
    hi <> Some O -> w1 <> [] ->
    matches r w1 g g1 ->
    matches (Rep (pred lo) (pred <$> hi) r) w2 g1 g2 ->
    matches (Rep lo hi r) (w1 ++ w2) g g2
| M_grp i r w g g1 : matches r w g g1 -> matches (Grp i r) w g ((i, w) :: g1).

(** A value of known sign that is not NaN. *)
Definition signed (s : bool) (x : pyfloat) : Prop :=
  x = S754_zero s \/ x = S754_infinity s \/ exists m e, x = S754_finite s m e.

(** The characters of the integer part of a price. *)
Definition int_char (c : N) : bool := is_digit c || (c =? 46).

(** A string that does not start with a stripped character. *)
Definition head_kept (p : N -> bool) (s : str) : Prop :=
  match s with
  | [] => True
  | c :: _ => p c = false
  end.

(** Each key sees an idempotent change. *)
Definition idem_ops {V} (ops : list (str * (V -> V))) : Prop :=
  forall k v, comp_at k ops (comp_at k ops v) = comp_at k ops v.

(** The writes that [merge_price_db] makes for the items of one market. *)
Definition item_writes (n : Normalizer) (items : dict pyfloat)
    : list (str * (pyfloat -> pyfloat)) :=
  map (fun kv => (normalize n (fst kv), fun _ : pyfloat => snd kv)) items.

(** The writes that it makes for the markets of the updates. *)
Definition market_writes (n : Normalizer) (u : PriceDB)
    : list (str * (dict pyfloat -> dict pyfloat)) :=
  map (fun e => (fst e, write_items n (snd e))) u.

(** Boolean tests in hypotheses, as propositions. *)
Ltac bool_to_prop :=
  repeat match goal with
    | H : _ && _ = true |- _ => apply andb_true_iff in H as [? ?]
    | H : _ || _ = true |- _ => apply orb_true_iff in H as [?|?]
    | H : (_ <=? _) = true |- _ => apply N.leb_le in H
    | H : (_ =? _) = true |- _ => apply N.eqb_eq in H
    | H : negb _ = true |- _ => apply negb_true_iff in H
    | H : (_ =? _) = false |- _ => apply N.eqb_neq in H
    | H : (_ <=? _) = false |- _ => apply N.leb_gt in H
    end.

(** ** backend/utils.py: [RateLimiter] *)

(** The exceptions of the request path: the conversion of a huge integer to
    a float, and the HTTP errors of the API. *)
Inductive py_error :=
| OverflowError
| HTTPException (status_code : Z) (detail : str).

Inductive raises (A : Type) :=
| Returns (a : A)
| Raises (e : py_error).
Arguments Returns {A} a.
Arguments Raises {A} e.

(** [float(n)] on an integer, as the mixed arithmetic [now - n] does it:
    the nearest binary64 value, or OverflowError when it is out of range. *)
Definition float_of_int (n : Z) : raises pyfloat :=
  match binary_normalize 53 1024 n 0 false with
  | S754_infinity _ => Raises OverflowError
  | x => Returns x
  end.

Definition fsub : pyfloat -> pyfloat -> pyfloat := SFsub 53 1024.

(** [a >= b] and [a < b] on floats. *)
Definition fge (a b : pyfloat) : bool := SFleb b a.

Definition flt_b (a b : pyfloat) : bool := SFltb a b.

Record RateLimiter := {
  max_requests : Z;
  per_seconds : Z;
  _hits : dict (list pyfloat)
}.

(** [RateLimiter(max_requests, per_seconds)] *)
Definition RateLimiter_init (max_requests per_seconds : Z) : RateLimiter :=
  {| max_requests := max_requests; per_seconds := per_seconds; _hits := [] |}.

(** The loop [for i, ts in enumerate(hits): if ts >= window_start: break]:
    the value of [i] when it is left.  [i] is the value so far and [next] the
    index of the head of [hits]. *)
Fixpoint scan_hits (window_start : pyfloat) (hits : list pyfloat) (i next : nat) : nat :=
  match hits with
  | [] => i
  | ts :: rest =>
      if fge ts window_start then next
      else scan_hits window_start rest next (S next)
  end.

(** "Drop old hits": the list that [hits] holds after
    [if hits and hits[0] < window_start: hits[:] = hits[i:]]. *)
Definition drop_old_hits (window_start : pyfloat) (hits : list pyfloat) : list pyfloat :=
  let i := scan_hits window_start hits O O in
  match hits with
  | h0 :: _ => if flt_b h0 window_start then drop i hits else hits
  | [] => hits
  end.

(** The hits recorded for a key. *)
Definition hits_of (self : RateLimiter) (key : str) : list pyfloat :=
  match dict_get key (_hits self) with
  | Some hits => hits
  | None => []
  end.

(** [RateLimiter.allow(key)]; [now] is what [time.time()] returns.  The
    list of the key is the object stored in [_hits] ([setdefault]), which
    the slice assignment and [append] change in place. *)
Definition allow (self : RateLimiter) (key : str) (now : pyfloat)
    : raises bool * RateLimiter :=
  match float_of_int (per_seconds self) with
  | Raises e => (Raises e, self)
  | Returns span =>
      let window_start := fsub now span in
      let hits := drop_old_hits window_start (hits_of self key) in
      if (Z.of_nat (length hits) <? max_requests self)%Z
      then (Returns true,
            {| max_requests := max_requests self; per_seconds := per_seconds self;
               _hits := dict_set key (hits ++ [now]) (_hits self) |})
      else (Returns false,
            {| max_requests := max_requests self; per_seconds := per_seconds self;
               _hits := dict_set key hits (_hits self) |})
  end.

(** A sequence of calls [allow(key)] at given times: the answers, in order,
    and the limiter left. *)
Fixpoint run_calls (self : RateLimiter) (calls : list (str * pyfloat))
    : list (raises bool) * RateLimiter :=
  match calls with
  | [] => ([], self)
  | (key, now) :: rest =>
      let '(r, self) := allow self key now in
      let '(rs, self) := run_calls self rest in
      (r :: rs, self)
  end.

(** The keys of the calls that were allowed. *)
Fixpoint allowed_keys (calls : list (str * pyfloat)) (answers : list (raises bool))
    : list str :=
  match calls, answers with
  | (key, _) :: calls', Returns true :: answers' => key :: allowed_keys calls' answers'
  | _ :: calls', _ :: answers' => allowed_keys calls' answers'
  | _, _ => []
  end.

(** The answers to the calls made for one key. *)
Fixpoint answers_for (key : str) (calls : list (str * pyfloat))
    (answers : list (raises bool)) : list (raises bool) :=
  match calls, answers with
  | (k, _) :: calls', r :: answers' =>
      if str_eqb k key then r :: answers_for key calls' answers'
      else answers_for key calls' answers'
  | _, _ => []
  end.

(** The hits of a list that lie in the window. *)
Definition fresh_hits (window_start : pyfloat) (hits : list pyfloat) : list pyfloat :=
  List.filter (fun ts => fge ts window_start) hits.

(** ** backend/main.py: [auth_dep] *)

(** What [auth_dep] reads of a request: the header [x-api-key] and
    [request.client.host] ([None] when [request.client] is [None]). *)
Record Request := {
  x_api_key : option str;
  client_host : option str
}.

(** [auth_dep(request)]; [API_KEY] is [os.getenv("API_KEY")] and [limiter]
    the module's limiter. *)
Definition auth_dep (API_KEY : option str) (limiter : RateLimiter) (request : Request)
    (now : pyfloat) : raises bool * RateLimiter :=
  let wrong_key :=
    match API_KEY with
    | None => false
    | Some [] => false
    | Some k => negb (bool_decide (x_api_key request = Some k))
    end in
  if wrong_key
  then (Raises (HTTPException 401 (u8 "API key inválida")), limiter)
  else
    let client_ip := match client_host request with
                     | Some host => host
                     | None => u8 "unknown"
                     end in
    let key := u8 "ip:" ++ client_ip in
    match allow limiter key now with
    | (Returns true, limiter) => (Returns true, limiter)
    | (Returns false, limiter) =>
        (Raises (HTTPException 429 (u8 "Rate limit excedido")), limiter)
    | (Raises e, limiter) => (Raises e, limiter)
    end.

(** Requests that go through [auth_dep] in turn, each at its time: the
    answers and the limiter left. *)
Fixpoint serve (API_KEY : option str) (limiter : RateLimiter)
    (requests : list (Request * pyfloat)) : list (raises bool) * RateLimiter :=
  match requests with
  | [] => ([], limiter)
  | (request, now) :: rest =>
      let '(r, limiter) := auth_dep API_KEY limiter request now in
      let '(rs, limiter) := serve API_KEY limiter rest in
      (r :: rs, limiter)
  end.

(** The answers given to the requests that satisfy [p]. *)
Fixpoint answers_where {A} (p : A -> bool) (xs : list A) (answers : list (raises bool))
    : list (raises bool) :=
  match xs, answers with
  | x :: xs', r :: answers' =>
      if p x then r :: answers_where p xs' answers' else answers_where p xs' answers'
  | _, _ => []
  end.

(** The request carries the key [k]. *)
Definition has_key (k : str) (rq : Request * pyfloat) : bool :=
  bool_decide (x_api_key (fst rq) = Some k).

(** ** backend/normalizer.py: a normalizer and its additions *)

(** [Normalizer(mapping)] followed by calls [add(variant, canonical)]. *)
Definition Normalizer_grown (m : dict str) (adds : list (str * str)) : Normalizer :=
  fold_left (fun n '(variant, canonical) => Normalizer_add n variant canonical)
            adds (Normalizer_init m).

(** The last element of a list that satisfies [p]. *)
Fixpoint find_last {A} (p : A -> bool) (l : list A) : option A :=
  match l with
  | [] => None
  | x :: l' =>
      match find_last p l' with
      | Some y => Some y
      | None => if p x then Some x else None
      end
  end.

(** ** backend/main.py: the stored price database *)

(** [_normalize_price_db(db)] *)
Definition _normalize_price_db (db : PriceDB) : PriceDB :=
  fold_left (fun norm '(market, items) =>
               let norm_items :=
                 fold_left (fun norm_items '(name, price) =>
                              dict_set (lower name) price norm_items)
                           items [] in
               dict_set (lower market) norm_items norm)
            db [].

(** [load_price_db()]; [file] is [None] when the file does not exist, and
    else what opening and [json.load] give. *)
Definition load_price_db (file : option (outcome PriceDB)) : PriceDB :=
  match file with
  | Some (Ret db) => _normalize_price_db db
  | Some (Raise _) => []
  | None => []
  end.

(** [mapping.update(other)] *)
Definition dict_update {V} (mapping other : dict V) : dict V :=
  fold_left (fun d '(k, v) => dict_set k v d) other mapping.

(** The answer of [atualizar_precos]. *)
Record UpdatePricesResponse := {
  updated_markets : list str;
  count : nat
}.

(** [atualizar_precos(req)]: the database handed to [write_price_db] and
    the answer.  [sources] holds, for each source of the request, its name
    and what its scraper gave; [synonyms] is what [load_mapping_from_file]
    returns and [price_file] the stored database as [load_price_db] finds
    it. *)
Definition atualizar_precos (sources : list (str * outcome (dict pyfloat)))
    (synonyms : dict str) (price_file : option (outcome PriceDB))
    : PriceDB * UpdatePricesResponse :=
  let updates := collect_from_sources sources in
  let mapping := dict_update load_default_mapping synonyms in
  let normalizer := Normalizer_init mapping in
  let current := load_price_db price_file in
  let merged := merge_price_db current updates normalizer in
  (merged, {| updated_markets := dict_keys updates; count := length updates |}).

(** ** backend/main.py: [summary_cotacoes] *)

(** [bool(v)] on a float. *)
Definition float_truthy (v : pyfloat) : bool := negb (SFeqb v float_zero).

(** [v and v > 0] as a condition. *)
Definition positive_total (v : pyfloat) : bool := float_truthy v && SFltb float_zero v.

(** [min(filtered, key=filtered.get)] on a dictionary that is not empty:
    the first key is the candidate, replaced by a later key whose value is
    smaller. *)
Definition min_by_value (first : str * pyfloat) (rest : dict pyfloat) : str * pyfloat :=
  fold_left (fun best kv => if SFltb (snd kv) (snd best) then kv else best) rest first.

(** The cheapest market of a quote: [(best_market, best_total)]. *)
Definition best_of (totals : dict pyfloat) : option (str * pyfloat) :=
  let filtered := dict_of (List.filter (fun kv => positive_total (snd kv)) totals) in
  match filtered with
  | [] => None
  | first :: rest => Some (min_by_value first rest)
  end.

(** What [summary_cotacoes] reads of a stored quote: [doc.get(...)] is
    [None] for a missing key. *)
Record quote_doc := {
  doc_requested_at : option str;
  doc_totais_por_mercado : option (dict pyfloat)
}.

Record summary_item := {
  item_id : str;
  item_requested_at : option str;
  item_best_market : option str;
  item_best_total : option pyfloat
}.

(** [files[-limit:] if limit > 0 else files] *)
Definition last_files {A} (limit : Z) (files : list A) : list A :=
  if (0 <? limit)%Z then drop (length files - Z.to_nat limit) files else files.

(** The body of the loop: one stored quote. *)
Definition summary_of (stem : str) (doc : quote_doc) : summary_item :=
  let totals := match doc_totais_por_mercado doc with
                | Some t => t
                | None => []
                end in
  let best := best_of totals in
  {| item_id := stem;
     item_requested_at := doc_requested_at doc;
     item_best_market := option_map fst best;
     item_best_total := option_map snd best |}.

(** [summary_cotacoes(limit)]: [(count, items)].  [files] is what
    [list_json_files(QUOTES_DIR)] returns, each file with its stem and what
    reading it gives. *)
Definition summary_cotacoes (limit : Z) (files : list (str * outcome quote_doc))
    : nat * list summary_item :=
  let out :=
    flat_map (fun '(stem, doc) =>
                match doc with
                | Ret d => [summary_of stem d]
                | Raise _ => []
                end)
             (rev (last_files limit files)) in
  (length out, out).

(** The invariants of a stored price database: keys are lowercase, and
    unique in every dictionary. *)
Definition well_keyed (db : PriceDB) : Prop :=
  lower_db db /\ dict_ok db /\ Forall (fun e => dict_ok (snd e)) db.

(** The stored quote of a file could be read. *)
Definition readable (file : str * outcome quote_doc) : bool :=
  match snd file with
  | Ret _ => true
  | Raise _ => false
  end.

(** ** backend/scraper.py: sources and scrapers *)

Record Source := {
  name : str;
  base_url : str;
  kind : option str
}.

(** The scrapers of the registry. *)
Inductive scraper :=
| MockScraper
| GenericHTMLScraper
| AgentScraper
| AgentHeadlessScraper.

Definition SCRAPER_REGISTRY : dict scraper :=
  [ (u8 "mock", MockScraper);
    (u8 "html", GenericHTMLScraper);
    (u8 "agent", AgentScraper);
    (u8 "headless", AgentHeadlessScraper) ].

(** The scraper that [run_one] picks for a source:
    [kind = (src.kind or "mock").lower()] and
    [SCRAPER_REGISTRY.get(kind, SCRAPER_REGISTRY["mock"])]. *)
Definition scraper_for (src : Source) : scraper :=
  let kind := lower (match kind src with
                     | Some (c :: k) => c :: k
                     | _ => u8 "mock"
                     end) in
  match dict_get kind SCRAPER_REGISTRY with
  | Some s => s
  | None => MockScraper
  end.

(** [MockScraper.fetch_prices(source)] *)
Definition MockScraper_fetch_prices (source : Source) : dict pyfloat :=
  [ (u8 "arroz 5kg tipo 1", flt 27.90);
    (u8 "feijão carioca 1kg", flt 9.10);
    (u8 "óleo de soja 900ml", flt 7.55);
    (u8 "café 500g", flt 15.10);
    (u8 "açúcar 1kg", flt 5.40);
    (u8 "farinha de trigo 1kg", flt 5.05);
    (u8 "leite longa vida 1l", flt 4.10) ].

(** [collect_from_sources(sources)] with the choice of the scraper;
    [fetch_prices s src] is what [await s.fetch_prices(src)] gives. *)
Definition collect_from (fetch_prices : scraper -> Source -> outcome (dict pyfloat))
    (sources : list Source) : PriceDB :=
  collect_from_sources
    (map (fun src => (name src, fetch_prices (scraper_for src) src)) sources).

(** The source gave prices. *)
Definition fetched_for (m : str) (task : str * outcome (dict pyfloat)) : bool :=
  str_eqb m (lower (fst task))
  && match snd task with
     | Ret _ => true
     | Raise _ => false
     end.

(** *** [GenericHTMLScraper]

    [http_get url w] is [client.get(url)] followed by
    [r.raise_for_status()] in the state [w] of the network: [None] when
    both pass, the exception raised otherwise. *)
Section GenericHTML.
Context {world err : Type} (http_get : str -> world -> option err * world).

(** What [fetch_prices] ends with: the prices returned or the exception
    raised. *)
Inductive fetch_result :=
| Fetched (prices : dict pyfloat)
| Failed (e : err).

(** The loop [for attempt in range(self.retries + 1)] and what follows it;
    [attempts] is the number of turns left and [requests] counts the
    requests made. *)
Fixpoint generic_attempts (attempts : nat) (url : str) (last_err : option err)
    (w : world) (requests : nat) : fetch_result * world * nat :=
  match attempts with
  | O =>
      (match last_err with
       | Some e => Failed e
       | None => Fetched []
       end, w, requests)
  | S n =>
      let '(r, w) := http_get url w in
      match r with
      | None => (Fetched [], w, S requests)
      | Some e => generic_attempts n url (Some e) w (S requests)
      end
  end.

(** [GenericHTMLScraper(timeout, retries).fetch_prices(source)] *)
Definition GenericHTMLScraper_fetch_prices (retries : Z) (source : Source) (w : world)
    : fetch_result * world * nat :=
  generic_attempts (Z.to_nat (retries + 1)) (base_url source) None w O.

(** [n] requests for a URL made in turn: what each gave, and the state
    left. *)
Fixpoint replay (n : nat) (url : str) (w : world) : list (option err) * world :=
  match n with
  | O => ([], w)
  | S n' =>
      let '(r, w) := http_get url w in
      let '(rs, w) := replay n' url w in
      (r :: rs, w)
  end.
End GenericHTML.
Arguments Fetched {err} prices.
Arguments Failed {err} e.

(** ** backend/agent.py: the site rules of the configuration file *)

(** [list(data.get(field, []))], the configuration of a site being a
    dictionary of lists of strings. *)
Definition cfg_list (data : dict (list str)) (field : str) : list str :=
  match dict_get field data with
  | Some values => values
  | None => []
  end.

(** [values or default] on lists. *)
Definition or_default (values default : list str) : list str :=
  match values with
  | [] => default
  | _ :: _ => values
  end.

(** [_rule_from_dict(domain, data)] *)
Definition _rule_from_dict (domain : str) (data : dict (list str)) : SiteRule :=
  {| domain := domain;
     paths := or_default (cfg_list data (u8 "paths")) [u8 "/"];
     search_templates := or_default (cfg_list data (u8 "search_templates")) [];
     card_selectors :=
       or_default (cfg_list data (u8 "card_selectors")) default_card_selectors;
     name_selectors :=
       or_default (cfg_list data (u8 "name_selectors")) default_name_selectors;
     price_selectors :=
       or_default (cfg_list data (u8 "price_selectors")) default_price_selectors |}.

(** [{r.domain: r for r in rules}] *)
Definition by_domain (rules : list SiteRule) : dict SiteRule :=
  dict_of (map (fun r => (domain r, r)) rules).

(** [load_site_rules()].  [file] is [None] when the configuration file does
    not exist, and else what opening and [json.load] give; [set_iter l] is
    the order in which Python iterates over the set built from [l].  An
    exception raised on the way (the lookup [defaults_by_domain[d]]
    included) is caught and gives the default rules. *)
Definition load_site_rules (set_iter : list str -> list str)
    (file : option (outcome (dict (dict (list str))))) : list SiteRule :=
  match file with
  | None => DEFAULT_RULES
  | Some (Raise _) => DEFAULT_RULES
  | Some (Ret data) =>
      let rules := map (fun '(domain, cfg) => _rule_from_dict domain cfg) data in
      let defaults_by_domain := by_domain DEFAULT_RULES in
      let file_by_domain := by_domain rules in
      let merged_domains :=
        set_iter (dict_keys defaults_by_domain ++ dict_keys file_by_domain) in
      match mapM (fun d => match dict_get d file_by_domain with
                           | Some r => Some r
                           | None => dict_get d defaults_by_domain
                           end) merged_domains with
      | Some merged => merged
      | None => DEFAULT_RULES
      end
  end.

(** The rule has a path to probe and a selector of each kind. *)
Definition usable_rule (r : SiteRule) : Prop :=
  paths r <> [] /\ card_selectors r <> [] /\ name_selectors r <> []
  /\ price_selectors r <> [].

(** The domain of the rule occurs in the URL. *)
Definition rule_matches (url : str) (r : SiteRule) : bool := contains (domain r) url.

(** An item of an extraction: a lowercase name that is not empty, with a
    price that is not NaN and not negative; the price may be positive
    infinity, which [parse_brl] gives for a number beyond the range of a
    float. *)
Definition priced_item (kv : str * pyfloat) : Prop :=
  is_lower (fst kv) /\ fst kv <> [] /\ nonneg (snd kv) = true.

(** An entry that [extract_fallback] writes: a string of the page that
    holds a price, whose parent's text, the prices removed, is a name of
    three characters or more. *)
Definition fallback_entry {node} `{Soup node} (soup : node) (kv : str * pyfloat) : Prop :=
  exists el parent,
    In (el, Some parent) (currency_strings soup)
    /\ price_of_text (strip el) = Some (snd kv)
    /\ fst kv = lower (strip (re_sub_empty CURRENCY_RE (get_text parent (u8 " "))))
    /\ (3 <= length (fst kv))%nat.

(** ** backend/agent.py: the headless browser

    [browse url w] is [page.goto(url)], the scroll and [page.content()]
    in the state [w] of the browser: the HTML of the page, or [None] when
    one of them raises.  [playwright] tells whether the import of
    Playwright passes. *)
Section Headless.
Context {node : Type} `{Soup node} `{UrlLib}.
Context {world : Type} (browse : str -> world -> option str * world).
Context {exc : Type} (extract_error : str -> option SiteRule -> option exc).


(** The loop of the headless search over the URLs of one variant; an
    exception in its body, of the navigation or of the extraction, goes to
    the next URL. *)
Fixpoint try_urls_headless (rule : SiteRule) (urls : list str) (w : world) (log : list str)
    : option pyfloat * world * list str :=
  match urls with
  | [] => (None, w, log)
  | url :: rest =>
      let '(html, w) := browse url w in
      let log := log ++ [url] in
      match html with
      | None => try_urls_headless rule rest w log
      | Some text =>
          match extract_error text (Some rule) with
          | Some _ => try_urls_headless rule rest w log
          | None =>
              let soup := bs_parse text in
              let items := extract_from_cards soup rule in
              let items := if dict_empty items then extract_fallback soup 100 else items in
              match items with
              | (_, price) :: _ => (Some price, w, log)
              | [] => try_urls_headless rule rest w log
              end
          end
      end
  end.

Fixpoint try_variants_headless (base_url : str) (rule : SiteRule) (variants : list str)
    (w : world) (log : list str) : option pyfloat * world * list str :=
  match variants with
  | [] => (None, w, log)
  | q :: rest =>
      let '(found_price, w, log) :=
        try_urls_headless rule (_build_search_urls base_url rule q) w log in
      match found_price with
      | Some price => (Some price, w, log)
      | None => try_variants_headless base_url rule rest w log
      end
  end.

Definition search_term_headless (base_url : str) (rule : SiteRule)
    (term_queries : dict (list str)) (st : dict pyfloat * world * list str) (term : str)
    : dict pyfloat * world * list str :=
  let '(out, w, log) := st in
  let '(found_price, w, log) :=
    try_variants_headless base_url rule (variants_of term_queries term) w log in
  match found_price with
  | Some price => (dict_set (lower term) price out, w, log)
  | None => (out, w, log)
  end.

(** [search_prices_for_terms_headless(base_url, terms)] *)
Definition search_prices_for_terms_headless (playwright : bool) (rules : list SiteRule)
    (set_iter : list str -> list str) (base_url : str) (terms : list str) (w : world)
    : dict pyfloat * world * list str :=
  if negb playwright then ([], w, [])
  else
    match choose_rule base_url rules with
    | None => ([], w, [])
    | Some rule =>
        match search_templates rule with
        | [] => ([], w, [])
        | _ :: _ =>
            let term_queries := _expand_queries set_iter terms in
            fold_left (search_term_headless base_url rule term_queries) terms ([], w, [])
        end
    end.
End Headless.

(** A page without text gives no item. *)
Definition empty_page_empty {node} `{Soup node} (rule : option SiteRule) : Prop :=
  match rule with
  | Some r => extract_items (bs_parse []) (Some r) [] = []
  | None => True
  end.

(** Case analysis on floats and on the comparisons of their fields. *)
Ltac float_cases :=
  repeat match goal with
    | x : spec_float |- _ => destruct x as [[|]|[|]| |[|] ? ?]
    | x : pyfloat |- _ => destruct x as [[|]|[|]| |[|] ? ?]
    end.

Ltac compare_cases :=
  repeat match goal with
    | H : context [(?a ?= ?b)%Z] |- _ => destruct (Z.compare_spec a b)
    | |- context [(?a ?= ?b)%Z] => destruct (Z.compare_spec a b)
    | H : context [(?a ?= ?b)%positive] |- _ => destruct (Pos.compare_spec a b)
    | |- context [(?a ?= ?b)%positive] => destruct (Pos.compare_spec a b)
    end.

(** * Properties *)

(** ** The backtracking matcher against a relational semantics *)

Lemma consumed_app (w s : str) : consumed (w ++ s) s = w.
Proof.
  unfold consumed. rewrite length_app.
  replace (length w + length s - length s)%nat with (length w) by lia.
  apply take_app_length.
Qed.

Lemma flat_map_all_nil {A B} (f : A -> list B) (l : list A) :
  (forall a, In a l -> f a = []) -> flat_map f l = [].
Proof.
  induction l as [|a l IH]; simpl; intros H; [reflexivity|].
  rewrite (H a) by auto. apply IH. auto.
Qed.

Lemma rep_loop_fuel step : forall f1 f2 lo hi s g,
  (length s <= f1)%nat -> (length s <= f2)%nat ->
  rep_loop step f1 lo hi s g = rep_loop step f2 lo hi s g.
Proof.
  assert (Hnil : forall f lo hi g, rep_loop step f lo hi [] g
                 = match lo with O => [([], g)] | S _ => [] end).
  { intros [|f] lo hi g; simpl; [reflexivity|].
    destruct hi as [[|h]|]; try reflexivity;
      (rewrite flat_map_all_nil; [reflexivity|]; intros [s1 g1] _;
       destruct (length s1); reflexivity). }
  induction f1 as [|f1 IH]; intros f2 lo hi s g H1 H2.
  - destruct s; [|simpl in H1; lia]. rewrite !Hnil. reflexivity.
  - destruct f2 as [|f2].
    + destruct s; [|simpl in H2; lia]. rewrite !Hnil. reflexivity.
    + simpl. destruct hi as [[|h]|]; try reflexivity.
      * f_equal. apply flat_map_ext. intros [s1 g1].
        destruct (length s1 <? length s)%nat eqn:E; [|reflexivity].
        apply Nat.ltb_lt in E. apply IH; lia.
      * f_equal. apply flat_map_ext. intros [s1 g1].
        destruct (length s1 <? length s)%nat eqn:E; [|reflexivity].
        apply Nat.ltb_lt in E. apply IH; lia.
Qed.

Lemma rep_loop_sound step r :
  (forall s g s' g', In (s', g') (step s g) -> exists w, s = w ++ s' /\ matches r w g g') ->
  forall fuel lo hi s g s' g',
    In (s', g') (rep_loop step fuel lo hi s g) ->
    exists w, s = w ++ s' /\ matches (Rep lo hi r) w g g'.
Proof.
  intros Hstep.
  assert (Hstop : forall lo hi s g s' g',
    In (s', g') (match lo with O => [(s, g)] | S _ => [] end) ->
    exists w, s = w ++ s' /\ matches (Rep lo hi r) w g g').
  { intros [|lo] hi s g s' g' H; simpl in H; [|tauto].
    destruct H as [H|[]]. inversion H; subst. exists []. split; [reflexivity|constructor]. }
  induction fuel as [|fuel IH]; intros lo hi s g s' g' H.
  - simpl in H. destruct hi as [[|h]|]; eauto.
  - assert (Hmore : hi <> Some O ->
      In (s', g') (flat_map (fun '(s1, g1) =>
                  if (length s1 <? length s)%nat
                  then rep_loop step fuel (pred lo) (pred <$> hi) s1 g1
                  else []) (step s g)) ->
      exists w, s = w ++ s' /\ matches (Rep lo hi r) w g g').
    { intros Hhi Hin. apply in_flat_map in Hin as [[s1 g1] [Hin1 Hin2]].
      destruct (length s1 <? length s)%nat eqn:E; [|destruct Hin2].
      apply Nat.ltb_lt in E.
      apply Hstep in Hin1 as [w1 [-> Hm1]].
      apply IH in Hin2 as [w2 [-> Hm2]].
      exists (w1 ++ w2). split; [by rewrite <- app_assoc|].
      eapply M_rep_more; eauto.
      intros ->. simpl in E. lia. }
    simpl in H. destruct hi as [[|h]|]; eauto;
      apply in_app_iff in H as [H|H]; eauto; apply Hmore; eauto; discriminate.
Qed.

Lemma run_sound : forall r s g s' g',
  In (s', g') (run r s g) -> exists w, s = w ++ s' /\ matches r w g g'.
Proof.
  induction r as [|p|r1 IH1 r2 IH2|r1 IH1 r2 IH2|lo hi r IH|i r IH];
    intros s g s' g' H; simpl in H.
  - destruct H as [H|[]]. inversion H; subst. exists []. split; [reflexivity|constructor].
  - destruct s as [|c s]; [destruct H|].
    destruct (p c) eqn:E; [|destruct H].
    destruct H as [H|[]]. inversion H; subst. exists [c]. split; [reflexivity|by constructor].
  - apply in_flat_map in H as [[s1 g1] [H1 H2]].
    apply IH1 in H1 as [w1 [-> M1]]. apply IH2 in H2 as [w2 [-> M2]].
    exists (w1 ++ w2). split; [by rewrite <- app_assoc|]. econstructor; eauto.
  - apply in_app_iff in H as [H|H].
    + apply IH1 in H as [w [-> M]]. exists w. split; [reflexivity|by apply M_alt_l].
    + apply IH2 in H as [w [-> M]]. exists w. split; [reflexivity|by apply M_alt_r].
  - eapply rep_loop_sound; eauto.
  - apply in_map_iff in H as [[s1 g1] [H1 H2]]. inversion H1; subst.
    apply IH in H2 as [w [-> M]]. exists w. split; [reflexivity|].
    rewrite consumed_app. by constructor.
Qed.

Lemma run_complete r w g g' :
  matches r w g g' -> forall s', In (s', g') (run r (w ++ s') g).
Proof.
  induction 1 as [g|p c g Hp|r1 r2 w1 w2 g g1 g2 _ IH1 _ IH2
                 |r1 r2 w g g1 _ IH|r1 r2 w g g1 _ IH
                 |hi r g|lo hi r w1 w2 g g1 g2 Hhi Hw1 _ IH1 _ IH2
                 |i r w g g1 _ IH]; intros s'; simpl.
  - by left.
  - rewrite Hp. by left.
  - rewrite <- app_assoc. apply in_flat_map. exists (w2 ++ s', g1). split; auto.
  - apply in_app_iff. left. apply IH.
  - apply in_app_iff. right. apply IH.
  - destruct (length s'); simpl.
    + destruct hi as [[|h]|]; by left.
    + destruct hi as [[|h]|]; [by left| |]; apply in_app_iff; right; by left.
  - destruct w1 as [|c w1]; [done|]. simpl.
    assert (Hin : In (s', g2)
      (flat_map (fun '(s1, g1) =>
         if (length s1 <? S (length ((w1 ++ w2) ++ s')))%nat
         then rep_loop (run r) (length ((w1 ++ w2) ++ s')) (pred lo) (pred <$> hi) s1 g1
         else []) (run r (c :: (w1 ++ w2) ++ s') g))).
    { apply in_flat_map. exists (w2 ++ s', g1). split.
      - specialize (IH1 (w2 ++ s')). simpl in IH1. by rewrite <- app_assoc.
      - assert (length (w2 ++ s') <= length ((w1 ++ w2) ++ s'))%nat as Hle
          by (rewrite !length_app; lia).
        destruct (Nat.ltb_spec (length (w2 ++ s')) (S (length ((w1 ++ w2) ++ s')))); [|lia].
        specialize (IH2 s'). simpl in IH2.
        erewrite rep_loop_fuel; [exact IH2| |]; lia. }
    destruct hi as [[|h]|]; [done| |]; apply in_app_iff; by left.
  - apply in_map_iff. exists (s', g1). split; [|apply IH].
    by rewrite consumed_app.
Qed.

Lemma search_from_none r : forall s pre,
  search_from r pre s = None ->
  forall n, (n <= length s)%nat -> run r (drop n s) [] = [].
Proof.
  induction s as [|c s IH]; intros pre H n Hn; simpl in H.
  - destruct (run r [] []) as [|[s' g] rest] eqn:E; [|discriminate].
    by rewrite drop_nil.
  - destruct (run r (c :: s) []) as [|[s' g] rest] eqn:E; [|discriminate].
    destruct n as [|n]; [exact E|]. simpl in *. eapply IH; eauto. lia.
Qed.

Lemma search_from_some r : forall s pre m,
  search_from r pre s = Some m ->
  exists n rest,
    (n <= length s)%nat
    /\ run r (drop n s) [] = (m_post m, m_groups m) :: rest
    /\ (forall k, (k < n)%nat -> run r (drop k s) [] = []).
Proof.
  induction s as [|c s IH]; intros pre m H; simpl in H.
  - destruct (run r [] []) as [|[s' g] rest] eqn:E; [discriminate|].
    inversion H; subst; simpl. exists O, rest. repeat split; auto. intros; lia.
  - destruct (run r (c :: s) []) as [|[s' g] rest] eqn:E.
    + apply IH in H as (n & rest & Hn & Hrun & Hbefore).
      exists (S n), rest. simpl. repeat split; auto; [lia|].
      intros [|k] Hk; [exact E|]. simpl. apply Hbefore. lia.
    + inversion H; subst; simpl. exists O, rest. repeat split; auto; [lia|intros; lia].
Qed.

Lemma matches_rep_cls p : forall w lo hi g g',
  matches (Rep lo hi (Cls p)) w g g' <->
  Forall (fun c => p c = true) w /\ (lo <= length w)%nat
  /\ (forall h, hi = Some h -> (length w <= h)%nat) /\ g' = g.
Proof.
  intros w lo hi g g'. split.
  - intros H. remember (Rep lo hi (Cls p)) as rr eqn:Err.
    revert lo hi Err.
    induction H as [| | | | |hi0 r0 g|lo0 hi0 r0 w1 w2 g g1 g2 Hhi Hw1 H1 _ H2 IH2|];
      intros lo hi Err; inversion Err; subst.
    + repeat split; auto. intros; simpl; lia.
    + inversion H1; subst.
      destruct (IH2 (pred lo) (pred <$> hi) eq_refl) as (Hall & Hlo & Hb & ->).
      split; [by constructor|]. split; [simpl; lia|]. split; [|done].
      intros h ->. destruct h as [|h]; [done|]. specialize (Hb h eq_refl). simpl. lia.
  - revert lo hi g g'. induction w as [|c w IH]; intros lo hi g g' (Hall & Hlo & Hb & ->).
    + simpl in Hlo. replace lo with O by lia. constructor.
    + inversion Hall; subst. change (c :: w) with ([c] ++ w).
      eapply M_rep_more; [| done | by constructor |].
      * intros ->. specialize (Hb O eq_refl). simpl in Hb. lia.
      * apply IH. repeat split; auto; [simpl in Hlo; lia|].
        intros h Hh. destruct hi as [h0|]; [|done]. simpl in Hh. inversion Hh; subst.
        specialize (Hb h0 eq_refl). simpl in Hb. lia.
Qed.

Lemma matches_chr c w g g' : matches (Chr c) w g g' <-> w = [c] /\ g' = g.
Proof.
  unfold Chr. split.
  - intros H. inversion H as [|p c0 g0 Hp| | | | | |]; subst. apply N.eqb_eq in Hp. by subst.
  - intros [-> ->]. constructor. apply N.eqb_refl.
Qed.

Lemma matches_cat r1 r2 w g g' :
  matches (Cat r1 r2) w g g' <->
  exists w1 w2 g1, w = w1 ++ w2 /\ matches r1 w1 g g1 /\ matches r2 w2 g1 g'.
Proof.
  split.
  - intros H. inversion H; subst. eauto 10.
  - intros (w1 & w2 & g1 & -> & H1 & H2). econstructor; eauto.
Qed.

Lemma matches_grp i r w g g' :
  matches (Grp i r) w g g' <-> exists g1, matches r w g g1 /\ g' = (i, w) :: g1.
Proof.
  split.
  - intros H. inversion H; subst. eauto.
  - intros (g1 & H & ->). by constructor.
Qed.

Lemma matches_alt r1 r2 w g g' :
  matches (Alt r1 r2) w g g' <-> matches r1 w g g' \/ matches r2 w g g'.
Proof.
  split.
  - intros H. inversion H; subst; auto.
  - intros [H|H]; [by apply M_alt_l|by apply M_alt_r].
Qed.

(** The groups of three digits after the leading digits. *)
Lemma matches_dot_groups w g g' :
  matches (Rep 0 None (Cat (Chr 46) (Rep 3 (Some 3%nat) re_digit))) w g g' <->
  (exists gs, w = concat (map (cons 46) gs)
     /\ Forall (fun g3 => all_digits g3 /\ length g3 = 3%nat) gs) /\ g' = g.
Proof.
  split.
  - intros H. remember (Rep 0 None (Cat (Chr 46) (Rep 3 (Some 3%nat) re_digit))) as rr eqn:Err.
    induction H as [| | | | |hi0 r0 g|lo0 hi0 r0 w1 w2 g g1 g2 Hhi Hw1 H1 _ H2 IH2|];
      inversion Err; subst.
    + split; [|done]. exists []. split; [done|constructor].
    + destruct (IH2 eq_refl) as [(gs & -> & Hgs) ->].
      apply matches_cat in H1 as (a & b & g0 & -> & Ha & Hb).
      apply matches_chr in Ha as [-> ->].
      apply matches_rep_cls in Hb as (Hd & Hlo & Hhi' & ->).
      split; [|done]. exists (b :: gs). split; [done|].
      constructor; auto. split; [exact Hd|]. specialize (Hhi' _ eq_refl). lia.
  - intros [(gs & -> & Hgs) ->]. induction Hgs as [|g3 gs [Hd Hl] _ IH]; simpl.
    + constructor.
    + change (46 :: g3 ++ concat (map (cons 46) gs))
        with ((46 :: g3) ++ concat (map (cons 46) gs)).
      eapply M_rep_more; [done|done| |exact IH].
      apply matches_cat. exists [46], g3, g. split; [done|].
      split; [by apply matches_chr|].
      apply matches_rep_cls. repeat split; auto; [lia|]. intros h [= <-]. lia.
Qed.

Lemma matches_re_grouped w g g' :
  matches re_grouped w g g' <-> thousands_grouped w /\ g' = g.
Proof.
  unfold re_grouped, thousands_grouped. rewrite matches_cat. split.
  - intros (h & t & g1 & -> & Hh & Ht).
    apply matches_rep_cls in Hh as (Hd & Hlo & Hhi & ->).
    apply matches_dot_groups in Ht as [(gs & -> & Hgs) ->].
    split; [|done]. exists h, gs. specialize (Hhi _ eq_refl). repeat split; auto.
  - intros [(h & gs & -> & Hd & [Hlo Hhi] & Hgs) ->].
    exists h, (concat (map (cons 46) gs)), g. split; [done|]. split.
    + apply matches_rep_cls. repeat split; auto. by intros ? [= <-].
    + apply matches_dot_groups. eauto.
Qed.

Lemma matches_re_plain w g g' :
  matches re_plain w g g' <-> digit_run w /\ g' = g.
Proof.
  unfold re_plain, digit_run, re_digit. rewrite matches_rep_cls. split.
  - intros (Hd & Hlo & _ & ->). repeat split; auto. intros ->. simpl in Hlo. lia.
  - intros [[Hd Hne] ->]. repeat split; auto; [|done].
    destruct w; [done|simpl; lia].
Qed.

Lemma matches_currency ip (int_ok : str -> Prop) :
  (forall w g g', matches ip w g g' <-> int_ok w /\ g' = g) ->
  forall w g g',
    matches (currency_with ip) w g g' <->
    exists int frac, brl_text int_ok w int frac /\ g' = (2%nat, frac) :: (1%nat, int) :: g.
Proof.
  intros Hip w g g'. unfold currency_with, brl_text. split.
  - intros H.
    apply matches_cat in H as (a & w1 & g1 & -> & Ha & H). apply matches_chr in Ha as [-> ->].
    apply matches_cat in H as (a & w2 & g1 & -> & Ha & H). apply matches_chr in Ha as [-> ->].
    apply matches_cat in H as (ws & w3 & g1 & -> & Hws & H).
    apply matches_rep_cls in Hws as (Hws & _ & _ & ->).
    apply matches_cat in H as (int & w4 & g1 & -> & Hint & H).
    apply matches_grp in Hint as (g2 & Hint & ->). apply Hip in Hint as [Hint ->].
    apply matches_cat in H as (a & frac & g1 & -> & Ha & H). apply matches_chr in Ha as [-> ->].
    apply matches_grp in H as (g2 & Hfrac & ->).
    apply matches_rep_cls in Hfrac as (Hd & Hlo & Hhi & ->). specialize (Hhi _ eq_refl).
    exists int, frac. split; [|done]. exists ws. repeat split; auto. lia.
  - intros (int & frac & (ws & -> & Hws & Hint & Hd & Hl) & ->).
    apply matches_cat. exists [82], ([36] ++ ws ++ int ++ [44] ++ frac), g.
    split; [done|]. split; [by apply matches_chr|].
    apply matches_cat. exists [36], (ws ++ int ++ [44] ++ frac), g.
    split; [done|]. split; [by apply matches_chr|].
    apply matches_cat. exists ws, (int ++ [44] ++ frac), g.
    split; [done|]. split.
    { apply matches_rep_cls. repeat split; auto; [lia|done]. }
    apply matches_cat. exists int, ([44] ++ frac), ((1%nat, int) :: g).
    split; [done|]. split.
    { apply matches_grp. exists g. split; [|done]. by apply Hip. }
    apply matches_cat. exists [44], frac, ((1%nat, int) :: g).
    split; [done|]. split; [by apply matches_chr|].
    apply matches_grp. exists ((1%nat, int) :: g). split; [|done].
    apply matches_rep_cls. repeat split; auto; [lia|]. intros h [= <-]. lia.
Qed.

Lemma matches_currency_re w g g' :
  matches CURRENCY_RE w g g' <->
  exists int frac, brl_text brl_int w int frac /\ g' = (2%nat, frac) :: (1%nat, int) :: g.
Proof.
  apply matches_currency. intros w0 g0 g0'. rewrite matches_alt, matches_re_grouped, matches_re_plain.
  unfold brl_int. tauto.
Qed.

(** ** Floats: the sign of a rounded quotient *)

Lemma iter_pos_shr_nonneg p : forall mrs,
  (0 <= shr_m mrs)%Z -> (0 <= shr_m (SpecFloat.iter_pos shr_1 p mrs))%Z.
Proof.
  assert (H1 : forall mrs, (0 <= shr_m mrs)%Z -> (0 <= shr_m (shr_1 mrs))%Z).
  { intros [m r s] H. simpl in *. destruct m as [|[q|q|]|[q|q|]]; simpl; lia. }
  induction p as [p IH|p IH|]; intros mrs H; simpl; auto.
Qed.

Lemma shr_fexp_nonneg prec emax m e l :
  (0 <= m)%Z -> (0 <= shr_m (fst (shr_fexp prec emax m e l)))%Z.
Proof.
  intros H. unfold shr_fexp, shr.
  assert (H0 : (0 <= shr_m (shr_record_of_loc m l))%Z)
    by (destruct l as [|[]]; exact H).
  destruct (fexp prec emax (Zdigits2 m + e) - e)%Z; simpl; auto.
  by apply iter_pos_shr_nonneg.
Qed.

Lemma binary_round_aux_signed prec emax s mx ex lx :
  (0 <= mx)%Z -> signed s (binary_round_aux prec emax s mx ex lx).
Proof.
  intros H. unfold binary_round_aux.
  pose proof (shr_fexp_nonneg prec emax mx ex lx H) as H1.
  destruct (shr_fexp prec emax mx ex lx) as [mrs' e'] eqn:E1. simpl in H1.
  set (m1 := round_nearest_even (shr_m mrs') (loc_of_shr_record mrs')).
  assert (Hm1 : (0 <= m1)%Z).
  { unfold m1, round_nearest_even.
    destruct (loc_of_shr_record mrs') as [|[]]; try lia.
    destruct (Z.even (shr_m mrs')); lia. }
  pose proof (shr_fexp_nonneg prec emax m1 e' loc_Exact Hm1) as H2.
  destruct (shr_fexp prec emax m1 e' loc_Exact) as [mrs'' e''] eqn:E2. simpl in H2.
  unfold signed. destruct (shr_m mrs'') as [|m|m]; [auto| |lia].
  destruct (e'' <=? emax - prec)%Z; eauto.
Qed.

Lemma float_of_ratio_signed n d : signed false (float_of_ratio n d).
Proof.
  unfold float_of_ratio. destruct n as [|p]; [by left|].
  destruct d as [|q]; [right; by left|].
  unfold SFdiv, SFdiv_core_binary.
  set (m' := match (0 - 0 - _)%Z with Z0 => _ | Zpos _ => _ | Zneg _ => _ end).
  assert (Hm' : (0 <= m')%Z).
  { unfold m'. destruct (0 - 0 - _)%Z; try lia. apply Z.shiftl_nonneg. lia. }
  pose proof (Z.div_pos m' (Z.pos q) Hm' ltac:(lia)) as Hq.
  unfold Z.div in Hq. destruct (Z.div_eucl m' (Z.pos q)) as [qq r]. simpl in Hq.
  by apply binary_round_aux_signed.
Qed.

Lemma signed_nonneg x : signed false x -> nonneg x = true.
Proof. intros [->|[->|(m & e & ->)]]; reflexivity. Qed.

(** ** The text of a price is read in one way *)

Lemma digit_not_space c : is_digit c = true -> is_space c = false.
Proof.
  intros H. destruct (is_space c) eqn:E; [|done].
  unfold is_digit, is_space in *. bool_to_prop; lia.
Qed.

Lemma split_unique (P : N -> bool) : forall a a' b b' : str,
  Forall (fun c => P c = true) a -> Forall (fun c => P c = true) a' ->
  (exists x t, b = x :: t /\ P x = false) ->
  (exists x t, b' = x :: t /\ P x = false) ->
  a ++ b = a' ++ b' -> a = a' /\ b = b'.
Proof.
  induction a as [|c a IH]; intros [|c' a'] b b' Ha Ha' Hb Hb' E; simpl in E.
  - done.
  - destruct Hb as (x & t & -> & Hx). inversion E; subst.
    inversion Ha'; subst. congruence.
  - destruct Hb' as (x & t & -> & Hx). inversion E; subst.
    inversion Ha; subst. congruence.
  - inversion E; subst. inversion Ha; inversion Ha'; subst.
    destruct (IH a' b b') as [-> ->]; auto.
Qed.

Lemma all_digits_int_char s : all_digits s -> Forall (fun c => int_char c = true) s.
Proof.
  unfold all_digits. intros H. eapply Forall_impl; [exact H|].
  intros c Hc. unfold int_char. simpl. by rewrite Hc.
Qed.

Lemma brl_int_chars int :
  brl_int int ->
  Forall (fun c => int_char c = true) int
  /\ exists d t, int = d :: t /\ is_digit d = true.
Proof.
  intros [(h & gs & -> & Hh & [Hlo Hhi] & Hgs)|[Hd Hne]].
  - split.
    + apply Forall_app. split; [by apply all_digits_int_char|].
      induction Hgs as [|g3 gs [Hg _] _ IH]; simpl; [constructor|].
      constructor; [done|]. apply Forall_app. split; [by apply all_digits_int_char|done].
    + destruct h as [|d h]; [simpl in Hlo; lia|]. inversion Hh; subst. simpl. eauto.
  - split; [by apply all_digits_int_char|].
    destruct int as [|d t]; [done|]. inversion Hd; subst. eauto.
Qed.

Lemma brl_text_unique w w' post post' int int' frac frac' :
  brl_text brl_int w int frac -> brl_text brl_int w' int' frac' ->
  w ++ post = w' ++ post' -> int = int' /\ frac = frac'.
Proof.
  intros (ws & -> & Hws & Hint & Hf & Hl) (ws' & -> & Hws' & Hint' & Hf' & Hl') E.
  destruct (brl_int_chars _ Hint) as [Hc (d & t & Ed & Hd)].
  destruct (brl_int_chars _ Hint') as [Hc' (d' & t' & Ed' & Hd')].
  rewrite <- !app_assoc in E. simpl in E. inversion E as [E1]. clear E.
  apply (split_unique is_space) in E1 as [-> E1]; auto.
  2: { exists d, (t ++ 44 :: frac ++ post). subst int. split; [done|]. by apply digit_not_space. }
  2: { exists d', (t' ++ 44 :: frac' ++ post'). subst int'. split; [done|]. by apply digit_not_space. }
  apply (split_unique int_char) in E1 as [-> E1]; auto.
  2, 3: eexists _, _; split; [reflexivity|reflexivity].
  split; [done|]. simpl in E1. inversion E1 as [E2].
  apply app_inj_1 in E2 as [-> _]; [done|lia].
Qed.

(** ** The value that [float] reads *)

Lemma remove_dots_digits s : all_digits s -> remove_dots s = s.
Proof.
  induction 1 as [|c s Hc _ IH]; simpl; [done|].
  assert ((c =? 46) = false) as ->.
  { apply N.eqb_neq. intros ->. discriminate. }
  simpl. by rewrite IH.
Qed.

Lemma digits_value_number : forall s acc,
  Forall (fun c => int_char c = true) s ->
  digits_value acc (remove_dots s)
  = Some (fold_left (fun a c => if is_digit c then a * 10 + (c - 48) else a) s acc).
Proof.
  induction s as [|c s IH]; intros acc H; simpl; [done|].
  inversion H as [|? ? Hc Hs]; subst. unfold int_char in Hc.
  destruct (c =? 46) eqn:E46; simpl.
  - apply N.eqb_eq in E46. subst c. simpl. by apply IH.
  - rewrite orb_false_r in Hc. rewrite Hc. by apply IH.
Qed.

Lemma split_on_first c : forall a b : str,
  Forall (fun x => (x =? c) = false) a -> split_on c (a ++ c :: b) = Some (a, b).
Proof.
  induction a as [|x a IH]; intros b H; simpl.
  - by rewrite N.eqb_refl.
  - inversion H; subst. rewrite H2. by rewrite IH.
Qed.

Lemma remove_dots_spec s :
  Forall (fun c => int_char c = true) s ->
  all_digits (remove_dots s) /\ Forall (fun x => (x =? 46) = false) (remove_dots s).
Proof.
  induction 1 as [|c s Hc _ [IH1 IH2]]; simpl; [split; constructor|].
  unfold int_char in Hc. destruct (c =? 46) eqn:E; simpl; [done|].
  rewrite orb_false_r in Hc. split; constructor; auto.
Qed.

Lemma py_float_decimal int frac :
  brl_int int -> all_digits frac -> length frac = 2%nat ->
  py_float (remove_dots int ++ [46] ++ frac) = Ret (decimal_value int frac).
Proof.
  intros Hint Hf Hl.
  destruct (brl_int_chars _ Hint) as [Hc (d & t & Ed & Hd)].
  destruct (remove_dots_spec _ Hc) as [Hrd Hnd].
  unfold py_float. change ([46] ++ frac) with (46 :: frac).
  rewrite split_on_first by done.
  assert (Hval : digits_value 0 (remove_dots int ++ frac) = Some (digits_number (int ++ frac))).
  { rewrite <- (remove_dots_digits frac) at 1 by done.
    unfold remove_dots. rewrite <- List.filter_app. apply digits_value_number.
    apply Forall_app. split; [done|by apply all_digits_int_char]. }
  assert (exists x y, remove_dots int = x :: y) as (x & y & Ex).
  { subst int. simpl. assert ((d =? 46) = false) as ->; [|simpl; eauto].
    apply N.eqb_neq. intros ->. discriminate. }
  rewrite Ex in *. destruct frac as [|f1 [|f2 [|]]]; try discriminate.
  by rewrite Hval.
Qed.

(** ** [parse_brl]: the first price text of the input *)

Lemma no_run_no_occurrence ip (int_ok : str -> Prop) :
  (forall w g g', matches ip w g g' <-> int_ok w /\ g' = g) ->
  forall s n int frac,
    run (currency_with ip) (drop n s) [] = [] -> ~ occurs_at int_ok s n int frac.
Proof.
  intros Hip s n int frac Hrun (Hn & w & post & Hdrop & Htxt).
  assert (Hm : matches (currency_with ip) w [] [(2%nat, frac); (1%nat, int)])
    by (eapply matches_currency; eauto).
  pose proof (run_complete _ _ _ _ Hm post) as Hin.
  rewrite <- Hdrop, Hrun in Hin. destruct Hin.
Qed.

Lemma search_none_no_occurrence ip (int_ok : str -> Prop) :
  (forall w g g', matches ip w g g' <-> int_ok w /\ g' = g) ->
  forall s, re_search (currency_with ip) s = None ->
  forall n int frac, ~ occurs_at int_ok s n int frac.
Proof.
  intros Hip s Hs n int frac Hocc.
  eapply no_run_no_occurrence; eauto.
  eapply search_from_none; eauto. apply Hocc.
Qed.

Lemma brl_int_matches w g g' :
  matches (Alt re_grouped re_plain) w g g' <-> brl_int w /\ g' = g.
Proof.
  rewrite matches_alt, matches_re_grouped, matches_re_plain. unfold brl_int. tauto.
Qed.

Lemma parse_brl_cases s :
  (parse_brl s = Ret None /\ forall n int frac, ~ occurs_at brl_int s n int frac)
  \/ (exists n int frac,
        parse_brl s = Ret (Some (decimal_value int frac))
        /\ occurs_at brl_int s n int frac
        /\ (forall n' i f, occurs_at brl_int s n' i f -> (n <= n')%nat)
        /\ (forall i f, occurs_at brl_int s n i f -> i = int /\ f = frac)).
Proof.
  unfold parse_brl. destruct (re_search CURRENCY_RE s) as [m|] eqn:Es.
  - right. apply search_from_some in Es as (n & rest & Hn & Hrun & Hbefore).
    assert (Hin : In (m_post m, m_groups m) (run CURRENCY_RE (drop n s) []))
      by (rewrite Hrun; by left).
    apply run_sound in Hin as (w & Hdrop & Hm).
    apply matches_currency_re in Hm as (int & frac & Htxt & Hg).
    exists n, int, frac. rewrite Hg. cbn [group Nat.eqb].
    assert (Hocc : occurs_at brl_int s n int frac) by (split; eauto).
    destruct Htxt as (ws & Hw & Hws & Hint & Hf & Hl).
    rewrite py_float_decimal by done.
    split; [done|]. split; [done|]. split.
    + intros n' i f Hocc'. destruct (Nat.le_gt_cases n n') as [|Hlt]; [done|].
      exfalso. eapply (no_run_no_occurrence _ _ brl_int_matches); eauto.
    + intros i f (_ & w' & post' & Hdrop' & Htxt').
      assert (Htxt : brl_text brl_int w int frac) by (exists ws; done).
      destruct (brl_text_unique w' w post' (m_post m) i int f frac) as [-> ->];
        [done|done|congruence|done].
  - left. split; [done|].
    by apply (search_none_no_occurrence _ _ brl_int_matches).
Qed.

(** C2 (as the code has it): the price text may carry a thousands-grouped
    integer or a plain run of digits.  [parse_brl] never raises; it returns
    no value exactly when no price text occurs in the input, and otherwise
    the binary64 value of the price text at the leftmost offset that has
    one (the text at an offset is read in one way only).  The three worked
    inputs of the specification evaluate as stated. *)
Theorem parse_brl_first_price_text :
  (forall s,
     match parse_brl s with
     | Ret None => forall n int frac, ~ occurs_at brl_int s n int frac
     | Ret (Some v) =>
         exists n int frac,
           occurs_at brl_int s n int frac
           /\ (forall n' i f, occurs_at brl_int s n' i f -> (n <= n')%nat)
           /\ (forall i f, occurs_at brl_int s n i f -> i = int /\ f = frac)
           /\ v = decimal_value int frac
     | Raise _ => False
     end)
  /\ parse_brl (u8 "R$ 1.234,56") = Ret (Some (flt 1234.56))
  /\ parse_brl (u8 "sem preço") = Ret None
  /\ parse_brl (u8 "R$12,5x") = Ret None.
Proof.
  split; [|repeat split; vm_compute; reflexivity].
  intros s. destruct (parse_brl_cases s) as [[-> Hno]|(n & int & frac & -> & H1 & H2 & H3)].
  - exact Hno.
  - exists n, int, frac. auto.
Qed.

(** C2, counterexample to the claim as worded: the input [R$1234,56] holds
    no text with a thousands-grouped integer part, and yet [parse_brl]
    returns 1234.56, through the second alternative of the pattern. *)
Lemma parse_brl_ungrouped_integer :
  parse_brl (u8 "R$1234,56") = Ret (Some (flt 1234.56))
  /\ forall n int frac, ~ occurs_at thousands_grouped (u8 "R$1234,56") n int frac.
Proof.
  split; [vm_compute; reflexivity|].
  apply (search_none_no_occurrence re_grouped).
  - apply matches_re_grouped.
  - vm_compute. reflexivity.
Qed.

(** C10: [parse_brl] is total but its result is not bounded: on every
    input it returns, without raising, either no value or a float that is
    not NaN and not negative: positive zero, a positive finite value or
    positive infinity. *)
Theorem parse_brl_total_nonneg (s : str) :
  exists r, parse_brl s = Ret r
    /\ match r with
       | None => True
       | Some v => signed false v /\ nonneg v = true
       end.
Proof.
  destruct (parse_brl_cases s) as [[-> _]|(n & int & frac & -> & _)].
  - by exists None.
  - exists (Some (decimal_value int frac)). split; [done|].
    pose proof (float_of_ratio_signed (digits_number (int ++ frac)) 100) as Hs.
    split; [exact Hs|by apply signed_nonneg].
Qed.

(** C10, counterexample to the claim as worded: the result is not bounded.
    A price with 310 nines before the comma is beyond the range of a
    float: [float] returns [inf] for it and so does [parse_brl], without
    passing through the error branch. *)
Lemma parse_brl_unbounded :
  parse_brl (u8 "R$" ++ repeat 57 310 ++ u8 ",00") = Ret (Some (S754_infinity false))
  /\ py_float (repeat 57 310 ++ u8 ".00") = Ret (S754_infinity false).
Proof. split; vm_compute; reflexivity. Qed.

(** ** Strings: trimming and lowercasing *)

Lemma is_space_spec c :
  is_space c = true <->
  (9 <= c <= 13) \/ (28 <= c <= 32) \/ c = 133 \/ c = 160 \/ c = 5760
  \/ (8192 <= c <= 8202) \/ c = 8232 \/ c = 8233 \/ c = 8239 \/ c = 8287 \/ c = 12288.
Proof.
  unfold is_space.
  rewrite !orb_true_iff, !andb_true_iff, !N.leb_le, !N.eqb_eq. tauto.
Qed.

(** *** What the case tables say *)

Lemma table_get_In {A} c (v : A) table : table_get c table = Some v -> In (c, v) table.
Proof.
  induction table as [|[k w] table IH]; simpl; [done|].
  destruct (k =? c) eqn:E.
  - apply N.eqb_eq in E. intros [= ->]. left. by subst.
  - intros H. right. by apply IH.
Qed.

(** No character that a lowercase mapping produces is itself mapped. *)
Lemma lower_table_outputs :
  forallb (fun kv => forallb (fun o => unmapped o) (snd kv)) lower_table = true.
Proof. vm_compute. reflexivity. Qed.

Lemma lower_table_no_space :
  forallb (fun kv => forallb (fun o => negb (is_space o)) (snd kv)) lower_table = true.
Proof. vm_compute. reflexivity. Qed.

Lemma lower_table_nonempty :
  forallb (fun kv => negb (length (snd kv) =? 0)%nat) lower_table = true.
Proof. vm_compute. reflexivity. Qed.

Lemma spaces_plain :
  forallb (fun c => unmapped c && negb (c =? 931) && negb (is_case_ignorable c)
                    && negb (is_cased c)) spaces = true.
Proof. vm_compute. reflexivity. Qed.

Lemma unmapped_fixed o : unmapped o = true -> lower_full o = [o] /\ o <> 931.
Proof.
  unfold unmapped, lower_full. destruct (table_get o lower_table) eqn:E; [done|].
  intros _. split; [done|]. intros ->. vm_compute in E. done.
Qed.

Lemma lower_full_cases c :
  lower_full c = [c] /\ unmapped c = true
  \/ exists out, In (c, out) lower_table /\ lower_full c = out.
Proof.
  unfold lower_full, unmapped. destruct (table_get c lower_table) as [out|] eqn:E.
  - right. exists out. split; [by apply table_get_In|done].
  - by left.
Qed.

Lemma lower_full_fixed c o : In o (lower_full c) -> lower_full o = [o] /\ o <> 931.
Proof.
  destruct (lower_full_cases c) as [[-> Hc]|(out & Hin & ->)].
  - intros [<-|[]]. by apply unmapped_fixed.
  - intros Ho. apply unmapped_fixed.
    pose proof lower_table_outputs as H. rewrite forallb_forall in H.
    specialize (H _ Hin). simpl in H. rewrite forallb_forall in H. by apply H.
Qed.

Lemma lower_full_no_space c o : is_space c = false -> In o (lower_full c) -> is_space o = false.
Proof.
  intros Hc. destruct (lower_full_cases c) as [[-> _]|(out & Hin & ->)].
  - by intros [<-|[]].
  - intros Ho. pose proof lower_table_no_space as H. rewrite forallb_forall in H.
    specialize (H _ Hin). simpl in H. rewrite forallb_forall in H.
    apply negb_true_iff. by apply H.
Qed.

Lemma lower_full_nonempty c : lower_full c <> [].
Proof.
  destruct (lower_full_cases c) as [[-> _]|(out & Hin & ->)]; [done|].
  pose proof lower_table_nonempty as H. rewrite forallb_forall in H.
  specialize (H _ Hin). simpl in H. by destruct out.
Qed.

Lemma is_space_spaces c : is_space c = true -> In c spaces.
Proof. intros H. apply is_space_spec in H. unfold spaces. simpl. lia. Qed.

Lemma space_plain c :
  is_space c = true ->
  lower_full c = [c] /\ c <> 931 /\ is_case_ignorable c = false /\ is_cased c = false.
Proof.
  intros H. apply is_space_spaces in H.
  pose proof spaces_plain as Hs. rewrite forallb_forall in Hs. specialize (Hs _ H).
  rewrite !andb_true_iff, !negb_true_iff in Hs.
  destruct Hs as [[[Hu Hn] Hi] Hc]. apply unmapped_fixed in Hu. tauto.
Qed.

(** *** [str.lower] *)

Lemma lower_at_cases b c a :
  c <> 931 /\ lower_at b c a = lower_full c
  \/ c = 931 /\ (lower_at b c a = [962] \/ lower_at b c a = [963]).
Proof.
  unfold lower_at. destruct (c =? 931) eqn:E.
  - apply N.eqb_eq in E. right. split; [done|]. destruct (final_sigma b a); auto.
  - apply N.eqb_neq in E. by left.
Qed.

Lemma lower_at_fixed b c a o : In o (lower_at b c a) -> lower_full o = [o] /\ o <> 931.
Proof.
  destruct (lower_at_cases b c a) as [[_ ->]|[_ [-> | ->]]].
  - apply lower_full_fixed.
  - intros [<-|[]]. by apply unmapped_fixed.
  - intros [<-|[]]. by apply unmapped_fixed.
Qed.

Lemma lower_at_no_space b c a o :
  is_space c = false -> In o (lower_at b c a) -> is_space o = false.
Proof.
  intros Hc. destruct (lower_at_cases b c a) as [[_ ->]|[_ [-> | ->]]].
  - by apply lower_full_no_space.
  - by intros [<-|[]].
  - by intros [<-|[]].
Qed.

Lemma lower_at_nonempty b c a : lower_at b c a <> [].
Proof.
  destruct (lower_at_cases b c a) as [[_ ->]|[_ [-> | ->]]]; [|done..].
  apply lower_full_nonempty.
Qed.

Lemma lower_at_self b c a : lower_full c = [c] -> c <> 931 -> lower_at b c a = [c].
Proof. intros H Hc. unfold lower_at. apply N.eqb_neq in Hc. by rewrite Hc. Qed.

Lemma lower_from_fixed s :
  forall b, Forall (fun o => lower_full o = [o] /\ o <> 931) (lower_from b s).
Proof.
  induction s as [|c s IH]; intros b; simpl; [constructor|].
  apply Forall_app. split; [|apply IH].
  apply List.Forall_forall. intros o. apply lower_at_fixed.
Qed.

Lemma lower_from_self t :
  forall b, Forall (fun o => lower_full o = [o] /\ o <> 931) t -> lower_from b t = t.
Proof.
  induction t as [|c t IH]; intros b H; simpl; [done|].
  apply Forall_cons in H as [[Hc Hn] Ht].
  by rewrite lower_at_self, IH.
Qed.

Lemma lower_idem s : lower (lower s) = lower s.
Proof. unfold lower. apply lower_from_self, lower_from_fixed. Qed.

Lemma lower_from_length s : forall b, (length s <= length (lower_from b s))%nat.
Proof.
  induction s as [|c s IH]; intros b; simpl; [lia|].
  rewrite length_app. specialize (IH (c :: b)).
  pose proof (lower_at_nonempty b c s) as Hn.
  destruct (lower_at b c s); [done|]. simpl. lia.
Qed.

Lemma lower_length s : (length s <= length (lower s))%nat.
Proof. apply lower_from_length. Qed.

(** *** Whitespace does not take part in lowercasing *)

Lemma first_significant_app x y :
  first_significant (x ++ y)
  = match first_significant x with Some c => Some c | None => first_significant y end.
Proof.
  induction x as [|c x IH]; simpl; [by destruct (first_significant y)|].
  by destruct (is_case_ignorable c).
Qed.

Lemma first_significant_space w y : is_space w = true -> first_significant (w :: y) = Some w.
Proof. intros H. apply space_plain in H as (_ & _ & Hi & _). simpl. by rewrite Hi. Qed.

Lemma final_sigma_before_space x w y a :
  is_space w = true -> final_sigma (x ++ w :: y) a = final_sigma x a.
Proof.
  intros H. unfold final_sigma. rewrite first_significant_app.
  destruct (first_significant x); [done|].
  rewrite first_significant_space by done.
  apply space_plain in H as (_ & _ & _ & ->). done.
Qed.

Lemma final_sigma_after_space b x w y :
  is_space w = true -> final_sigma b (x ++ w :: y) = final_sigma b x.
Proof.
  intros H. unfold final_sigma. rewrite first_significant_app.
  destruct (first_significant b); [|done]. f_equal.
  destruct (first_significant x); [done|].
  rewrite first_significant_space by done.
  apply space_plain in H as (_ & _ & _ & ->). done.
Qed.

Lemma lower_at_before_space x w y c a :
  is_space w = true -> lower_at (x ++ w :: y) c a = lower_at x c a.
Proof. intros H. unfold lower_at. by rewrite final_sigma_before_space. Qed.

Lemma lower_at_after_space b c x w y :
  is_space w = true -> lower_at b c (x ++ w :: y) = lower_at b c x.
Proof. intros H. unfold lower_at. by rewrite final_sigma_after_space. Qed.

Lemma lower_at_space b w a : is_space w = true -> lower_at b w a = [w].
Proof. intros H. apply space_plain in H as (Hf & Hn & _). by apply lower_at_self. Qed.

Lemma lower_from_before_space s :
  forall x w y, is_space w = true -> lower_from (x ++ w :: y) s = lower_from x s.
Proof.
  induction s as [|c s IH]; intros x w y H; simpl; [done|].
  rewrite lower_at_before_space by done. f_equal.
  by apply (IH (c :: x)).
Qed.

Lemma lower_from_behind_spaces ws s :
  Forall (fun c => is_space c = true) ws -> lower_from ws s = lower_from [] s.
Proof.
  destruct ws as [|w ws]; [done|]. intros H. apply Forall_cons in H as [Hw _].
  by apply (lower_from_before_space s [] w ws).
Qed.

Lemma lower_from_space_prefix ws :
  forall b s, Forall (fun c => is_space c = true) ws ->
    lower_from b (ws ++ s) = ws ++ lower_from (rev ws ++ b) s.
Proof.
  induction ws as [|w ws IH]; intros b s H; simpl; [done|].
  apply Forall_cons in H as [Hw H].
  rewrite lower_at_space by done. simpl. f_equal.
  rewrite IH by done. by rewrite <- app_assoc.
Qed.

Lemma lower_space_prefix ws s :
  Forall (fun c => is_space c = true) ws -> lower (ws ++ s) = ws ++ lower s.
Proof.
  intros H. unfold lower. rewrite lower_from_space_prefix by done. f_equal.
  rewrite app_nil_r. apply lower_from_behind_spaces. by apply Forall_rev.
Qed.

Lemma lower_from_space_suffix t :
  forall b ws, Forall (fun c => is_space c = true) ws ->
    lower_from b (t ++ ws) = lower_from b t ++ ws.
Proof.
  induction t as [|c t IH]; intros b ws H.
  - simpl. rewrite <- (app_nil_r ws) at 1. rewrite lower_from_space_prefix by done.
    by rewrite app_nil_r.
  - simpl. rewrite IH by done. rewrite <- app_assoc. f_equal.
    destruct ws as [|w ws]; [by rewrite app_nil_r|].
    apply Forall_cons in H as [Hw _]. by apply lower_at_after_space.
Qed.

Lemma lower_from_last x :
  forall b c, exists pre, lower_from b (x ++ [c]) = pre ++ lower_at (rev x ++ b) c [].
Proof.
  induction x as [|d x IH]; intros b c; simpl.
  - exists []. by rewrite app_nil_r.
  - destruct (IH (d :: b) c) as [pre ->].
    exists (lower_at b d (x ++ [c]) ++ pre). by rewrite <- !app_assoc.
Qed.

(** *** Trimming *)

Lemma lstrip_by_head p s : head_kept p (lstrip_by p s).
Proof.
  induction s as [|c s IH]; simpl; [done|].
  destruct (p c) eqn:E; [done|]. simpl. exact E.
Qed.

Lemma lstrip_by_kept p s : head_kept p s -> lstrip_by p s = s.
Proof. destruct s as [|c s]; simpl; [done|]. by intros ->. Qed.

Lemma rstrip_by_head p s : head_kept p s -> head_kept p (rstrip_by p s).
Proof.
  destruct s as [|c s]; simpl; [done|]. intros H.
  destruct (rstrip_by p s); [by rewrite H|done].
Qed.

Lemma rstrip_by_idem p s : rstrip_by p (rstrip_by p s) = rstrip_by p s.
Proof.
  induction s as [|c s IH]; simpl; [done|].
  destruct (rstrip_by p s) as [|x r] eqn:E.
  - destruct (p c) eqn:Ec; simpl; [done|]. by rewrite Ec.
  - change (rstrip_by p (c :: x :: r)) with
      (match rstrip_by p (x :: r) with [] => if p c then [] else [c] | r0 => c :: r0 end).
    by rewrite IH.
Qed.

Lemma strip_idem s : strip (strip s) = strip s.
Proof.
  unfold strip.
  rewrite (lstrip_by_kept is_space (rstrip_by is_space (lstrip_by is_space s))).
  - apply rstrip_by_idem.
  - apply rstrip_by_head, lstrip_by_head.
Qed.

Lemma head_kept_app p x y : head_kept p x -> x <> [] -> head_kept p (x ++ y).
Proof. by destruct x. Qed.

Lemma head_kept_app_inv p x y : head_kept p (x ++ y) -> x <> [] -> head_kept p x.
Proof. by destruct x. Qed.

Lemma rev_nonempty (x : str) : x <> [] -> rev x <> [].
Proof. destruct x as [|c x]; [done|]. intros _. simpl. by destruct (rev x). Qed.

Lemma lstrip_by_split p s :
  exists ws, s = ws ++ lstrip_by p s /\ Forall (fun c => p c = true) ws.
Proof.
  induction s as [|c s (ws & IH & Hws)]; simpl; [by exists []|].
  destruct (p c) eqn:E.
  - exists (c :: ws). split; [simpl; by f_equal|by constructor].
  - by exists [].
Qed.

Lemma rstrip_by_split p s :
  exists ws, s = rstrip_by p s ++ ws /\ Forall (fun c => p c = true) ws.
Proof.
  induction s as [|c s (ws & IH & Hws)]; simpl; [by exists []|].
  destruct (rstrip_by p s) as [|x r] eqn:E.
  - destruct (p c) eqn:Ec.
    + exists (c :: ws). split; [simpl in IH; by rewrite <- IH|by constructor].
    + exists ws. split; [simpl; by f_equal|done].
  - exists ws. split; [simpl; by f_equal|done].
Qed.

Lemma lstrip_by_app p ws t :
  Forall (fun c => p c = true) ws -> lstrip_by p (ws ++ t) = lstrip_by p t.
Proof.
  induction ws as [|w ws IH]; intros H; simpl; [done|].
  apply Forall_cons in H as [-> H]. by apply IH.
Qed.

Lemma rstrip_by_spaces p ws : Forall (fun c => p c = true) ws -> rstrip_by p ws = [].
Proof.
  induction ws as [|w ws IH]; intros H; simpl; [done|].
  apply Forall_cons in H as [-> H]. by rewrite IH.
Qed.

Lemma rstrip_by_app p t ws :
  Forall (fun c => p c = true) ws -> rstrip_by p (t ++ ws) = rstrip_by p t.
Proof.
  intros H. induction t as [|c t IH]; simpl; [by apply rstrip_by_spaces|].
  by rewrite IH.
Qed.

Lemma rstrip_by_last p s : head_kept p (rev (rstrip_by p s)).
Proof.
  induction s as [|c s IH]; simpl; [done|].
  destruct (rstrip_by p s) as [|x r] eqn:E.
  - destruct (p c) eqn:Ec; simpl; done.
  - change (rev (c :: x :: r)) with (rev (x :: r) ++ [c]).
    apply head_kept_app; [done|]. by apply rev_nonempty.
Qed.

Lemma rstrip_by_kept p s : head_kept p (rev s) -> rstrip_by p s = s.
Proof.
  induction s as [|c s IH]; simpl; [done|]. intros H.
  destruct s as [|d s].
  - simpl in *. by rewrite H.
  - rewrite IH; [done|].
    apply (head_kept_app_inv p _ [c]); [done|]. by apply rev_nonempty.
Qed.

(** A string without blanks at either end is what [strip] leaves of it
    once blanks are put around it. *)
Lemma strip_framed ws1 x ws2 :
  Forall (fun c => is_space c = true) ws1 -> Forall (fun c => is_space c = true) ws2 ->
  head_kept is_space x -> head_kept is_space (rev x) ->
  strip (ws1 ++ x ++ ws2) = x.
Proof.
  intros H1 H2 Hh Hl. unfold strip. rewrite lstrip_by_app by done.
  destruct x as [|c x].
  - simpl. rewrite <- (app_nil_r ws2). by rewrite lstrip_by_app.
  - rewrite lstrip_by_kept by done. rewrite rstrip_by_app by done.
    by apply rstrip_by_kept.
Qed.

Lemma strip_split s :
  exists ws1 ws2,
    s = ws1 ++ strip s ++ ws2
    /\ Forall (fun c => is_space c = true) ws1 /\ Forall (fun c => is_space c = true) ws2.
Proof.
  destruct (lstrip_by_split is_space s) as (ws1 & E1 & H1).
  destruct (rstrip_by_split is_space (lstrip_by is_space s)) as (ws2 & E2 & H2).
  exists ws1, ws2. unfold strip. by rewrite <- E2, <- E1.
Qed.

Lemma lower_head_kept x : head_kept is_space x -> head_kept is_space (lower x).
Proof.
  destruct x as [|c x]; [done|]. simpl. intros Hc. unfold lower. simpl.
  pose proof (lower_at_nonempty [] c x) as Hn.
  pose proof (lower_at_no_space [] c x) as Hs.
  destruct (lower_at [] c x) as [|o out]; [done|]. simpl.
  apply Hs; [done|by left].
Qed.

Lemma lower_last_kept x : head_kept is_space (rev x) -> head_kept is_space (rev (lower x)).
Proof.
  destruct (rev x) as [|c y] eqn:E.
  - intros _. apply (f_equal (@rev N)) in E. rewrite rev_involutive in E. by subst.
  - simpl. intros Hc.
    apply (f_equal (@rev N)) in E. rewrite rev_involutive in E. simpl in E. subst x.
    unfold lower. destruct (lower_from_last (rev y) [] c) as [pre ->].
    rewrite rev_app_distr.
    pose proof (lower_at_nonempty (rev (rev y) ++ []) c []) as Hn.
    pose proof (lower_at_no_space (rev (rev y) ++ []) c []) as Hs.
    apply head_kept_app; [|by apply rev_nonempty].
    destruct (rev (lower_at (rev (rev y) ++ []) c [])) as [|o out] eqn:Er; [done|].
    simpl. apply Hs; [done|]. apply in_rev. rewrite Er. by left.
Qed.

Lemma strip_lower s : strip (lower s) = lower (strip s).
Proof.
  destruct (strip_split s) as (ws1 & ws2 & E & H1 & H2).
  rewrite E at 1. rewrite lower_space_prefix by done.
  unfold lower at 1. rewrite lower_from_space_suffix by done.
  apply strip_framed; [done..| |].
  - apply lower_head_kept. unfold strip. apply rstrip_by_head, lstrip_by_head.
  - apply lower_last_kept. unfold strip. apply rstrip_by_last.
Qed.

Lemma lower_strip_idem s : lower (strip (lower (strip s))) = lower (strip s).
Proof. by rewrite strip_lower, lower_idem, strip_idem. Qed.

(** [str.lower] at work: a capital beyond Latin-1, the sigma that ends a
    word and the one that does not, and the capital I with a dot, whose
    lowercase form has two characters. *)
Example lower_examples :
  lower (u8 "ŒUF") = u8 "œuf"
  /\ lower (u8 "AÇÚCAR Élan") = u8 "açúcar élan"
  /\ lower (u8 "ΟΔΟΣ") = u8 "οδος"
  /\ lower (u8 "ΣΑΣ") = u8 "σας"
  /\ lower [304] = [105; 775].
Proof. vm_compute. done. Qed.

(** [deaccent] at work: letters of Latin Extended-A, a mark out of the
    block U+0300 to U+036F, Greek, the reordering of two marks, and a
    Hangul syllable, which is decomposed and keeps its three letters. *)
Example deaccent_examples :
  deaccent (u8 "Žatecký") = u8 "Zatecky"
  /\ deaccent (u8 "Feijão") = u8 "Feijao"
  /\ deaccent [97; 6832] = [97]
  /\ deaccent (u8 "Ελλάδα") = u8 "Ελλαδα"
  /\ NFD (u8 "ệ") = [101; 803; 770]
  /\ NFD [97; 775; 803] = [97; 803; 775]
  /\ deaccent (u8 "한") = [4370; 4449; 4523].
Proof. vm_compute. done. Qed.

(** ** Strings: the substring test *)

Lemma starts_with_spec p : forall s,
  starts_with p s = true <-> exists post, s = p ++ post.
Proof.
  induction p as [|a p IH]; intros s; simpl.
  - split; [eauto|done].
  - destruct s as [|b s].
    + split; [done|]. by intros (post & H).
    + rewrite andb_true_iff, N.eqb_eq, IH. split.
      * intros [-> (post & ->)]. eauto.
      * intros (post & H). inversion H; subst. eauto.
Qed.

Lemma contains_spec needle : forall hay,
  contains needle hay = true <-> exists pre post, hay = pre ++ needle ++ post.
Proof.
  induction hay as [|c hay IH]; simpl; rewrite orb_true_iff, starts_with_spec.
  - split.
    + intros [(post & H)|H]; [|done]. exists [], post. done.
    + intros (pre & post & H). left. destruct pre; [eauto|done].
  - rewrite IH. split.
    + intros [(post & H)|(pre & post & H)].
      * exists [], post. done.
      * exists (c :: pre), post. by rewrite H.
    + intros (pre & post & H). destruct pre as [|x pre].
      * left. eauto.
      * right. inversion H; subst. eauto.
Qed.

Lemma contains_nonempty termo k :
  str_falsy termo = false -> contains termo k = true -> str_falsy k = false.
Proof.
  destruct termo as [|a t]; [done|]. intros _. by destruct k.
Qed.

Lemma first_containing_spec termo precos :
  match first_containing termo precos with
  | Some (k, p) =>
      exists before after,
        precos = before ++ (k, p) :: after
        /\ contains termo k = true
        /\ Forall (fun kv => contains termo (fst kv) = false) before
  | None => Forall (fun kv => contains termo (fst kv) = false) precos
  end.
Proof.
  unfold first_containing. induction precos as [|[k p] precos IH]; simpl; [done|].
  destruct (contains termo k) eqn:E.
  - exists [], precos. by repeat split.
  - destruct (List.find _ precos) as [[k' p']|].
    + destruct IH as (before & after & -> & H1 & H2).
      exists ((k, p) :: before), after. repeat split; auto.
    + by constructor.
Qed.

(** ** [run_quote] *)

Lemma normalize_canonical n b :
  normalize n (lower (strip b)) = canonical_term (Some n) b.
Proof. unfold normalize, canonical_term. by rewrite lower_strip_idem. Qed.

Lemma scan_items_first termo precos total :
  scan_items termo precos total
  = match first_containing termo precos with
    | Some (k, p) => (Some k, p, fadd total p)
    | None => (None, float_zero, total)
    end.
Proof.
  unfold first_containing. induction precos as [|[k p] precos IH]; simpl; [done|].
  by destruct (contains termo k).
Qed.

Lemma quote_item_spec normalizer precos lista total b :
  quote_item normalizer precos (lista, total) b
  = if str_falsy (canonical_term normalizer b) then (lista, total)
    else (lista ++ [line_for normalizer precos b],
          fold_left fadd (added_for normalizer precos b) total).
Proof.
  unfold quote_item.
  assert (Ht : match normalizer with
               | Some n => normalize n (lower (strip b))
               | None => lower (strip b)
               end = canonical_term normalizer b).
  { destruct normalizer as [n|]; [apply normalize_canonical|done]. }
  rewrite Ht. destruct (str_falsy (canonical_term normalizer b)) eqn:Ef; [done|].
  rewrite scan_items_first. unfold line_for, added_for.
  pose proof (first_containing_spec (canonical_term normalizer b) precos) as Hs.
  destruct (first_containing (canonical_term normalizer b) precos) as [[k p]|]; [|done].
  destruct Hs as (_ & _ & _ & Hc & _).
  by rewrite (contains_nonempty _ _ Ef Hc).
Qed.

Lemma quote_items_spec normalizer precos : forall itens lista total,
  fold_left (quote_item normalizer precos) itens (lista, total)
  = (lista ++ market_lines normalizer itens precos,
     fold_left fadd (flat_map (added_for normalizer precos) (quoted normalizer itens)) total).
Proof.
  unfold market_lines, quoted.
  induction itens as [|b itens IH]; intros lista total.
  - simpl. by rewrite app_nil_r.
  - cbn [fold_left List.filter]. rewrite quote_item_spec.
    destruct (str_falsy (canonical_term normalizer b)); cbn [negb map flat_map]; [apply IH|].
    rewrite IH, <- app_assoc, fold_left_app. done.
Qed.

Lemma run_quote_fold itens normalizer : forall db c t,
  fold_left
    (fun '(cotacoes_finais, totais) '(nome_mercado, precos_do_mercado) =>
       let '(lista, total_mercado) :=
         fold_left (quote_item normalizer precos_do_mercado) itens ([], float_zero) in
       (dict_set nome_mercado lista cotacoes_finais,
        dict_set nome_mercado (py_round2 total_mercado) totais))
    db (c, t)
  = (fold_left (fun d kv => dict_set (fst kv) (snd kv) d)
       (dict_map (market_lines normalizer itens) db) c,
     fold_left (fun d kv => dict_set (fst kv) (snd kv) d)
       (dict_map (market_total normalizer itens) db) t).
Proof.
  induction db as [|[m precos] db IH]; intros c t; [done|].
  cbn [fold_left dict_map map fst snd]. rewrite quote_items_spec.
  rewrite app_nil_l. apply IH.
Qed.

(** C1 (as the code has it): for every market of the database, in order,
    [run_quote] holds one line per requested item whose normalized term
    (trimmed, lowercased, replaced by its synonym) is not empty: the first
    stored item whose name contains the term with its price, or the
    "not found" sentinel with price 0; the market's total is the sum, in
    order, of the prices found, rounded to two decimals.  An item whose
    normalized term is empty is skipped.  The worked example gives 37.00 for
    mercadoA with both items found. *)
Theorem run_quote_lines_and_totals :
  (forall now itens db normalizer,
     let r := run_quote now itens db normalizer in
     cotacoes_detalhadas r = dict_of (dict_map (market_lines normalizer itens) db)
     /\ totais_por_mercado r = dict_of (dict_map (market_total normalizer itens) db))
  /\ (forall termo precos,
        match first_containing termo precos with
        | Some (k, p) =>
            exists before after,
              precos = before ++ (k, p) :: after
              /\ (exists pre post, k = pre ++ termo ++ post)
              /\ Forall (fun kv => ~ exists pre post, fst kv = pre ++ termo ++ post) before
        | None => Forall (fun kv => ~ exists pre post, fst kv = pre ++ termo ++ post) precos
        end)
  /\ (let db := [(u8 "mercadoA", [(u8 "arroz 5kg tipo 1", flt 27.90);
                                  (u8 "feijão carioca 1kg", flt 9.10)])] in
      let r := run_quote (u8 "2025-01-01T00:00:00-03:00") [u8 "arroz"; u8 "feijão"] db
                 (Some (Normalizer_init load_default_mapping)) in
      cotacoes_detalhadas r
      = [(u8 "mercadoA",
          [{| item_buscado := u8 "arroz"; item_encontrado := u8 "arroz 5kg tipo 1";
              preco := flt 27.90 |};
           {| item_buscado := u8 "feijão"; item_encontrado := u8 "feijão carioca 1kg";
              preco := flt 9.10 |}])]
      /\ totais_por_mercado r = [(u8 "mercadoA", flt 37.00)]).
Proof.
  split; [|split].
  - intros now itens db normalizer. unfold run_quote, dict_of. simpl.
    rewrite run_quote_fold. done.
  - intros termo precos. pose proof (first_containing_spec termo precos) as H.
    assert (Hno : forall l : dict pyfloat,
               Forall (fun kv => contains termo (fst kv) = false) l ->
               Forall (fun kv => ~ exists pre post, fst kv = pre ++ termo ++ post) l).
    { intros l Hl. eapply Forall_impl; [exact Hl|]. intros kv Hkv Hex. cbv beta in Hkv.
      pose proof (proj2 (contains_spec termo (fst kv)) Hex) as Ht.
      exact (eq_true_false_abs _ Ht Hkv). }
    destruct (first_containing termo precos) as [[k p]|]; [|auto].
    destruct H as (before & after & -> & Hc & Hb).
    exists before, after. split; [done|]. split; [by apply contains_spec|auto].
  - vm_compute. done.
Qed.

(** C1, counterexample to the claim as worded: the requested item [" "]
    normalizes to the empty term, which every item name contains, so a line
    for every requested item would match the first stored item and add its
    price; [run_quote] skips the item: no line, total 0. *)
Lemma run_quote_blank_item_skipped :
  let precos := [(u8 "arroz 5kg tipo 1", flt 27.90)] in
  let db := [(u8 "mercadoa", precos)] in
  let r := run_quote (u8 "2025-01-01T00:00:00-03:00") [u8 " "] db None in
  cotacoes_detalhadas r = [(u8 "mercadoa", [])]
  /\ totais_por_mercado r = [(u8 "mercadoa", float_zero)]
  /\ market_lines_all None [u8 " "] precos
     = [{| item_buscado := u8 " "; item_encontrado := u8 "arroz 5kg tipo 1";
           preco := flt 27.90 |}]
  /\ market_total_all None [u8 " "] precos = flt 27.90
  /\ cotacoes_detalhadas r <> dict_of (dict_map (market_lines_all None [u8 " "]) db)
  /\ totais_por_mercado r <> dict_of (dict_map (market_total_all None [u8 " "]) db).
Proof. vm_compute. repeat split; discriminate. Qed.

(** Lowercasing is that of [str.lower] on all of Unicode: the requested
    item "ŒUF" is found in the stored name "œuf c". *)
Example run_quote_lowercases_term :
  let db := [(u8 "mercadoa", [(u8 "œuf c", flt 3.50)])] in
  let r := run_quote (u8 "2025-01-01T00:00:00-03:00") [u8 "ŒUF"] db None in
  cotacoes_detalhadas r
  = [(u8 "mercadoa",
      [{| item_buscado := u8 "ŒUF"; item_encontrado := u8 "œuf c"; preco := flt 3.50 |}])]
  /\ totais_por_mercado r = [(u8 "mercadoa", flt 3.50)].
Proof. vm_compute. done. Qed.

(** ** Dictionaries *)

Lemma str_eqb_eq a b : str_eqb a b = true <-> a = b.
Proof. unfold str_eqb. apply bool_decide_eq_true. Qed.

Lemma str_eqb_refl a : str_eqb a a = true.
Proof. by apply str_eqb_eq. Qed.

Lemma str_eqb_neq a b : str_eqb a b = false <-> a <> b.
Proof. unfold str_eqb. apply bool_decide_eq_false. Qed.

Lemma str_eqb_sym a b : str_eqb a b = str_eqb b a.
Proof.
  destruct (str_eqb b a) eqn:E.
  - apply str_eqb_eq in E. subst. apply str_eqb_refl.
  - apply str_eqb_neq. apply str_eqb_neq in E. congruence.
Qed.

Lemma dict_get_set {V} k k' (v : V) d :
  dict_get k (dict_set k' v d) = if str_eqb k k' then Some v else dict_get k d.
Proof.
  induction d as [|[k0 v0] d IH]; simpl.
  - by destruct (str_eqb k k').
  - destruct (str_eqb k' k0) eqn:E1; simpl.
    + apply str_eqb_eq in E1. subst k0. by destruct (str_eqb k k').
    + destruct (str_eqb k k0) eqn:E2; [|exact IH].
      apply str_eqb_eq in E2. subst k0. by rewrite str_eqb_sym, E1.
Qed.

Lemma dict_set_set {V} k (v w : V) d : dict_set k w (dict_set k v d) = dict_set k w d.
Proof.
  induction d as [|[k0 v0] d IH]; simpl.
  - by rewrite str_eqb_refl.
  - destruct (str_eqb k k0) eqn:E; simpl; rewrite E; [done|]. by rewrite IH.
Qed.

Lemma dict_set_new {V} k (v : V) d : dict_get k d = None -> dict_set k v d = d ++ [(k, v)].
Proof.
  induction d as [|[k0 v0] d IH]; simpl; [done|].
  destruct (str_eqb k k0); [done|]. intros H. by rewrite IH.
Qed.

Lemma dict_get_none_keys {V} k (d : dict V) : dict_get k d = None <-> ~ In k (dict_keys d).
Proof.
  induction d as [|[k0 v0] d IH]; simpl; [tauto|].
  destruct (str_eqb k k0) eqn:E.
  - apply str_eqb_eq in E. subst. split; [done|]. intros H. exfalso. auto.
  - apply str_eqb_neq in E. rewrite IH. split; [intros H [?|?]; auto|tauto].
Qed.

Lemma dict_keys_set {V} k (v : V) d :
  dict_keys (dict_set k v d)
  = match dict_get k d with
    | Some _ => dict_keys d
    | None => dict_keys d ++ [k]
    end.
Proof.
  unfold dict_keys. induction d as [|[k0 v0] d IH]; simpl; [done|].
  destruct (str_eqb k k0) eqn:E; simpl; [done|].
  rewrite IH. by destruct (dict_get k d).
Qed.

(** ** Sequences of writes *)

Lemma dict_alter_cons {V} (e : V) g k k0 v0 d :
  dict_alter e g k ((k0, v0) :: d)
  = if str_eqb k k0 then (k0, g v0) :: d else (k0, v0) :: dict_alter e g k d.
Proof. unfold dict_alter. simpl. by destruct (str_eqb k k0). Qed.

Lemma alter_all_cons {V} (e : V) : forall ops k0 v0 d,
  alter_all e ops ((k0, v0) :: d)
  = (k0, comp_at k0 ops v0) :: alter_all e (other_keys k0 ops) d.
Proof.
  induction ops as [|[k g] ops IH]; intros k0 v0 d; [done|].
  unfold alter_all in *. cbn [fold_left fst snd comp_at other_keys List.filter].
  rewrite dict_alter_cons. destruct (str_eqb k k0) eqn:E; cbn [negb].
  - apply IH.
  - rewrite IH. done.
Qed.

Lemma alter_all_nil {V} (e : V) k g ops :
  alter_all e ((k, g) :: ops) []
  = (k, comp_at k ops (g e)) :: alter_all e (other_keys k ops) [].
Proof.
  change (alter_all e ((k, g) :: ops) []) with (alter_all e ops [(k, g e)]).
  apply alter_all_cons.
Qed.

Lemma comp_at_other_keys {V} k k0 : forall (ops : list (str * (V -> V))) v,
  comp_at k (other_keys k0 ops) v = if str_eqb k0 k then v else comp_at k ops v.
Proof.
  induction ops as [|[k' g] ops IH]; intros v; simpl.
  - by destruct (str_eqb k0 k).
  - destruct (str_eqb k' k0) eqn:E1; simpl.
    + apply str_eqb_eq in E1. subst k'. rewrite IH. by destruct (str_eqb k0 k).
    + rewrite IH. destruct (str_eqb k0 k) eqn:E2; [|done].
      apply str_eqb_eq in E2. subst k0. by rewrite E1.
Qed.

Lemma other_keys_length {V} k (ops : list (str * (V -> V))) :
  (length (other_keys k ops) <= length ops)%nat.
Proof. unfold other_keys. induction ops; simpl; [done|]. destruct (negb _); simpl; lia. Qed.

Lemma idem_other_keys {V} k0 (ops : list (str * (V -> V))) :
  idem_ops ops -> idem_ops (other_keys k0 ops).
Proof.
  intros H k v. rewrite !comp_at_other_keys. destruct (str_eqb k0 k); [done|apply H].
Qed.

Lemma alter_all_idem_nil {V} (e : V) : forall n ops,
  (length ops <= n)%nat -> idem_ops ops ->
  alter_all e ops (alter_all e ops []) = alter_all e ops [].
Proof.
  induction n as [|n IH]; intros [|[k g] ops] Hlen Hid; try done; [simpl in Hlen; lia|].
  rewrite alter_all_nil, alter_all_cons.
  assert (Hok : other_keys k ((k, g) :: ops) = other_keys k ops).
  { unfold other_keys. simpl. by rewrite str_eqb_refl. }
  rewrite Hok. f_equal.
  - f_equal. specialize (Hid k e). simpl in Hid. rewrite str_eqb_refl in Hid.
    simpl. by rewrite str_eqb_refl.
  - apply IH.
    + pose proof (other_keys_length k ops). simpl in Hlen. lia.
    + rewrite <- Hok. by apply idem_other_keys.
Qed.

Lemma alter_all_idem {V} (e : V) : forall d ops,
  idem_ops ops -> alter_all e ops (alter_all e ops d) = alter_all e ops d.
Proof.
  induction d as [|[k0 v0] d IH]; intros ops Hid.
  - by apply (alter_all_idem_nil e (length ops)).
  - rewrite !alter_all_cons. f_equal; [by rewrite Hid|].
    apply IH. by apply idem_other_keys.
Qed.

Lemma dict_get_alter_all {V} (e : V) k : forall ops d,
  dict_get k (alter_all e ops d)
  = match dict_get k d with
    | Some v => Some (comp_at k ops v)
    | None => if existsb (fun op => str_eqb (fst op) k) ops
              then Some (comp_at k ops e) else None
    end.
Proof.
  induction ops as [|[k' g] ops IH]; intros d.
  - simpl. by destruct (dict_get k d).
  - unfold alter_all in *. cbn [fold_left fst snd existsb comp_at].
    rewrite IH. unfold dict_alter. rewrite dict_get_set, (str_eqb_sym k k').
    destruct (str_eqb k' k) eqn:E; simpl.
    + apply str_eqb_eq in E. subst k'. by destruct (dict_get k d).
    + by destruct (dict_get k d).
Qed.

(** ** [merge_price_db] as sequences of writes *)

Lemma write_items_alter n : forall items t,
  write_items n items t = alter_all float_zero (item_writes n items) t.
Proof.
  unfold write_items, alter_all, item_writes.
  induction items as [|[i p] items IH]; intros t; simpl; [done|]. by rewrite IH.
Qed.

Lemma write_items_app n a b t :
  write_items n (a ++ b) t = write_items n b (write_items n a t).
Proof. unfold write_items. apply fold_left_app. Qed.

Lemma comp_at_item_writes n k : forall items v,
  comp_at k (item_writes n items) v
  = match last_price n k items with Some p => p | None => v end.
Proof.
  induction items as [|[i p] items IH]; intros v; simpl; [done|].
  rewrite IH. destruct (last_price n k items); [done|].
  rewrite (str_eqb_sym k). by destruct (str_eqb _ _).
Qed.

Lemma item_writes_idem n items : idem_ops (item_writes n items).
Proof.
  intros k v. rewrite !comp_at_item_writes. by destruct (last_price n k items).
Qed.

Lemma write_items_idem n items t :
  write_items n items (write_items n items t) = write_items n items t.
Proof. rewrite !write_items_alter. apply alter_all_idem, item_writes_idem. Qed.

Lemma last_price_exists n k items :
  existsb (fun op : str * (pyfloat -> pyfloat) => str_eqb (fst op) k) (item_writes n items)
  = match last_price n k items with Some _ => true | None => false end.
Proof.
  induction items as [|[i p] items IH]; simpl; [done|].
  rewrite IH. destruct (last_price n k items); [apply orb_true_r|].
  rewrite orb_false_r, (str_eqb_sym k). by destruct (str_eqb _ _).
Qed.

Lemma dict_get_write_items n canon items t :
  dict_get canon (write_items n items t)
  = match last_price n canon items with
    | Some p => Some p
    | None => dict_get canon t
    end.
Proof.
  rewrite write_items_alter, dict_get_alter_all, last_price_exists.
  destruct (dict_get canon t); rewrite ?comp_at_item_writes;
    by destruct (last_price n canon items).
Qed.

Lemma merge_price_db_alter c u n :
  merge_price_db c u n = alter_all [] (market_writes n u) c.
Proof.
  unfold merge_price_db, alter_all, market_writes. revert c.
  induction u as [|[m items] u IH]; intros c; simpl; [done|]. by rewrite IH.
Qed.

Lemma comp_at_market_writes n m : forall u t,
  comp_at m (market_writes n u) t = write_items n (updates_for m u) t.
Proof.
  induction u as [|[m' items] u IH]; intros t; [done|].
  cbn [market_writes map comp_at fst snd]. fold (market_writes n u). rewrite IH.
  unfold updates_for. cbn [flat_map fst snd]. rewrite write_items_app.
  rewrite (str_eqb_sym m m'). by destruct (str_eqb m' m).
Qed.

Lemma market_writes_idem n u : idem_ops (market_writes n u).
Proof. intros m t. rewrite !comp_at_market_writes. apply write_items_idem. Qed.

Lemma updates_for_absent n m u :
  existsb (fun op : str * (dict pyfloat -> dict pyfloat) => str_eqb (fst op) m)
          (market_writes n u) = false ->
  updates_for m u = [].
Proof.
  induction u as [|[m' items] u IH]; simpl; [done|].
  intros H. apply orb_false_iff in H as [H1 H2].
  unfold updates_for in *. simpl. rewrite (str_eqb_sym m m'), H1. simpl. by apply IH.
Qed.

Lemma existsb_market_writes n m u :
  existsb (fun op : str * (dict pyfloat -> dict pyfloat) => str_eqb (fst op) m)
          (market_writes n u)
  = existsb (fun e : str * dict pyfloat => str_eqb (fst e) m) u.
Proof. induction u as [|e u IH]; simpl; [done|]. by rewrite IH. Qed.

Lemma dict_get_merge c u n m :
  dict_get m (merge_price_db c u n)
  = match dict_get m c with
    | Some t => Some (write_items n (updates_for m u) t)
    | None => if existsb (fun e => str_eqb (fst e) m) u
              then Some (write_items n (updates_for m u) []) else None
    end.
Proof.
  rewrite merge_price_db_alter, dict_get_alter_all.
  destruct (dict_get m c); rewrite ?comp_at_market_writes; [done|].
  by rewrite existsb_market_writes.
Qed.

Lemma lookup2_merge c u n m canon :
  lookup2 m canon (merge_price_db c u n)
  = match last_price n canon (updates_for m u) with
    | Some p => Some p
    | None => lookup2 m canon c
    end.
Proof.
  unfold lookup2. rewrite dict_get_merge.
  destruct (dict_get m c) as [t|]; [apply dict_get_write_items|].
  destruct (existsb _ u) eqn:E.
  - rewrite dict_get_write_items. by destruct (last_price _ _ _).
  - rewrite (updates_for_absent n m u); [done|].
    by rewrite existsb_market_writes.
Qed.

(** C4: merging the same updates a second time changes nothing. *)
Theorem merge_price_db_idempotent (current updates : PriceDB) (normalizer : Normalizer) :
  merge_price_db (merge_price_db current updates normalizer) updates normalizer
  = merge_price_db current updates normalizer.
Proof.
  rewrite !merge_price_db_alter. apply alter_all_idem, market_writes_idem.
Qed.

(** ** Lowercase keys *)

Lemma Forall_dict_set {V} (P : str * V -> Prop) k (v : V) d :
  Forall P d -> P (k, v) -> Forall P (dict_set k v d).
Proof.
  intros Hd Hk. induction Hd as [|[k0 v0] d H0 Hd IH]; simpl.
  - by constructor.
  - destruct (str_eqb k k0) eqn:E.
    + apply str_eqb_eq in E. subst k0. by constructor.
    + by constructor.
Qed.

Lemma dict_get_In {V} k (v : V) d : dict_get k d = Some v -> In (k, v) d.
Proof.
  induction d as [|[k0 v0] d IH]; simpl; [done|].
  destruct (str_eqb k k0) eqn:E.
  - apply str_eqb_eq in E. intros [= ->]. subst. by left.
  - intros H. right. by apply IH.
Qed.

Lemma is_lower_lower s : is_lower (lower s).
Proof. apply lower_idem. Qed.

Lemma normalize_is_lower n term : lower_values n -> is_lower (normalize n term).
Proof.
  intros Hn. unfold normalize.
  destruct (str_falsy (lower (strip term))); [apply is_lower_lower|].
  destruct (dict_get (lower (strip term)) (mapping n)) as [c|] eqn:E; [|apply is_lower_lower].
  apply dict_get_In in E. unfold lower_values in Hn.
  rewrite Forall_forall in Hn. apply (Hn _ (proj2 (list_elem_of_In _ _) E)).
Qed.

Lemma write_items_lower n : forall items t,
  lower_values n ->
  Forall (fun kv : str * pyfloat => is_lower (fst kv)) t ->
  Forall (fun kv : str * pyfloat => is_lower (fst kv)) (write_items n items t).
Proof.
  unfold write_items. induction items as [|[i p] items IH]; intros t Hn Ht; simpl; [done|].
  apply IH; [done|]. apply Forall_dict_set; [done|]. by apply normalize_is_lower.
Qed.

Lemma merge_market_lower n db m items :
  lower_values n -> is_lower m -> lower_db db -> lower_db (merge_market n db (m, items)).
Proof.
  intros Hn Hm Hdb. unfold merge_market, lower_db. apply Forall_dict_set; [done|].
  split; [done|]. simpl. apply write_items_lower; [done|].
  destruct (dict_get m db) as [t|] eqn:E; [|constructor].
  apply dict_get_In in E. unfold lower_db in Hdb. rewrite Forall_forall in Hdb.
  apply (Hdb _ (proj2 (list_elem_of_In _ _) E)).
Qed.

Lemma merge_price_db_lower n : forall u c,
  lower_values n -> lower_db c ->
  Forall (fun e : str * dict pyfloat => is_lower (fst e)) u ->
  lower_db (merge_price_db c u n).
Proof.
  unfold merge_price_db. induction u as [|[m items] u IH]; intros c Hn Hc Hu; simpl; [done|].
  inversion Hu; subst. apply IH; [done| |done]. by apply merge_market_lower.
Qed.

Lemma Normalizer_init_lower m : lower_values (Normalizer_init m).
Proof.
  unfold lower_values, Normalizer_init. simpl.
  assert (H : forall acc : dict str,
    Forall (fun kv => is_lower (snd kv)) acc ->
    Forall (fun kv => is_lower (snd kv))
      (fold_left (fun acc '(k, v) => dict_set (lower k) (lower v) acc) m acc)).
  { induction m as [|[k v] m IH]; intros acc Hacc; simpl; [done|].
    apply IH. apply Forall_dict_set; [done|]. apply is_lower_lower. }
  apply H. constructor.
Qed.

Lemma Normalizer_add_lower n variant canonical :
  lower_values n -> lower_values (Normalizer_add n variant canonical).
Proof.
  intros H. unfold lower_values, Normalizer_add. simpl.
  apply Forall_dict_set; [done|]. apply is_lower_lower.
Qed.

Lemma lower_keys_lower prices :
  Forall (fun kv : str * pyfloat => is_lower (fst kv)) (lower_keys prices).
Proof.
  unfold lower_keys.
  assert (H : forall acc : dict pyfloat,
    Forall (fun kv => is_lower (fst kv)) acc ->
    Forall (fun kv => is_lower (fst kv))
      (fold_left (fun d kv => dict_set (lower (fst kv)) (snd kv) d) prices acc)).
  { induction prices as [|[k v] prices IH]; intros acc Hacc; simpl; [done|].
    apply IH. apply Forall_dict_set; [done|]. apply is_lower_lower. }
  apply H. constructor.
Qed.

Lemma collect_from_sources_lower sources : lower_db (collect_from_sources sources).
Proof.
  unfold collect_from_sources, gather_results.
  assert (H : forall acc, lower_db acc ->
    lower_db (fold_left (fun merged res =>
               match res with
               | TaskError => merged
               | TaskOk name prices => dict_set (lower name) prices merged
               end) (map (fun s => run_one (fst s) (snd s)) sources) acc)).
  { induction sources as [|[name [prices|e]] sources IH]; intros acc Hacc; simpl; [done| |].
    - apply IH. apply Forall_dict_set; [done|]. split; [apply is_lower_lower|].
      apply lower_keys_lower.
    - by apply IH. }
  apply H. constructor.
Qed.

(** C6 (as the code has it): merging keeps the database's keys lowercase
    when the market keys of the updates are lowercase, item keys being of
    any case; the normalizer's canonical names are lowercase, as
    [Normalizer.__init__] and [Normalizer.add] make them.  The updates that
    [collect_from_sources] returns have lowercase market (and item) keys. *)
Theorem merge_price_db_lowercase_keys (current updates : PriceDB) (normalizer : Normalizer) :
  lower_db current ->
  lower_values normalizer ->
  Forall (fun e => is_lower (fst e)) updates ->
  lower_db (merge_price_db current updates normalizer)
  /\ (forall m, lower_values (Normalizer_init m))
  /\ (forall variant canonical, lower_values (Normalizer_add normalizer variant canonical))
  /\ (forall sources,
        lower_db (collect_from_sources sources)
        /\ lower_db (merge_price_db current (collect_from_sources sources) normalizer)).
Proof.
  intros Hc Hn Hu. split; [by apply merge_price_db_lower|].
  split; [apply Normalizer_init_lower|].
  split; [intros; by apply Normalizer_add_lower|].
  intros sources. pose proof (collect_from_sources_lower sources) as Hs.
  split; [done|]. apply merge_price_db_lower; [done|done|].
  unfold lower_db in Hs. eapply Forall_impl; [exact Hs|]. by intros e [He _].
Qed.

Lemma merge_price_db_lowercase_keys_witness :
  let current := [(u8 "mercadoa", [(u8 "arroz 5kg tipo 1", flt 27.90)])] in
  let updates := [(u8 "mercadob", [(u8 "Feijão ", flt 9.10); (u8 "LEITE", flt 4.10);
                                   (u8 "ŒUF", flt 3.50)])] in
  let normalizer := Normalizer_init load_default_mapping in
  lower_db (merge_price_db current updates normalizer)
  /\ merge_price_db current updates normalizer
     = [(u8 "mercadoa", [(u8 "arroz 5kg tipo 1", flt 27.90)]);
        (u8 "mercadob", [(u8 "feijão carioca 1kg", flt 9.10);
                         (u8 "leite longa vida 1l", flt 4.10);
                         (u8 "œuf", flt 3.50)])].
Proof.
  split; [|vm_compute; reflexivity].
  apply (merge_price_db_lowercase_keys
           [(u8 "mercadoa", [(u8 "arroz 5kg tipo 1", flt 27.90)])]
           [(u8 "mercadob", [(u8 "Feijão ", flt 9.10); (u8 "LEITE", flt 4.10);
                             (u8 "ŒUF", flt 3.50)])]
           (Normalizer_init load_default_mapping)).
  - repeat constructor.
  - apply Normalizer_init_lower.
  - repeat constructor.
Defined.

(** C6, counterexample to the claim as worded: a market key of the updates
    that is not lowercase is stored as it is. *)
Lemma merge_price_db_keeps_market_case :
  let updates := [(u8 "MercadoA", [(u8 "Arroz", flt 27.90)])] in
  let normalizer := Normalizer_init load_default_mapping in
  lower_db [] /\ lower_values normalizer
  /\ merge_price_db [] updates normalizer
     = [(u8 "MercadoA", [(u8 "arroz 5kg tipo 1", flt 27.90)])]
  /\ ~ lower_db (merge_price_db [] updates normalizer).
Proof.
  split; [constructor|]. split; [apply Normalizer_init_lower|].
  split; [vm_compute; reflexivity|].
  intros H. inversion H as [|e l [Hm _] _]; subst. vm_compute in Hm. discriminate.
Qed.

(** ** The store *)

Lemma read_items_lt h l d : read_items h l = Some d -> (l < length h)%nat.
Proof.
  unfold read_items. destruct (h !! l) as [o|] eqn:E; [|done].
  intros _. by apply lookup_lt_Some in E.
Qed.

Lemma read_db_lt h l d : read_db h l = Some d -> (l < length h)%nat.
Proof.
  unfold read_db. destruct (h !! l) as [o|] eqn:E; [|done].
  intros _. by apply lookup_lt_Some in E.
Qed.

Lemma read_items_insert_eq h l d :
  (l < length h)%nat -> read_items (<[l := OItems d]> h) l = Some d.
Proof. intros H. unfold read_items. by rewrite list_lookup_insert_eq. Qed.

Lemma read_items_insert_ne h l l' o :
  l' <> l -> read_items (<[l' := o]> h) l = read_items h l.
Proof. intros H. unfold read_items. by rewrite list_lookup_insert_ne. Qed.

Lemma read_items_insert_db h l l' d d' it :
  read_db h l' = Some d' ->
  read_items h l = Some it -> read_items (<[l' := ODb d]> h) l = Some it.
Proof.
  intros Hdb H. rewrite read_items_insert_ne; [done|].
  intros ->. unfold read_items, read_db in *. destruct (h !! l) as [[]|]; done.
Qed.

Lemma read_db_app h ext l d :
  read_db h l = Some d -> read_db (h ++ ext) l = Some d.
Proof.
  unfold read_db. destruct (h !! l) as [o|] eqn:E; [|done].
  by rewrite (lookup_app_l_Some _ _ _ _ E).
Qed.

Lemma read_items_app h ext l d :
  read_items h l = Some d -> read_items (h ++ ext) l = Some d.
Proof.
  unfold read_items. destruct (h !! l) as [o|] eqn:E; [|done].
  by rewrite (lookup_app_l_Some _ _ _ _ E).
Qed.

Lemma read_items_alloc h d : read_items (h ++ [OItems d]) (length h) = Some d.
Proof. unfold read_items. by rewrite list_lookup_middle. Qed.

Lemma read_db_alloc h d : read_db (h ++ [ODb d]) (length h) = Some d.
Proof. unfold read_db. by rewrite list_lookup_middle. Qed.

Lemma frame_refl base h : frame base h h.
Proof. by split. Qed.

Lemma frame_trans base h1 h2 h3 : frame base h1 h2 -> frame base h2 h3 -> frame base h1 h3.
Proof.
  intros [L1 F1] [L2 F2]. split; [lia|]. intros l Hl. by rewrite F2, F1.
Qed.

Lemma frame_app base h ext : (base <= length h)%nat -> frame base h (h ++ ext).
Proof.
  intros Hb. split; [rewrite length_app; lia|]. intros l Hl. apply lookup_app_l. lia.
Qed.

Lemma frame_insert base h l o : (base <= l)%nat -> frame base h (<[l := o]> h).
Proof.
  intros Hb. split; [by rewrite length_insert|]. intros l' Hl'.
  apply list_lookup_insert_ne. lia.
Qed.

Lemma deref_all_ext h h' : forall dl,
  Forall (fun kl : str * loc => read_items h' (snd kl) = read_items h (snd kl)) dl ->
  deref_all h' dl = deref_all h dl.
Proof.
  induction dl as [|[k l] dl IH]; intros H; simpl; [done|].
  inversion H as [|? ? H1 H2]; subst. simpl in H1. by rewrite H1, IH.
Qed.

Lemma deref_all_frame base h h' dl :
  frame base h h' -> Forall (fun kl : str * loc => (snd kl < base)%nat) dl ->
  deref_all h' dl = deref_all h dl.
Proof.
  intros [_ F] H. apply deref_all_ext. eapply Forall_impl; [exact H|].
  intros [k l] Hl. simpl in *. unfold read_items. by rewrite F.
Qed.

Lemma deref_all_readable h : forall dl D,
  deref_all h dl = Some D ->
  Forall (fun kl : str * loc => exists it, read_items h (snd kl) = Some it) dl.
Proof.
  induction dl as [|[k l] dl IH]; intros D H; simpl in *; [constructor|].
  destruct (read_items h l) as [it|] eqn:E1; [|done].
  destruct (deref_all h dl) as [r|] eqn:E2; [|done].
  constructor; [simpl; eauto|]. by eapply IH.
Qed.

Lemma deref_all_lt h dl D :
  deref_all h dl = Some D -> Forall (fun kl : str * loc => (snd kl < length h)%nat) dl.
Proof.
  intros H. apply deref_all_readable in H. eapply Forall_impl; [exact H|].
  intros [k l] [it Hit]. simpl in *. by eapply read_items_lt.
Qed.

Lemma deref_all_stable h h' dl D :
  deref_all h dl = Some D ->
  (forall l it, read_items h l = Some it -> read_items h' l = Some it) ->
  deref_all h' dl = Some D.
Proof.
  intros HD Hst. rewrite <- HD. apply deref_all_ext.
  apply deref_all_readable in HD. eapply Forall_impl; [exact HD|].
  intros [k l] [it Hit]. simpl in *. rewrite Hit. by apply Hst.
Qed.

Lemma deref_all_get h m : forall dl D,
  deref_all h dl = Some D ->
  dict_get m D = match dict_get m dl with
                 | Some l => read_items h l
                 | None => None
                 end.
Proof.
  induction dl as [|[k l] dl IH]; intros D H; simpl in *.
  - by inversion H.
  - destruct (read_items h l) as [it|] eqn:E1; [|done].
    destruct (deref_all h dl) as [r|] eqn:E2; [|done].
    inversion H; subst. simpl. destruct (str_eqb m k); [done|]. by apply IH.
Qed.

Lemma deref_all_app h dl m l D it :
  deref_all h dl = Some D -> read_items h l = Some it ->
  deref_all h (dl ++ [(m, l)]) = Some (D ++ [(m, it)]).
Proof.
  revert D. induction dl as [|[k l0] dl IH]; intros D HD Hit; simpl in *.
  - inversion HD; subst. by rewrite Hit.
  - destruct (read_items h l0) as [it0|] eqn:E1; [|done].
    destruct (deref_all h dl) as [r|] eqn:E2; [|done].
    inversion HD; subst. by rewrite (IH r eq_refl Hit).
Qed.

Lemma dict_get_In_snd {V} m (l : V) d : dict_get m d = Some l -> In l (map snd d).
Proof. intros H. apply dict_get_In in H. apply in_map_iff. by exists (m, l). Qed.

(** Writing into the object that [db] holds for a market changes the
    market's entry, and no other one. *)
Lemma deref_all_update h m t t' : forall dl D,
  NoDup (map snd dl) ->
  deref_all h dl = Some D ->
  dict_get m dl = Some t ->
  deref_all (<[t := OItems t']> h) dl = Some (dict_set m t' D).
Proof.
  induction dl as [|[k l] dl IH]; intros D Hnd HD Hget; simpl in *; [done|].
  destruct (read_items h l) as [it|] eqn:E1; [|done].
  destruct (deref_all h dl) as [r|] eqn:E2; [|done].
  inversion HD; subst. apply NoDup_cons in Hnd as [Hnot Hnd]. simpl.
  destruct (str_eqb m k) eqn:E.
  - inversion Hget; subst.
    rewrite read_items_insert_eq by (by eapply read_items_lt).
    assert (Hsame : deref_all (<[t := OItems t']> h) dl = deref_all h dl).
    { apply deref_all_ext. apply Forall_forall. intros [k' l'] Hin. simpl.
      apply read_items_insert_ne. intros ->. apply Hnot.
      apply list_elem_of_In. apply list_elem_of_In in Hin. apply in_map_iff. by exists (k', l'). }
    by rewrite Hsame, E2.
  - rewrite read_items_insert_ne, E1.
    + by rewrite (IH r Hnd eq_refl Hget).
    + intros ->. apply Hnot. apply list_elem_of_In. by eapply dict_get_In_snd.
Qed.

Lemma write_items_heap_spec n : forall items h target t0,
  read_items h target = Some t0 ->
  write_items_heap n h target items
  = Some (<[target := OItems (write_items n items t0)]> h).
Proof.
  unfold write_items.
  induction items as [|[item price] items IH]; intros h target t0 H; simpl.
  - f_equal. symmetry. apply list_insert_id. unfold read_items in H.
    destruct (h !! target) as [[d|d]|]; try done. by inversion H.
  - rewrite H. erewrite IH; [by rewrite list_insert_insert_eq|].
    apply read_items_insert_eq. by eapply read_items_lt.
Qed.

Lemma db_inv_db_lt base h db D : db_inv base h db D -> (base <= length h)%nat.
Proof.
  intros (dl & Hr & _ & _ & _ & Hb). apply read_db_lt in Hr. lia.
Qed.

(** One turn of the loop over the markets of the updates. *)
Lemma merge_market_heap_step n base h db D market items :
  db_inv base h db D ->
  exists d h1 target t0,
    read_db h db = Some d
    /\ setdefault_market h db d market = (h1, target)
    /\ read_items h1 target = Some t0
    /\ t0 = match dict_get market D with Some t => t | None => [] end
    /\ frame base h h1
    /\ (base <= target)%nat
    /\ db_inv base (<[target := OItems (write_items n items t0)]> h1) db
              (merge_market n D (market, items)).
Proof.
  intros (dl & Hr & HD & Hnd & Hge & Hb). exists dl. unfold setdefault_market.
  pose proof (deref_all_get h market dl D HD) as Hget.
  pose proof (read_db_lt _ _ _ Hr) as Hdblt.
  destruct (dict_get market dl) as [t|] eqn:Et.
  - destruct (read_items h t) as [t0|] eqn:Eit.
    2: { apply deref_all_readable in HD. rewrite Forall_forall in HD.
         apply dict_get_In in Et. apply list_elem_of_In in Et.
         destruct (HD _ Et) as [it Hit]. simpl in Hit. congruence. }
    assert (Hbt : (base <= t)%nat).
    { rewrite Forall_forall in Hge. apply dict_get_In in Et.
      apply list_elem_of_In in Et. apply (Hge _ Et). }
    exists h, t, t0. rewrite Hget. repeat split; auto using frame_refl.
    exists dl. repeat split; auto.
    + unfold read_db in *. rewrite list_lookup_insert_ne; [done|].
      intros ->. unfold read_items in Eit. destruct (h !! db) as [[]|]; done.
    + unfold merge_market. rewrite Hget. by apply deref_all_update.
  - unfold alloc.
    set (t := length h). set (dl' := dict_set market t dl).
    set (h1 := <[db := ODb dl']> (h ++ [OItems []])).
    assert (Hrt : read_items h1 t = Some []).
    { unfold h1. eapply read_items_insert_db; [by apply read_db_app|].
      apply read_items_alloc. }
    assert (Hlt : Forall (fun kl : str * loc => (snd kl < length h)%nat) dl)
      by (by eapply deref_all_lt).
    assert (Hdl' : dl' = dl ++ [(market, t)]) by (by apply dict_set_new).
    assert (Hst : forall l it, read_items h l = Some it -> read_items h1 l = Some it).
    { intros l it Hl. unfold h1. eapply read_items_insert_db; [by apply read_db_app|].
      by apply read_items_app. }
    assert (HD1 : deref_all h1 dl' = Some (D ++ [(market, [])])).
    { rewrite Hdl'. apply deref_all_app; [|done]. by eapply deref_all_stable. }
    assert (Hrd1 : read_db h1 db = Some dl').
    { unfold h1, read_db. rewrite list_lookup_insert_eq; [done|].
      rewrite length_app. simpl. lia. }
    assert (Hnd' : NoDup (map snd dl')).
    { rewrite Hdl', map_app. simpl. apply NoDup_app. split; [done|]. split.
      - intros x Hx Hx2. apply list_elem_of_In in Hx2. destruct Hx2 as [Hx2|[]].
        apply list_elem_of_In, in_map_iff in Hx.
        destruct Hx as ([k l] & Hkl & Hin). simpl in Hkl. rewrite Forall_forall in Hlt.
        apply list_elem_of_In in Hin. specialize (Hlt _ Hin). simpl in Hlt.
        unfold t in Hx2. lia.
      - apply NoDup_singleton. }
    assert (Hget' : dict_get market dl' = Some t).
    { unfold dl'. by rewrite dict_get_set, str_eqb_refl. }
    assert (HnoneD : dict_get market D = None) by (by rewrite Hget).
    exists h1, t, []. rewrite HnoneD. repeat split; auto.
    + unfold h1. rewrite length_insert, length_app. lia.
    + intros l Hl. unfold h1. rewrite list_lookup_insert_ne by lia.
      apply lookup_app_l. lia.
    + unfold t. lia.
    + exists dl'. repeat split; auto.
      * unfold read_db in *. rewrite list_lookup_insert_ne; [done|].
        intros ->. unfold read_items in Hrt. destruct (h1 !! db) as [[]|]; done.
      * unfold merge_market. rewrite HnoneD.
        rewrite (deref_all_update h1 market t _ dl' _ Hnd' HD1 Hget').
        apply (f_equal Some).
        etransitivity; [|apply (dict_set_set market ([] : dict pyfloat))].
        f_equal. symmetry. by apply dict_set_new.
      * rewrite Hdl'. apply Forall_app. split; [done|]. constructor; [|constructor].
        simpl. unfold t. lia.
Qed.

Lemma merge_markets_heap_spec n base : forall upd U h db D,
  db_inv base h db D ->
  deref_all h upd = Some U ->
  Forall (fun kl : str * loc => (snd kl < base)%nat) upd ->
  exists h',
    merge_markets_heap n h db upd = Some h'
    /\ db_inv base h' db (fold_left (merge_market n) U D)
    /\ frame base h h'.
Proof.
  induction upd as [|[market il] upd IH]; intros U h db D Hinv HU Hlt.
  - simpl in *. inversion HU; subst. exists h. auto using frame_refl.
  - simpl in HU.
    destruct (read_items h il) as [items|] eqn:Eil; [|done].
    destruct (deref_all h upd) as [U'|] eqn:EU; [|done].
    inversion HU; subst. inversion Hlt as [|? ? Hil Hlt']; subst. simpl in Hil.
    destruct (merge_market_heap_step n base h db D market items Hinv)
      as (d & h1 & target & t0 & Hrd & Hstep & Hrt & Ht0 & Hfr & Hbt & Hinv').
    cbn [merge_markets_heap]. rewrite Hrd, Hstep.
    assert (Hil1 : read_items h1 il = Some items).
    { destruct Hfr as [_ F]. unfold read_items in *. by rewrite F. }
    rewrite Hil1, (write_items_heap_spec n items h1 target t0 Hrt).
    set (h2 := <[target := OItems (write_items n items t0)]> h1) in *.
    assert (Hfr2 : frame base h h2).
    { eapply frame_trans; [exact Hfr|]. by apply frame_insert. }
    destruct (IH U' h2 db (merge_market n D (market, items)) Hinv') as (h' & Hrun & Hinv'' & Hfr').
    + rewrite <- EU. by eapply deref_all_frame.
    + done.
    + exists h'. split; [done|]. split; [done|]. by eapply frame_trans.
Qed.

Lemma copy_markets_spec base : forall cur C h acc A,
  (base <= length h)%nat ->
  deref_all h cur = Some C ->
  Forall (fun kl : str * loc => (snd kl < base)%nat) cur ->
  deref_all h acc = Some A ->
  NoDup (map snd acc) ->
  Forall (fun kl : str * loc => (base <= snd kl)%nat) acc ->
  NoDup (dict_keys acc ++ dict_keys cur) ->
  exists h' d,
    copy_markets h cur acc = Some (h', d)
    /\ deref_all h' d = Some (A ++ C)
    /\ NoDup (map snd d)
    /\ Forall (fun kl : str * loc => (base <= snd kl)%nat) d
    /\ frame base h h'.
Proof.
  induction cur as [|[mk l] cur IH]; intros C h acc A Hb HC Hlt HA Hnd Hge Hkeys.
  - simpl in *. inversion HC; subst. exists h, acc. rewrite app_nil_r.
    auto using frame_refl.
  - simpl in HC. destruct (read_items h l) as [items|] eqn:El; [|done].
    destruct (deref_all h cur) as [C'|] eqn:EC; [|done].
    inversion HC; subst. inversion Hlt as [|? ? Hl Hlt']; subst. simpl in Hl.
    cbn [copy_markets]. rewrite El. unfold alloc.
    assert (Hnew : dict_get mk acc = None).
    { apply dict_get_none_keys. intros Hin. simpl in Hkeys.
      apply NoDup_app in Hkeys as (_ & Hdisj & _).
      apply (Hdisj mk); [by apply list_elem_of_In|]. by left. }
    assert (Hfr : frame base h (h ++ [OItems items])) by (by apply frame_app).
    assert (Hst : forall l0 it, read_items h l0 = Some it ->
                                read_items (h ++ [OItems items]) l0 = Some it)
      by (intros; by apply read_items_app).
    assert (Haccl : Forall (fun kl : str * loc => (snd kl < length h)%nat) acc)
      by (by eapply deref_all_lt).
    destruct (IH C' (h ++ [OItems items]) (dict_set mk (length h) acc) (A ++ [(mk, items)]))
      as (h' & d & Hrun & Hd & Hnd' & Hge' & Hfr').
    + rewrite length_app. lia.
    + by eapply deref_all_stable.
    + done.
    + rewrite (dict_set_new _ _ _ Hnew). apply deref_all_app.
      * by eapply deref_all_stable.
      * apply read_items_alloc.
    + rewrite (dict_set_new _ _ _ Hnew), map_app. simpl. apply NoDup_app.
      split; [done|]. split; [|apply NoDup_singleton].
      intros x Hx Hx2. apply list_elem_of_In in Hx2. destruct Hx2 as [Hx2|[]].
      apply list_elem_of_In, in_map_iff in Hx.
      destruct Hx as ([k l0] & Hkl & Hin). simpl in Hkl. rewrite Forall_forall in Haccl.
      apply list_elem_of_In in Hin. specialize (Haccl _ Hin). simpl in Haccl. lia.
    + rewrite (dict_set_new _ _ _ Hnew). apply Forall_app. split; [done|].
      constructor; [simpl; lia|constructor].
    + rewrite (dict_set_new _ _ _ Hnew). unfold dict_keys in *. rewrite map_app. simpl.
      simpl in Hkeys. by rewrite <- app_assoc.
    + exists h', d. split; [done|]. split; [by rewrite <- app_assoc in Hd|].
      split; [done|]. split; [done|]. by eapply frame_trans.
Qed.

Lemma merge_price_db_heap_spec h current updates n c u :
  db_at h current = Some c ->
  db_at h updates = Some u ->
  dict_ok c ->
  exists h' r,
    merge_price_db_heap h current updates n = Some (h', r)
    /\ (length h <= r)%nat
    /\ frame (length h) h h'
    /\ db_at h' r = Some (merge_price_db c u n).
Proof.
  unfold db_at, merge_price_db_heap. intros Hc Hu Hok.
  destruct (read_db h current) as [cur|] eqn:Ecur; [|done].
  destruct (read_db h updates) as [upd|] eqn:Eupd; [|done].
  assert (Hkeys : dict_keys cur = dict_keys c).
  { clear -Hc. revert c Hc. unfold dict_keys.
    induction cur as [|[k l] cur IH]; intros c Hc; simpl in *; [by inversion Hc|].
    destruct (read_items h l); [|done]. destruct (deref_all h cur) as [r|]; [|done].
    inversion Hc; subst. simpl. f_equal. by apply IH. }
  destruct (copy_markets_spec (length h) cur c h [] []) as (h1 & d & Hcopy & Hd & Hnd & Hge & Hfr1);
    auto; try constructor.
  { by eapply deref_all_lt. }
  { simpl. rewrite Hkeys. exact Hok. }
  rewrite Hcopy. unfold alloc. simpl in Hd.
  set (h2 := h1 ++ [ODb d]). set (db := length h1).
  assert (Hlen1 : (length h <= length h1)%nat) by apply Hfr1.
  assert (Hfr2 : frame (length h) h h2).
  { eapply frame_trans; [exact Hfr1|]. by apply frame_app. }
  assert (Hupd2 : read_db h2 updates = Some upd).
  { destruct Hfr2 as [_ F]. unfold read_db in *. rewrite F; [done|].
    destruct (h !! updates) eqn:E; [by apply lookup_lt_Some in E|done]. }
  rewrite Hupd2.
  assert (Hinv : db_inv (length h) h2 db c).
  { exists d. repeat split; auto.
    - apply read_db_alloc.
    - eapply deref_all_stable; [exact Hd|]. intros; by apply read_items_app. }
  destruct (merge_markets_heap_spec n (length h) upd u h2 db c Hinv) as (h3 & Hrun & Hinv3 & Hfr3).
  { rewrite <- Hu. eapply deref_all_frame; [exact Hfr2|]. by eapply deref_all_lt. }
  { by eapply deref_all_lt. }
  rewrite Hrun. exists h3, db. split; [done|]. split; [done|].
  split; [by eapply frame_trans|].
  destruct Hinv3 as (dl & Hr & HD & _). by rewrite Hr.
Qed.

Lemma updates_for_none m : forall u, dict_get m u = None -> updates_for m u = [].
Proof.
  unfold updates_for. induction u as [|[k its] u IH]; simpl; [done|].
  destruct (str_eqb m k); [done|]. intros H. by rewrite IH.
Qed.

Lemma updates_for_unique m items : forall u,
  dict_ok u -> dict_get m u = Some items -> updates_for m u = items.
Proof.
  unfold dict_ok, dict_keys, updates_for.
  induction u as [|[k its] u IH]; simpl; [done|].
  intros Hnd Hget. apply NoDup_cons in Hnd as [Hnot Hnd].
  destruct (str_eqb m k) eqn:E.
  - apply str_eqb_eq in E. subst k. inversion Hget; subst.
    fold (updates_for m u). rewrite updates_for_none; [apply app_nil_r|].
    apply dict_get_none_keys. intros Hin. apply Hnot. by apply list_elem_of_In.
  - simpl. by apply IH.
Qed.

Lemma last_price_app n k a b :
  last_price n k (a ++ b)
  = match last_price n k b with
    | Some p => Some p
    | None => last_price n k a
    end.
Proof.
  induction a as [|[i p] a IH]; simpl.
  - by destruct (last_price n k b).
  - rewrite IH. by destruct (last_price n k b).
Qed.

Lemma last_price_absent n k items :
  Forall (fun kv : str * pyfloat => normalize n (fst kv) <> k) items ->
  last_price n k items = None.
Proof.
  induction 1 as [|[i p] items H _ IH]; simpl; [done|].
  rewrite IH. simpl in H. destruct (str_eqb k (normalize n i)) eqn:E; [|done].
  apply str_eqb_eq in E. congruence.
Qed.

(** C5: [merge_price_db] returns a new database object and leaves every
    object of the store as it was, the input database among them; under
    every market of the updates each canonical item name holds the price
    last written for it (the price of an item that no later item of the
    market shares its canonical name with), every other entry holds what
    [current] holds, and no market of [current] is lost. *)
Theorem merge_price_db_frame (h : heap) (current updates : loc) (normalizer : Normalizer)
    (c u : PriceDB) :
  db_at h current = Some c ->
  db_at h updates = Some u ->
  dict_ok c -> dict_ok u ->
  exists h' r,
    merge_price_db_heap h current updates normalizer = Some (h', r)
    /\ (length h <= r)%nat
    /\ (forall l o, h !! l = Some o -> h' !! l = Some o)
    /\ db_at h' current = Some c
    /\ db_at h' r = Some (merge_price_db c u normalizer)
    /\ (forall market items,
          dict_get market u = Some items ->
          (forall canon,
             lookup2 market canon (merge_price_db c u normalizer)
             = match last_price normalizer canon items with
               | Some p => Some p
               | None => lookup2 market canon c
               end)
          /\ (forall before item price after,
                items = before ++ (item, price) :: after ->
                Forall (fun kv => normalize normalizer (fst kv) <> normalize normalizer item)
                       after ->
                lookup2 market (normalize normalizer item) (merge_price_db c u normalizer)
                = Some price))
    /\ (forall market,
          dict_get market u = None ->
          dict_get market (merge_price_db c u normalizer) = dict_get market c)
    /\ (forall market,
          dict_get market c <> None ->
          dict_get market (merge_price_db c u normalizer) <> None).
Proof.
  intros Hc Hu Hokc Hoku.
  destruct (merge_price_db_heap_spec h current updates normalizer c u Hc Hu Hokc)
    as (h' & r & Hrun & Hfresh & [Hlen Hfr] & Hres).
  assert (Hkeep : forall l o, h !! l = Some o -> h' !! l = Some o).
  { intros l o Hl. rewrite Hfr; [done|]. by apply lookup_lt_Some in Hl. }
  exists h', r. split; [done|]. split; [done|]. split; [done|]. split.
  { unfold db_at in *. destruct (read_db h current) as [cur|] eqn:E; [|done].
    assert (read_db h' current = Some cur) as ->.
    { unfold read_db in *. destruct (h !! current) as [o|] eqn:E1; [|done].
      by rewrite (Hkeep _ _ E1). }
    eapply deref_all_stable; [exact Hc|]. intros l it Hl. unfold read_items in *.
    destruct (h !! l) as [o|] eqn:E1; [|done]. by rewrite (Hkeep _ _ E1). }
  split; [done|]. split; [|split].
  - intros market items Hget.
    assert (Hlook : forall canon,
      lookup2 market canon (merge_price_db c u normalizer)
      = match last_price normalizer canon items with
        | Some p => Some p
        | None => lookup2 market canon c
        end).
    { intros canon. rewrite lookup2_merge. by rewrite (updates_for_unique market items u). }
    split; [exact Hlook|].
    intros before item price after -> Hafter. rewrite Hlook, last_price_app. simpl.
    rewrite (last_price_absent _ _ _ Hafter). by rewrite str_eqb_refl.
  - intros market Hnone. rewrite dict_get_merge, (updates_for_none market u Hnone).
    assert (existsb (fun e : str * dict pyfloat => str_eqb (fst e) market) u = false) as ->.
    { clear -Hnone. induction u as [|[k its] u IH]; simpl in *; [done|].
      rewrite (str_eqb_sym k). destruct (str_eqb market k); [done|]. by apply IH. }
    by destruct (dict_get market c).
  - intros market Hin. rewrite dict_get_merge. by destruct (dict_get market c).
Qed.

Lemma merge_price_db_frame_witness :
  let h := [OItems [(u8 "arroz 5kg tipo 1", flt 27.90)];
            ODb [(u8 "mercadoa", 0%nat)];
            OItems [(u8 "Arroz ", flt 26.50); (u8 "leite", flt 4.10)];
            OItems [(u8 "café", flt 15.10)];
            ODb [(u8 "mercadoa", 2%nat); (u8 "mercadob", 3%nat)]] in
  let normalizer := Normalizer_init load_default_mapping in
  exists h' r,
    merge_price_db_heap h 1%nat 4%nat normalizer = Some (h', r)
    /\ (5 <= r)%nat
    /\ db_at h' 1%nat = Some [(u8 "mercadoa", [(u8 "arroz 5kg tipo 1", flt 27.90)])]
    /\ db_at h' r
       = Some [(u8 "mercadoa", [(u8 "arroz 5kg tipo 1", flt 26.50);
                                (u8 "leite longa vida 1l", flt 4.10)]);
               (u8 "mercadob", [(u8 "café 500g", flt 15.10)])].
Proof.
  intros h normalizer.
  destruct (merge_price_db_frame h 1%nat 4%nat normalizer
              [(u8 "mercadoa", [(u8 "arroz 5kg tipo 1", flt 27.90)])]
              [(u8 "mercadoa", [(u8 "Arroz ", flt 26.50); (u8 "leite", flt 4.10)]);
               (u8 "mercadob", [(u8 "café", flt 15.10)])])
    as (h' & r & Hrun & Hfresh & _ & Hcur & Hres & _).
  - vm_compute. reflexivity.
  - vm_compute. reflexivity.
  - apply (bool_decide_unpack _). vm_compute. reflexivity.
  - apply (bool_decide_unpack _). vm_compute. reflexivity.
  - exists h', r. split; [exact Hrun|]. split; [exact Hfresh|]. split; [exact Hcur|].
    rewrite Hres. vm_compute. reflexivity.
Defined.

(** ** [extract_from_cards] *)

Section ExtractionFacts.
Context {node : Type} `{Soup node}.

Lemma scan_card_spec (rule : SiteRule) (items : dict pyfloat) (card : node) :
  scan_card rule items card
  = match card_price rule card with
    | Some price =>
        if str_falsy (card_name rule card) then items
        else dict_set (lower (card_name rule card)) price items
    | None => items
    end.
Proof.
  unfold scan_card.
  destruct (card_price rule card) as [price|]; destruct (str_falsy (card_name rule card));
    reflexivity.
Qed.

Lemma scan_cards_get (rule : SiteRule) k p : forall (cards : list node) items,
  dict_get k (fold_left (scan_card rule) cards items) = Some p ->
  dict_get k items = Some p
  \/ exists card,
       In card cards
       /\ str_falsy (card_name rule card) = false
       /\ card_price rule card = Some p
       /\ k = lower (card_name rule card).
Proof.
  induction cards as [|card cards IH]; intros items Hget; simpl in *; [by left|].
  apply IH in Hget as [Hget|(c & Hin & Hc)]; [|right; exists c; tauto].
  rewrite scan_card_spec in Hget.
  destruct (card_price rule card) as [price|] eqn:Ep; [|by left].
  destruct (str_falsy (card_name rule card)) eqn:En; [by left|].
  rewrite dict_get_set in Hget.
  destruct (str_eqb k (lower (card_name rule card))) eqn:E; [|by left].
  apply str_eqb_eq in E. inversion Hget; subst. right. exists card. auto.
Qed.

Lemma scan_cards_keeps (rule : SiteRule) k : forall (cards : list node) items,
  dict_get k items <> None ->
  dict_get k (fold_left (scan_card rule) cards items) <> None.
Proof.
  induction cards as [|card cards IH]; intros items Hk; simpl; [done|].
  apply IH. rewrite scan_card_spec.
  destruct (card_price rule card); [|done].
  destruct (str_falsy (card_name rule card)); [done|].
  rewrite dict_get_set. by destruct (str_eqb _ _).
Qed.

Lemma scan_cards_has (rule : SiteRule) card : forall (cards : list node) items price,
  In card cards ->
  str_falsy (card_name rule card) = false ->
  card_price rule card = Some price ->
  dict_get (lower (card_name rule card)) (fold_left (scan_card rule) cards items) <> None.
Proof.
  induction cards as [|c cards IH]; intros items price Hin Hn Hp; simpl; [done|].
  destruct Hin as [->|Hin]; [|by eapply IH].
  apply scan_cards_keeps. rewrite scan_card_spec, Hp, Hn, dict_get_set.
  by rewrite str_eqb_refl.
Qed.

Lemma dict_empty_nil {V} (d : dict V) : dict_empty d = true <-> d = [].
Proof. destruct d; simpl; split; done. Qed.

Lemma scan_selectors_spec (soup : node) (rule : SiteRule) : forall sels sc items scanned,
  scan_selectors soup rule sels [] sc = (items, scanned) ->
  exists tried rest,
    sels = tried ++ rest /\ scanned = sc ++ tried
    /\ ((items = [] /\ rest = []
         /\ Forall (fun s => selector_items soup rule s = []) tried)
        \/ (exists before sel,
              tried = before ++ [sel]
              /\ Forall (fun s => selector_items soup rule s = []) before
              /\ items = selector_items soup rule sel
              /\ items <> [])).
Proof.
  induction sels as [|sel sels IH]; intros sc items scanned Hrun; simpl in Hrun.
  - inversion Hrun; subst. exists [], []. split; [done|]. split; [by rewrite app_nil_r|].
    left. auto.
  - fold (selector_items soup rule sel) in Hrun.
    destruct (dict_empty (selector_items soup rule sel)) eqn:E.
    + apply dict_empty_nil in E. rewrite E in Hrun.
      apply IH in Hrun as (tried & rest & -> & -> & Hcase).
      exists (sel :: tried), rest. split; [done|]. split; [by rewrite <- app_assoc|].
      destruct Hcase as [(-> & -> & Hall)|(before & s & -> & Hall & -> & Hne)].
      * left. auto.
      * right. exists (sel :: before), s. auto.
    + inversion Hrun; subst. exists [sel], sels. split; [done|]. split; [done|].
      right. exists [], sel. repeat split; auto. intros Hnil. by rewrite Hnil in E.
Qed.

End ExtractionFacts.

(** C9: in [extract_from_cards], a card adds an entry only when both its
    name and its price resolve, the entry being its lowercased name with
    that price; the selectors are scanned in priority order up to the first
    one whose cards give any item, the result is what that selector gives,
    and no later selector is handed to [soup.select]. *)
Theorem extract_from_cards_short_circuit {node : Type} `{Soup node}
    (soup : node) (rule : SiteRule) :
  let items := extract_from_cards soup rule in
  let scanned := snd (extract_from_cards_log soup rule) in
  (forall (card : node) acc,
     scan_card rule acc card
     = match card_price rule card with
       | Some price =>
           if str_falsy (card_name rule card) then acc
           else dict_set (lower (card_name rule card)) price acc
       | None => acc
       end)
  /\ (forall k p,
        dict_get k items = Some p ->
        exists sel card,
          last scanned = Some sel /\ In card (select soup sel)
          /\ str_falsy (card_name rule card) = false
          /\ card_price rule card = Some p
          /\ k = lower (card_name rule card))
  /\ (forall sel card price,
        items <> [] -> last scanned = Some sel -> In card (select soup sel) ->
        str_falsy (card_name rule card) = false ->
        card_price rule card = Some price ->
        dict_get (lower (card_name rule card)) items <> None)
  /\ (exists rest,
        card_selectors rule = scanned ++ rest
        /\ ((items = [] /\ rest = []
             /\ Forall (fun s => selector_items soup rule s = []) scanned)
            \/ (exists before sel,
                  scanned = before ++ [sel]
                  /\ Forall (fun s => selector_items soup rule s = []) before
                  /\ items = selector_items soup rule sel
                  /\ items <> []))).
Proof.
  intros items scanned. subst items scanned.
  unfold extract_from_cards, extract_from_cards_log.
  destruct (scan_selectors soup rule (card_selectors rule) [] []) as [items scanned] eqn:E.
  simpl. apply scan_selectors_spec in E as (tried & rest & Hsels & Hsc & Hcase).
  simpl in Hsc. subst scanned.
  split; [intros card acc; apply scan_card_spec|]. split; [|split].
  - intros k p Hget.
    destruct Hcase as [(-> & _)|(before & sel & -> & _ & -> & _)]; [done|].
    unfold selector_items in Hget. apply scan_cards_get in Hget as [Hget|(card & Hc)]; [done|].
    exists sel, card. rewrite last_snoc. tauto.
  - intros sel card price Hne Hlast Hin Hn Hp.
    destruct Hcase as [(-> & _)|(before & s & -> & _ & -> & _)]; [done|].
    rewrite last_snoc in Hlast. inversion Hlast; subst.
    unfold selector_items. by eapply scan_cards_has.
  - exists rest. auto.
Qed.

(** ** Direct retrieval *)

Section RetrievalFacts.
Context {node : Type} `{Soup node}.
Context {world : Type} (fetch_html : str -> world -> option str * world).

Lemma all_fail_snoc rule urls url w w1 w2 :
  all_fail fetch_html rule urls w w1 ->
  attempt fetch_html rule url w1 = ([], w2) ->
  all_fail fetch_html rule (urls ++ [url]) w w2.
Proof.
  induction 1 as [w|u urls w wa wb Ha _ IH]; intros Hlast; simpl.
  - econstructor; [exact Hlast|constructor].
  - econstructor; [exact Ha|]. by apply IH.
Qed.

Lemma all_fail_app rule urls1 urls2 w w1 w2 :
  all_fail fetch_html rule urls1 w w1 ->
  all_fail fetch_html rule urls2 w1 w2 ->
  all_fail fetch_html rule (urls1 ++ urls2) w w2.
Proof.
  induction 1 as [w|u urls w wa wb Ha _ IH]; intros H2; simpl; [done|].
  econstructor; [exact Ha|]. by apply IH.
Qed.

(** The loop over the paths, entered with no item. *)
Lemma probe_paths_spec rule base : forall ps w log items w' log',
  probe_paths fetch_html rule base ps [] w log = (items, w', log') ->
  exists tried rest,
    map (path_target base) ps = tried ++ rest
    /\ log' = log ++ tried
    /\ tried_until_success fetch_html rule tried w w' items (rest = []).
Proof.
  induction ps as [|p ps IH]; intros w log items w' log' Hrun; simpl in Hrun.
  - inversion Hrun; subst. exists [], []. split; [done|]. split; [by rewrite app_nil_r|].
    left. repeat split. constructor.
  - destruct (fetch_html (path_target base p) w) as [html2 w1] eqn:Ef.
    assert (Hnext : forall items1,
      attempt fetch_html rule (path_target base p) w = ([], w1) ->
      probe_paths fetch_html rule base ps [] w1 (log ++ [path_target base p])
        = (items1, w', log') ->
      exists tried rest,
        map (path_target base) (p :: ps) = tried ++ rest
        /\ log' = log ++ tried
        /\ tried_until_success fetch_html rule tried w w' items1 (rest = [])).
    { intros items1 Hatt Hrec. apply IH in Hrec as (tried & rest & Hmap & -> & Hcase).
      exists (path_target base p :: tried), rest. simpl. rewrite Hmap.
      split; [done|]. split; [by rewrite <- app_assoc|].
      destruct Hcase as [(-> & -> & Hall)|(before & u & w2 & -> & Hall & Hlast & Hne)].
      - left. repeat split. econstructor; eauto.
      - right. exists (path_target base p :: before), u, w2. repeat split; auto.
        econstructor; eauto. }
    unfold attempt in Hnext. rewrite Ef in Hnext.
    destruct (page_of html2) as [text|] eqn:Ep.
    + destruct (dict_empty (extract_items (bs_parse text) rule [])) eqn:Ee.
      * apply dict_empty_nil in Ee. rewrite Ee in Hrun, Hnext. by apply Hnext.
      * inversion Hrun; subst. exists [path_target base p], (map (path_target base) ps).
        split; [done|]. split; [done|]. right.
        exists [], (path_target base p), w. repeat split; [constructor| |].
        -- unfold attempt. by rewrite Ef, Ep.
        -- intros Hnil. by rewrite Hnil in Ee.
    + by apply Hnext.
Qed.

Lemma fetch_prices_for_url_spec rules url w :
  match fetch_prices_for_url fetch_html rules url w with
  | (items, w', log) =>
      exists rest,
        direct_urls rules url = log ++ rest
        /\ tried_until_success fetch_html (choose_rule url rules) log w w' items (rest = [])
  end.
Proof.
  unfold fetch_prices_for_url, direct_urls, paths_for.
  set (rule := choose_rule url rules). set (base := rstrip_slash url).
  set (ps := match rule with Some r => paths r | None => [u8 "/"] end).
  destruct (fetch_html base w) as [html w1] eqn:Ef.
  assert (Hatt : attempt fetch_html rule base w
                 = (match page_of html with
                    | Some text => extract_items (bs_parse text) rule []
                    | None => []
                    end, w1)).
  { unfold attempt. by rewrite Ef. }
  set (items0 := match page_of html with
                 | Some text => extract_items (bs_parse text) rule []
                 | None => []
                 end) in *.
  destruct (dict_empty items0) eqn:Ee.
  - apply dict_empty_nil in Ee. rewrite Ee in *.
    destruct (probe_paths fetch_html rule base ps [] w1 [base]) as [[items w'] log] eqn:Ep.
    apply probe_paths_spec in Ep as (tried & rest & Hmap & -> & Hcase).
    exists rest. split; [simpl; by rewrite Hmap|].
    destruct Hcase as [(-> & -> & Hall)|(before & u & w2 & -> & Hall & Hlast & Hne)].
    + left. repeat split. econstructor; eauto.
    + right. exists (base :: before), u, w2. repeat split; auto. econstructor; eauto.
  - exists (map (path_target base) ps). split; [done|]. right.
    exists [], base, w. repeat split; [constructor|done|].
    intros Hnil. by rewrite Hnil in Ee.
Qed.

End RetrievalFacts.



(** ** [_expand_queries] *)

Lemma existsb_str_eqb x l : existsb (str_eqb x) l = true <-> In x l.
Proof.
  rewrite existsb_exists. split.
  - intros (y & Hy & E). apply str_eqb_eq in E. by subst.
  - intros Hx. exists x. split; [done|apply str_eqb_refl].
Qed.

Lemma unique_ci_fold : forall l seen uniq,
  snd (fold_left
         (fun '(seen, uniq) x =>
            let xl := lower x in
            if existsb (str_eqb xl) seen then (seen, uniq)
            else (xl :: seen, uniq ++ [x]))
         l (seen, uniq))
  = uniq ++ dedup_from seen l.
Proof.
  induction l as [|x l IH]; intros seen uniq; simpl; [by rewrite app_nil_r|].
  destruct (existsb (str_eqb (lower x)) seen); rewrite IH; [done|].
  by rewrite <- app_assoc.
Qed.

Lemma unique_ci_dedup l : unique_ci l = dedup_from [] l.
Proof. unfold unique_ci. by rewrite unique_ci_fold. Qed.

Lemma dedup_from_In x : forall l seen,
  In x (dedup_from seen l) -> In x l /\ ~ In (lower x) seen.
Proof.
  induction l as [|y l IH]; intros seen Hin; simpl in *; [done|].
  destruct (existsb (str_eqb (lower y)) seen) eqn:E.
  - apply IH in Hin as [H1 H2]. auto.
  - destruct Hin as [->|Hin].
    + split; [by left|]. intros Hs. apply existsb_str_eqb in Hs. congruence.
    + apply IH in Hin as [H1 H2]. split; [by right|]. intros Hs. apply H2. by right.
Qed.

Lemma dedup_from_NoDup : forall l seen, NoDup (map lower (dedup_from seen l)).
Proof.
  induction l as [|y l IH]; intros seen; simpl; [constructor|].
  destruct (existsb (str_eqb (lower y)) seen); [apply IH|].
  simpl. constructor; [|apply IH].
  intros Hin. apply list_elem_of_In, in_map_iff in Hin as (x & Hx & Hin).
  apply dedup_from_In in Hin as [_ Hnot]. apply Hnot. rewrite Hx. by left.
Qed.

Lemma dedup_from_covers y : forall l seen,
  In y l -> In (lower y) seen \/ exists x, In x (dedup_from seen l) /\ lower x = lower y.
Proof.
  induction l as [|z l IH]; intros seen Hin; simpl in *; [done|].
  destruct (existsb (str_eqb (lower z)) seen) eqn:E.
  - destruct Hin as [->|Hin]; [left; by apply existsb_str_eqb|].
    destruct (IH seen Hin) as [?|(x & ? & ?)]; eauto.
  - destruct Hin as [->|Hin]; [right; exists y; split; [by left|done]|].
    destruct (IH (lower z :: seen) Hin) as [[Hs|Hs]|(x & Hx & Hl)].
    + right. exists z. split; [by left|done].
    + by left.
    + right. exists x. split; [by right|done].
Qed.

Lemma dedup_from_all_seen : forall l seen,
  (forall y, In y l -> In (lower y) seen) -> dedup_from seen l = [].
Proof.
  induction l as [|y l IH]; intros seen Hall; simpl; [done|].
  assert (existsb (str_eqb (lower y)) seen = true) as ->.
  { apply existsb_str_eqb, Hall. by left. }
  apply IH. intros z Hz. apply Hall. by right.
Qed.

(** The shape of the variants of one term: the term, its synonym, then
    what is new among the stripped versions. *)
Lemma expand_term_shape mapping set_iter k :
  exists cs,
    expand_term mapping set_iter k
    = k :: synonym_of mapping k
        ++ dedup_from (map lower (rev (k :: synonym_of mapping k)))
                      (set_iter (map deaccent (k :: cs)))
    /\ (forall c, In c cs -> dict_get (lower k) mapping = Some c)
    /\ (forall c, dict_get (lower k) mapping = Some c -> c <> [] -> c = k \/ In c cs).
Proof.
  unfold expand_term, synonym_of. rewrite unique_ci_dedup.
  destruct (dict_get (lower k) mapping) as [c|] eqn:Ec.
  - simpl existsb. rewrite orb_false_r.
    destruct (str_falsy c) eqn:Ef; simpl.
    + exists []. split; [done|]. split; [done|]. intros c' [= <-] Hne. by destruct c.
    + destruct (str_eqb c k) eqn:Eck; simpl.
      * apply str_eqb_eq in Eck. subst c. rewrite str_eqb_refl. exists []. simpl.
        split; [done|]. split; [done|]. intros c' [= <-] _. by left.
      * exists [c]. rewrite orb_false_r.
        destruct (str_eqb (lower c) (lower k)); simpl.
        -- split; [done|]. split; [by intros c' [<-|[]]|].
           intros c' [= <-] _. right. by left.
        -- split; [done|]. split; [by intros c' [<-|[]]|].
           intros c' [= <-] _. right. by left.
  - exists []. simpl. split; [done|]. split; [done|]. done.
Qed.

Lemma synonym_of_spec mapping k c :
  In c (synonym_of mapping k) ->
  dict_get (lower k) mapping = Some c /\ c <> [] /\ lower c <> lower k.
Proof.
  unfold synonym_of. destruct (dict_get (lower k) mapping) as [c'|]; [|done].
  destruct (str_falsy c') eqn:Ef; [done|]. simpl.
  destruct (str_eqb (lower c') (lower k)) eqn:E; [done|].
  intros [<-|[]]. split; [done|]. split; [by destruct c'|]. by apply str_eqb_neq.
Qed.

Lemma expand_queries_get mapping set_iter k : forall terms acc,
  dict_get k
    (fold_left (fun expanded t =>
                  let t0 := strip t in
                  if str_falsy t0 then expanded
                  else dict_set t0 (expand_term mapping set_iter t0) expanded)
               terms acc)
  = if negb (str_falsy k) && existsb (fun t => str_eqb (strip t) k) terms
    then Some (expand_term mapping set_iter k)
    else dict_get k acc.
Proof.
  induction terms as [|t terms IH]; intros acc; simpl.
  - by rewrite andb_false_r.
  - rewrite IH. destruct (str_falsy k) eqn:Ek; simpl.
    + destruct (str_falsy (strip t)) eqn:Et; [done|].
      rewrite dict_get_set. destruct (str_eqb k (strip t)) eqn:E; [|done].
      apply str_eqb_eq in E. congruence.
    + destruct (existsb (fun t0 => str_eqb (strip t0) k) terms); [by rewrite orb_true_r|].
      rewrite orb_false_r. destruct (str_falsy (strip t)) eqn:Et.
      * destruct (str_eqb (strip t) k) eqn:E; [|done].
        apply str_eqb_eq in E. congruence.
      * rewrite dict_get_set, (str_eqb_sym k). destruct (str_eqb (strip t) k) eqn:E; [|done].
        apply str_eqb_eq in E. by rewrite E.
Qed.

Lemma first_seen_order : set_order first_seen.
Proof.
  intros l. induction l as [|x l [IHn IHi]]; simpl.
  - split; [constructor|done].
  - assert (Hf : forall y, In y (List.filter (fun y => negb (str_eqb x y)) (first_seen l))
                           <-> In y l /\ y <> x).
    { intros y. rewrite filter_In, IHi, negb_true_iff, str_eqb_neq. split.
      - intros [? ?]. split; [done|]. congruence.
      - intros [? ?]. split; [done|]. congruence. }
    split.
    + constructor.
      * intros Hin. apply list_elem_of_In, Hf in Hin as [_ Hne]. done.
      * apply NoDup_ListNoDup. apply List.NoDup_filter. by apply NoDup_ListNoDup.
    + intros y. rewrite Hf. split.
      * intros [->|[? ?]]; [by left|by right].
      * intros [->|Hy]; [by left|]. destruct (decide (y = x)) as [->|Hne]; [by left|].
        right. done.
Qed.

Lemma deaccent_no_Mn s : Forall (fun c => is_Mn c = false) (deaccent s).
Proof.
  unfold deaccent. apply List.Forall_forall. intros c Hc.
  apply filter_In in Hc as [_ Hc]. by apply negb_true_iff.
Qed.

(** A set built from copies of one element iterates over that element. *)
Lemma set_iter_singleton set_iter l x :
  set_order set_iter -> In x l -> (forall y, In y l -> y = x) -> set_iter l = [x].
Proof.
  intros Hset Hx Hall. destruct (Hset l) as [Hnd Hin].
  destruct (set_iter l) as [|a [|b rest]] eqn:E.
  - by apply Hin in Hx.
  - f_equal. apply Hall, Hin. by left.
  - assert (a = x) as -> by (apply Hall, Hin; by left).
    assert (b = x) as -> by (apply Hall, Hin; right; by left).
    apply NoDup_cons in Hnd as [Hnot _]. exfalso. apply Hnot. by left.
Qed.

(** The variants of a term without synonym. *)
Lemma expand_term_plain mapping set_iter k :
  set_order set_iter -> dict_get (lower k) mapping = None ->
  expand_term mapping set_iter k = dedup_from [] [k; deaccent k].
Proof.
  intros Hset Hnone. unfold expand_term. rewrite Hnone. simpl map.
  rewrite (set_iter_singleton set_iter [deaccent k] (deaccent k)); [|done|by left|].
  - apply unique_ci_dedup.
  - by intros y [<-|[]].
Qed.

(** C8: term expansion.  A term that is empty once stripped gives no entry
    at all; every other term gives, under its stripped text, a sequence
    that starts with the term, continues with its canonical synonym when
    the mapping has one that differs from it (case apart), and ends with
    diacritic-stripped versions of these, which hold no nonspacing mark;
    no two variants are equal up to case, and the stripped version of the
    term and of its synonym is represented.  [expand("arroz")] is
    ["arroz", "arroz 5kg tipo 1"]; "Žatecký" gets the variant "Zatecky";
    the mark U+1AB0 between "a" and "b" is dropped; and "ŒUF", whose
    synonym "œuf" is the same word up to case, keeps one variant. *)
Theorem expand_queries_variants (mapping : dict str) (set_iter : list str -> list str)
    (terms : list str) :
  set_order set_iter ->
  let expanded := expand_queries_with mapping set_iter terms in
  (forall k, dict_get k expanded <> None <-> k <> [] /\ exists t, In t terms /\ strip t = k)
  /\ (forall k variants,
        dict_get k expanded = Some variants ->
        exists stripped,
          variants = k :: synonym_of mapping k ++ stripped
          /\ NoDup (map lower variants)
          /\ (forall x, In x stripped ->
                x = deaccent k
                \/ exists c, dict_get (lower k) mapping = Some c /\ x = deaccent c)
          /\ (forall x, In x stripped -> Forall (fun c => is_Mn c = false) x)
          /\ (exists x, In x variants /\ lower x = lower (deaccent k))
          /\ (forall c, dict_get (lower k) mapping = Some c -> c <> [] ->
                exists x, In x variants /\ lower x = lower (deaccent c)))
  /\ _expand_queries set_iter [u8 "arroz"]
     = [(u8 "arroz", [u8 "arroz"; u8 "arroz 5kg tipo 1"])]
  /\ _expand_queries set_iter [u8 "Žatecký"]
     = [(u8 "Žatecký", [u8 "Žatecký"; u8 "Zatecky"])]
  /\ _expand_queries set_iter [[97; 6832; 98]]
     = [([97; 6832; 98], [[97; 6832; 98]; [97; 98]])]
  /\ expand_queries_with [(u8 "œuf", u8 "œuf")] set_iter [u8 "ŒUF"]
     = [(u8 "ŒUF", [u8 "ŒUF"])].
Proof.
  intros Hset expanded. subst expanded. unfold expand_queries_with.
  assert (Hshape : forall k,
    exists stripped,
      expand_term mapping set_iter k = k :: synonym_of mapping k ++ stripped
      /\ NoDup (map lower (expand_term mapping set_iter k))
      /\ (forall x, In x stripped ->
            (x = deaccent k
             \/ exists c, dict_get (lower k) mapping = Some c /\ x = deaccent c)
            /\ ~ In (lower x) (map lower (k :: synonym_of mapping k)))
      /\ (exists x, In x (expand_term mapping set_iter k) /\ lower x = lower (deaccent k))
      /\ (forall c, dict_get (lower k) mapping = Some c -> c <> [] ->
            exists x, In x (expand_term mapping set_iter k)
                      /\ lower x = lower (deaccent c))).
  { intros k. destruct (expand_term_shape mapping set_iter k) as (cs & Heq & Hcs1 & Hcs2).
    set (seen := map lower (rev (k :: synonym_of mapping k))) in *.
    set (S := set_iter (map deaccent (k :: cs))) in *.
    assert (Hseen : forall z, In z seen <-> In z (map lower (k :: synonym_of mapping k))).
    { intros z. unfold seen. rewrite !in_map_iff. split; intros (y & Hy & Hin);
        exists y; (split; [done|]); [by rewrite in_rev|by rewrite <- in_rev]. }
    assert (HS : forall x, In x S <-> In x (map deaccent (k :: cs))) by apply Hset.
    assert (Hcover : forall y, In y (map deaccent (k :: cs)) ->
              exists x, In x (expand_term mapping set_iter k) /\ lower x = lower y).
    { intros y Hy. apply HS in Hy.
      destruct (dedup_from_covers y S seen Hy) as [Hs|(x & Hx & Hl)].
      - apply Hseen, in_map_iff in Hs as (x & Hl & Hx). exists x. split; [|done].
        rewrite Heq. change (k :: synonym_of mapping k ++ dedup_from seen S)
          with ((k :: synonym_of mapping k) ++ dedup_from seen S).
        apply in_app_iff. by left.
      - exists x. split; [|done]. rewrite Heq. right. apply in_app_iff. by right. }
    exists (dedup_from seen S). split; [exact Heq|]. split; [|split; [|split]].
    - rewrite Heq.
      change (k :: synonym_of mapping k ++ dedup_from seen S)
        with ((k :: synonym_of mapping k) ++ dedup_from seen S).
      rewrite map_app. apply NoDup_app. split; [|split].
      + simpl. unfold synonym_of. destruct (dict_get (lower k) mapping) as [c|].
        * destruct (str_falsy c || str_eqb (lower c) (lower k)) eqn:E; simpl.
          -- apply NoDup_singleton.
          -- apply orb_false_iff in E as [_ E]. apply str_eqb_neq in E.
             apply NoDup_cons. split; [|apply NoDup_singleton].
             intros Hin. apply list_elem_of_In in Hin as [Hin|[]]. congruence.
        * apply NoDup_singleton.
      + intros z Hz Hz'. apply list_elem_of_In, in_map_iff in Hz' as (x & Hx & Hin).
        apply dedup_from_In in Hin as [_ Hnot]. apply Hnot. rewrite Hx.
        apply Hseen. by apply list_elem_of_In.
      + apply dedup_from_NoDup.
    - intros x Hx. apply dedup_from_In in Hx as [Hx Hnot]. split.
      + apply HS in Hx. simpl in Hx. destruct Hx as [<-|Hx]; [by left|].
        apply in_map_iff in Hx as (c & <- & Hc). right. exists c. split; [by apply Hcs1|done].
      + intros Hin. apply Hnot. by apply Hseen.
    - apply Hcover. by left.
    - intros c Hc Hne. destruct (Hcs2 c Hc Hne) as [->|Hin].
      + apply Hcover. by left.
      + apply Hcover. right. by apply in_map. }
  split; [|split; [|split; [|split; [|split]]]].
  - intros k. rewrite expand_queries_get. simpl dict_get.
    destruct (str_falsy k) eqn:Ek; simpl.
    + split; [done|]. intros [Hne _]. by destruct k.
    + destruct (existsb (fun t => str_eqb (strip t) k) terms) eqn:E.
      * split; [|done]. intros _. split; [by destruct k|].
        apply existsb_exists in E as (t & Ht & E). apply str_eqb_eq in E. eauto.
      * split; [done|]. intros [_ (t & Ht & Hs)].
        assert (existsb (fun t => str_eqb (strip t) k) terms = true); [|congruence].
        apply existsb_exists. exists t. split; [done|]. by apply str_eqb_eq.
  - intros k variants. rewrite expand_queries_get. simpl dict_get.
    destruct (negb (str_falsy k) && existsb (fun t => str_eqb (strip t) k) terms); [|done].
    intros [= <-]. destruct (Hshape k) as (stripped & Heq & Hnd & Hstr & Hk & Hc).
    exists stripped. split; [done|]. split; [done|].
    split; [intros x Hx; by apply Hstr|]. split; [|split; done].
    intros x Hx. destruct (Hstr x Hx) as [[->|(c & _ & ->)] _]; apply deaccent_no_Mn.
  - unfold _expand_queries, expand_queries_with. cbn [fold_left].
    assert (Hs : strip (u8 "arroz") = u8 "arroz") by (vm_compute; reflexivity).
    rewrite Hs. change (str_falsy (u8 "arroz")) with false. cbv iota.
    unfold dict_set. f_equal. f_equal.
    destruct (expand_term_shape load_default_mapping set_iter (u8 "arroz"))
      as (cs & Heq & Hcs1 & _).
    rewrite Heq.
    assert (Hsyn : synonym_of load_default_mapping (u8 "arroz") = [u8 "arroz 5kg tipo 1"])
      by (vm_compute; reflexivity).
    rewrite Hsyn. rewrite dedup_from_all_seen; [done|].
    intros y Hy. apply (proj1 (proj2 (Hset _) y)) in Hy.
    apply in_map_iff in Hy as (c & <- & Hc).
    destruct Hc as [<-|Hc]; [vm_compute; auto|]. apply Hcs1 in Hc.
    assert (Hget : dict_get (lower (u8 "arroz")) load_default_mapping
                   = Some (u8 "arroz 5kg tipo 1")) by (vm_compute; reflexivity).
    rewrite Hget in Hc. inversion Hc; subst c. vm_compute. auto.
  - unfold _expand_queries, expand_queries_with. cbn [fold_left].
    assert (Hs : strip (u8 "Žatecký") = u8 "Žatecký") by (vm_compute; reflexivity).
    rewrite Hs. change (str_falsy (u8 "Žatecký")) with false. cbv iota.
    rewrite expand_term_plain; [vm_compute; reflexivity|done|vm_compute; reflexivity].
  - unfold _expand_queries, expand_queries_with. cbn [fold_left].
    assert (Hs : strip [97; 6832; 98] = [97; 6832; 98]) by (vm_compute; reflexivity).
    rewrite Hs. change (str_falsy [97; 6832; 98]) with false. cbv iota.
    rewrite expand_term_plain; [vm_compute; reflexivity|done|vm_compute; reflexivity].
  - unfold expand_queries_with. cbn [fold_left].
    assert (Hs : strip (u8 "ŒUF") = u8 "ŒUF") by (vm_compute; reflexivity).
    rewrite Hs. change (str_falsy (u8 "ŒUF")) with false. cbv iota.
    unfold dict_set. f_equal. f_equal.
    destruct (expand_term_shape [(u8 "œuf", u8 "œuf")] set_iter (u8 "ŒUF"))
      as (cs & Heq & Hcs1 & _).
    rewrite Heq.
    assert (Hsyn : synonym_of [(u8 "œuf", u8 "œuf")] (u8 "ŒUF") = [])
      by (vm_compute; reflexivity).
    rewrite Hsyn. rewrite dedup_from_all_seen; [done|].
    intros y Hy. apply (proj1 (proj2 (Hset _) y)) in Hy.
    apply in_map_iff in Hy as (c & <- & Hc).
    destruct Hc as [<-|Hc]; [vm_compute; auto|]. apply Hcs1 in Hc.
    assert (Hget : dict_get (lower (u8 "ŒUF")) [(u8 "œuf", u8 "œuf")] = Some (u8 "œuf"))
      by (vm_compute; reflexivity).
    rewrite Hget in Hc. inversion Hc; subst c. vm_compute. auto.
Qed.

Lemma expand_queries_variants_witness :
  _expand_queries first_seen [u8 "arroz"; u8 "  "; u8 " Feijão "]
  = [(u8 "arroz", [u8 "arroz"; u8 "arroz 5kg tipo 1"]);
     (u8 "Feijão", [u8 "Feijão"; u8 "feijão carioca 1kg"; u8 "Feijao";
                    u8 "feijao carioca 1kg"])]
  /\ _expand_queries first_seen [u8 "arroz"]
     = [(u8 "arroz", [u8 "arroz"; u8 "arroz 5kg tipo 1"])]
  /\ _expand_queries first_seen [u8 "Žatecký"]
     = [(u8 "Žatecký", [u8 "Žatecký"; u8 "Zatecky"])].
Proof.
  split; [vm_compute; reflexivity|].
  destruct (expand_queries_variants load_default_mapping first_seen [u8 "arroz"]
              first_seen_order) as (_ & _ & Harroz & Hzatecky & _).
  by split.
Defined.

(** ** Search by terms *)

Section SearchFacts.
Context {node : Type} `{Soup node} `{UrlLib}.
Context {world : Type} (fetch_html : str -> world -> option str * world).
Context {exc : Type} (extract_error : str -> option SiteRule -> option exc).

Lemma first_price_of_nil items : first_price_of items = None <-> items = [].
Proof. destruct items as [|[k p] items]; simpl; split; done. Qed.

Lemma all_miss_app rule urls1 urls2 w w1 w2 :
  all_miss fetch_html extract_error rule urls1 w w1 ->
  all_miss fetch_html extract_error rule urls2 w1 w2 ->
  all_miss fetch_html extract_error rule (urls1 ++ urls2) w w2.
Proof. induction 1; simpl; [done|]. intros. econstructor; eauto. Qed.

(** A candidate that gives nothing, put before a search. *)
Lemma term_searched_cons rule url urls w w1 res w' log :
  visit fetch_html extract_error rule url w = (Completed [], w1) ->
  term_searched fetch_html extract_error rule urls w1 res w' log ->
  term_searched fetch_html extract_error rule (url :: urls) w res w' (url :: log).
Proof.
  intros Hv Hs. destruct Hs as [w' Hall|before u rest w2 name price items w' -> Hall Hu
                               |before u rest w2 e w' -> Hall Hu].
  - apply term_missed. econstructor; eauto.
  - eapply term_found with (before := url :: before); [done| |exact Hu].
    econstructor; eauto.
  - eapply term_aborted with (before := url :: before); [done| |exact Hu].
    econstructor; eauto.
Qed.

(** The candidates of the next variants, put after a search that found
    nothing. *)
Lemma term_searched_app rule urls1 urls2 w w1 log1 res w2 log2 :
  term_searched fetch_html extract_error rule urls1 w (Completed None) w1 log1 ->
  term_searched fetch_html extract_error rule urls2 w1 res w2 log2 ->
  term_searched fetch_html extract_error rule (urls1 ++ urls2) w res w2 (log1 ++ log2).
Proof.
  intros H1 H2. inversion H1 as [w0 Hall1| |]; subst. clear H1.
  induction Hall1 as [w|url urls w wa wb Hv Hall IH]; [done|].
  simpl. eapply term_searched_cons; eauto.
Qed.

(** The candidates of the next variants, put after a search that was
    left. *)
Lemma term_searched_stop rule urls1 urls2 w res w1 log1 :
  term_searched fetch_html extract_error rule urls1 w res w1 log1 ->
  res <> Completed None ->
  term_searched fetch_html extract_error rule (urls1 ++ urls2) w res w1 log1.
Proof.
  intros Hs Hres. destruct Hs as [w' Hall|before u rest w2 name price items w' -> Hall Hu
                                 |before u rest w2 e w' -> Hall Hu]; [done| |].
  - eapply term_found; eauto. by rewrite <- app_assoc.
  - eapply term_aborted; eauto. by rewrite <- app_assoc.
Qed.

(** The loop over the URLs of one variant. *)
Lemma try_urls_spec rule : forall urls w log res w' log',
  try_urls fetch_html extract_error rule urls w log = (res, w', log') ->
  exists tried,
    log' = log ++ tried
    /\ term_searched fetch_html extract_error rule urls w res w' tried.
Proof.
  induction urls as [|url urls IH]; intros w log res w' log' Hrun; simpl in Hrun.
  - inversion Hrun; subst. exists []. split; [by rewrite app_nil_r|].
    apply term_missed. constructor.
  - destruct (fetch_html url w) as [html w1] eqn:Ef.
    assert (Hnext : visit fetch_html extract_error rule url w = (Completed [], w1) ->
      try_urls fetch_html extract_error rule urls w1 (log ++ [url]) = (res, w', log') ->
      exists tried,
        log' = log ++ tried
        /\ term_searched fetch_html extract_error rule (url :: urls) w res w' tried).
    { intros Hv Hrec. apply IH in Hrec as (tried & -> & Hs).
      exists (url :: tried). split; [by rewrite <- app_assoc|].
      eapply term_searched_cons; eauto. }
    assert (Hvisit : visit fetch_html extract_error rule url w
                     = (match page_of html with
                        | None => Completed []
                        | Some text =>
                            match extract_error text (Some rule) with
                            | Some e => Aborted e
                            | None => Completed (extract_items (bs_parse text) (Some rule) [])
                            end
                        end, w1)).
    { unfold visit. by rewrite Ef. }
    destruct (page_of html) as [text|] eqn:Ep; [|by apply Hnext].
    destruct (extract_error text (Some rule)) as [e|] eqn:Ee.
    + inversion Hrun; subst. exists [url]. split; [done|].
      eapply term_aborted with (before := []); [done|constructor|done].
    + unfold extract_items in Hvisit.
      set (items := if dict_empty (extract_from_cards (bs_parse text) rule)
                    then extract_fallback (bs_parse text) 100
                    else extract_from_cards (bs_parse text) rule) in *.
      destruct items as [|[k price] items'] eqn:Ei.
      * by apply Hnext.
      * inversion Hrun; subst. exists [url]. split; [done|].
        eapply term_found with (before := []); [done|constructor|exact Hvisit].
Qed.

Lemma candidates_cons base_url rule q variants :
  candidates base_url rule (q :: variants)
  = _build_search_urls base_url rule q ++ candidates base_url rule variants.
Proof. done. Qed.

(** The loop over the variants of one term. *)
Lemma try_variants_spec base_url rule : forall variants w log res w' log',
  try_variants fetch_html extract_error base_url rule variants w log = (res, w', log') ->
  exists tried,
    log' = log ++ tried
    /\ term_searched fetch_html extract_error rule (candidates base_url rule variants)
                     w res w' tried.
Proof.
  induction variants as [|q variants IH]; intros w log res w' log' Hrun.
  - simpl in Hrun. inversion Hrun; subst. exists []. split; [by rewrite app_nil_r|].
    apply term_missed. constructor.
  - cbn [try_variants] in Hrun. rewrite candidates_cons.
    destruct (try_urls fetch_html extract_error rule (_build_search_urls base_url rule q) w log)
      as [[found1 w1] log1] eqn:Eq.
    apply try_urls_spec in Eq as (tried1 & -> & Hs1).
    destruct found1 as [[price|]|e].
    + inversion Hrun; subst. exists tried1. split; [done|]. by apply term_searched_stop.
    + apply IH in Hrun as (tried & -> & Hs). exists (tried1 ++ tried).
      split; [by rewrite <- app_assoc|]. by eapply term_searched_app.
    + inversion Hrun; subst. exists tried1. split; [done|]. by apply term_searched_stop.
Qed.

(** Once an exception was raised, no term is searched. *)
Lemma search_terms_aborted base_url rule tq e w log : forall terms,
  fold_left (search_term fetch_html extract_error base_url rule tq) terms (Aborted e, w, log)
  = (Aborted e, w, log).
Proof. induction terms as [|term terms IH]; [done|]. simpl. apply IH. Qed.

(** The loop over the terms. *)
Lemma search_terms_spec base_url rule tq : forall terms out w log res w' log',
  fold_left (search_term fetch_html extract_error base_url rule tq) terms
            (Completed out, w, log) = (res, w', log') ->
  exists log2,
    log' = log ++ log2
    /\ searched fetch_html extract_error rule
                (fun term => candidates base_url rule (variants_of tq term))
                terms out w res w' log2.
Proof.
  induction terms as [|term terms IH]; intros out w log res w' log' Hrun.
  - simpl in Hrun. inversion Hrun; subst. exists [].
    split; [by rewrite app_nil_r|constructor].
  - cbn [fold_left] in Hrun. unfold search_term at 2 in Hrun.
    destruct (try_variants fetch_html extract_error base_url rule (variants_of tq term) w log)
      as [[found w1] log1] eqn:Ev.
    apply try_variants_spec in Ev as (tried & -> & Hterm).
    destruct found as [[price|]|e].
    + apply IH in Hrun as (log2 & -> & Hs). exists (tried ++ log2).
      split; [by rewrite <- app_assoc|]. eapply searched_found; eauto.
    + apply IH in Hrun as (log2 & -> & Hs). exists (tried ++ log2).
      split; [by rewrite <- app_assoc|]. eapply searched_miss; eauto.
    + rewrite search_terms_aborted in Hrun. inversion Hrun; subst. exists tried.
      split; [done|]. by eapply searched_aborted.
Qed.

End SearchFacts.

(** C7: search mode.  With no matching rule, or a rule that declares no
    search template, the result is the empty dict and nothing is fetched.
    Otherwise the terms are searched in turn.  The variants of a term are
    those [_expand_queries] gives it, or the term alone when it gives none;
    its candidate URLs are, variant by variant and template by template,
    the template filled with the quoted variant, joined to the base URL
    unless it starts with "http".  They are fetched in order up to the
    first one whose extraction gives an item, no further candidate of the
    term being fetched; the price of the first item of that extraction is
    written under the lowercased term; a term none of whose candidates
    gives an item writes nothing.  A page that is not served or has no text
    gives no item, but an exception raised by the extraction of a page
    leaves the search: no further URL is fetched and no dict is
    returned. *)
Theorem search_prices_first_match {node : Type} `{Soup node} `{UrlLib} {world : Type}
    (fetch_html : str -> world -> option str * world)
    {exc : Type} (extract_error : str -> option SiteRule -> option exc)
    (rules : list SiteRule) (set_iter : list str -> list str)
    (base_url : str) (terms : list str) (w : world) :
  match search_prices_for_terms_http fetch_html extract_error rules set_iter base_url terms w
  with
  | (res, w', log) =>
      match choose_rule base_url rules with
      | None => res = Completed [] /\ w' = w /\ log = []
      | Some rule =>
          match search_templates rule with
          | [] => res = Completed [] /\ w' = w /\ log = []
          | _ :: _ =>
              searched fetch_html extract_error rule
                (fun term =>
                   flat_map
                     (fun q =>
                        map (fun tpl =>
                               if starts_with (u8 "http") (format_q tpl (quote_plus q))
                               then format_q tpl (quote_plus q)
                               else urljoin base_url (format_q tpl (quote_plus q)))
                            (search_templates rule))
                     (match dict_get term (_expand_queries set_iter terms) with
                      | Some variants => variants
                      | None => [term]
                      end))
                terms [] w res w' log
          end
      end
  end.
Proof.
  unfold search_prices_for_terms_http.
  destruct (choose_rule base_url rules) as [rule|]; [|done].
  destruct (search_templates rule) as [|tpl tpls] eqn:Et; [done|].
  destruct (fold_left (search_term fetch_html extract_error base_url rule
                         (_expand_queries set_iter terms))
                      terms (Completed [], w, [])) as [[out w'] log] eqn:Ef.
  apply search_terms_spec in Ef as (log2 & -> & Hs).
  unfold candidates, variants_of in Hs. rewrite Et in Hs. exact Hs.
Qed.

(** The theorem at work.  The first candidate of "feijão" is not served;
    the second one, made from its synonym, holds two cards and gives the
    price of the first; "sabão" has no page, under either of its variants,
    and gets no entry. *)
Lemma search_prices_first_match_witness :
  let rule := {| domain := u8 "loja.com.br"; paths := [u8 "/"];
                 search_templates := [u8 "/busca?q={q}"];
                 card_selectors := [u8 ".produto"];
                 name_selectors := [u8 ".nome"];
                 price_selectors := [u8 ".preco"] |} in
  let page := TPage [(u8 ".produto", [(u8 ".nome", u8 " Feijão Carioca 1kg ");
                                       (u8 ".preco", u8 "R$ 9,10")]);
                     (u8 ".produto", [(u8 ".nome", u8 "Feijão Preto 1kg");
                                       (u8 ".preco", u8 "R$ 8,75")])] [] in
  let web := [(u8 "https://www.loja.com.br/busca?q=feij%C3%A3o+carioca+1kg", u8 "<html>")] in
  let terms := [u8 "feijão"; u8 "sabão"] in
  @searched toy_node (toy_soup [(u8 "<html>", page)]) nat (toy_fetch web) exn (toy_error [])
    rule
    (fun term =>
       flat_map
         (fun q =>
            map (fun tpl =>
                   if starts_with (u8 "http") (format_q tpl (quote_plus q))
                   then format_q tpl (quote_plus q)
                   else urljoin (u8 "https://www.loja.com.br/") (format_q tpl (quote_plus q)))
                (search_templates rule))
         (match dict_get term (_expand_queries first_seen terms) with
          | Some variants => variants
          | None => [term]
          end))
    terms [] O
    (Completed [(u8 "feijão", flt 9.10)]) 4%nat
    [u8 "https://www.loja.com.br/busca?q=feij%C3%A3o";
     u8 "https://www.loja.com.br/busca?q=feij%C3%A3o+carioca+1kg";
     u8 "https://www.loja.com.br/busca?q=sab%C3%A3o";
     u8 "https://www.loja.com.br/busca?q=sabao"].
Proof.
  exact (@search_prices_first_match toy_node
           (toy_soup [(u8 "<html>",
                       TPage [(u8 ".produto", [(u8 ".nome", u8 " Feijão Carioca 1kg ");
                                                (u8 ".preco", u8 "R$ 9,10")]);
                              (u8 ".produto", [(u8 ".nome", u8 "Feijão Preto 1kg");
                                                (u8 ".preco", u8 "R$ 8,75")])] [])])
           toy_urls nat
           (toy_fetch [(u8 "https://www.loja.com.br/busca?q=feij%C3%A3o+carioca+1kg",
                        u8 "<html>")])
           exn (toy_error [])
           [{| domain := u8 "loja.com.br"; paths := [u8 "/"];
               search_templates := [u8 "/busca?q={q}"];
               card_selectors := [u8 ".produto"];
               name_selectors := [u8 ".nome"];
               price_selectors := [u8 ".preco"] |}]
           first_seen (u8 "https://www.loja.com.br/") [u8 "feijão"; u8 "sabão"] O).
Defined.

(** The same search, run. *)
Example search_prices_worked :
  let rule := {| domain := u8 "loja.com.br"; paths := [u8 "/"];
                 search_templates := [u8 "/busca?q={q}"];
                 card_selectors := [u8 ".produto"];
                 name_selectors := [u8 ".nome"];
                 price_selectors := [u8 ".preco"] |} in
  let page := TPage [(u8 ".produto", [(u8 ".nome", u8 " Feijão Carioca 1kg ");
                                       (u8 ".preco", u8 "R$ 9,10")]);
                     (u8 ".produto", [(u8 ".nome", u8 "Feijão Preto 1kg");
                                       (u8 ".preco", u8 "R$ 8,75")])] [] in
  let web := [(u8 "https://www.loja.com.br/busca?q=feij%C3%A3o+carioca+1kg", u8 "<html>")] in
  @search_prices_for_terms_http toy_node (toy_soup [(u8 "<html>", page)]) toy_urls nat
    (toy_fetch web) exn (toy_error []) [rule] first_seen (u8 "https://www.loja.com.br/")
    [u8 "feijão"; u8 "sabão"] O
  = (Completed [(u8 "feijão", flt 9.10)], 4%nat,
     [u8 "https://www.loja.com.br/busca?q=feij%C3%A3o";
      u8 "https://www.loja.com.br/busca?q=feij%C3%A3o+carioca+1kg";
      u8 "https://www.loja.com.br/busca?q=sab%C3%A3o";
      u8 "https://www.loja.com.br/busca?q=sabao"]).
Proof. vm_compute. reflexivity. Qed.

(** A search that an extraction leaves: "arroz" finds its price on its
    first candidate, the first candidate of "feijão" serves a page whose
    extraction raises, and the search ends there: the other candidates of
    "feijão" and those of "sabão" are not fetched, and the price of "arroz"
    is lost with the dict. *)
Example search_prices_aborted :
  let rule := {| domain := u8 "loja.com.br"; paths := [u8 "/"];
                 search_templates := [u8 "/busca?q={q}"];
                 card_selectors := [u8 ".produto"];
                 name_selectors := [u8 ".nome"];
                 price_selectors := [u8 ".preco"] |} in
  let page := TPage [(u8 ".produto", [(u8 ".nome", u8 "Arroz 5kg");
                                       (u8 ".preco", u8 "R$ 27,90")])] [] in
  let web := [(u8 "https://www.loja.com.br/busca?q=arroz", u8 "<html>");
              (u8 "https://www.loja.com.br/busca?q=feij%C3%A3o", u8 "<broken>");
              (u8 "https://www.loja.com.br/busca?q=feij%C3%A3o+carioca+1kg", u8 "<html>")] in
  @search_prices_for_terms_http toy_node (toy_soup [(u8 "<html>", page)]) toy_urls nat
    (toy_fetch web) exn (toy_error [u8 "<broken>"]) [rule] first_seen
    (u8 "https://www.loja.com.br/") [u8 "arroz"; u8 "feijão"; u8 "sabão"] O
  = (Aborted ValueError, 2%nat,
     [u8 "https://www.loja.com.br/busca?q=arroz";
      u8 "https://www.loja.com.br/busca?q=feij%C3%A3o"]).
Proof. vm_compute. reflexivity. Qed.

(** ** The rate limiter *)

(** What the scan of the hits finds: the hits before the index it stops at
    are out of the window, and the index is that of a hit of the list. *)
Lemma scan_hits_spec ws : forall hits i next,
  hits <> [] ->
  exists j,
    scan_hits ws hits i next = (next + j)%nat
    /\ (j < length hits)%nat
    /\ Forall (fun ts => fge ts ws = false) (take j hits).
Proof.
  induction hits as [|ts rest IH]; intros i next Hne; [done|].
  simpl. destruct (fge ts ws) eqn:E.
  - exists O. rewrite Nat.add_0_r. simpl. repeat split; [lia|constructor].
  - destruct rest as [|ts2 rest2].
    + exists O. simpl. rewrite Nat.add_0_r. repeat split; [lia|constructor].
    + destruct (IH next (S next)) as (j & Hj & Hlt & Hall); [done|].
      exists (S j). rewrite Hj. split; [lia|]. split; [simpl in *; lia|].
      simpl. constructor; [done|]. exact Hall.
Qed.

(** Dropping old hits keeps a suffix of the list and removes only hits that
    are out of the window; a list that holds a hit keeps one. *)
Lemma drop_old_hits_spec ws hits :
  exists old,
    hits = old ++ drop_old_hits ws hits
    /\ Forall (fun ts => fge ts ws = false) old
    /\ (hits <> [] -> drop_old_hits ws hits <> []).
Proof.
  unfold drop_old_hits. destruct hits as [|h0 rest].
  - exists []. repeat split; [constructor|done].
  - destruct (flt_b h0 ws).
    + destruct (scan_hits_spec ws (h0 :: rest) O O) as (j & Hj & Hlt & Hall); [done|].
      rewrite Hj. simpl Nat.add. exists (take j (h0 :: rest)).
      split; [by rewrite take_drop|]. split; [done|].
      intros _ Hnil. apply (f_equal length) in Hnil. rewrite length_drop in Hnil.
      simpl in Hnil, Hlt. lia.
    + exists []. repeat split; [constructor|done].
Qed.

Lemma fresh_hits_app ws a b : fresh_hits ws (a ++ b) = fresh_hits ws a ++ fresh_hits ws b.
Proof. unfold fresh_hits. apply List.filter_app. Qed.

Lemma fresh_hits_none ws old :
  Forall (fun ts => fge ts ws = false) old -> fresh_hits ws old = [].
Proof.
  unfold fresh_hits. induction 1 as [|ts old Hts _ IH]; simpl; [done|]. by rewrite Hts.
Qed.

Lemma fresh_hits_length ws hits : (length (fresh_hits ws hits) <= length hits)%nat.
Proof. unfold fresh_hits. apply List.filter_length_le. Qed.

Lemma hits_of_set self key k hits :
  dict_get k (dict_set key hits (_hits self))
  = if str_eqb k key then Some hits else dict_get k (_hits self).
Proof. apply dict_get_set. Qed.

(** X1: [allow] answers [True] only when fewer than [max_requests] of the
    hits recorded for the key lie in the window that ends now
    ([ts >= now - per_seconds]); the request is then recorded as the last
    hit of the key.  When it answers [False] the request is not recorded:
    the key keeps a suffix of its hits, at least [max_requests] of them.
    When the window cannot be computed (OverflowError) the limiter is left
    as it was. *)
Theorem allow_only_under_limit (self : RateLimiter) (key : str) (now : pyfloat) :
  match allow self key now with
  | (Returns true, self') =>
      exists span old kept,
        float_of_int (per_seconds self) = Returns span
        /\ hits_of self key = old ++ kept
        /\ (Z.of_nat (length (fresh_hits (fsub now span) (hits_of self key)))
            < max_requests self)%Z
        /\ dict_get key (_hits self') = Some (kept ++ [now])
  | (Returns false, self') =>
      exists old kept,
        hits_of self key = old ++ kept
        /\ (max_requests self <= Z.of_nat (length kept))%Z
        /\ dict_get key (_hits self') = Some kept
  | (Raises e, self') =>
      e = OverflowError /\ self' = self
      /\ float_of_int (per_seconds self) = Raises OverflowError
  end.
Proof.
  unfold allow. destruct (float_of_int (per_seconds self)) as [span|e] eqn:Ef.
  - destruct (drop_old_hits_spec (fsub now span) (hits_of self key))
      as (old & Hsplit & Hold & _).
    set (kept := drop_old_hits (fsub now span) (hits_of self key)) in *.
    destruct (Z.of_nat (length kept) <? max_requests self)%Z eqn:El.
    + apply Z.ltb_lt in El. exists span, old, kept. split; [done|]. split; [done|].
      split.
      * rewrite Hsplit at 1. rewrite fresh_hits_app, fresh_hits_none by done. simpl.
        pose proof (fresh_hits_length (fsub now span) kept). lia.
      * cbn [_hits]. rewrite dict_get_set. by rewrite str_eqb_refl.
    + apply Z.ltb_ge in El. exists old, kept. split; [done|]. split; [done|].
      cbn [_hits]. rewrite dict_get_set. by rewrite str_eqb_refl.
  - unfold float_of_int in *.
    destruct (binary_normalize 53 1024 (per_seconds self) 0 false); inversion Ef; done.
Qed.

(** One call keeps the settings of the limiter and the hits of the other
    keys. *)
Lemma allow_frame self key now :
  max_requests (snd (allow self key now)) = max_requests self
  /\ per_seconds (snd (allow self key now)) = per_seconds self
  /\ forall k, k <> key -> hits_of (snd (allow self key now)) k = hits_of self k.
Proof.
  unfold allow. destruct (float_of_int (per_seconds self)); [|done].
  destruct (_ <? _)%Z; cbn [snd max_requests per_seconds]; repeat split; try done;
    intros k Hk; unfold hits_of; cbn [_hits]; rewrite dict_get_set;
    by rewrite (proj2 (str_eqb_neq k key) Hk).
Qed.

(** The hits of the key after one call. *)
Lemma allow_hits self key now :
  hits_of (snd (allow self key now)) key
  = match float_of_int (per_seconds self) with
    | Raises _ => hits_of self key
    | Returns span =>
        let kept := drop_old_hits (fsub now span) (hits_of self key) in
        if (Z.of_nat (length kept) <? max_requests self)%Z then kept ++ [now] else kept
    end.
Proof.
  unfold allow. destruct (float_of_int (per_seconds self)); [|done].
  cbv zeta. destruct (_ <? _)%Z; unfold hits_of at 1; cbn [snd _hits];
    rewrite dict_get_set; by rewrite str_eqb_refl.
Qed.

Lemma run_calls_cons self key now calls :
  run_calls self ((key, now) :: calls)
  = (fst (allow self key now) :: fst (run_calls (snd (allow self key now)) calls),
     snd (run_calls (snd (allow self key now)) calls)).
Proof.
  simpl. destruct (allow self key now) as [r self1]. simpl.
  by destruct (run_calls self1 calls).
Qed.

(** X2: the number of hits that a limiter holds for a key never exceeds
    [max_requests] (zero when [max_requests] is negative), whatever the keys
    and the times of the calls made since it was created. *)
Theorem run_calls_hits_bounded (limit window : Z)
    (calls : list (str * pyfloat)) (key : str) :
  (Z.of_nat (length (hits_of (snd (run_calls (RateLimiter_init limit window) calls)) key))
   <= Z.max limit 0)%Z.
Proof.
  assert (Hgen : forall calls self,
    (forall k, (Z.of_nat (length (hits_of self k)) <= Z.max (max_requests self) 0)%Z) ->
    forall k, (Z.of_nat (length (hits_of (snd (run_calls self calls)) k))
               <= Z.max (max_requests self) 0)%Z).
  { clear. induction calls as [|[key now] calls IH]; intros self Hinv k; [by apply Hinv|].
    rewrite run_calls_cons. cbn [snd].
    destruct (allow_frame self key now) as (Hm & _ & Hother).
    rewrite <- Hm. apply IH. intros k'. rewrite Hm.
    destruct (decide (k' = key)) as [->|Hne]; [|rewrite Hother by done; apply Hinv].
    rewrite allow_hits. destruct (float_of_int (per_seconds self)) as [span|];
      [|apply Hinv].
    cbv zeta.
    destruct (drop_old_hits_spec (fsub now span) (hits_of self key)) as (old & Hsplit & _).
    pose proof (Hinv key) as Hk. rewrite Hsplit, length_app in Hk.
    destruct (_ <? _)%Z eqn:El.
    - apply Z.ltb_lt in El. rewrite length_app. simpl. lia.
    - lia. }
  apply (Hgen calls (RateLimiter_init limit window)).
  intros k. unfold hits_of. simpl. lia.
Qed.

(** Two limiters that agree on a key answer alike for it. *)
Lemma allow_agree self1 self2 key now :
  max_requests self1 = max_requests self2 ->
  per_seconds self1 = per_seconds self2 ->
  hits_of self1 key = hits_of self2 key ->
  fst (allow self1 key now) = fst (allow self2 key now)
  /\ hits_of (snd (allow self1 key now)) key = hits_of (snd (allow self2 key now)) key.
Proof.
  intros Hm Hp Hh. split.
  - unfold allow. rewrite Hp, Hh, Hm. destruct (float_of_int (per_seconds self2)); [|done].
    by destruct (_ <? _)%Z.
  - rewrite !allow_hits. by rewrite Hp, Hh, Hm.
Qed.

(** X3: the keys of a limiter do not interfere: the answers to the calls
    made for a key are those that the limiter would give if the calls for
    the other keys had not been made. *)
Theorem run_calls_keys_independent (self : RateLimiter) (calls : list (str * pyfloat))
    (key : str) :
  answers_for key calls (fst (run_calls self calls))
  = fst (run_calls self (List.filter (fun c => str_eqb (fst c) key) calls)).
Proof.
  assert (Hgen : forall calls self1 self2,
    max_requests self1 = max_requests self2 ->
    per_seconds self1 = per_seconds self2 ->
    hits_of self1 key = hits_of self2 key ->
    answers_for key calls (fst (run_calls self1 calls))
    = fst (run_calls self2 (List.filter (fun c => str_eqb (fst c) key) calls))).
  { clear. induction calls as [|[k now] calls IH]; intros self1 self2 Hm Hp Hh; [done|].
    rewrite run_calls_cons. cbn [fst answers_for List.filter].
    destruct (allow_frame self1 k now) as (Hm1 & Hp1 & Hother).
    destruct (str_eqb k key) eqn:E.
    - apply str_eqb_eq in E. subst k. rewrite run_calls_cons. cbn [fst].
      destruct (allow_agree self1 self2 key now Hm Hp Hh) as [Hr Hh'].
      destruct (allow_frame self2 key now) as (Hm2 & Hp2 & _).
      rewrite Hr. f_equal. apply IH; congruence.
    - apply IH; [congruence|congruence|].
      rewrite Hother; [done|]. intros ->. by rewrite str_eqb_refl in E. }
  by apply Hgen.
Qed.

Lemma allowed_keys_cons key now r calls answers :
  allowed_keys ((key, now) :: calls) (r :: answers)
  = match r with
    | Returns true => key :: allowed_keys calls answers
    | _ => allowed_keys calls answers
    end.
Proof. simpl. by destruct r as [[|]|]. Qed.

(** X4: dropping old hits never empties a list (when every hit is out of
    the window, the last one is kept).  Hence a limiter created with
    [max_requests = 1] allows each key once and never again, however much
    time has passed: the keys of the allowed calls are pairwise distinct. *)
Theorem run_calls_single_request_locks (window : Z) (calls : list (str * pyfloat)) :
  (forall ws hits, hits <> [] -> drop_old_hits ws hits <> [])
  /\ NoDup (allowed_keys calls (fst (run_calls (RateLimiter_init 1 window) calls))).
Proof.
  split.
  { intros ws hits Hne. destruct (drop_old_hits_spec ws hits) as (_ & _ & _ & H). auto. }
  assert (Hgen : forall calls self,
    max_requests self = 1%Z ->
    NoDup (allowed_keys calls (fst (run_calls self calls)))
    /\ forall k, In k (allowed_keys calls (fst (run_calls self calls))) -> hits_of self k = []).
  { clear. induction calls as [|[key now] calls IH]; intros self Hm.
    { split; [constructor|intros k []]. }
    rewrite run_calls_cons. cbn [fst]. rewrite allowed_keys_cons.
    destruct (allow_frame self key now) as (Hm1 & _ & Hother).
    destruct (IH (snd (allow self key now))) as [Hnd Hin]; [congruence|].
    pose proof (allow_hits self key now) as Hh.
    assert (Hkeep : forall k,
      hits_of (snd (allow self key now)) k = [] -> hits_of self k = []).
    { intros k Hk. destruct (decide (k = key)) as [->|Hne]; [|by rewrite <- Hother].
      rewrite Hh in Hk. destruct (float_of_int (per_seconds self)) as [span|]; [|done].
      cbv zeta in Hk.
      destruct (drop_old_hits_spec (fsub now span) (hits_of self key)) as (old & _ & _ & Hne).
      destruct (_ <? _)%Z; [by destruct (drop_old_hits _ _)|].
      destruct (hits_of self key); [done|]. exfalso. by apply Hne. }
    destruct (fst (allow self key now)) as [[|]|e] eqn:Er.
    - assert (Hnow : hits_of (snd (allow self key now)) key <> []).
      { rewrite Hh. unfold allow in Er.
        destruct (float_of_int (per_seconds self)) as [span|]; [|done]. cbv zeta.
        destruct (_ <? _)%Z; [by destruct (drop_old_hits _ _)|done]. }
      assert (Hempty : hits_of self key = []).
      { unfold allow in Er. destruct (float_of_int (per_seconds self)) as [span|]; [|done].
        destruct (drop_old_hits_spec (fsub now span) (hits_of self key))
          as (old & _ & _ & Hne).
        destruct (_ <? _)%Z eqn:El; [|done]. apply Z.ltb_lt in El. rewrite Hm in El.
        destruct (hits_of self key); [done|].
        destruct (drop_old_hits (fsub now span) (p :: l)); [by exfalso; apply Hne|].
        simpl in El. lia. }
      split.
      + constructor; [|done]. intros Hk. apply list_elem_of_In in Hk. apply Hin in Hk. done.
      + intros k [<-|Hk]; [done|]. apply Hkeep. by apply Hin.
    - split; [done|]. intros k Hk. apply Hkeep. by apply Hin.
    - split; [done|]. intros k Hk. apply Hkeep. by apply Hin. }
  by apply Hgen.
Qed.

(** ** Authentication *)

Lemma serve_cons API_KEY limiter request now requests :
  serve API_KEY limiter ((request, now) :: requests)
  = (fst (auth_dep API_KEY limiter request now)
       :: fst (serve API_KEY (snd (auth_dep API_KEY limiter request now)) requests),
     snd (serve API_KEY (snd (auth_dep API_KEY limiter request now)) requests)).
Proof.
  simpl. destruct (auth_dep API_KEY limiter request now) as [r l1]. simpl.
  by destruct (serve API_KEY l1 requests).
Qed.

(** X5: with an API key configured, a request that does not carry it is
    answered 401 and leaves no trace in the limiter: the answers to the
    requests that carry the key, and the limiter left, are what they would
    be if the other requests had not been made. *)
Theorem serve_ignores_wrong_key (c : N) (k : str) (limiter : RateLimiter)
    (requests : list (Request * pyfloat)) :
  let key := c :: k in
  let answers := fst (serve (Some key) limiter requests) in
  let authentic := List.filter (has_key key) requests in
  answers_where (has_key key) requests answers = fst (serve (Some key) limiter authentic)
  /\ snd (serve (Some key) limiter requests) = snd (serve (Some key) limiter authentic)
  /\ Forall (fun r => r = Raises (HTTPException 401 (u8 "API key inválida")))
            (answers_where (fun rq => negb (has_key key rq)) requests answers).
Proof.
  cbv zeta. revert limiter.
  induction requests as [|[request now] requests IH]; intros limiter.
  { repeat split. constructor. }
  rewrite serve_cons. cbn [fst snd answers_where List.filter].
  destruct (has_key (c :: k) (request, now)) eqn:E; cbn [negb].
  - rewrite serve_cons. cbn [fst snd].
    destruct (IH (snd (auth_dep (Some (c :: k)) limiter request now))) as (H1 & H2 & H3).
    split; [by rewrite H1|]. split; done.
  - assert (Hrej : auth_dep (Some (c :: k)) limiter request now
                   = (Raises (HTTPException 401 (u8 "API key inválida")), limiter)).
    { unfold auth_dep. unfold has_key in E. cbn [fst] in E. by rewrite E. }
    rewrite Hrej. cbn [fst snd]. destruct (IH limiter) as (H1 & H2 & H3).
    split; [done|]. split; [done|]. by constructor.
Qed.

(** ** The normalizer *)

Lemma lower_strip_lower s : lower (strip (lower s)) = lower (strip s).
Proof. by rewrite strip_lower, lower_idem. Qed.

(** X6: [normalize] does not see the case of a term nor the whitespace
    around it: a term, its lowercase form and its stripped form have the same
    normal form, and a term of whitespace only has the empty one. *)
Theorem normalize_case_space_insensitive (n : Normalizer) (term : str) :
  normalize n (lower term) = normalize n term
  /\ normalize n (strip term) = normalize n term
  /\ (strip term = [] -> normalize n term = []).
Proof.
  unfold normalize. split; [by rewrite lower_strip_lower|].
  split; [by rewrite strip_idem|].
  intros Hs. by rewrite Hs.
Qed.

(** X7: [add] then [normalize]: the variant (in any case, with any
    whitespace around it) now has the lowercased, stripped canonical name as
    normal form, and every other term keeps its normal form; adding a
    variant of whitespace only changes no normal form. *)
Theorem Normalizer_add_normalize (n : Normalizer) (variant canonical term : str) :
  normalize (Normalizer_add n variant canonical) term
  = if str_eqb (lower (strip term)) (lower (strip variant))
       && negb (str_falsy (lower (strip term)))
    then lower (strip canonical)
    else normalize n term.
Proof.
  unfold normalize, Normalizer_add. cbn [mapping].
  destruct (str_falsy (lower (strip term))) eqn:Ef.
  - by rewrite andb_false_r.
  - rewrite andb_true_r, dict_get_set.
    by destruct (str_eqb (lower (strip term)) (lower (strip variant))).
Qed.

Lemma Normalizer_grown_lower m adds : lower_values (Normalizer_grown m adds).
Proof.
  unfold Normalizer_grown.
  assert (Hgen : forall adds n, lower_values n ->
    lower_values (fold_left (fun n '(variant, canonical) => Normalizer_add n variant canonical)
                            adds n)).
  { clear. induction adds as [|[v c] adds IH]; intros n Hn; [done|].
    simpl. apply IH. by apply Normalizer_add_lower. }
  apply Hgen. apply Normalizer_init_lower.
Qed.

(** The entry of a mapping that [Normalizer(mapping)] keeps for a key. *)
Lemma Normalizer_init_get m k :
  dict_get k (mapping (Normalizer_init m))
  = option_map (fun kv => lower (snd kv))
               (find_last (fun kv => str_eqb k (lower (fst kv))) m).
Proof.
  unfold Normalizer_init. cbn [mapping].
  assert (Hgen : forall m acc,
    dict_get k (fold_left (fun acc '(k, v) => dict_set (lower k) (lower v) acc) m acc)
    = match find_last (fun kv => str_eqb k (lower (fst kv))) m with
      | Some kv => Some (lower (snd kv))
      | None => dict_get k acc
      end).
  { clear. induction m as [|[k' v] m IH]; intros acc; [done|].
    cbn [fold_left find_last fst]. rewrite IH.
    destruct (find_last _ m); [done|].
    rewrite dict_get_set. by destruct (str_eqb k (lower k')). }
  rewrite Hgen. by destruct (find_last _ m).
Qed.

(** X8: a normalizer reads its mapping without regard to case, the last
    entry of a key winning, and answers in lowercase: the normal form of a
    term is the lowercased canonical name of the last entry whose key, in
    lowercase, is the lowercased, stripped term, and that term itself when
    there is none.  However the normalizer
    was built and grown, a normal form is lowercase. *)
Theorem Normalizer_init_normalize (m : dict str) (term : str) :
  normalize (Normalizer_init m) term
  = (if str_falsy (lower (strip term)) then []
     else match find_last (fun kv => str_eqb (lower (strip term)) (lower (fst kv))) m with
          | Some (_, canonical) => lower canonical
          | None => lower (strip term)
          end)
  /\ forall adds t, is_lower (normalize (Normalizer_grown m adds) t).
Proof.
  split.
  - unfold normalize. destruct (str_falsy (lower (strip term))) eqn:Ef.
    + by destruct (lower (strip term)).
    + rewrite Normalizer_init_get. by destruct (find_last _ m) as [[k v]|].
  - intros adds t. apply normalize_is_lower. apply Normalizer_grown_lower.
Qed.

(** ** The stored price database *)

Lemma dict_ok_set {V} k (v : V) d : dict_ok d -> dict_ok (dict_set k v d).
Proof.
  unfold dict_ok. intros Hd. rewrite dict_keys_set.
  destruct (dict_get k d) eqn:E; [done|].
  apply NoDup_app. split; [done|]. split; [|apply NoDup_singleton].
  intros x Hx Hx'. apply list_elem_of_singleton in Hx'. subst x.
  apply dict_get_none_keys in E. apply E. by apply list_elem_of_In.
Qed.

Lemma dict_ok_fold {V A} (f : A -> str * V) (l : list A) : forall d : dict V,
  dict_ok d -> dict_ok (fold_left (fun d a => dict_set (fst (f a)) (snd (f a)) d) l d).
Proof.
  induction l as [|a l IH]; intros d Hd; [done|]. simpl. apply IH. by apply dict_ok_set.
Qed.

(** Writing the entries of a dictionary with unique keys, in order, after
    entries with other keys, appends them. *)
Lemma dict_set_all_new {V} : forall (d acc : dict V),
  dict_ok (acc ++ d) ->
  fold_left (fun acc kv => dict_set (fst kv) (snd kv) acc) d acc = acc ++ d.
Proof.
  induction d as [|[k v] d IH]; intros acc Hok; [by rewrite app_nil_r|].
  cbn [fold_left fst snd]. rewrite dict_set_new.
  - rewrite IH; [by rewrite <- app_assoc|]. by rewrite <- app_assoc.
  - apply dict_get_none_keys. unfold dict_ok, dict_keys in Hok.
    rewrite map_app in Hok. apply NoDup_app in Hok as (_ & Hdis & _).
    intros Hin. apply (Hdis k); [by apply list_elem_of_In|]. simpl. left.
Qed.

Lemma norm_items_lower_keys (items : dict pyfloat) :
  fold_left (fun norm_items '(name, price) => dict_set (lower name) price norm_items) items []
  = lower_keys items.
Proof.
  unfold lower_keys. generalize (@nil (str * pyfloat)).
  induction items as [|[k v] items IH]; intros acc; [done|]. simpl. apply IH.
Qed.

Lemma lower_keys_ok (items : dict pyfloat) : dict_ok (lower_keys items).
Proof.
  unfold lower_keys.
  apply (dict_ok_fold (fun kv : str * pyfloat => (lower (fst kv), snd kv))). constructor.
Qed.

Lemma lower_keys_id (items : dict pyfloat) :
  dict_ok items -> Forall (fun kv => is_lower (fst kv)) items -> lower_keys items = items.
Proof.
  intros Hok Hl. unfold lower_keys.
  assert (Hgen : forall (d acc : dict pyfloat),
    Forall (fun kv => is_lower (fst kv)) d ->
    fold_left (fun acc kv => dict_set (lower (fst kv)) (snd kv) acc) d acc
    = fold_left (fun acc kv => dict_set (fst kv) (snd kv) acc) d acc).
  { clear. induction d as [|[k v] d IH]; intros acc Hd; [done|].
    inversion Hd as [|? ? Hk Hd']; subst. cbn [fold_left fst snd]. cbn [fst] in Hk.
    rewrite Hk. by apply IH. }
  rewrite Hgen by done. by rewrite dict_set_all_new.
Qed.


Lemma normalize_price_db_fold : forall (db acc : PriceDB),
  well_keyed acc ->
  well_keyed (fold_left (fun norm '(market, items) =>
                           let norm_items :=
                             fold_left (fun norm_items '(name, price) =>
                                          dict_set (lower name) price norm_items)
                                       items [] in
                           dict_set (lower market) norm_items norm)
                        db acc).
Proof.
  induction db as [|[market items] db IH]; intros acc Hacc; [done|].
  cbn [fold_left]. apply IH. cbv zeta. rewrite norm_items_lower_keys.
  destruct Hacc as (Hl & Hok & Hin). split; [|split].
  - apply Forall_dict_set; [done|]. split; [apply is_lower_lower|apply lower_keys_lower].
  - by apply dict_ok_set.
  - apply Forall_dict_set; [done|]. apply lower_keys_ok.
Qed.

Lemma normalize_price_db_id (db : PriceDB) : well_keyed db -> _normalize_price_db db = db.
Proof.
  intros (Hl & Hok & Hin). unfold _normalize_price_db.
  assert (Hgen : forall (d acc : PriceDB),
    lower_db d -> Forall (fun e => dict_ok (snd e)) d ->
    fold_left (fun norm '(market, items) =>
                 let norm_items :=
                   fold_left (fun norm_items '(name, price) =>
                                dict_set (lower name) price norm_items)
                             items [] in
                 dict_set (lower market) norm_items norm)
              d acc
    = fold_left (fun acc kv => dict_set (fst kv) (snd kv) acc) d acc).
  { clear. induction d as [|[market items] d IH]; intros acc Hl Hin; [done|].
    inversion Hl as [|? ? [Hm Hi] Hl']; subst. inversion Hin as [|? ? Hoki Hin']; subst.
    cbn [fold_left fst snd]. cbv zeta. rewrite norm_items_lower_keys.
    cbn [fst snd] in Hm, Hi, Hoki. rewrite Hm, lower_keys_id by done. by apply IH. }
  rewrite Hgen by done. by rewrite dict_set_all_new.
Qed.

Lemma normalize_price_db_well_keyed db : well_keyed (_normalize_price_db db).
Proof.
  apply normalize_price_db_fold. repeat split; constructor.
Qed.

(** X9: [_normalize_price_db] gives, for every database, one whose market
    and item keys are lowercase and unique; it leaves such a database as it
    is, so that normalizing twice is normalizing once. *)
Theorem normalize_price_db_idempotent (db : PriceDB) :
  well_keyed (_normalize_price_db db)
  /\ _normalize_price_db (_normalize_price_db db) = _normalize_price_db db
  /\ (well_keyed db -> _normalize_price_db db = db).
Proof.
  split; [apply normalize_price_db_well_keyed|]. split.
  - apply normalize_price_db_id. apply normalize_price_db_well_keyed.
  - apply normalize_price_db_id.
Qed.

Lemma load_price_db_lower file : lower_db (load_price_db file).
Proof.
  destruct file as [[db|e]|]; simpl; try constructor.
  apply normalize_price_db_well_keyed.
Qed.

Lemma existsb_dict_keys {V} (u : dict V) m :
  In m (dict_keys u) -> existsb (fun e => str_eqb (fst e) m) u = true.
Proof.
  intros Hin. apply in_map_iff in Hin as (e & <- & He).
  apply existsb_exists. exists e. split; [done|]. apply str_eqb_refl.
Qed.

(** X10: the database that [atualizar_precos] hands to [write_price_db] has
    lowercase market and item keys only, whatever the stored file, the
    synonyms file and the sources hold; it has every market of the stored
    database and every updated market, and the updated markets of the answer
    are lowercase. *)
Theorem atualizar_precos_lowercase (sources : list (str * outcome (dict pyfloat)))
    (synonyms : dict str) (price_file : option (outcome PriceDB)) :
  let merged := fst (atualizar_precos sources synonyms price_file) in
  let answer := snd (atualizar_precos sources synonyms price_file) in
  lower_db merged
  /\ Forall is_lower (updated_markets answer)
  /\ count answer = length (updated_markets answer)
  /\ (forall m, In m (updated_markets answer) -> dict_get m merged <> None)
  /\ (forall m, dict_get m (load_price_db price_file) <> None -> dict_get m merged <> None).
Proof.
  cbv zeta. unfold atualizar_precos. cbn [fst snd updated_markets count].
  pose proof (collect_from_sources_lower sources) as Hu.
  split; [|split; [|split; [|split]]].
  - apply merge_price_db_lower.
    + apply Normalizer_init_lower.
    + apply load_price_db_lower.
    + eapply Forall_impl; [exact Hu|]. by intros e [He _].
  - unfold dict_keys. apply Forall_map. eapply Forall_impl; [exact Hu|]. by intros e [He _].
  - unfold dict_keys. by rewrite length_map.
  - intros m Hm. rewrite dict_get_merge.
    destruct (dict_get m (load_price_db price_file)); [done|].
    by rewrite existsb_dict_keys.
  - intros m Hm. rewrite dict_get_merge.
    by destruct (dict_get m (load_price_db price_file)).
Qed.

(** ** The order of floats *)

Lemma SFcompare_finite_pos m1 e1 m2 e2 :
  SFcompare (S754_finite false m1 e1) (S754_finite false m2 e2)
  = Some (match (e1 ?= e2)%Z with
          | Eq => (m1 ?= m2)%positive
          | Lt => Lt
          | Gt => Gt
          end).
Proof. reflexivity. Qed.

Lemma SFcompare_finite_neg m1 e1 m2 e2 :
  SFcompare (S754_finite true m1 e1) (S754_finite true m2 e2)
  = Some (match (e1 ?= e2)%Z with
          | Eq => CompOpp (m1 ?= m2)%positive
          | Lt => Gt
          | Gt => Lt
          end).
Proof. reflexivity. Qed.

(** [<] on floats is transitive. *)
Lemma SFltb_trans a b c : SFltb a b = true -> SFltb b c = true -> SFltb a c = true.
Proof.
  unfold SFltb. float_cases;
    rewrite ?SFcompare_finite_pos, ?SFcompare_finite_neg; try (simpl; congruence);
    intros H1 H2; compare_cases; subst; simpl in *; try congruence; try lia.
Qed.

(** On numbers, what is not below [b] is above what is below [b]. *)
Lemma SFltb_below a b x :
  SFltb a b = true -> SFltb x b = false -> x <> S754_nan -> SFltb a x = true.
Proof.
  unfold SFltb. float_cases;
    rewrite ?SFcompare_finite_pos, ?SFcompare_finite_neg; try (simpl; congruence);
    intros H1 H2 H3; compare_cases; subst; simpl in *; try congruence; try lia.
Qed.

Lemma SFltb_irrefl a : SFltb a a = false.
Proof.
  unfold SFltb. float_cases;
    rewrite ?SFcompare_finite_pos, ?SFcompare_finite_neg; try reflexivity;
    compare_cases; subst; simpl in *; try congruence; try lia.
Qed.

Lemma positive_total_number v : positive_total v = true -> v <> S754_nan.
Proof. intros H ->. discriminate. Qed.

(** ** The summary of the stored quotes *)

Lemma dict_of_ok {V} (d : dict V) : dict_ok d -> dict_of d = d.
Proof. intros Hd. unfold dict_of. by rewrite dict_set_all_new. Qed.

Lemma dict_ok_filter {V} (p : str * V -> bool) (d : dict V) :
  dict_ok d -> dict_ok (List.filter p d).
Proof.
  unfold dict_ok, dict_keys. induction d as [|kv d IH]; intros Hd; [done|].
  simpl in Hd. apply NoDup_cons in Hd as [Hnin Hd]. simpl.
  destruct (p kv); [|by apply IH]. simpl. apply NoDup_cons. split; [|by apply IH].
  intros Hin. apply Hnin. apply list_elem_of_In in Hin. apply list_elem_of_In.
  apply in_map_iff in Hin as (e & He & Hein). apply in_map_iff. exists e. split; [done|].
  apply List.filter_In in Hein. tauto.
Qed.

(** An element of a filtered list splits the list it was filtered from. *)
Lemma filter_split {A} (p : A -> bool) x : forall l fb fa,
  List.filter p l = fb ++ x :: fa ->
  exists b a, l = b ++ x :: a /\ List.filter p b = fb /\ List.filter p a = fa.
Proof.
  induction l as [|y l IH]; intros fb fa Hf; [by destruct fb|].
  simpl in Hf. destruct (p y) eqn:Ey.
  - destruct fb as [|z fb].
    + inversion Hf; subst. exists [], l. repeat split.
    + inversion Hf; subst. destruct (IH fb fa) as (b & a & -> & Hb & Ha); [done|].
      exists (z :: b), a. simpl. rewrite Ey, Hb. repeat split. done.
  - destruct (IH fb fa Hf) as (b & a & -> & Hb & Ha).
    exists (y :: b), a. simpl. rewrite Ey. repeat split; done.
Qed.

(** [min] keeps the first of the smallest values. *)
Lemma min_by_value_spec : forall (rest seen_before seen_after : dict pyfloat) best,
  Forall (fun kv => snd kv <> S754_nan) (seen_after ++ rest) ->
  Forall (fun kv => SFltb (snd best) (snd kv) = true) seen_before ->
  Forall (fun kv => SFltb (snd kv) (snd best) = false) seen_after ->
  exists before after,
    seen_before ++ best :: seen_after ++ rest
    = before ++ min_by_value best rest :: after
    /\ Forall (fun kv => SFltb (snd (min_by_value best rest)) (snd kv) = true) before
    /\ Forall (fun kv => SFltb (snd kv) (snd (min_by_value best rest)) = false) after.
Proof.
  unfold min_by_value.
  induction rest as [|kv rest IH]; intros sb sa best Hnum Hb Ha.
  - exists sb, sa. rewrite app_nil_r. repeat split; done.
  - cbn [fold_left].
    match goal with |- context [if ?c then kv else best] => destruct c eqn:E end.
    + destruct (IH (sb ++ best :: sa) [] kv) as (before & after & Heq & H1 & H2).
      * apply Forall_app in Hnum as [_ Hr]. by inversion Hr.
      * apply Forall_app. split.
        { eapply Forall_impl; [exact Hb|]. intros x Hx. cbv beta in Hx.
          by eapply SFltb_trans. }
        constructor; [done|].
        apply Forall_app in Hnum as [Hsa _].
        rewrite Forall_forall in Ha, Hsa. apply Forall_forall. intros x Hx.
        eapply SFltb_below; [exact E|by apply Ha|by apply Hsa].
      * constructor.
      * exists before, after. split; [|by split]. rewrite <- Heq. simpl.
        by rewrite <- app_assoc.
    + destruct (IH sb (sa ++ [kv]) best) as (before & after & Heq & H1 & H2).
      * by rewrite <- app_assoc.
      * done.
      * apply Forall_app. split; [done|]. by constructor.
      * exists before, after. split; [|by split]. rewrite <- Heq. by rewrite <- app_assoc.
Qed.

(** X11: the best market of a stored quote.  There is none exactly when no
    total is positive.  Else its total is positive, every positive total
    listed before it is strictly greater and no positive total listed after
    it is smaller: it is the first of the cheapest markets, the markets
    with total zero being ignored. *)
Theorem best_of_cheapest (totals : dict pyfloat) :
  dict_ok totals ->
  match best_of totals with
  | None => Forall (fun kv => positive_total (snd kv) = false) totals
  | Some (market, total) =>
      positive_total total = true
      /\ exists before after,
           totals = before ++ (market, total) :: after
           /\ Forall (fun kv => positive_total (snd kv) = true ->
                                SFltb total (snd kv) = true) before
           /\ Forall (fun kv => positive_total (snd kv) = true ->
                                SFltb (snd kv) total = false) after
  end.
Proof.
  intros Hok. unfold best_of. cbv zeta.
  rewrite dict_of_ok by (by apply dict_ok_filter).
  destruct (List.filter (fun kv => positive_total (snd kv)) totals) as [|first rest] eqn:Ef.
  - apply Forall_forall. intros kv Hin. apply list_elem_of_In in Hin.
    destruct (positive_total (snd kv)) eqn:Ep; [|done].
    assert (Hf : In kv (List.filter (fun kv => positive_total (snd kv)) totals))
      by (apply List.filter_In; done).
    by rewrite Ef in Hf.
  - assert (Hpos : Forall (fun kv => positive_total (snd kv) = true) (first :: rest)).
    { rewrite <- Ef. apply Forall_forall. intros kv Hin. apply list_elem_of_In in Hin.
      apply List.filter_In in Hin. tauto. }
    destruct (min_by_value_spec rest [] [] first) as (fb & fa & Heq & Hb & Ha).
    + simpl. inversion Hpos as [|? ? _ Hr]; subst.
      eapply Forall_impl; [exact Hr|]. intros kv Hkv. by apply positive_total_number.
    + constructor.
    + constructor.
    + simpl in Heq. destruct (min_by_value first rest) as [market total] eqn:Em.
      pose proof (eq_trans Ef Heq) as Ef'.
      pose proof (eq_ind _ (fun l => Forall (fun kv => positive_total (snd kv) = true) l)
                         Hpos _ Heq) as Hpos'.
      cbv beta in Hpos'. split.
      * apply Forall_app in Hpos' as [_ Hp]. by inversion Hp.
      * apply filter_split in Ef' as (b & a & -> & Hfb & Hfa).
        exists b, a. split; [done|]. cbn [snd] in Hb, Ha. split.
        -- apply Forall_forall. intros kv Hin Hp. rewrite Forall_forall in Hb.
           apply Hb. rewrite <- Hfb. apply list_elem_of_In. apply List.filter_In.
           split; [by apply list_elem_of_In|done].
        -- apply Forall_forall. intros kv Hin Hp. rewrite Forall_forall in Ha.
           apply Ha. rewrite <- Hfa. apply list_elem_of_In. apply List.filter_In.
           split; [by apply list_elem_of_In|done].
Qed.

Lemma best_of_cheapest_witness :
  dict_ok [(u8 "a", flt 12.5); (u8 "b", flt 0); (u8 "c", flt 9.75); (u8 "d", flt 9.75)]
  /\ match best_of [(u8 "a", flt 12.5); (u8 "b", flt 0); (u8 "c", flt 9.75);
                    (u8 "d", flt 9.75)] with
     | None => False
     | Some (market, total) => market = u8 "c" /\ positive_total total = true
     end.
Proof.
  assert (Hok : dict_ok [(u8 "a", flt 12.5); (u8 "b", flt 0); (u8 "c", flt 9.75);
                         (u8 "d", flt 9.75)]).
  { unfold dict_ok. apply NoDup_ListNoDup. vm_compute.
    repeat (constructor; [intros H; repeat (destruct H as [H|H]; [discriminate|]); done|]).
    constructor. }
  split; [exact Hok|].
  pose proof (best_of_cheapest _ Hok) as H.
  destruct (best_of _) as [[market total]|] eqn:E.
  - destruct H as [Hp _]. split; [|done]. vm_compute in E. by inversion E.
  - vm_compute in E. discriminate.
Defined.

Lemma last_files_split {A} (limit : Z) (files : list A) :
  exists older,
    files = older ++ last_files limit files
    /\ ((limit <= 0)%Z -> older = [])
    /\ ((0 < limit)%Z ->
        Z.of_nat (length (last_files limit files)) = Z.min (Z.of_nat (length files)) limit).
Proof.
  unfold last_files. destruct (0 <? limit)%Z eqn:E.
  - apply Z.ltb_lt in E. exists (take (length files - Z.to_nat limit) files).
    split; [by rewrite take_drop|]. split; [lia|]. intros _. rewrite length_drop. lia.
  - apply Z.ltb_ge in E. exists []. split; [done|]. split; [done|lia].
Qed.

(** X12: [summary_cotacoes] summarizes the stored quotes that can be read
    among the last [limit] files (among all the files when [limit] is not
    positive), the most recent first; a file that cannot be read is left out
    and the others are still summarized.  The count is the number of items,
    at most [limit] when [limit] is positive. *)
Theorem summary_cotacoes_recent_first (limit : Z) (files : list (str * outcome quote_doc)) :
  let answer := summary_cotacoes limit files in
  fst answer = length (snd answer)
  /\ ((0 < limit)%Z -> (Z.of_nat (fst answer) <= limit)%Z)
  /\ exists older kept,
       files = older ++ kept
       /\ ((limit <= 0)%Z -> older = [])
       /\ ((0 < limit)%Z -> Z.of_nat (length kept) = Z.min (Z.of_nat (length files)) limit)
       /\ map item_id (snd answer) = rev (map fst (List.filter readable kept))
       /\ Forall (fun item => exists stem doc,
                    In (stem, Ret doc) kept /\ item = summary_of stem doc) (snd answer).
Proof.
  cbv zeta. unfold summary_cotacoes. cbn [fst snd].
  destruct (last_files_split limit files) as (older & Hsplit & Hnp & Hp).
  set (kept := last_files limit files) in *.
  assert (Hids : forall l : list (str * outcome quote_doc),
    map item_id (flat_map (fun '(stem, doc) =>
                             match doc with
                             | Ret d => [summary_of stem d]
                             | Raise _ => []
                             end) l)
    = map fst (List.filter readable l)).
  { induction l as [|[stem [d|e]] l IH]; simpl; [done| |done]. by rewrite IH. }
  assert (Hlen : forall l : list (str * outcome quote_doc),
    (length (flat_map (fun '(stem, doc) =>
                         match doc with
                         | Ret d => [summary_of stem d]
                         | Raise _ => []
                         end) l) <= length l)%nat).
  { induction l as [|[stem [d|e]] l IH]; simpl; lia. }
  split; [done|]. split.
  - intros Hl. specialize (Hp Hl). specialize (Hlen (rev kept)).
    rewrite length_rev in Hlen. lia.
  - exists older, kept. split; [done|]. split; [done|]. split; [done|]. split.
    + rewrite Hids. rewrite <- map_rev. f_equal.
      clear. induction kept as [|x l IH]; [done|].
      simpl. rewrite List.filter_app, IH. simpl. destruct (readable x); simpl.
      * done.
      * by rewrite app_nil_r.
    + apply Forall_forall. intros item Hin. apply list_elem_of_In in Hin.
      apply in_flat_map in Hin as ([stem doc] & Hfile & Hitem).
      apply in_rev in Hfile. destruct doc as [d|e]; [|done].
      destruct Hitem as [<-|[]]. by exists stem, d.
Qed.

(** ** The scrapers *)

Lemma gather_results_get m : forall (sources : list (str * outcome (dict pyfloat))) acc,
  dict_get m (fold_left (fun merged res =>
                           match res with
                           | TaskError => merged
                           | TaskOk name prices => dict_set (lower name) prices merged
                           end)
                        (map (fun s => run_one (fst s) (snd s)) sources) acc)
  = match find_last (fetched_for m) sources with
    | Some (_, Ret prices) => Some (lower_keys prices)
    | _ => dict_get m acc
    end.
Proof.
  induction sources as [|[n [prices|e]] sources IH]; intros acc; [done| |].
  - cbn [map fold_left fst snd run_one find_last]. rewrite IH.
    destruct (find_last (fetched_for m) sources) as [[n' [p'|e']]|] eqn:Ef.
    + done.
    + exfalso. clear IH. induction sources as [|[n2 [p2|e2]] sources IH2]; [done| |].
      * simpl in Ef. destruct (find_last (fetched_for m) sources) as [y|] eqn:E2.
        -- inversion Ef; subst. by apply IH2.
        -- unfold fetched_for in Ef. simpl in Ef.
           by destruct (str_eqb m (lower n2)).
      * simpl in Ef. destruct (find_last (fetched_for m) sources) as [y|] eqn:E2.
        -- inversion Ef; subst. by apply IH2.
        -- unfold fetched_for in Ef. simpl in Ef. by rewrite andb_false_r in Ef.
    + unfold fetched_for at 1. cbn [fst snd]. rewrite andb_true_r, dict_get_set.
      by destruct (str_eqb m (lower n)).
  - cbn [map fold_left fst snd run_one find_last]. rewrite IH.
    destruct (find_last (fetched_for m) sources) as [[n' [p'|e']]|]; try done.
    unfold fetched_for. cbn [fst snd]. by rewrite andb_false_r.
Qed.

Lemma collect_from_sources_well_keyed sources : well_keyed (collect_from_sources sources).
Proof.
  split; [apply collect_from_sources_lower|].
  unfold collect_from_sources, gather_results.
  assert (Hgen : forall (tasks : list task_result) acc,
    dict_ok acc /\ Forall (fun e : str * dict pyfloat => dict_ok (snd e)) acc ->
    (forall name prices, In (TaskOk name prices) tasks -> dict_ok prices) ->
    dict_ok (fold_left (fun merged res =>
                          match res with
                          | TaskError => merged
                          | TaskOk name prices => dict_set (lower name) prices merged
                          end) tasks acc)
    /\ Forall (fun e : str * dict pyfloat => dict_ok (snd e))
              (fold_left (fun merged res =>
                            match res with
                            | TaskError => merged
                            | TaskOk name prices => dict_set (lower name) prices merged
                            end) tasks acc)).
  { clear. induction tasks as [|[n p|] tasks IH]; intros acc [Hok Hin] Ht; [done| |].
    - simpl. apply IH.
      + split; [by apply dict_ok_set|]. apply Forall_dict_set; [done|].
        apply (Ht n p). by left.
      + intros n' p' Hin'. apply (Ht n' p'). by right.
    - simpl. apply IH; [done|]. intros n' p' Hin'. apply (Ht n' p'). by right. }
  apply Hgen.
  - split; constructor.
  - intros n p Hin. apply in_map_iff in Hin as ([n' [p'|e]] & Heq & _); [|done].
    simpl in Heq. inversion Heq; subst. apply lower_keys_ok.
Qed.

(** X13: what [collect_from_sources] gathers under a market name is what
    the last source of that name (case apart) whose scraper gave prices
    returned, with its item names lowercased; a source whose scraper raised
    gives nothing and hides no other source; a name that no successful
    source carries is absent.  The gathered database has lowercase, unique
    keys.  A source whose kind is missing, empty or unknown to the registry
    is fetched with the mock scraper. *)
Theorem collect_from_last_success
    (fetch_prices : scraper -> Source -> outcome (dict pyfloat))
    (sources : list Source) (m : str) :
  let tasks := map (fun src => (name src, fetch_prices (scraper_for src) src)) sources in
  dict_get m (collect_from fetch_prices sources)
  = match find_last (fetched_for m) tasks with
    | Some (_, Ret prices) => Some (lower_keys prices)
    | _ => None
    end
  /\ well_keyed (collect_from fetch_prices sources)
  /\ (forall src,
        dict_get (lower (match kind src with
                         | Some k => k
                         | None => []
                         end)) SCRAPER_REGISTRY = None ->
        scraper_for src = MockScraper).
Proof.
  cbv zeta. unfold collect_from. split; [|split].
  - unfold collect_from_sources, gather_results. by rewrite gather_results_get.
  - apply collect_from_sources_well_keyed.
  - intros src Hk. unfold scraper_for. destruct (kind src) as [[|c k]|]; [done| |done].
    by rewrite Hk.
Qed.

Section GenericHTMLFacts.
Context {world err : Type} (http_get : str -> world -> option err * world).

Lemma generic_attempts_spec url : forall attempts prev w requests,
  match generic_attempts http_get attempts url prev w requests with
  | (r, w', made) =>
      exists errors,
        (r = Fetched []
         /\ made = (requests + S (length errors))%nat
         /\ (length errors < attempts)%nat
         /\ replay http_get (S (length errors)) url w = (map Some errors ++ [None], w'))
        \/ (r = match last errors with
                | Some e => Failed e
                | None => match prev with
                          | Some e => Failed e
                          | None => Fetched []
                          end
                end
            /\ made = (requests + length errors)%nat
            /\ length errors = attempts
            /\ replay http_get (length errors) url w = (map Some errors, w'))
  end.
Proof.
  induction attempts as [|n IH]; intros lst w requests.
  - simpl. exists []. right. simpl. rewrite Nat.add_0_r. done.
  - cbn [generic_attempts]. destruct (http_get url w) as [[e|] w1] eqn:Eg.
    + specialize (IH (Some e) w1 (S requests)).
      destruct (generic_attempts http_get n url (Some e) w1 (S requests)) as [[r w'] made].
      destruct IH as (errors & [(Hr & Hm & Hl & Hrep)|(Hr & Hm & Hl & Hrep)]).
      * exists (e :: errors). left. split; [done|]. split; [simpl; lia|].
        split; [simpl; lia|].
        change (replay http_get (S (length (e :: errors))) url w)
          with (let '(r, w) := http_get url w in
                let '(rs, w) := replay http_get (S (length errors)) url w in (r :: rs, w)).
        by rewrite Eg, Hrep.
      * exists (e :: errors). right. split.
        { rewrite Hr. destruct errors as [|e2 errors]; [done|].
          change (last (e :: e2 :: errors)) with (last (e2 :: errors)).
          rewrite last_cons. by destruct (last errors). }
        split; [simpl; lia|]. split; [simpl; lia|].
        change (replay http_get (length (e :: errors)) url w)
          with (let '(r, w) := http_get url w in
                let '(rs, w) := replay http_get (length errors) url w in (r :: rs, w)).
        by rewrite Eg, Hrep.
    + exists []. left. split; [done|]. split; [simpl; lia|]. split; [simpl; lia|].
      simpl. by rewrite Eg.
Qed.

End GenericHTMLFacts.

(** X14: [GenericHTMLScraper.fetch_prices] requests the base URL of the
    source at most [retries + 1] times.  It stops at the first request that
    passes and returns the empty dictionary (it extracts no price); when all
    the [retries + 1] requests fail it raises the exception of the last one;
    with [retries] negative it makes no request and returns the empty
    dictionary. *)
Theorem GenericHTMLScraper_retries {world err : Type}
    (http_get : str -> world -> option err * world)
    (retries : Z) (source : Source) (w : world) :
  match GenericHTMLScraper_fetch_prices http_get retries source w with
  | (r, w', requests) =>
      (Z.of_nat requests <= Z.max (retries + 1) 0)%Z
      /\ exists errors,
           match r with
           | Fetched prices =>
               prices = []
               /\ ((requests = S (length errors)
                    /\ replay http_get requests (base_url source) w
                       = (map Some errors ++ [None], w'))
                   \/ ((retries < 0)%Z /\ requests = O /\ w' = w))
           | Failed e =>
               Z.of_nat requests = (retries + 1)%Z
               /\ last errors = Some e
               /\ replay http_get requests (base_url source) w = (map Some errors, w')
           end
  end.
Proof.
  unfold GenericHTMLScraper_fetch_prices.
  pose proof (generic_attempts_spec http_get (base_url source)
                (Z.to_nat (retries + 1)) None w O) as H.
  destruct (generic_attempts http_get (Z.to_nat (retries + 1)) (base_url source) None w O)
    as [[r w'] requests].
  destruct H as (errors & [(Hr & Hm & Hl & Hrep)|(Hr & Hm & Hl & Hrep)]).
  - split; [lia|]. exists errors. subst r. split; [done|]. left.
    simpl in Hm. subst requests. done.
  - simpl in Hm. subst requests. split; [lia|]. exists errors.
    destruct (last errors) as [e|] eqn:El; subst r.
    + split; [|done]. destruct errors; [done|]. simpl in Hl. simpl. lia.
    + split; [done|]. right. destruct errors as [|e errors].
      * simpl in Hl, Hrep. inversion Hrep. split; [lia|]. by split.
      * exfalso. rewrite last_cons in El. by destruct (last errors).
Qed.

(** ** What an extraction yields *)

Lemma price_of_text_nonneg text price : price_of_text text = Some price -> nonneg price = true.
Proof.
  unfold price_of_text. intros H.
  destruct (parse_brl_cases text) as [[Hn _]|(n & int & frac & Hp & _)].
  - by rewrite Hn in H.
  - rewrite Hp in H. inversion H; subst. apply signed_nonneg. apply float_of_ratio_signed.
Qed.

Lemma dict_set_length {V} k (v : V) d : (length (dict_set k v d) <= S (length d))%nat.
Proof.
  induction d as [|[k' v'] d IH]; simpl; [lia|]. destruct (str_eqb k k'); simpl; lia.
Qed.

Lemma lower_nonempty s : str_falsy s = false -> lower s <> [].
Proof.
  destruct s as [|c s]; [done|]. intros _ Hnil.
  pose proof (lower_length (c :: s)) as Hlen. rewrite Hnil in Hlen. simpl in Hlen. lia.
Qed.

Section ItemFacts.
Context {node : Type} `{Soup node}.

Lemma first_price_nonneg (card : node) : forall selectors price,
  first_price card selectors = Some price -> nonneg price = true.
Proof.
  induction selectors as [|ps rest IH]; intros price Hp; [done|].
  simpl in Hp. destruct (select_one card ps) as [elp|]; [|by apply IH].
  destruct (price_of_text (get_text elp (u8 " "))) as [p|] eqn:E; [|by apply IH].
  inversion Hp; subst. by eapply price_of_text_nonneg.
Qed.

Lemma card_price_nonneg rule (card : node) price :
  card_price rule card = Some price -> nonneg price = true.
Proof.
  unfold card_price. destruct (first_price card (price_selectors rule)) as [p|] eqn:E.
  - intros [= <-]. by eapply first_price_nonneg.
  - apply price_of_text_nonneg.
Qed.

Lemma scan_card_items rule (card : node) items :
  dict_ok items /\ Forall priced_item items ->
  dict_ok (scan_card rule items card) /\ Forall priced_item (scan_card rule items card).
Proof.
  intros [Hok Hall]. rewrite scan_card_spec.
  destruct (card_price rule card) as [price|] eqn:Ep; [|done].
  destruct (str_falsy (card_name rule card)) eqn:En; [done|].
  split; [by apply dict_ok_set|]. apply Forall_dict_set; [done|].
  split; [apply is_lower_lower|]. split; [by apply lower_nonempty|].
  by eapply card_price_nonneg.
Qed.

Lemma scan_cards_items rule : forall (cards : list node) items,
  dict_ok items /\ Forall priced_item items ->
  dict_ok (fold_left (scan_card rule) cards items)
  /\ Forall priced_item (fold_left (scan_card rule) cards items).
Proof.
  induction cards as [|card cards IH]; intros items Hi; [done|].
  simpl. apply IH. by apply scan_card_items.
Qed.

Lemma scan_selectors_items (soup : node) rule : forall selectors items scanned,
  dict_ok items /\ Forall priced_item items ->
  dict_ok (fst (scan_selectors soup rule selectors items scanned))
  /\ Forall priced_item (fst (scan_selectors soup rule selectors items scanned)).
Proof.
  induction selectors as [|sel rest IH]; intros items scanned Hi; [done|].
  cbn [scan_selectors]. cbv zeta.
  pose proof (scan_cards_items rule (select soup sel) items Hi) as Hs.
  destruct (dict_empty (fold_left (scan_card rule) (select soup sel) items)); [by apply IH|].
  done.
Qed.

Lemma extract_from_cards_items (soup : node) rule :
  dict_ok (extract_from_cards soup rule) /\ Forall priced_item (extract_from_cards soup rule).
Proof.
  unfold extract_from_cards, extract_from_cards_log. apply scan_selectors_items.
  split; constructor.
Qed.

Lemma fallback_loop_items (soup : node) limit : forall strings items,
  (forall x, In x strings -> In x (currency_strings soup)) ->
  dict_ok items /\ Forall priced_item items /\ Forall (fallback_entry soup) items
  /\ (length items < Nat.max limit 1)%nat ->
  dict_ok (fallback_loop limit strings items)
  /\ Forall priced_item (fallback_loop limit strings items)
  /\ Forall (fallback_entry soup) (fallback_loop limit strings items)
  /\ (length (fallback_loop limit strings items) <= Nat.max limit 1)%nat.
Proof.
  induction strings as [|[el parent] strings IH]; intros items Hsub (Hok & Hp & He & Hl).
  { simpl. repeat split; try done. lia. }
  assert (Hnext : dict_ok (fallback_loop limit strings items)
    /\ Forall priced_item (fallback_loop limit strings items)
    /\ Forall (fallback_entry soup) (fallback_loop limit strings items)
    /\ (length (fallback_loop limit strings items) <= Nat.max limit 1)%nat).
  { apply IH; [|done]. intros x Hx. apply Hsub. by right. }
  cbn [fallback_loop].
  destruct (price_of_text (strip el)) as [price|] eqn:Eprice; [|done].
  destruct parent as [parent|]; [|done]. cbv zeta.
  set (name := strip (re_sub_empty CURRENCY_RE (get_text parent (u8 " ")))).
  destruct (str_falsy (get_text parent (u8 " ")) || (length name <? 3)%nat) eqn:Eskip;
    [done|].
  apply orb_false_iff in Eskip as [_ Hlen]. apply Nat.ltb_ge in Hlen.
  assert (Hnew : dict_ok (dict_set (lower name) price items)
    /\ Forall priced_item (dict_set (lower name) price items)
    /\ Forall (fallback_entry soup) (dict_set (lower name) price items)).
  { split; [by apply dict_ok_set|]. split.
    - apply Forall_dict_set; [done|]. split; [apply is_lower_lower|]. split.
      + cbn [fst]. intros Hnil. pose proof (lower_length name) as Hlow.
        rewrite Hnil in Hlow. simpl in Hlow. lia.
      + by eapply price_of_text_nonneg.
    - apply Forall_dict_set; [done|]. exists el, parent. cbn [fst snd].
      split; [apply Hsub; by left|]. split; [done|]. split; [done|].
      pose proof (lower_length name). lia. }
  pose proof (dict_set_length (lower name) price items) as Hgrow.
  destruct (limit <=? length (dict_set (lower name) price items))%nat eqn:Efull.
  - destruct Hnew as (H1 & H2 & H3). repeat split; try done. lia.
  - apply Nat.leb_gt in Efull. destruct Hnew as (H1 & H2 & H3).
    apply IH; [intros x Hx; apply Hsub; by right|]. repeat split; try done. lia.
Qed.

Lemma extract_fallback_items (soup : node) limit :
  dict_ok (extract_fallback soup limit)
  /\ Forall priced_item (extract_fallback soup limit)
  /\ Forall (fallback_entry soup) (extract_fallback soup limit)
  /\ (length (extract_fallback soup limit) <= Nat.max limit 1)%nat.
Proof.
  unfold extract_fallback. apply fallback_loop_items; [done|].
  repeat split; try constructor. simpl. lia.
Qed.

Lemma extract_items_priced (soup : node) rule :
  dict_ok (extract_items soup rule []) /\ Forall priced_item (extract_items soup rule []).
Proof.
  unfold extract_items.
  destruct rule as [r|].
  - destruct (dict_empty (extract_from_cards soup r)).
    + destruct (extract_fallback_items soup 100) as (H1 & H2 & _). by split.
    + apply extract_from_cards_items.
  - simpl. destruct (extract_fallback_items soup 100) as (H1 & H2 & _). by split.
Qed.

End ItemFacts.

(** X15: [extract_fallback] returns at most [limit] entries (one when
    [limit] is zero: the bound is tested after an entry is written).  Each
    entry comes from a string of the page that holds a price: the price is
    the one read in the string, not NaN and not negative (it may be
    positive infinity), and the name is the lowercased text of the
    string's parent with the prices removed, three characters or more. *)
Theorem extract_fallback_bounded {node : Type} `{Soup node} (soup : node) (limit : nat) :
  (length (extract_fallback soup limit) <= Nat.max limit 1)%nat
  /\ dict_ok (extract_fallback soup limit)
  /\ Forall (fun kv => priced_item kv /\ fallback_entry soup kv)
            (extract_fallback soup limit).
Proof.
  destruct (extract_fallback_items soup limit) as (H1 & H2 & H3 & H4).
  split; [done|]. split; [done|].
  apply Forall_forall. intros kv Hin. rewrite Forall_forall in H2, H3. split; auto.
Qed.

Section RetrievedItems.
Context {node : Type} `{Soup node} `{UrlLib}.
Context {world : Type} (fetch_html : str -> world -> option str * world).
Context {exc : Type} (extract_error : str -> option SiteRule -> option exc).

Lemma attempt_items rule url w items w' :
  attempt fetch_html rule url w = (items, w') ->
  dict_ok items /\ Forall priced_item items.
Proof.
  unfold attempt. destruct (fetch_html url w) as [html w1].
  destruct (page_of html) as [text|]; intros [= <- <-].
  - apply extract_items_priced.
  - split; constructor.
Qed.

Lemma tried_until_success_items rule log w w' items (exhausted : Prop) :
  tried_until_success fetch_html rule log w w' items exhausted ->
  dict_ok items /\ Forall priced_item items.
Proof.
  intros [(-> & _)|(before & url & w1 & _ & _ & Ha & _)].
  - split; constructor.
  - by eapply attempt_items.
Qed.




End RetrievedItems.

(** X16: whatever the network serves and whatever the parser finds, the
    items that [fetch_prices_for_url] returns have unique, lowercase names
    that are not empty and prices that are not NaN and not negative (a
    price may be positive infinity). *)
Theorem fetch_prices_for_url_items {node : Type} `{Soup node} {world : Type}
    (fetch_html : str -> world -> option str * world)
    (rules : list SiteRule) (url : str) (w : world) :
  let items := fst (fst (fetch_prices_for_url fetch_html rules url w)) in
  dict_ok items /\ Forall priced_item items.
Proof.
  cbv zeta. pose proof (fetch_prices_for_url_spec fetch_html rules url w) as Hspec.
  destruct (fetch_prices_for_url fetch_html rules url w) as [[items w'] log].
  destruct Hspec as (rest & _ & Htried). cbn [fst].
  by eapply tried_until_success_items.
Qed.


(** ** The site rules *)

Lemma or_default_nonempty values default : default <> [] -> or_default values default <> [].
Proof. by destruct values. Qed.

Lemma rule_from_dict_usable d cfg : usable_rule (_rule_from_dict d cfg).
Proof. repeat split; cbn; by apply or_default_nonempty. Qed.

Lemma default_rules_usable : Forall usable_rule DEFAULT_RULES.
Proof. repeat constructor; done. Qed.

Lemma by_domain_get_In rules d r :
  dict_get d (by_domain rules) = Some r -> In r rules /\ domain r = d.
Proof.
  unfold by_domain, dict_of.
  assert (Hgen : forall (l : list SiteRule) (acc : dict SiteRule),
    dict_get d (fold_left (fun acc kv => dict_set (fst kv) (snd kv) acc)
                          (map (fun r => (domain r, r)) l) acc) = Some r ->
    (In r l /\ domain r = d) \/ dict_get d acc = Some r).
  { clear. induction l as [|r0 l IH]; intros acc Hg; [by right|].
    simpl in Hg. apply IH in Hg as [[Hin Hd]|Hg]; [left; split; [by right|done]|].
    rewrite dict_get_set in Hg. destruct (str_eqb d (domain r0)) eqn:E; [|by right].
    apply str_eqb_eq in E. inversion Hg; subst. left. split; [by left|done]. }
  intros Hg. apply Hgen in Hg as [Hg|Hg]; [done|done].
Qed.

Lemma by_domain_file (data : dict (dict (list str))) :
  dict_ok data ->
  by_domain (map (fun '(domain, cfg) => _rule_from_dict domain cfg) data)
  = map (fun e => (fst e, _rule_from_dict (fst e) (snd e))) data.
Proof.
  intros Hok. unfold by_domain. rewrite map_map.
  assert (Heq : map (fun x : str * dict (list str) =>
                       (domain (let '(domain, cfg) := x in _rule_from_dict domain cfg),
                        let '(domain, cfg) := x in _rule_from_dict domain cfg)) data
                = map (fun e => (fst e, _rule_from_dict (fst e) (snd e))) data).
  { apply map_ext. by intros [d cfg]. }
  rewrite Heq. apply dict_of_ok. unfold dict_ok, dict_keys. rewrite map_map. exact Hok.
Qed.

Lemma dict_get_file_rules (data : dict (dict (list str))) d :
  dict_get d (map (fun e => (fst e, _rule_from_dict (fst e) (snd e))) data)
  = option_map (_rule_from_dict d) (dict_get d data).
Proof.
  induction data as [|[k cfg] data IH]; [done|]. simpl.
  destruct (str_eqb d k) eqn:E; [|done]. apply str_eqb_eq in E. by subst.
Qed.

Lemma default_rules_get r :
  In r DEFAULT_RULES -> dict_get (domain r) (by_domain DEFAULT_RULES) = Some r.
Proof.
  intros Hin. repeat (destruct Hin as [<-|Hin]; [by vm_compute|]). destruct Hin.
Qed.

Lemma dict_get_some_keys {V} k (v : V) d : dict_get k d = Some v -> In k (dict_keys d).
Proof.
  intros Hg. apply dict_get_In in Hg. unfold dict_keys. apply in_map_iff. by exists (k, v).
Qed.

Lemma Forall2_In_right {A B} (R : A -> B -> Prop) l k :
  Forall2 R l k -> forall y, In y k -> exists x, In x l /\ R x y.
Proof.
  induction 1 as [|x y l k Hxy _ IH]; intros z Hz; [done|].
  destruct Hz as [<-|Hz]; [exists x; split; [by left|done]|].
  destruct (IH z Hz) as (x' & Hx' & HR). exists x'. split; [by right|done].
Qed.

Lemma Forall2_In_left {A B} (R : A -> B -> Prop) l k :
  Forall2 R l k -> forall x, In x l -> exists y, In y k /\ R x y.
Proof.
  induction 1 as [|x y l k Hxy _ IH]; intros z Hz; [done|].
  destruct Hz as [<-|Hz]; [exists y; split; [by left|done]|].
  destruct (IH z Hz) as (y' & Hy' & HR). exists y'. split; [by right|done].
Qed.

(** X18: the rules read from the configuration file.  Every rule that
    [load_site_rules] returns has a path to probe and a selector of each
    kind (a list that the file leaves out or empty takes its default).
    There is one rule per domain: the file's rule for a domain of the file,
    which overrides a default rule of that domain, and the default rule for
    the other default domains. *)
Theorem load_site_rules_merged (set_iter : list str -> list str)
    (data : dict (dict (list str))) :
  set_order set_iter ->
  dict_ok data ->
  let rules := load_site_rules set_iter (Some (Ret data)) in
  Forall usable_rule rules
  /\ NoDup (map domain rules)
  /\ (forall d cfg, dict_get d data = Some cfg -> In (_rule_from_dict d cfg) rules)
  /\ (forall r, In r DEFAULT_RULES -> dict_get (domain r) data = None -> In r rules)
  /\ (forall r, In r rules ->
        (exists cfg, dict_get (domain r) data = Some cfg
                     /\ r = _rule_from_dict (domain r) cfg)
        \/ (In r DEFAULT_RULES /\ dict_get (domain r) data = None)).
Proof.
  intros Hset Hok. cbv zeta. unfold load_site_rules.
  rewrite by_domain_file by done.
  set (file_by_domain := map (fun e => (fst e, _rule_from_dict (fst e) (snd e))) data).
  set (look := fun d => match dict_get d file_by_domain with
                        | Some r => Some r
                        | None => dict_get d (by_domain DEFAULT_RULES)
                        end).
  set (merged_domains :=
         set_iter (dict_keys (by_domain DEFAULT_RULES) ++ dict_keys file_by_domain)).
  assert (Hlook : forall d r, look d = Some r ->
    domain r = d
    /\ ((exists cfg, dict_get d data = Some cfg /\ r = _rule_from_dict d cfg)
        \/ (In r DEFAULT_RULES /\ dict_get d data = None))).
  { intros d r Hl. unfold look, file_by_domain in Hl. rewrite dict_get_file_rules in Hl.
    destruct (dict_get d data) as [cfg|] eqn:Ed; cbn [option_map] in Hl.
    - inversion Hl; subst. split; [done|]. left. by exists cfg.
    - apply by_domain_get_In in Hl as [Hin Hd]. split; [done|]. by right. }
  assert (Hin : forall d, In d merged_domains ->
    In d (dict_keys (by_domain DEFAULT_RULES)) \/ In d (dict_keys file_by_domain)).
  { intros d Hd. unfold merged_domains in Hd. apply (proj1 (proj2 (Hset _) d)) in Hd.
    by apply in_app_or in Hd. }
  assert (Hsome : Forall (is_Some ∘ look) merged_domains).
  { apply Forall_forall. intros d Hd. apply list_elem_of_In in Hd. unfold compose, look.
    destruct (dict_get d file_by_domain) as [r|] eqn:Ef; [by eexists|].
    destruct (Hin d Hd) as [Hdef|Hfile].
    - destruct (dict_get d (by_domain DEFAULT_RULES)) eqn:Edef; [by eexists|].
      apply dict_get_none_keys in Edef. done.
    - apply dict_get_none_keys in Ef. done. }
  apply mapM_is_Some in Hsome as [merged Hm]. rewrite Hm.
  apply mapM_Some in Hm.
  assert (Hdoms : map domain merged = merged_domains).
  { clear -Hm Hlook. induction Hm as [|d r ds rs Hdr _ IH]; [done|].
    simpl. rewrite IH. f_equal. by apply Hlook in Hdr as [Hd _]. }
  split; [|split; [|split; [|split]]].
  - apply Forall_forall. intros r Hr. apply list_elem_of_In in Hr.
    destruct (Forall2_In_right _ _ _ Hm r Hr) as (d & _ & Hl).
    apply Hlook in Hl as [_ [(cfg & _ & ->)|[Hdef _]]].
    + apply rule_from_dict_usable.
    + pose proof default_rules_usable as Hu. rewrite Forall_forall in Hu.
      apply Hu. by apply list_elem_of_In.
  - rewrite Hdoms. apply (proj1 (Hset _)).
  - intros d cfg Hd.
    assert (Hdin : In d merged_domains).
    { unfold merged_domains. apply (proj2 (proj2 (Hset _) d)). apply in_or_app. right.
      apply (dict_get_some_keys d (_rule_from_dict d cfg)).
      unfold file_by_domain. by rewrite dict_get_file_rules, Hd. }
    destruct (Forall2_In_left _ _ _ Hm d Hdin) as (r & Hr & Hl).
    apply Hlook in Hl as [_ [(cfg' & Hd' & ->)|[_ Hn]]]; congruence.
  - intros r Hr Hnone.
    assert (Hdin : In (domain r) merged_domains).
    { unfold merged_domains. apply (proj2 (proj2 (Hset _) (domain r))). apply in_or_app. left.
      apply (dict_get_some_keys (domain r) r). by apply default_rules_get. }
    destruct (Forall2_In_left _ _ _ Hm _ Hdin) as (r' & Hr' & Hl).
    assert (r' = r); [|by subst].
    unfold look, file_by_domain in Hl. rewrite dict_get_file_rules, Hnone in Hl.
    cbn [option_map] in Hl. rewrite (default_rules_get r Hr) in Hl. by inversion Hl.
  - intros r Hr. destruct (Forall2_In_right _ _ _ Hm r Hr) as (d & _ & Hl).
    apply Hlook in Hl as [<- Hcase]. exact Hcase.
Qed.

Lemma load_site_rules_merged_witness :
  In (_rule_from_dict (u8 "kawakami.com.br") [(u8 "paths", [u8 "/p"])])
     (load_site_rules first_seen
        (Some (Ret [(u8 "kawakami.com.br", [(u8 "paths", [u8 "/p"])]);
                    (u8 "novo.com", [])]))).
Proof.
  assert (Hok : dict_ok [(u8 "kawakami.com.br", [(u8 "paths", [u8 "/p"])]);
                         (u8 "novo.com", @nil (str * list str))]).
  { unfold dict_ok. apply NoDup_ListNoDup. vm_compute.
    repeat (constructor; [intros H; repeat (destruct H as [H|H]; [discriminate|]); done|]).
    constructor. }
  destruct (load_site_rules_merged first_seen _ first_seen_order Hok) as (_ & _ & H & _).
  apply H. by vm_compute.
Defined.

Lemma choose_rule_find url rules : choose_rule url rules = List.find (rule_matches url) rules.
Proof. induction rules as [|r rules IH]; [done|]. simpl. unfold rule_matches at 1. by rewrite IH. Qed.

Lemma choose_rule_first url : forall rules,
  match choose_rule url rules with
  | Some r =>
      exists before after,
        rules = before ++ r :: after
        /\ rule_matches url r = true
        /\ Forall (fun r' => rule_matches url r' = false) before
  | None => Forall (fun r' => rule_matches url r' = false) rules
  end.
Proof.
  induction rules as [|r rules IH]; simpl; [constructor|].
  destruct (contains (domain r) url) eqn:E.
  - exists [], rules. split; [done|]. split; [done|constructor].
  - destruct (choose_rule url rules) as [r'|].
    + destruct IH as (before & after & -> & Hm & Hall).
      exists (r :: before), after. split; [done|]. split; [done|]. by constructor.
    + by constructor.
Qed.

(** X19: [choose_rule] takes the first rule whose domain occurs in the
    URL: the rules before the chosen one do not match, and no rule is
    chosen only when none matches.  When the rules that match the URL are
    all the same rule, the order of the rules does not matter: a reordered
    list gives the same choice (the order of the rules that
    [load_site_rules] merges is that of a set). *)
Theorem choose_rule_order_independent (url : str) (rules : list SiteRule) :
  match choose_rule url rules with
  | Some r =>
      exists before after,
        rules = before ++ r :: after
        /\ rule_matches url r = true
        /\ Forall (fun r' => rule_matches url r' = false) before
  | None => Forall (fun r' => rule_matches url r' = false) rules
  end
  /\ forall rules',
       Permutation rules rules' ->
       (forall r1 r2, In r1 rules -> In r2 rules ->
          rule_matches url r1 = true -> rule_matches url r2 = true -> r1 = r2) ->
       choose_rule url rules = choose_rule url rules'.
Proof.
  split; [apply choose_rule_first|].
  intros rules' Hperm Huniq. rewrite !choose_rule_find.
  destruct (List.find (rule_matches url) rules) as [r|] eqn:E1;
    destruct (List.find (rule_matches url) rules') as [r'|] eqn:E2.
  - apply find_some in E1 as [Hin1 Hm1]. apply find_some in E2 as [Hin2 Hm2].
    f_equal. apply Huniq; try done. eapply Permutation_in; [symmetry; exact Hperm|done].
  - apply find_some in E1 as [Hin1 Hm1].
    pose proof (find_none _ _ E2 r (Permutation_in _ Hperm Hin1)). congruence.
  - apply find_some in E2 as [Hin2 Hm2].
    pose proof (find_none _ _ E1 r' (Permutation_in _ (Permutation_sym Hperm) Hin2)).
    congruence.
  - done.
Qed.

Lemma choose_rule_order_independent_witness :
  choose_rule (u8 "https://www.amigao.com/ofertas") DEFAULT_RULES
  = choose_rule (u8 "https://www.amigao.com/ofertas") (rev DEFAULT_RULES).
Proof.
  apply (proj2 (choose_rule_order_independent _ DEFAULT_RULES)).
  - apply Permutation_rev.
  - intros r1 r2 H1 H2 M1 M2.
    repeat (destruct H1 as [<-|H1]; [try (vm_compute in M1; discriminate)|]);
      try destruct H1;
      repeat (destruct H2 as [<-|H2]; [try (vm_compute in M2; discriminate)|]);
      try destruct H2; reflexivity.
Defined.

(** ** The headless browser *)

Section HeadlessFacts.
Context {node : Type} `{Soup node} `{UrlLib}.
Context {world : Type} (oracle : str -> world -> option str * world).
Context {exc : Type} (extract_error : str -> option SiteRule -> option exc).

Lemma try_urls_headless_http rule :
  extract_items (bs_parse []) (Some rule) [] = [] ->
  forall urls w log found w' log',
  try_urls oracle extract_error rule urls w log = (Completed found, w', log') ->
  try_urls_headless oracle extract_error rule urls w log = (found, w', log').
Proof.
  intros Hempty. induction urls as [|url urls IH]; intros w log found w' log' Hrun.
  - simpl in *. by inversion Hrun.
  - cbn [try_urls_headless try_urls] in *. destruct (oracle url w) as [[text|] w1].
    2:{ by apply IH. }
    destruct text as [|c text].
    + cbn [page_of] in Hrun. destruct (extract_error [] (Some rule)); [by apply IH|].
      cbv zeta. unfold extract_items in Hempty. rewrite Hempty. by apply IH.
    + cbn [page_of] in Hrun. destruct (extract_error (c :: text) (Some rule)); [done|].
      cbv zeta in *.
      destruct (if dict_empty (extract_from_cards (bs_parse (c :: text)) rule)
                then extract_fallback (bs_parse (c :: text)) 100
                else extract_from_cards (bs_parse (c :: text)) rule) as [|[k p] items].
      * by apply IH.
      * by inversion Hrun.
Qed.

Lemma try_variants_headless_http base rule :
  extract_items (bs_parse []) (Some rule) [] = [] ->
  forall variants w log found w' log',
  try_variants oracle extract_error base rule variants w log = (Completed found, w', log') ->
  try_variants_headless oracle extract_error base rule variants w log = (found, w', log').
Proof.
  intros Hempty. induction variants as [|q variants IH]; intros w log found w' log' Hrun.
  - simpl in *. by inversion Hrun.
  - cbn [try_variants_headless try_variants] in *.
    destruct (try_urls oracle extract_error rule (_build_search_urls base rule q) w log)
      as [[[[p|]|e] w1] log1] eqn:Eu; [| |done].
    + apply try_urls_headless_http in Eu; [|done]. rewrite Eu. by inversion Hrun.
    + apply try_urls_headless_http in Eu; [|done]. rewrite Eu. by apply IH.
Qed.

Lemma search_terms_headless_http base rule tq :
  extract_items (bs_parse []) (Some rule) [] = [] ->
  forall terms out w log out' w' log',
  fold_left (search_term oracle extract_error base rule tq) terms (Completed out, w, log)
  = (Completed out', w', log') ->
  fold_left (search_term_headless oracle extract_error base rule tq) terms (out, w, log)
  = (out', w', log').
Proof.
  intros Hempty. induction terms as [|term terms IH]; intros out w log out' w' log' Hrun.
  - simpl in *. by inversion Hrun.
  - cbn [fold_left] in *. unfold search_term at 2 in Hrun. unfold search_term_headless at 2.
    destruct (try_variants oracle extract_error base rule (variants_of tq term) w log)
      as [[[[p|]|e] w1] log1] eqn:Ev.
    + apply try_variants_headless_http in Ev; [|done]. rewrite Ev. by apply IH.
    + apply try_variants_headless_http in Ev; [|done]. rewrite Ev. by apply IH.
    + by rewrite search_terms_aborted in Hrun.
Qed.

End HeadlessFacts.

(** X20: the headless search is the HTTP search on another transport, as
    long as no extraction raises: when Playwright is available and a page
    without text gives no item, then on a network that serves what the
    browser loads, whenever [search_prices_for_terms_http] returns,
    [search_prices_for_terms_headless] returns the same dict, having
    loaded the same URLs and left the same state.  (When the extraction of
    a page raises, the HTTP search raises where the headless one goes on
    to the next URL.)  Without Playwright the headless search returns
    nothing and loads nothing. *)
Theorem search_headless_as_http {node : Type} `{Soup node} `{UrlLib} {world : Type}
    (oracle : str -> world -> option str * world)
    {exc : Type} (extract_error : str -> option SiteRule -> option exc)
    (rules : list SiteRule) (set_iter : list str -> list str)
    (base : str) (terms : list str) (w : world) :
  empty_page_empty (choose_rule base rules) ->
  match search_prices_for_terms_http oracle extract_error rules set_iter base terms w with
  | (Completed out, w', log) =>
      search_prices_for_terms_headless oracle extract_error true rules set_iter base terms w
      = (out, w', log)
  | (Aborted _, _, _) => True
  end
  /\ search_prices_for_terms_headless oracle extract_error false rules set_iter base terms w
     = ([], w, []).
Proof.
  intros Hempty. split; [|done].
  unfold search_prices_for_terms_headless, search_prices_for_terms_http. cbn [negb].
  destruct (choose_rule base rules) as [rule|]; [|done].
  destruct (search_templates rule) as [|tpl tpls]; [done|].
  cbv zeta. simpl in Hempty.
  destruct (fold_left (search_term oracle extract_error base rule
                         (_expand_queries set_iter terms))
                      terms (Completed [], w, [])) as [[[out|e] w'] log] eqn:Ef; [|done].
  by apply search_terms_headless_http.
Qed.

Lemma search_headless_as_http_witness :
  let rule := {| domain := u8 "loja.com.br"; paths := [u8 "/"];
                 search_templates := [u8 "/busca?q={q}"];
                 card_selectors := [u8 ".produto"];
                 name_selectors := [u8 ".nome"];
                 price_selectors := [u8 ".preco"] |} in
  let page := TPage [(u8 ".produto", [(u8 ".nome", u8 " Feijão Carioca 1kg ");
                                       (u8 ".preco", u8 "R$ 9,10")]);
                     (u8 ".produto", [(u8 ".nome", u8 "Feijão Preto 1kg");
                                       (u8 ".preco", u8 "R$ 8,75")])] [] in
  let web := [(u8 "https://www.loja.com.br/busca?q=feij%C3%A3o", []);
              (u8 "https://www.loja.com.br/busca?q=feij%C3%A3o+carioca+1kg", u8 "<html>")] in
  @search_prices_for_terms_headless toy_node (toy_soup [(u8 "<html>", page)]) toy_urls nat
    (toy_fetch web) exn (toy_error []) true [rule] first_seen (u8 "https://www.loja.com.br/")
    [u8 "feijão"; u8 "sabão"] O
  = ([(u8 "feijão", flt 9.10)], 4%nat,
     [u8 "https://www.loja.com.br/busca?q=feij%C3%A3o";
      u8 "https://www.loja.com.br/busca?q=feij%C3%A3o+carioca+1kg";
      u8 "https://www.loja.com.br/busca?q=sab%C3%A3o";
      u8 "https://www.loja.com.br/busca?q=sabao"]).
Proof.
  cbv zeta.
  refine (proj1 (@search_headless_as_http toy_node
           (toy_soup [(u8 "<html>",
                       TPage [(u8 ".produto", [(u8 ".nome", u8 " Feijão Carioca 1kg ");
                                                (u8 ".preco", u8 "R$ 9,10")]);
                              (u8 ".produto", [(u8 ".nome", u8 "Feijão Preto 1kg");
                                                (u8 ".preco", u8 "R$ 8,75")])] [])])
           toy_urls nat
           (toy_fetch [(u8 "https://www.loja.com.br/busca?q=feij%C3%A3o", []);
                       (u8 "https://www.loja.com.br/busca?q=feij%C3%A3o+carioca+1kg",
                        u8 "<html>")])
           exn (toy_error [])
           [{| domain := u8 "loja.com.br"; paths := [u8 "/"];
               search_templates := [u8 "/busca?q={q}"];
               card_selectors := [u8 ".produto"];
               name_selectors := [u8 ".nome"];
               price_selectors := [u8 ".preco"] |}]
           first_seen (u8 "https://www.loja.com.br/") [u8 "feijão"; u8 "sabão"] O _)).
  vm_compute. reflexivity.
Defined.

(** Where the two searches part: on the network of
    [search_prices_aborted], whose first page for "feijão" makes the
    extraction raise, the headless search goes on to the next candidate
    and returns the prices of "arroz" and of "feijão". *)
Example search_headless_goes_on :
  let rule := {| domain := u8 "loja.com.br"; paths := [u8 "/"];
                 search_templates := [u8 "/busca?q={q}"];
                 card_selectors := [u8 ".produto"];
                 name_selectors := [u8 ".nome"];
                 price_selectors := [u8 ".preco"] |} in
  let page := TPage [(u8 ".produto", [(u8 ".nome", u8 "Arroz 5kg");
                                       (u8 ".preco", u8 "R$ 27,90")])] [] in
  let web := [(u8 "https://www.loja.com.br/busca?q=arroz", u8 "<html>");
              (u8 "https://www.loja.com.br/busca?q=feij%C3%A3o", u8 "<broken>");
              (u8 "https://www.loja.com.br/busca?q=feij%C3%A3o+carioca+1kg", u8 "<html>")] in
  @search_prices_for_terms_headless toy_node (toy_soup [(u8 "<html>", page)]) toy_urls nat
    (toy_fetch web) exn (toy_error [u8 "<broken>"]) true [rule] first_seen
    (u8 "https://www.loja.com.br/") [u8 "arroz"; u8 "feijão"; u8 "sabão"] O
  = ([(u8 "arroz", flt 27.90); (u8 "feijão", flt 27.90)], 5%nat,
     [u8 "https://www.loja.com.br/busca?q=arroz";
      u8 "https://www.loja.com.br/busca?q=feij%C3%A3o";
      u8 "https://www.loja.com.br/busca?q=feij%C3%A3o+carioca+1kg";
      u8 "https://www.loja.com.br/busca?q=sab%C3%A3o";
      u8 "https://www.loja.com.br/busca?q=sabao"]).
Proof. vm_compute. reflexivity. Qed.


(** ** From the merge to the quote *)

Lemma last_price_In n items item price :
  In (item, price) items -> last_price n (normalize n item) items <> None.
Proof.
  induction items as [|[i p] items IH]; intros Hin; [done|].
  simpl. destruct (last_price n (normalize n item) items) eqn:E; [done|].
  destruct Hin as [[= -> ->]|Hin]; [by rewrite str_eqb_refl|]. by apply IH in Hin.
Qed.

Lemma updates_for_In m items (updates : PriceDB) (item : str) (price : pyfloat) :
  In (m, items) updates -> In (item, price) items ->
  In (item, price) (updates_for m updates).
Proof.
  intros Hm Hi. unfold updates_for. apply in_flat_map. exists (m, items).
  split; [done|]. simpl. by rewrite str_eqb_refl.
Qed.

Lemma merge_price_db_ok n : forall u c, dict_ok c -> dict_ok (merge_price_db c u n).
Proof.
  unfold merge_price_db. induction u as [|[m items] u IH]; intros c Hc; [done|].
  simpl. apply IH. by apply dict_ok_set.
Qed.

Lemma dict_get_dict_map {V W} (f : V -> W) m (db : dict V) :
  dict_get m (dict_map f db) = option_map f (dict_get m db).
Proof.
  induction db as [|[k v] db IH]; [done|]. simpl. by destruct (str_eqb m k).
Qed.

Lemma contains_refl s : contains s s = true.
Proof. apply contains_spec. exists [], []. by rewrite app_nil_r. Qed.

Lemma first_containing_get termo : forall (precos : dict pyfloat) k p,
  first_containing termo precos = Some (k, p) ->
  dict_get k precos = Some p /\ contains termo k = true.
Proof.
  unfold first_containing. induction precos as [|[k0 p0] precos IH]; intros k p Hf; [done|].
  simpl in Hf. destruct (contains termo k0) eqn:E.
  - inversion Hf; subst. simpl. by rewrite str_eqb_refl.
  - apply IH in Hf as [Hg Hc]. split; [|done]. simpl.
    destruct (str_eqb k k0) eqn:Ek; [|done]. apply str_eqb_eq in Ek. congruence.
Qed.

Lemma first_containing_key termo (precos : dict pyfloat) p :
  In (termo, p) precos -> first_containing termo precos <> None.
Proof.
  intros Hin Hnone. unfold first_containing in Hnone.
  pose proof (find_none _ _ Hnone (termo, p) Hin) as Hc. simpl in Hc.
  by rewrite contains_refl in Hc.
Qed.

Lemma canonical_term_normalize n b : canonical_term (Some n) b = normalize n b.
Proof.
  rewrite <- normalize_canonical. unfold normalize. by rewrite lower_strip_idem.
Qed.

(** X22: what is merged can be quoted.  After [merge_price_db] has written
    an item of the updates for a market, [run_quote] with the same
    normalizer finds, for that item requested in any list, a stored item of
    that market: the line's item name contains the canonical name of the
    item and its price is the one stored under that name.  The canonical
    name must not be empty (such an item is stored but never quoted). *)
Theorem merged_price_is_quoted (now : str) (current updates : PriceDB) (n : Normalizer)
    (m : str) (items : dict pyfloat) (item : str) (price : pyfloat) (itens : list str) :
  dict_ok current ->
  In (m, items) updates ->
  In (item, price) items ->
  normalize n item <> [] ->
  In item itens ->
  let db := merge_price_db current updates n in
  let r := run_quote now itens db (Some n) in
  exists lines line,
    dict_get m (cotacoes_detalhadas r) = Some lines
    /\ In line lines
    /\ item_buscado line = item
    /\ contains (normalize n item) (item_encontrado line) = true
    /\ lookup2 m (item_encontrado line) db = Some (preco line).
Proof.
  intros Hok Hm Hi Hne Hitem. cbv zeta.
  set (db := merge_price_db current updates n).
  assert (Hdb : dict_ok db) by (by apply merge_price_db_ok).
  assert (Hmarket : exists precos,
    dict_get m db = Some precos /\ dict_get (normalize n item) precos <> None).
  { unfold db. rewrite dict_get_merge.
    assert (Hex : existsb (fun e : str * dict pyfloat => str_eqb (fst e) m) updates = true).
    { apply existsb_exists. exists (m, items). split; [done|]. apply str_eqb_refl. }
    rewrite Hex.
    pose proof (last_price_In n _ _ _ (updates_for_In m items updates item price Hm Hi)) as Hl.
    destruct (dict_get m current) as [t|]; eexists; (split; [done|]);
      rewrite dict_get_write_items;
      by destruct (last_price n (normalize n item) (updates_for m updates)). }
  destruct Hmarket as (precos & Hget & Hcanon).
  destruct (dict_get (normalize n item) precos) as [p0|] eqn:Ep0; [|done].
  apply dict_get_In in Ep0.
  pose proof (first_containing_key _ _ _ Ep0) as Hfound.
  destruct (first_containing (normalize n item) precos) as [[k p]|] eqn:Ef; [|done].
  apply first_containing_get in Ef as Hk. destruct Hk as [Hkget Hkc].
  exists (market_lines (Some n) itens precos),
         {| item_buscado := item; item_encontrado := k; preco := p |}.
  split; [|split; [|split; [done|split; [done|]]]].
  - unfold run_quote. rewrite run_quote_fold. cbn [cotacoes_detalhadas].
    change (fold_left (fun d kv => dict_set (fst kv) (snd kv) d)
                      (dict_map (market_lines (Some n) itens) db) [])
      with (dict_of (dict_map (market_lines (Some n) itens) db)).
    rewrite dict_of_ok.
    + by rewrite dict_get_dict_map, Hget.
    + unfold dict_ok, dict_keys, dict_map. rewrite map_map. exact Hdb.
  - unfold market_lines. apply in_map_iff. exists item. split.
    + unfold line_for. rewrite canonical_term_normalize. by rewrite Ef.
    + unfold quoted. apply List.filter_In. split; [done|].
      rewrite canonical_term_normalize. by destruct (normalize n item).
  - unfold lookup2. cbn [item_encontrado preco]. by rewrite Hget.
Qed.

Lemma merged_price_is_quoted_witness :
  exists lines line,
    dict_get (u8 "loja")
      (cotacoes_detalhadas
         (run_quote (u8 "agora") [u8 " Arroz "]
            (merge_price_db [] [(u8 "loja", [(u8 "arroz", flt 27.9)])]
               (Normalizer_init load_default_mapping))
            (Some (Normalizer_init load_default_mapping))))
    = Some lines
    /\ In line lines
    /\ preco line = flt 27.9.
Proof.
  assert (Hok : dict_ok (@nil (str * dict pyfloat))) by constructor.
  assert (Hne : normalize (Normalizer_init load_default_mapping) (u8 " Arroz ") <> [])
    by (by vm_compute).
  destruct (merged_price_is_quoted (u8 "agora") [] [(u8 "loja", [(u8 " Arroz ", flt 27.9)])]
              (Normalizer_init load_default_mapping) (u8 "loja")
              [(u8 " Arroz ", flt 27.9)] (u8 " Arroz ") (flt 27.9) [u8 " Arroz "]
              Hok (or_introl eq_refl) (or_introl eq_refl) Hne (or_introl eq_refl))
    as (lines & line & H1 & H2 & _ & _ & H5).
  exists lines, line. split; [exact H1|]. split; [exact H2|].
  vm_compute in H1. inversion H1; subst lines. destruct H2 as [<-|[]]. reflexivity.
Defined.
